(** * sanitize_avif: a shallow embedding of Tools/sanitize_avif.py

    The development follows the layout of the Python tool:
    reading utilities ([FileReader], [BitReader]), the box model ([Box],
    [BoxRecipe]), the recipe-driven parser ([parse_box_sequence]), the AV1
    sequence-header decoder, the item-property graph kept by [ParsedFile],
    and the selective rewriter ([AVIFWriter]).

    Conventions.
    - A Python [int] is a [Z]; [bytes] is a [list byte]; a [str] is a Rocq
      [string] holding the UTF-8 encoding of the text, so that
      [bytes.decode()] is a validity check followed by the identity, and
      [str.encode()] is the identity.
    - A [dict] is a [gmap].
    - A Python exception is a constructor of [PyError]; a call that raises
      returns [Raise e].  Loops whose termination depends on the data are
      given fuel, and [OutOfFuel] is kept apart from every Python exception.
    - Printing ([print], [print_indent] and the [lvl] arguments that only
      feed it) has no effect on the values computed and is left out. *)

From stdpp Require Import base gmap strings pretty list fin_maps sorting.
From Stdlib Require Import ZArith Lia.
From Stdlib.Strings Require Import Byte.

#[local] Set Warnings "-register-all".
#[local] Open Scope Z_scope.

(* ===================================================================== *)
(** * Exceptions and results                                              *)
(* ===================================================================== *)

Inductive PyError : Set :=
| AssertionError
| IndexError
| KeyError
| TypeError
| AttributeError
| UnboundLocalError
| StructError
| OSError
| ValueError
| SystemExit.

Inductive result (A : Type) : Type :=
| Ok (a : A)
| Raise (e : PyError)
| OutOfFuel.

Arguments Ok {A} a.
Arguments Raise {A} e.
Arguments OutOfFuel {A}.

Definition res_bind {A B} (m : result A) (k : A -> result B) : result B :=
  match m with
  | Ok a => k a
  | Raise e => Raise e
  | OutOfFuel => OutOfFuel
  end.

Notation "x <~ m ;; k" := (res_bind m (fun x => k))
  (at level 20, m at level 99, k at level 200, only parsing).
Notation "' p <~ m ;; k" := (res_bind m (fun x => let p := x in k))
  (at level 20, p pattern, m at level 99, k at level 200, only parsing).

Definition py_assert (b : bool) : result unit :=
  if b then Ok tt else Raise AssertionError.

(** Computations that thread a state [S] and may raise. *)
Definition St (S A : Type) : Type := S -> result (A * S).

Definition st_ret {S A} (a : A) : St S A := fun s => Ok (a, s).

Definition st_bind {S A B} (m : St S A) (k : A -> St S B) : St S B :=
  fun s => match m s with
           | Ok (a, s') => k a s'
           | Raise e => Raise e
           | OutOfFuel => OutOfFuel
           end.

Definition st_lift {S A} (m : result A) : St S A :=
  fun s => match m with
           | Ok a => Ok (a, s)
           | Raise e => Raise e
           | OutOfFuel => OutOfFuel
           end.

Notation "x <- m ;; k" := (st_bind m (fun x => k))
  (at level 20, m at level 99, k at level 200, only parsing).
Notation "' p <- m ;; k" := (st_bind m (fun x => let p := x in k))
  (at level 20, p pattern, m at level 99, k at level 200, only parsing).

Definition st_assert {S} (b : bool) : St S unit := st_lift (py_assert b).

(** [l[i]] for a Python list: negative indices count from the end. *)
Definition py_index {A} (l : list A) (i : Z) : result A :=
  let n := Z.of_nat (length l) in
  if (0 <=? i) && (i <? n) then
    match l !! Z.to_nat i with Some x => Ok x | None => Raise IndexError end
  else if (- n <=? i) && (i <? 0) then
    match l !! Z.to_nat (n + i) with Some x => Ok x | None => Raise IndexError end
  else Raise IndexError.

(** [l[i] = x] for a Python list. *)
Definition py_setitem {A} (l : list A) (i : Z) (x : A) : result (list A) :=
  let n := Z.of_nat (length l) in
  if (0 <=? i) && (i <? n) then Ok (<[Z.to_nat i := x]> l)
  else if (- n <=? i) && (i <? 0) then Ok (<[Z.to_nat (n + i) := x]> l)
  else Raise IndexError.

(** [l.insert(i, x)]: the index is clamped to the list, never an error. *)
Definition py_insert {A} (l : list A) (i : Z) (x : A) : list A :=
  let n := Z.of_nat (length l) in
  let j := if i <? 0 then Z.max 0 (n + i) else Z.min i n in
  take (Z.to_nat j) l ++ x :: drop (Z.to_nat j) l.

(* ===================================================================== *)
(** * Bytes, integers and strings                                         *)
(* ===================================================================== *)

#[global] Instance byte_eq_dec : EqDecision byte := Byte.byte_eq_dec.

Definition byte_to_Z (b : byte) : Z := Z.of_N (Byte.to_N b).

Definition byte_of_Z (z : Z) : byte :=
  match Byte.of_N (Z.to_N (z mod 256)) with
  | Some b => b
  | None => x00
  end.

(** Big-endian value of a byte string. *)
Definition be_value (data : list byte) : Z :=
  fold_left (fun acc b => acc * 256 + byte_to_Z b) data 0.

(** Big-endian encoding of the low [8 * n] bits of [v] on [n] bytes. *)
Fixpoint be_bytes (n : nat) (v : Z) : list byte :=
  match n with
  | O => []
  | S n' => be_bytes n' (v / 256) ++ [byte_of_Z v]
  end.

(** [get_struct_type]: only the element sizes 1, 2, 4 and 8 have a format. *)
Definition get_struct_type (nbytes : Z) (unsigned : bool) : result (Z * bool) :=
  _ <~ py_assert ((nbytes =? 1) || (nbytes =? 2) || (nbytes =? 4) || (nbytes =? 8)) ;;
  Ok (nbytes, unsigned).

(** [struct.pack] of one big-endian integer: out-of-range values raise. *)
Definition struct_pack (fmt : Z * bool) (value : Z) : result (list byte) :=
  let '(nbytes, unsigned) := fmt in
  let bits := 8 * nbytes in
  if unsigned then
    if (0 <=? value) && (value <? 2 ^ bits)
    then Ok (be_bytes (Z.to_nat nbytes) value) else Raise StructError
  else
    if (- 2 ^ (bits - 1) <=? value) && (value <? 2 ^ (bits - 1))
    then Ok (be_bytes (Z.to_nat nbytes) (value mod 2 ^ bits)) else Raise StructError.

(** [struct.unpack] of one big-endian integer: the buffer must have the
    exact size of the format. *)
Definition struct_unpack (fmt : Z * bool) (data : list byte) : result Z :=
  let '(nbytes, unsigned) := fmt in
  if Z.of_nat (length data) =? nbytes then
    let v := be_value data in
    if unsigned then Ok v
    else Ok (if v <? 2 ^ (8 * nbytes - 1) then v else v - 2 ^ (8 * nbytes))
  else Raise StructError.

Definition write_integer_of_size (value nbytes : Z) (unsigned : bool) : result (list byte) :=
  fmt <~ get_struct_type nbytes unsigned ;;
  struct_pack fmt value.

(** Validity of a byte string as UTF-8, as [bytes.decode()] checks it:
    shortest forms only, no surrogates, nothing above U+10FFFF. *)
Definition in_range (lo hi : Z) (b : byte) : bool :=
  (lo <=? byte_to_Z b) && (byte_to_Z b <=? hi).

Definition is_cont (b : byte) : bool := in_range 128 191 b.

Fixpoint valid_utf8 (data : list byte) : bool :=
  match data with
  | [] => true
  | b0 :: rest =>
      if in_range 0 127 b0 then valid_utf8 rest
      else if in_range 194 223 b0 then
        match rest with
        | b1 :: rest1 => is_cont b1 && valid_utf8 rest1
        | _ => false
        end
      else if in_range 224 239 b0 then
        match rest with
        | b1 :: b2 :: rest2 =>
            (if byte_to_Z b0 =? 224 then in_range 160 191 b1
             else if byte_to_Z b0 =? 237 then in_range 128 159 b1
             else is_cont b1)
            && is_cont b2 && valid_utf8 rest2
        | _ => false
        end
      else if in_range 240 244 b0 then
        match rest with
        | b1 :: b2 :: b3 :: rest3 =>
            (if byte_to_Z b0 =? 240 then in_range 144 191 b1
             else if byte_to_Z b0 =? 244 then in_range 128 143 b1
             else is_cont b1)
            && is_cont b2 && is_cont b3 && valid_utf8 rest3
        | _ => false
        end
      else false
  end.

(** [str.rstrip("\x00")]. *)
Fixpoint rstrip_nul (s : string) : string :=
  match s with
  | EmptyString => EmptyString
  | String c s' =>
      match rstrip_nul s' with
      | EmptyString => if Ascii.eqb c Ascii.zero then EmptyString else String c EmptyString
      | t => String c t
      end
  end.

Definition decode_data_to_string (data : list byte) : string :=
  let s := if valid_utf8 data then String.string_of_list_byte data else "CORRUPT"%string in
  rstrip_nul s.

(** [str.encode()]. *)
Definition encode (s : string) : list byte := String.list_byte_of_string s.

(* ===================================================================== *)
(** * FileReader                                                          *)
(* ===================================================================== *)

(** The source file with the position of its handle.  The file is opened
    read-only, so [self.size] is the length of [file] throughout. *)
Record FileReader := mkReader { file : list byte; fpos : Z }.

Definition file_size (r : FileReader) : Z := Z.of_nat (length (file r)).

(** Computations that move the reader. *)
Abbreviation Rd := (St FileReader) (only parsing).

(** [file.read(n)]: at most [n] bytes, fewer at the end of the file; a
    negative [n] reads everything that is left. *)
Definition file_read (n : Z) : Rd (list byte) := fun r =>
  let avail := drop (Z.to_nat (fpos r)) (file r) in
  let data := if n <? 0 then avail else take (Z.to_nat n) avail in
  Ok (data, mkReader (file r) (fpos r + Z.of_nat (length data))).

(** [file.seek(p, SEEK_SET)]. *)
Definition file_seek (p : Z) : Rd unit := fun r =>
  if p <? 0 then Raise OSError else Ok (tt, mkReader (file r) p).

Definition position : Rd Z := fun r => Ok (fpos r, r).

Definition reader_size : Rd Z := fun r => Ok (file_size r, r).

Definition rewind : Rd unit := file_seek 0.

Definition read_data (nbytes : Z) (end_ : option Z) : Rd (list byte) :=
  pos <- position ;;
  sz <- reader_size ;;
  _ <- st_assert (match end_ with
                  | None => pos + nbytes <=? sz
                  | Some e => pos + nbytes <=? e
                  end) ;;
  file_read nbytes.

Definition skip_to (p : Z) : Rd unit := file_seek p.

Definition read_integer_of_size (end_ nbytes : Z) (unsigned : bool) : Rd Z :=
  data <- read_data nbytes (Some end_) ;;
  fmt <- st_lift (get_struct_type nbytes unsigned) ;;
  st_lift (struct_unpack fmt data).

Fixpoint read_integer_array_of_size (end_ nbytes : Z) (count : nat) (unsigned : bool)
  : Rd (list Z) :=
  match count with
  | O => st_ret []
  | S count' =>
      v <- read_integer_of_size end_ nbytes unsigned ;;
      vs <- read_integer_array_of_size end_ nbytes count' unsigned ;;
      st_ret (v :: vs)
  end.

(** The loop of [read_string] for a NUL-terminated string: [n] is the
    number of bytes that may still be read. *)
Fixpoint read_string_loop (n : nat) (buf : list byte) : Rd (option string) :=
  let finish := st_ret (if Nat.ltb 0 (length buf)
                        then Some (decode_data_to_string buf) else None) in
  match n with
  | O => finish
  | S n' =>
      byte <- file_read 1 ;;
      b0 <- st_lift (py_index byte 0) ;;
      if byte_to_Z b0 =? 0 then finish
      else read_string_loop n' (buf ++ [b0])
  end.

Definition read_string (end_ : Z) (sz : Z) : Rd (option string) :=
  if sz =? 0 then
    pos <- position ;;
    read_string_loop (Z.to_nat (end_ - pos)) []
  else
    data <- read_data sz (Some end_) ;;
    st_ret (Some (decode_data_to_string data)).

(** [read_data_from_offset]: the position of the reader is restored. *)
Definition read_data_from_offset (offset nbytes : Z) : Rd (list byte) :=
  pos <- position ;;
  _ <- file_seek offset ;;
  data <- file_read nbytes ;;
  _ <- st_assert (Z.of_nat (length data) =? nbytes) ;;
  _ <- file_seek pos ;;
  st_ret data.

(* ===================================================================== *)
(** * BitReader                                                           *)
(* ===================================================================== *)

(** [class FileReader.BitReader]. *)
Record BitReader := mkBits { bits_data : list byte; bits_pos : Z; bit_pos : Z }.

Abbreviation Bd := (St BitReader) (only parsing).

Definition BitReader_init (data : list byte) : BitReader := mkBits data 0 0.

Definition get_next_bit : Bd Z := fun self =>
  byte <~ py_index (bits_data self) (bits_pos self) ;;
  let bit := Z.land (Z.shiftr (byte_to_Z byte) (7 - bit_pos self)) 1 in
  let bp := bit_pos self + 1 in
  if 8 <=? bp
  then Ok (bit, mkBits (bits_data self) (bits_pos self + 1) (bp - 8))
  else Ok (bit, mkBits (bits_data self) (bits_pos self) bp).

(** The loop of [f]. *)
Fixpoint f_loop (n : nat) (value : Z) : Bd Z :=
  match n with
  | O => st_ret value
  | S n' =>
      bit <- get_next_bit ;;
      f_loop n' (Z.lor (Z.shiftl value 1) bit)
  end.

(** [BitReader.f]: the next [num_bits] bits. *)
Definition f (num_bits : Z) : Bd Z := f_loop (Z.to_nat num_bits) 0.

(* ===================================================================== *)
(** * Boxes                                                               *)
(* ===================================================================== *)

(** An extent and an item of an [iloc] body: dictionaries with the keys
    that [parse_iloc_box] sets. *)
Record IlocExtent := mkExtent {
  item_reference_index : option Z;
  extent_offset : Z;
  extent_length : Z;
  calculated_total_offset : Z;
}.

Record IlocItem := mkIlocItem {
  item_ID : Z;
  reserved0 : option Z;
  construction_method : Z;
  data_reference_index : Z;
  base_offset : Z;
  extents : list IlocExtent;
}.

#[global] Instance IlocExtent_eq_dec : EqDecision IlocExtent.
Proof. solve_decision. Defined.

#[global] Instance IlocItem_eq_dec : EqDecision IlocItem.
Proof. solve_decision. Defined.

(** The values stored in box bodies.  [PyAssoc] is the ["associations"]
    dictionary of an [ipma] body: item id to its list of
    [(property_index, essential)]. *)
Inductive PyVal :=
| PyInt (n : Z)
| PyStr (s : string)
| PyNone
| PyBytes (b : list byte)
| PyIntList (l : list Z)
| PyStrList (l : list (option string))
| PyAssoc (m : gmap Z (list (Z * bool)))
| PyIlocItems (items : list IlocItem).

#[global] Instance PyVal_eq_dec : EqDecision PyVal.
Proof. solve_decision. Defined.

Abbreviation BoxType := string (only parsing).
Abbreviation BoxHeader := (gmap string Z) (only parsing).
Abbreviation BoxBody := (gmap string PyVal) (only parsing).

(** [class Box].  The [parent] back-reference of the Python class is only
    followed by [mark_for_rewrite]; the tree below keeps the downward
    ownership. *)
Inductive Box := mkBox {
  box_type : BoxType;
  box_size : Z;
  box_start : Z;
  box_end : Z;
  sub_boxes : option (list Box);
  header : BoxHeader;
  body : BoxBody;
  needs_rewrite : bool;
}.

(** [Box.__init__]. *)
Definition Box_init (ty : BoxType) (sz start : Z) : Box :=
  mkBox ty sz start (start + sz) None ∅ ∅ false.

(** [Box.from_reader]. *)
Definition from_reader (end_ : Z) : Rd Box :=
  start <- position ;;
  sz <- read_integer_of_size end_ 4 true ;;
  ty <- read_string end_ 4 ;;
  match ty with
  | None => st_lift (Raise AssertionError)
  | Some ty =>
      sz <- (if sz =? 1 then read_integer_of_size end_ 8 true
             else if sz =? 0 then st_ret (end_ - sz)
             else st_ret sz) ;;
      _ <- st_assert (8 <=? sz) ;;
      st_ret (Box_init ty sz start)
  end.

(** Functional updates of the mutable attributes of a box. *)
Definition set_header (h : BoxHeader) (b : Box) : Box :=
  mkBox (box_type b) (box_size b) (box_start b) (box_end b)
        (sub_boxes b) h (body b) (needs_rewrite b).

Definition set_body (bd : BoxBody) (b : Box) : Box :=
  mkBox (box_type b) (box_size b) (box_start b) (box_end b)
        (sub_boxes b) (header b) bd (needs_rewrite b).

Definition set_sub_boxes (sb : option (list Box)) (b : Box) : Box :=
  mkBox (box_type b) (box_size b) (box_start b) (box_end b)
        sb (header b) (body b) (needs_rewrite b).

Definition set_needs_rewrite (f : bool) (b : Box) : Box :=
  mkBox (box_type b) (box_size b) (box_start b) (box_end b)
        (sub_boxes b) (header b) (body b) f.

(* ===================================================================== *)
(** * Recipes and the box parser                                          *)
(* ===================================================================== *)

(** A body parser is given the box, the content of the file and the
    position of the reader; it returns the body, the box with the children
    it may have attached, and the new position.  The file itself is opened
    for reading only. *)
Abbreviation BoxBodyParser :=
  (Box -> list byte -> Z -> result (BoxBody * Box * Z)) (only parsing).

(** A body parser written as a computation on the reader. *)
Definition body_parser_of (p : Box -> Rd (BoxBody * Box)) : BoxBodyParser :=
  fun box data pos =>
    '(parsed, r) <~ p box (mkReader data pos) ;;
    Ok (parsed, fpos r).

(** The call [self.body_parser(reader, dst_box, lvl)]. *)
Definition run_body_parser (p : BoxBodyParser) (box : Box) : Rd (BoxBody * Box) :=
  fun r =>
    '(parsed, pos) <~ p box (file r) (fpos r) ;;
    Ok (parsed, mkReader (file r) pos).

(** [class BoxRecipe]. *)
Inductive BoxRecipe := mkRecipe {
  recipe_name : string;
  full_box : bool;
  sequence_map : option (gmap string BoxRecipe);
  body_parser : option BoxBodyParser;
}.

Abbreviation BoxSequenceMap := (gmap string BoxRecipe) (only parsing).

(** The three shapes of recipe that [BoxRecipe.__init__] admits. *)
Definition recipe_plain (name : string) (full : bool) : BoxRecipe :=
  mkRecipe name full None None.
Definition recipe_seq (name : string) (full : bool) (m : BoxSequenceMap) : BoxRecipe :=
  mkRecipe name full (Some m) None.
Definition recipe_body (name : string) (full : bool) (p : BoxBodyParser) : BoxRecipe :=
  mkRecipe name full None (Some p).

(** [BoxRecipe.parse], given the parser to use for a sequence of children. *)
Definition BoxRecipe_parse
    (parse_seq : Z -> BoxSequenceMap -> Rd (list Box))
    (self : BoxRecipe) (dst_box : Box) : Rd Box :=
  dst_box <-
    (if full_box self then
       vs <- read_integer_array_of_size (box_end dst_box) 1 4 true ;;
       match vs with
       | [version; flags1; flags2; flags3] =>
           let flags := Z.lor (Z.lor (Z.shiftl flags1 16) (Z.shiftl flags2 8)) flags3 in
           st_ret (set_header {[ "version"%string := version; "flags"%string := flags ]} dst_box)
       | _ => st_lift (Raise TypeError)
       end
     else st_ret dst_box) ;;
  match sequence_map self, body_parser self with
  | Some m, _ =>
      subs <- parse_seq (box_end dst_box) m ;;
      st_ret (set_sub_boxes (Some subs) dst_box)
  | None, Some p =>
      '(bd, dst_box) <- run_body_parser p dst_box ;;
      st_ret (set_body bd dst_box)
  | None, None =>
      _ <- skip_to (box_end dst_box) ;;
      st_ret dst_box
  end.

(** The recipe that [parse_box_sequence] picks for a box type. *)
Definition recipe_for (box_map : BoxSequenceMap) (ty : BoxType) : BoxRecipe :=
  match box_map !! ty with
  | Some r => r
  | None =>
      match box_map !! "default"%string with
      | Some r => r
      | None => recipe_plain "Unknown" false
      end
  end.

(** The [while] loop of [parse_box_sequence].  Every turn moves the reader
    forward by the size of a box, which is at least 8, so [n] turns are
    enough when [n] is the distance to [end_]. *)
Fixpoint parse_box_loop
    (parse_recipe : BoxRecipe -> Box -> Rd Box)
    (n : nat) (end_ : Z) (box_map : BoxSequenceMap) (boxes : list Box)
  : Rd (list Box) :=
  pos <- position ;;
  if pos <=? end_ - 8 then
    match n with
    | O => fun _ => OutOfFuel
    | S n' =>
        box <- from_reader end_ ;;
        box <- parse_recipe (recipe_for box_map (box_type box)) box ;;
        pos <- position ;;
        _ <- st_assert (pos <=? box_end box) ;;
        _ <- skip_to (box_end box) ;;
        parse_box_loop parse_recipe n' end_ box_map (boxes ++ [box])
    end
  else st_ret boxes.

(** [parse_box_sequence].  [depth] bounds the nesting of sequence maps. *)
Fixpoint parse_box_sequence
    (depth : nat) (end_ : Z) (box_map : BoxSequenceMap)
    (expected_box_count : option Z) : Rd (list Box) :=
  match depth with
  | O => fun _ => OutOfFuel
  | S depth' =>
      pos <- position ;;
      boxes <- parse_box_loop
                 (BoxRecipe_parse (fun e m => parse_box_sequence depth' e m None))
                 (Z.to_nat (end_ - pos)) end_ box_map [] ;;
      let count := Z.of_nat (length boxes) in
      _ <- match expected_box_count with
           | Some expected =>
               if negb (expected =? count)
               then st_assert (negb (expected =? count))
               else st_ret tt
           | None => st_ret tt
           end ;;
      st_ret boxes
  end.

(** ** Body parsers *)

Definition py_str (s : option string) : PyVal :=
  match s with Some s => PyStr s | None => PyNone end.

(** [box.header[key]]. *)
Definition header_of (box : Box) (key : string) : Rd Z :=
  st_lift (match header box !! key with
           | Some v => Ok v
           | None => Raise KeyError
           end).

(** [parse_unsupported_box]. *)
Definition parse_unsupported_box : BoxBodyParser :=
  body_parser_of (fun _ => st_lift (Raise AssertionError)).

(** [range(num)] iterations of [read_string(end, size=4)], collected. *)
Fixpoint read_brands (end_ : Z) (num : nat) : Rd (list (option string)) :=
  match num with
  | O => st_ret []
  | S num' =>
      b <- read_string end_ 4 ;;
      bs <- read_brands end_ num' ;;
      st_ret (b :: bs)
  end.

(** [parse_ftyp_box].  [int(x / 4)] truncates the quotient, and
    [','.join(body['compatible'])] in the trace needs every brand to be a
    string. *)
Definition parse_ftyp_box : BoxBodyParser := body_parser_of (fun box =>
  major <- read_string (box_end box) 4 ;;
  version <- read_integer_of_size (box_end box) 4 true ;;
  pos <- position ;;
  let num_brands := Z.quot (box_end box - pos) 4 in
  compatible <- read_brands (box_end box) (Z.to_nat num_brands) ;;
  _ <- (if forallb (fun b : option string => bool_decide (is_Some b)) compatible
        then st_ret tt else st_lift (Raise TypeError)) ;;
  st_ret ({[ "major"%string := py_str major;
             "version"%string := PyInt version;
             "compatible"%string := PyStrList compatible ]}, box)).

(** [parse_tkhd_box]. *)
Definition parse_tkhd_box : BoxBodyParser := body_parser_of (fun box =>
  version <- header_of box "version" ;;
  let time_size := if version =? 1 then 8 else 4 in
  creation_time <- read_integer_of_size (box_end box) time_size true ;;
  modification_time <- read_integer_of_size (box_end box) time_size true ;;
  track_id <- read_integer_of_size (box_end box) 4 true ;;
  _ <- read_data 4 (Some (box_end box)) ;;
  duration <- read_integer_of_size (box_end box) time_size true ;;
  _ <- read_data 8 (Some (box_end box)) ;;
  layer <- read_integer_of_size (box_end box) 2 true ;;
  alternate_group <- read_integer_of_size (box_end box) 2 true ;;
  volume <- read_integer_of_size (box_end box) 2 true ;;
  _ <- read_data 2 (Some (box_end box)) ;;
  matrix <- read_integer_array_of_size (box_end box) 4 9 true ;;
  width <- read_integer_of_size (box_end box) 4 true ;;
  height <- read_integer_of_size (box_end box) 4 true ;;
  st_ret ({[ "creation_time"%string := PyInt creation_time;
             "modification_time"%string := PyInt modification_time;
             "track_id"%string := PyInt track_id;
             "duration"%string := PyInt duration;
             "layer"%string := PyInt layer;
             "alternate_group"%string := PyInt alternate_group;
             "volume"%string := PyInt volume;
             "matrix"%string := PyIntList matrix;
             "width"%string := PyInt width;
             "height"%string := PyInt height ]}, box)).

(** [parse_stsd_box], with its local [_parse_av01_box]. *)
Definition parse_av01_box (depth : nat) : BoxBodyParser := body_parser_of (fun sub_box =>
  sampleentry <- read_data 8 (Some (box_end sub_box)) ;;
  visualsampleentry <- read_data 70 (Some (box_end sub_box)) ;;
  subs <- parse_box_sequence depth (box_end sub_box) ∅ None ;;
  st_ret ({[ "sampleentry"%string := PyBytes sampleentry;
             "visualsampleentry"%string := PyBytes visualsampleentry ]},
          set_sub_boxes (Some subs) sub_box)).

Definition parse_stsd_box (depth : nat) : BoxBodyParser := body_parser_of (fun box =>
  entry_count <- read_integer_of_size (box_end box) 4 true ;;
  let box_map : BoxSequenceMap :=
    {[ "av01"%string := recipe_body "AV1 Sample Entry" false (parse_av01_box depth) ]} in
  subs <- parse_box_sequence depth (box_end box) box_map (Some entry_count) ;;
  st_ret (∅, set_sub_boxes (Some subs) box)).

(** [parse_dref_box], with its local [_parse_dref_url]. *)
Definition parse_dref_url : BoxBodyParser := body_parser_of (fun sub_box =>
  url <- read_string (box_end sub_box) 0 ;;
  flags <- header_of sub_box "flags" ;;
  _ <- st_assert ((flags =? 1) && bool_decide (url = None)) ;;
  st_ret ({[ "url"%string := py_str url ]}, sub_box)).

Definition parse_dref_box (depth : nat) : BoxBodyParser := body_parser_of (fun box =>
  entry_count <- read_integer_of_size (box_end box) 4 true ;;
  let box_map : BoxSequenceMap :=
    {[ "url "%string := recipe_body "Data Entry URL" true parse_dref_url;
       "default"%string := recipe_body "Data Entry" true parse_unsupported_box ]} in
  subs <- parse_box_sequence depth (box_end box) box_map (Some entry_count) ;;
  st_ret (∅, set_sub_boxes (Some subs) box)).

(** [parse_stco_box]. *)
Definition parse_stco_box : BoxBodyParser := body_parser_of (fun box =>
  entry_count <- read_integer_of_size (box_end box) 4 true ;;
  entries <- read_integer_array_of_size (box_end box) 4 (Z.to_nat entry_count) true ;;
  st_ret ({[ "entries"%string := PyIntList entries ]}, box)).

(** [parse_hdlr_box]. *)
Definition parse_hdlr_box : BoxBodyParser := body_parser_of (fun box =>
  predef <- read_integer_of_size (box_end box) 4 true ;;
  hdlr_type <- read_string (box_end box) 4 ;;
  _ <- read_integer_array_of_size (box_end box) 4 3 true ;;
  name <- read_string (box_end box) 0 ;;
  st_ret ({[ "pre_defined"%string := PyInt predef;
             "hdlr_type"%string := py_str hdlr_type;
             "name"%string := py_str name ]}, box)).

(** [parse_pitm_box]. *)
Definition parse_pitm_box : BoxBodyParser := body_parser_of (fun box =>
  version <- header_of box "version" ;;
  let id_size := if version =? 0 then 2 else 4 in
  item_id <- read_integer_of_size (box_end box) id_size true ;;
  st_ret ({[ "item_id"%string := PyInt item_id ]}, box)).

(** A computation on the bits of [data], for its value. *)
Definition on_bits {A} (data : list byte) (m : St BitReader A) : Rd A :=
  st_lift ('(a, _) <~ m (BitReader_init data) ;; Ok a).

(** The fixed four bytes of an [av1C] box. *)
Definition read_av1c_fields : St BitReader (gmap string PyVal) :=
  let field (key : string) (n : Z) (body : gmap string PyVal) : St BitReader (gmap string PyVal) :=
    (v <- f n ;; st_ret (<[key := PyInt v]> body)) in
  body <- field "marker"%string 1 ∅ ;;
  body <- field "version"%string 7 body ;;
  body <- field "seq_profile"%string 3 body ;;
  body <- field "seq_level_idx_0"%string 5 body ;;
  body <- field "seq_tier_0"%string 1 body ;;
  body <- field "high_bitdepth"%string 1 body ;;
  body <- field "twelve_bit"%string 1 body ;;
  body <- field "monochrome"%string 1 body ;;
  body <- field "chroma_subsampling_x"%string 1 body ;;
  body <- field "chroma_subsampling_y"%string 1 body ;;
  body <- field "chroma_sample_position"%string 2 body ;;
  _ <- f 3 ;;
  present <- f 1 ;;
  let body := <["initial_presentation_delay_present"%string := PyInt present]> body in
  if present =? 1
  then field "initial_presentation_delay_minus_one"%string 4 body
  else (_ <- f 4 ;; st_ret body).

(** [parse_av1c_box]. *)
Definition parse_av1c_box : BoxBodyParser := body_parser_of (fun box =>
  data <- read_data 4 (Some (box_end box)) ;;
  body <- on_bits data read_av1c_fields ;;
  pos <- position ;;
  body <- (if pos <? box_end box then
             config <- read_data (box_end box - pos) None ;;
             st_ret (<["configOBUs"%string := PyBytes config]> body)
           else st_ret body) ;;
  st_ret (body, box)).

(** [parse_iref_box], with its local [_parse_sitref]. *)
Definition parse_sitref (id_size : Z) : BoxBodyParser := body_parser_of (fun sub_box =>
  from_item_ID <- read_integer_of_size (box_end sub_box) id_size true ;;
  reference_count <- read_integer_of_size (box_end sub_box) 2 true ;;
  references <- read_integer_array_of_size (box_end sub_box) id_size
                  (Z.to_nat reference_count) true ;;
  st_ret ({[ "from_item_ID"%string := PyInt from_item_ID;
             "to_item_ID"%string := PyIntList references ]}, sub_box)).

Definition parse_iref_box (depth : nat) : BoxBodyParser := body_parser_of (fun box =>
  version <- header_of box "version" ;;
  let id_size := if version =? 0 then 2 else 4 in
  let box_map : BoxSequenceMap :=
    {[ "default"%string := recipe_body "Single Item Reference Box" false
                                        (parse_sitref id_size) ]} in
  subs <- parse_box_sequence depth (box_end box) box_map None ;;
  st_ret (∅, set_sub_boxes (Some subs) box)).

(** The inner loop of [parse_ipma_box]: the associations of one item. *)
Fixpoint read_associations (box : Box) (n : nat) : Rd (list (Z * bool)) :=
  match n with
  | O => st_ret []
  | S n' =>
      tmp <- read_integer_of_size (box_end box) 1 true ;;
      let essential := negb (Z.shiftr tmp 7 =? 0) in
      let prop_index := Z.land tmp 127 in
      flags <- header_of box "flags" ;;
      prop_index <- (if Z.land flags 1 =? 1 then
                       low <- read_integer_of_size (box_end box) 1 true ;;
                       st_ret (Z.lor (Z.shiftl prop_index 8) low)
                     else st_ret prop_index) ;;
      rest <- read_associations box n' ;;
      st_ret ((prop_index, essential) :: rest)
  end.

(** The outer loop of [parse_ipma_box]. *)
Fixpoint read_ipma_entries (box : Box) (item_id_size : Z) (n : nat)
    (associations : gmap Z (list (Z * bool))) : Rd (gmap Z (list (Z * bool))) :=
  match n with
  | O => st_ret associations
  | S n' =>
      item_id <- read_integer_of_size (box_end box) item_id_size true ;;
      association_count <- read_integer_of_size (box_end box) 1 true ;;
      properties <- read_associations box (Z.to_nat association_count) ;;
      read_ipma_entries box item_id_size n' (<[item_id := properties]> associations)
  end.

(** [parse_ipma_box]. *)
Definition parse_ipma_box : BoxBodyParser := body_parser_of (fun box =>
  version <- header_of box "version" ;;
  let item_id_size := if version <? 1 then 2 else 4 in
  entry_count <- read_integer_of_size (box_end box) 4 true ;;
  associations <- read_ipma_entries box item_id_size (Z.to_nat entry_count) ∅ ;;
  st_ret ({[ "entry_count"%string := PyInt entry_count;
             "associations"%string := PyAssoc associations ]}, box)).

(** The extents of one item of [parse_iloc_box]. *)
Fixpoint read_iloc_extents (end_ version index_size offset_size length_size : Z)
    (item_base_offset : Z) (n : nat) : Rd (list IlocExtent) :=
  match n with
  | O => st_ret []
  | S n' =>
      reference <- (if ((version =? 1) || (version =? 2)) && (0 <? index_size) then
                      v <- read_integer_of_size end_ index_size true ;; st_ret (Some v)
                    else st_ret None) ;;
      offset <- (if 0 <? offset_size
                 then read_integer_of_size end_ offset_size true
                 else st_ret 0) ;;
      length <- read_integer_of_size end_ length_size true ;;
      rest <- read_iloc_extents end_ version index_size offset_size length_size
                                item_base_offset n' ;;
      st_ret (mkExtent reference offset length (item_base_offset + offset) :: rest)
  end.

(** The items of [parse_iloc_box]. *)
Fixpoint read_iloc_items (end_ version index_size offset_size length_size
                          base_offset_size : Z) (n : nat) : Rd (list IlocItem) :=
  match n with
  | O => st_ret []
  | S n' =>
      id <- read_integer_of_size end_ (if version <? 2 then 2 else 4) true ;;
      '(reserved, method) <-
        (if (version =? 1) || (version =? 2) then
           vs <- read_integer_array_of_size end_ 1 2 true ;;
           match vs with
           | [r0; cm] => st_ret (Some r0, cm)
           | _ => st_lift (Raise TypeError)
           end
         else st_ret (None, 0)) ;;
      dri <- read_integer_of_size end_ 2 true ;;
      _ <- st_assert (dri =? 0) ;;
      base <- (if 0 <? base_offset_size
               then read_integer_of_size end_ base_offset_size true
               else st_ret 0) ;;
      extent_count <- read_integer_of_size end_ 2 true ;;
      exts <- read_iloc_extents end_ version index_size offset_size length_size base
                                (Z.to_nat extent_count) ;;
      rest <- read_iloc_items end_ version index_size offset_size length_size
                              base_offset_size n' ;;
      st_ret (mkIlocItem id reserved method dri base exts :: rest)
  end.

(** [parse_iloc_box]. *)
Definition parse_iloc_box : BoxBodyParser := body_parser_of (fun box =>
  version <- header_of box "version" ;;
  _ <- st_assert ((0 <=? version) && (version <=? 2)) ;;
  byte <- read_integer_of_size (box_end box) 1 true ;;
  let offset_size := Z.shiftr byte 4 in
  let length_size := Z.land byte 15 in
  byte <- read_integer_of_size (box_end box) 1 true ;;
  let base_offset_size := Z.shiftr byte 4 in
  let index_size := Z.land byte 15 in
  item_count <- read_integer_of_size (box_end box) (if version <? 2 then 2 else 4) true ;;
  items <- read_iloc_items (box_end box) version index_size offset_size length_size
                           base_offset_size (Z.to_nat item_count) ;;
  st_ret ({[ "offset_size"%string := PyInt offset_size;
             "length_size"%string := PyInt length_size;
             "base_offset_size"%string := PyInt base_offset_size;
             (if 0 <? version then "index_size"%string else "reserved1"%string) := PyInt index_size;
             "items"%string := PyIlocItems items ]}, box)).

(** [parse_infe_box]. *)
Definition parse_infe_box : BoxBodyParser := body_parser_of (fun box =>
  version <- header_of box "version" ;;
  _ <- st_assert ((2 <=? version) && (version <=? 3)) ;;
  _ <- header_of box "flags" ;;
  let item_id_size := if version =? 2 then 2 else 4 in
  item_id <- read_integer_of_size (box_end box) item_id_size true ;;
  item_protection_index <- read_integer_of_size (box_end box) 2 true ;;
  item_type <- read_string (box_end box) 4 ;;
  name <- read_string (box_end box) 0 ;;
  let body : gmap string PyVal :=
    {[ "item_id"%string := PyInt item_id;
       "item_protection_index"%string := PyInt item_protection_index;
       "item_type"%string := py_str item_type;
       "name"%string := py_str name ]} in
  if bool_decide (item_type = Some "mime"%string) then
    content_type <- read_string (box_end box) 0 ;;
    content_encoding <- read_string (box_end box) 0 ;;
    st_ret (<["content_encoding"%string := py_str content_encoding]>
              (<["content_type"%string := py_str content_type]> body), box)
  else if bool_decide (item_type = Some "uri "%string) then
    uri_type <- read_string (box_end box) 0 ;;
    st_ret (<["uri_type"%string := py_str uri_type]> body, box)
  else st_ret (body, box)).

(** [parse_iinf_box]. *)
Definition parse_iinf_box (depth : nat) : BoxBodyParser := body_parser_of (fun box =>
  version <- header_of box "version" ;;
  _ <- st_assert ((0 <=? version) && (version <=? 1)) ;;
  let entry_count_size := if negb (version =? 0) then 4 else 2 in
  entry_count <- read_integer_of_size (box_end box) entry_count_size true ;;
  let box_map : BoxSequenceMap :=
    {[ "infe"%string := recipe_body "Item Information Entry Box" true parse_infe_box ]} in
  subs <- parse_box_sequence depth (box_end box) box_map (Some entry_count) ;;
  st_ret (∅, set_sub_boxes (Some subs) box)).

(** [parse_colr_box]. *)
Definition parse_colr_box : BoxBodyParser := body_parser_of (fun box =>
  ty <- read_string (box_end box) 4 ;;
  if bool_decide (ty = Some "nclx"%string) then
    color_primaries <- read_integer_of_size (box_end box) 2 true ;;
    transfer_characteristics <- read_integer_of_size (box_end box) 2 true ;;
    matrix_coefficients <- read_integer_of_size (box_end box) 2 true ;;
    flag <- read_integer_of_size (box_end box) 1 true ;;
    st_ret ({[ "type"%string := py_str ty;
               "color_primaries"%string := PyInt color_primaries;
               "transfer_characteristics"%string := PyInt transfer_characteristics;
               "matrix_coefficients"%string := PyInt matrix_coefficients;
               "full_range_flag"%string := PyInt (Z.shiftr flag 7) ]}, box)
  else if bool_decide (ty = Some "rICC"%string) || bool_decide (ty = Some "prof"%string) then
    pos <- position ;;
    icc_data <- read_data (box_end box - pos) (Some (box_end box)) ;;
    st_ret ({[ "type"%string := py_str ty; "icc_data"%string := PyBytes icc_data ]}, box)
  else st_lift (Raise AssertionError)).

(** [parse_pixi_box]. *)
Definition parse_pixi_box : BoxBodyParser := body_parser_of (fun box =>
  num_channels <- read_integer_of_size (box_end box) 1 true ;;
  bpp <- read_integer_array_of_size (box_end box) 1 (Z.to_nat num_channels) true ;;
  st_ret ({[ "bits_per_channel"%string := PyIntList bpp ]}, box)).

(** [parse_ispe_box]. *)
Definition parse_ispe_box : BoxBodyParser := body_parser_of (fun box =>
  width <- read_integer_of_size (box_end box) 4 true ;;
  height <- read_integer_of_size (box_end box) 4 true ;;
  st_ret ({[ "width"%string := PyInt width; "height"%string := PyInt height ]}, box)).

(** [parse_clap_box]. *)
Definition parse_clap_box : BoxBodyParser := body_parser_of (fun box =>
  width <- read_integer_array_of_size (box_end box) 4 2 false ;;
  height <- read_integer_array_of_size (box_end box) 4 2 false ;;
  h_offset <- read_integer_array_of_size (box_end box) 4 2 false ;;
  v_offset <- read_integer_array_of_size (box_end box) 4 2 false ;;
  st_ret ({[ "width"%string := PyIntList width; "height"%string := PyIntList height;
             "h_offset"%string := PyIntList h_offset;
             "v_offset"%string := PyIntList v_offset ]}, box)).

(** ** The recipe tables

    Any box not listed is copied as it is from the source to the
    destination.  [depth] bounds the nesting below the body parsers that
    parse children themselves. *)

Definition MAP_IPCO_BOX : BoxSequenceMap :=
  {[ "av1C"%string := recipe_body "AV1 Decoder Configuration Record" false parse_av1c_box;
     "colr"%string := recipe_body "Color Information Box" false parse_colr_box;
     "pixi"%string := recipe_body "Pixel Information Box" true parse_pixi_box;
     "ispe"%string := recipe_body "Image Spatial Extents Box" true parse_ispe_box;
     "clap"%string := recipe_body "Clean Aperture Box" false parse_clap_box ]}.

Definition MAP_IPRP_BOX : BoxSequenceMap :=
  {[ "ipco"%string := recipe_seq "Item Property Container Box" false MAP_IPCO_BOX;
     "ipma"%string := recipe_body "Item Property Association Box" true parse_ipma_box ]}.

Definition MAP_META_BOX (depth : nat) : BoxSequenceMap :=
  {[ "iprp"%string := recipe_seq "Item Properties Box" false MAP_IPRP_BOX;
     "iloc"%string := recipe_body "Item Location Box" true parse_iloc_box;
     "iinf"%string := recipe_body "Item Information Box" true (parse_iinf_box depth);
     "iref"%string := recipe_body "Item Reference Box" true (parse_iref_box depth);
     "pitm"%string := recipe_body "Primary Item Box" true parse_pitm_box ]}.

Definition MAP_STBL_BOX (depth : nat) : BoxSequenceMap :=
  {[ "stco"%string := recipe_body "Sample Chunk Offset Box" true parse_stco_box;
     "stsd"%string := recipe_body "Sample Description Box" true (parse_stsd_box depth) ]}.

Definition MAP_DINF_BOX (depth : nat) : BoxSequenceMap :=
  {[ "dref"%string := recipe_body "Data Reference Box" true (parse_dref_box depth) ]}.

Definition MAP_MINF_BOX (depth : nat) : BoxSequenceMap :=
  {[ "dinf"%string := recipe_seq "Data Information Box" false (MAP_DINF_BOX depth);
     "stbl"%string := recipe_seq "Sample Table Box" false (MAP_STBL_BOX depth) ]}.

Definition MAP_MDIA_BOX (depth : nat) : BoxSequenceMap :=
  {[ "hdlr"%string := recipe_body "Handler Reference Box" true parse_hdlr_box;
     "minf"%string := recipe_seq "Media Information Box" false (MAP_MINF_BOX depth) ]}.

Definition MAP_TRAK_BOX (depth : nat) : BoxSequenceMap :=
  {[ "mdia"%string := recipe_seq "Media Box" false (MAP_MDIA_BOX depth);
     "tref"%string := recipe_seq "Track Reference Box" false ∅;
     "tkhd"%string := recipe_body "Track Header Box" true parse_tkhd_box ]}.

Definition MAP_MOOV_BOX (depth : nat) : BoxSequenceMap :=
  {[ "trak"%string := recipe_seq "Track Box" false (MAP_TRAK_BOX depth) ]}.

Definition MAP_TOP_LEVEL (depth : nat) : BoxSequenceMap :=
  {[ "ftyp"%string := recipe_body "File Type Box" false parse_ftyp_box;
     "meta"%string := recipe_seq "Meta Box" true (MAP_META_BOX depth);
     "moov"%string := recipe_seq "Movie Box" false (MAP_MOOV_BOX depth);
     "moof"%string := recipe_body "Unsupported box" false parse_unsupported_box ]}.

(* ===================================================================== *)
(** * The destination file                                                *)
(* ===================================================================== *)

(** The destination stream: what has been written and the position of the
    handle.  Writing replaces the bytes under the handle and extends the
    file at its end. *)
Record OutFile := mkOut { out_data : list byte; out_pos : Z }.

Definition out_empty : OutFile := mkOut [] 0.

Definition out_tell (o : OutFile) : Z := out_pos o.

Definition out_seek (p : Z) (o : OutFile) : result OutFile :=
  if p <? 0 then Raise OSError else Ok (mkOut (out_data o) p).

Definition out_write (data : list byte) (o : OutFile) : OutFile :=
  let p := Z.to_nat (out_pos o) in
  let old := out_data o in
  let padded := old ++ replicate (p - length old)%nat x00 in
  mkOut (take p padded ++ data ++ drop (p + length data)%nat old)
        (out_pos o + Z.of_nat (length data)).

(** The [while] loop of [copy_data_to_destination]. *)
Fixpoint copy_loop (fuel : nat) (count : Z) (r : FileReader) (out : OutFile)
  : result (FileReader * OutFile) :=
  if 0 <? count then
    match fuel with
    | O => OutOfFuel
    | S fuel' =>
        '(data, r) <~ file_read (Z.min 32768 count) r ;;
        copy_loop fuel' (count - Z.of_nat (length data)) r (out_write data out)
    end
  else Ok (r, out).

(** [FileReader.copy_data_to_destination]. *)
Definition copy_data_to_destination
    (fuel : nat) (offset count : Z) (r : FileReader) (out : OutFile)
  : result (FileReader * OutFile) :=
  let pos := fpos r in
  '(_, r) <~ file_seek offset r ;;
  '(r, out) <~ copy_loop fuel count r out ;;
  '(_, r) <~ file_seek pos r ;;
  Ok (r, out).

(* ===================================================================== *)
(** * Placeholder file offsets                                            *)
(* ===================================================================== *)

(** [class PlaceholderFileOffset].  [base] is only used by the constructor,
    to register the new placeholder among the dependents of its base; the
    values never change once written, so a placeholder carries its
    dependents and no reference back. *)
Inductive PlaceholderFileOffset := mkPlaceholder {
  ph_file_pos : Z;
  ph_size : Z;
  ph_value : Z;
  ph_dependents : list PlaceholderFileOffset;
}.

Definition get_offset_list (self : PlaceholderFileOffset) : list Z :=
  if Nat.ltb 0 (length (ph_dependents self))
  then map (fun dep => ph_value self + ph_value dep) (ph_dependents self)
  else [ph_value self].

Definition write_delta (self : PlaceholderFileOffset) (out : OutFile) (delta : Z)
  : result OutFile :=
  let new_value := ph_value self + delta in
  _ <~ py_assert (0 <=? new_value) ;;
  let max_val := Z.shiftl 1 (ph_size self * 8) - 1 in
  _ <~ py_assert (new_value <=? max_val) ;;
  data <~ write_integer_of_size new_value (ph_size self) true ;;
  let current_pos := out_tell out in
  out <~ out_seek (ph_file_pos self) out ;;
  let out := out_write data out in
  out_seek current_pos out.

(** The search for the [mdat] an offset list belongs to.  [cur] is the
    binding of the loop variables [(mdat_box, new_offset)], which Python
    keeps after the loop: the element that broke out of it, or the last
    one visited. *)
Fixpoint find_mdat (offsets : list Z) (mdat_boxes : list (Box * Z))
    (cur : option (Box * Z)) : result (option (Box * Z)) :=
  match mdat_boxes with
  | [] => Ok cur
  | (mdat_box, new_offset) :: rest =>
      let offsets_in_mdat :=
        map (fun o => (box_start mdat_box <=? o) && (o <? box_end mdat_box)) offsets in
      if forallb id offsets_in_mdat then Ok (Some (mdat_box, new_offset))
      else
        _ <~ py_assert (negb (existsb id offsets_in_mdat)) ;;
        find_mdat offsets rest (Some (mdat_box, new_offset))
  end.

(** One turn of the patching loop of [AVIFWriter.write]. *)
Definition patch_placeholder (mdat_boxes : list (Box * Z))
    (placeholder : PlaceholderFileOffset) (out : OutFile) : result OutFile :=
  let offsets := get_offset_list placeholder in
  found <~ find_mdat offsets mdat_boxes None ;;
  match found with
  | None => Raise AttributeError
  | Some (mdat_box, new_offset) =>
      let delta := new_offset - box_start mdat_box in
      write_delta placeholder out delta
  end.

(** The patching loop. *)
Fixpoint patch_placeholders (mdat_boxes : list (Box * Z))
    (placeholder_offsets : list PlaceholderFileOffset) (out : OutFile)
  : result OutFile :=
  match placeholder_offsets with
  | [] => Ok out
  | placeholder :: rest =>
      out <~ patch_placeholder mdat_boxes placeholder out ;;
      patch_placeholders mdat_boxes rest out
  end.

(* ===================================================================== *)
(** * Box writers                                                         *)
(* ===================================================================== *)

Abbreviation BoxWriterReturn := (list byte * list PlaceholderFileOffset)%type (only parsing).
Abbreviation BoxWriter := (Box -> Z -> Rd BoxWriterReturn) (only parsing).

(** [d[k]] *)
Definition py_getitem {V} (d : gmap string V) (k : string) : result V :=
  match d !! k with
  | Some v => Ok v
  | None => Raise KeyError
  end.

Definition as_int (v : PyVal) : result Z :=
  match v with PyInt n => Ok n | _ => Raise TypeError end.

Definition as_int_list (v : PyVal) : result (list Z) :=
  match v with PyIntList l => Ok l | _ => Raise TypeError end.

Definition as_bytes (v : PyVal) : result (list byte) :=
  match v with PyBytes b => Ok b | _ => Raise TypeError end.

(** [v.encode("utf8")]: only a [str] has the method. *)
Definition py_encode (v : PyVal) : result (list byte) :=
  match v with
  | PyStr s => Ok (encode s)
  | _ => Raise AttributeError
  end.

Definition body_int (bd : BoxBody) (k : string) : result Z :=
  v <~ py_getitem bd k ;; as_int v.

(** Truth value of a body entry. *)
Definition py_truthy (v : PyVal) : bool :=
  match v with
  | PyInt n => negb (n =? 0)
  | PyStr s => negb (String.eqb s "")
  | PyNone => false
  | PyBytes b => Nat.ltb 0 (length b)
  | PyIntList l => Nat.ltb 0 (length l)
  | PyStrList l => Nat.ltb 0 (length l)
  | PyAssoc m => negb (bool_decide (m = ∅))
  | PyIlocItems l => Nat.ltb 0 (length l)
  end.

Definition len {A} (l : list A) : Z := Z.of_nat (length l).

(** [write_integer_array_of_size]. *)
Fixpoint write_integer_array_of_size (values : list Z) (nbytes : Z) (unsigned : bool)
  : result (list byte) :=
  match values with
  | [] => fmt <~ get_struct_type nbytes unsigned ;; Ok []
  | v :: vs =>
      fmt <~ get_struct_type nbytes unsigned ;;
      d <~ struct_pack fmt v ;;
      ds <~ write_integer_array_of_size vs nbytes unsigned ;;
      Ok (d ++ ds)
  end.

(** [Box.write_box_header]. *)
Definition write_box_header (self : Box) (body_size : Z) : result (list byte) :=
  let box_type_data := encode (box_type self) in
  _ <~ py_assert (len box_type_data =? 4) ;;
  let has_header := negb (bool_decide (header self = ∅)) in
  let total_size := 4 + len box_type_data + (if has_header then 4 else 0) + body_size in
  _ <~ py_assert (total_size <=? 4294967295) ;;
  data <~ struct_pack (4, true) total_size ;;
  let data := data ++ box_type_data in
  if has_header then
    version <~ py_getitem (header self) "version" ;;
    v <~ struct_pack (1, true) version ;;
    flags <~ py_getitem (header self) "flags" ;;
    f <~ struct_pack (4, true) flags ;;
    Ok (data ++ v ++ drop 1 f)
  else Ok data.

(** The common ending of the leaf writers. *)
Definition with_header (box : Box) (body_data : list byte) : result BoxWriterReturn :=
  hd <~ write_box_header box (len body_data) ;;
  Ok (hd ++ body_data, []).

Definition write_ftyp_box (box : Box) : result BoxWriterReturn :=
  _ <~ py_assert (needs_rewrite box) ;;
  major <~ py_getitem (body box) "major" ;;
  major <~ py_encode major ;;
  version <~ body_int (body box) "version" ;;
  version <~ write_integer_of_size version 4 true ;;
  compatible <~ py_getitem (body box) "compatible" ;;
  brands <~ match compatible with
            | PyStrList l =>
                fold_left (fun acc brand =>
                             done <~ acc ;;
                             b <~ py_encode (py_str brand) ;;
                             Ok (done ++ b)) l (Ok [])
            | _ => Raise TypeError
            end ;;
  with_header box (major ++ version ++ brands).

Definition write_av1c_box (box : Box) : result BoxWriterReturn :=
  let bd := body box in
  marker <~ body_int bd "marker" ;;
  version <~ body_int bd "version" ;;
  let byte0 := Z.lor (Z.shiftl marker 7) version in
  seq_profile <~ body_int bd "seq_profile" ;;
  seq_level_idx_0 <~ body_int bd "seq_level_idx_0" ;;
  let byte1 := Z.lor (Z.shiftl seq_profile 5) seq_level_idx_0 in
  seq_tier_0 <~ body_int bd "seq_tier_0" ;;
  high_bitdepth <~ body_int bd "high_bitdepth" ;;
  let byte2 := Z.lor (Z.shiftl seq_tier_0 7) (Z.shiftl high_bitdepth 6) in
  twelve_bit <~ body_int bd "twelve_bit" ;;
  monochrome <~ body_int bd "monochrome" ;;
  let byte2 := Z.lor byte2 (Z.lor (Z.shiftl twelve_bit 5) (Z.shiftl monochrome 4)) in
  chroma_subsampling_x <~ body_int bd "chroma_subsampling_x" ;;
  chroma_subsampling_y <~ body_int bd "chroma_subsampling_y" ;;
  let byte2 := Z.lor byte2 (Z.lor (Z.shiftl chroma_subsampling_x 3)
                                  (Z.shiftl chroma_subsampling_y 2)) in
  chroma_sample_position <~ body_int bd "chroma_sample_position" ;;
  let byte2 := Z.lor byte2 chroma_sample_position in
  delay_present <~ body_int bd "initial_presentation_delay_present" ;;
  let byte3 := Z.shiftl delay_present 4 in
  _ <~ py_assert (delay_present =? 0) ;;
  b0 <~ struct_pack (1, true) byte0 ;;
  b1 <~ struct_pack (1, true) byte1 ;;
  b2 <~ struct_pack (1, true) byte2 ;;
  b3 <~ struct_pack (1, true) byte3 ;;
  with_header box (b0 ++ b1 ++ b2 ++ b3).

Definition write_pitm_box (box : Box) : result BoxWriterReturn :=
  _ <~ py_assert (needs_rewrite box) ;;
  version <~ py_getitem (header box) "version" ;;
  _ <~ py_assert ((version =? 0) || (version =? 1)) ;;
  let item_id_size := if version <? 1 then 2 else 4 in
  item_id <~ body_int (body box) "item_id" ;;
  body_data <~ write_integer_of_size item_id item_id_size true ;;
  with_header box body_data.

Definition write_colr_box (box : Box) : result BoxWriterReturn :=
  _ <~ py_assert (needs_rewrite box) ;;
  ty <~ py_getitem (body box) "type" ;;
  _ <~ py_assert (bool_decide (ty = PyStr "nclx")) ;;
  cp <~ body_int (body box) "color_primaries" ;;
  cp <~ write_integer_of_size cp 2 true ;;
  tc <~ body_int (body box) "transfer_characteristics" ;;
  tc <~ write_integer_of_size tc 2 true ;;
  mc <~ body_int (body box) "matrix_coefficients" ;;
  mc <~ write_integer_of_size mc 2 true ;;
  fr <~ body_int (body box) "full_range_flag" ;;
  fr <~ write_integer_of_size (Z.shiftl fr 7) 1 true ;;
  with_header box (encode "nclx" ++ cp ++ tc ++ mc ++ fr).

Definition write_pixi_box (box : Box) : result BoxWriterReturn :=
  _ <~ py_assert (needs_rewrite box) ;;
  bpp <~ py_getitem (body box) "bits_per_channel" ;;
  bpp <~ as_int_list bpp ;;
  n <~ write_integer_of_size (len bpp) 1 true ;;
  values <~ fold_left (fun acc value =>
                         done <~ acc ;;
                         b <~ write_integer_of_size value 1 true ;;
                         Ok (done ++ b)) bpp (Ok []) ;;
  with_header box (n ++ values).

Definition write_clap_box (box : Box) : result BoxWriterReturn :=
  _ <~ py_assert (needs_rewrite box) ;;
  let field k := (v <~ py_getitem (body box) k ;;
                  l <~ as_int_list v ;;
                  write_integer_array_of_size l 4 false) in
  width <~ field "width"%string ;;
  height <~ field "height"%string ;;
  h_offset <~ field "h_offset"%string ;;
  v_offset <~ field "v_offset"%string ;;
  with_header box (width ++ height ++ h_offset ++ v_offset).

Definition write_ispe_box (box : Box) : result BoxWriterReturn :=
  _ <~ py_assert (needs_rewrite box) ;;
  width <~ body_int (body box) "width" ;;
  width <~ write_integer_of_size width 4 true ;;
  height <~ body_int (body box) "height" ;;
  height <~ write_integer_of_size height 4 true ;;
  with_header box (width ++ height).

(** The associations of one item, as [_write_ipma_box] lays them out. *)
Definition write_item_assocs (association_size max_property_index : Z)
    (item_assocs : list (Z * bool)) : result (list byte) :=
  fold_left (fun acc '(prop_index, essential) =>
               done <~ acc ;;
               _ <~ py_assert (prop_index <=? max_property_index) ;;
               let essential_bit := if essential : bool then 1 else 0 in
               b <~ (if association_size =? 2
                     then struct_pack (2, true) (Z.lor (Z.shiftl essential_bit 15) prop_index)
                     else struct_pack (1, true) (Z.lor (Z.shiftl essential_bit 7) prop_index)) ;;
               Ok (done ++ b)) item_assocs (Ok []).

Definition write_ipma_box (box : Box) : result BoxWriterReturn :=
  _ <~ py_assert (needs_rewrite box) ;;
  associations <~ py_getitem (body box) "associations" ;;
  associations <~ match associations with
                  | PyAssoc m => Ok m
                  | _ => Raise TypeError
                  end ;;
  version <~ py_getitem (header box) "version" ;;
  let item_id_type := if version <? 1 then (2, true) else (4, true) in
  flags <~ py_getitem (header box) "flags" ;;
  let association_size := if Z.land flags 1 =? 1 then 2 else 1 in
  let max_property_index := Z.shiftl 1 (association_size * 8) - 1 in
  count <~ struct_pack (4, true) (Z.of_nat (size (associations : gmap Z (list (Z * bool))))) ;;
  let item_ids := merge_sort Z.le (map fst (map_to_list associations)) in
  body_data <~ fold_left (fun acc item_id =>
                            done <~ acc ;;
                            item_assocs <~ match associations !! item_id with
                                           | Some l => Ok l
                                           | None => Raise KeyError
                                           end ;;
                            id <~ struct_pack item_id_type item_id ;;
                            n <~ struct_pack (1, true) (len item_assocs) ;;
                            a <~ write_item_assocs association_size max_property_index
                                   item_assocs ;;
                            Ok (done ++ id ++ n ++ a)) item_ids (Ok count) ;;
  with_header box body_data.

(** The extents of one [iloc] item: the bytes, the placeholders that
    depend on the base placeholder of the item, and those that stand on
    their own ([base_offset_size == 0]). *)
Definition write_iloc_extents
    (index_size offset_size length_size base_offset_size : Z)
    (cm : Z) (start_offset : Z) (exts : list IlocExtent)
  : result (list byte * list PlaceholderFileOffset) :=
  fold_left (fun acc extent =>
               '(body_data, phs) <~ acc ;;
               body_data <~ (if 0 <? index_size then
                               match item_reference_index extent with
                               | Some idx =>
                                   b <~ write_integer_of_size idx index_size true ;;
                                   Ok (body_data ++ b)
                               | None => Raise KeyError
                               end
                             else Ok body_data) ;;
               '(body_data, phs) <~
                 (if 0 <? offset_size then
                    let phs :=
                      if cm =? 0
                      then phs ++ [mkPlaceholder (start_offset + len body_data) offset_size
                                                 (extent_offset extent) []]
                      else phs in
                    b <~ write_integer_of_size (extent_offset extent) offset_size true ;;
                    Ok (body_data ++ b, phs)
                  else Ok (body_data, phs)) ;;
               b <~ write_integer_of_size (extent_length extent) length_size true ;;
               Ok (body_data ++ b, phs)) exts (Ok ([], [])).

(** [_write_iloc_box].  In the Python code the base placeholder of an item
    is appended to the result first and collects its dependents afterwards,
    through the shared object; here it is built once its dependents are
    known and put at the same place in the list. *)
Definition write_iloc_box (box : Box) (current_offset : Z) : result BoxWriterReturn :=
  _ <~ py_assert (needs_rewrite box) ;;
  version <~ py_getitem (header box) "version" ;;
  offset_size <~ body_int (body box) "offset_size" ;;
  length_size <~ body_int (body box) "length_size" ;;
  base_offset_size <~ body_int (body box) "base_offset_size" ;;
  index_size <~ match body box !! "index_size"%string with
                | Some v => as_int v
                | None => Ok 0
                end ;;
  let item_count_and_id_size := if version <? 2 then 2 else 4 in
  let current_offset := current_offset + 12 in
  items <~ py_getitem (body box) "items" ;;
  items <~ match items with PyIlocItems l => Ok l | _ => Raise TypeError end ;;
  b0 <~ struct_pack (1, true) (Z.lor (Z.shiftl offset_size 4) length_size) ;;
  b1 <~ struct_pack (1, true) (Z.lor (Z.shiftl base_offset_size 4) index_size) ;;
  n <~ write_integer_of_size (len items) item_count_and_id_size true ;;
  '(body_data, placeholder_offsets) <~
    fold_left (fun acc item =>
      '(body_data, placeholder_offsets) <~ acc ;;
      id <~ write_integer_of_size (item_ID item) item_count_and_id_size true ;;
      let body_data := body_data ++ id in
      body_data <~ (if (version =? 1) || (version =? 2) then
                      z <~ struct_pack (1, true) 0 ;;
                      c <~ struct_pack (1, true) (construction_method item) ;;
                      Ok (body_data ++ z ++ c)
                    else Ok body_data) ;;
      dri <~ struct_pack (2, true) 0 ;;
      let body_data := body_data ++ dri in
      let base_pos := current_offset + len body_data in
      let has_base := (0 <? base_offset_size) && (construction_method item =? 0) in
      body_data <~ (if 0 <? base_offset_size then
                      b <~ write_integer_of_size (base_offset item) base_offset_size true ;;
                      Ok (body_data ++ b)
                    else Ok body_data) ;;
      c <~ write_integer_of_size (len (extents item)) 2 true ;;
      let body_data := body_data ++ c in
      '(ext_data, ext_phs) <~
        write_iloc_extents index_size offset_size length_size base_offset_size
          (construction_method item) (current_offset + len body_data) (extents item) ;;
      let new_phs :=
        if has_base
        then [mkPlaceholder base_pos base_offset_size (base_offset item) ext_phs]
        else if base_offset_size =? 0 then ext_phs else [] in
      Ok (body_data ++ ext_data, placeholder_offsets ++ new_phs))
    items (Ok (b0 ++ b1 ++ n, [])) ;;
  hd <~ write_box_header box (len body_data) ;;
  Ok (hd ++ body_data, placeholder_offsets).

Definition write_stco_box (box : Box) (current_offset : Z) : result BoxWriterReturn :=
  _ <~ py_assert (needs_rewrite box) ;;
  let current_offset := current_offset + 12 in
  entries <~ py_getitem (body box) "entries" ;;
  entries <~ as_int_list entries ;;
  count <~ write_integer_of_size (len entries) 4 true ;;
  '(body_data, placeholder_offsets) <~
    fold_left (fun acc entry =>
      '(body_data, placeholder_offsets) <~ acc ;;
      let placeholder := mkPlaceholder (current_offset + len body_data) 4 entry [] in
      b <~ write_integer_of_size entry 4 true ;;
      Ok (body_data ++ b, placeholder_offsets ++ [placeholder]))
    entries (Ok (count, [])) ;;
  hd <~ write_box_header box (len body_data) ;;
  Ok (hd ++ body_data, placeholder_offsets).

Definition write_auxi_box (box : Box) : result BoxWriterReturn :=
  _ <~ py_assert (needs_rewrite box) ;;
  ty <~ py_getitem (body box) "aux_track_type" ;;
  ty <~ py_encode ty ;;
  z <~ write_integer_of_size 0 1 true ;;
  with_header box (ty ++ z).

Definition write_hdlr_box (box : Box) : result BoxWriterReturn :=
  _ <~ py_assert (needs_rewrite box) ;;
  predef <~ body_int (body box) "pre_defined" ;;
  predef <~ write_integer_of_size predef 4 true ;;
  ty <~ py_getitem (body box) "hdlr_type" ;;
  ty <~ py_encode ty ;;
  z4 <~ write_integer_of_size 0 4 true ;;
  name <~ py_getitem (body box) "name" ;;
  name <~ match name with
          | PyNone => Ok []
          | v => py_encode v
          end ;;
  z1 <~ write_integer_of_size 0 1 true ;;
  with_header box (predef ++ ty ++ z4 ++ z4 ++ z4 ++ name ++ z1).

Definition write_tkhd_box (box : Box) : result BoxWriterReturn :=
  version <~ py_getitem (header box) "version" ;;
  let time_size := if version =? 1 then 8 else 4 in
  let field k n := (v <~ body_int (body box) k ;; write_integer_of_size v n true) in
  creation_time <~ field "creation_time"%string time_size ;;
  modification_time <~ field "modification_time"%string time_size ;;
  track_id <~ field "track_id"%string 4 ;;
  z4 <~ write_integer_of_size 0 4 true ;;
  duration <~ field "duration"%string time_size ;;
  z8 <~ write_integer_of_size 0 8 true ;;
  layer <~ field "layer"%string 2 ;;
  alternate_group <~ field "alternate_group"%string 2 ;;
  volume <~ field "volume"%string 2 ;;
  z2 <~ write_integer_of_size 0 2 true ;;
  matrix <~ py_getitem (body box) "matrix" ;;
  matrix <~ as_int_list matrix ;;
  matrix <~ fold_left (fun acc value =>
                         done <~ acc ;;
                         b <~ write_integer_of_size value 4 true ;;
                         Ok (done ++ b)) matrix (Ok []) ;;
  width <~ field "width"%string 4 ;;
  height <~ field "height"%string 4 ;;
  with_header box (creation_time ++ modification_time ++ track_id ++ z4 ++ duration ++ z8
                   ++ layer ++ alternate_group ++ volume ++ z2 ++ matrix ++ width ++ height).

Definition write_ccst_box (box : Box) : result BoxWriterReturn :=
  _ <~ py_assert (needs_rewrite box) ;;
  all_ref_pics_intra <~ body_int (body box) "all_ref_pics_intra" ;;
  let value := Z.lor 0 (Z.shiftl all_ref_pics_intra 31) in
  intra_pred_used <~ body_int (body box) "intra_pred_used" ;;
  let value := Z.lor value (Z.shiftl intra_pred_used 30) in
  max_ref_per_pic <~ body_int (body box) "max_ref_per_pic" ;;
  let value := Z.lor value (Z.shiftl max_ref_per_pic 26) in
  body_data <~ write_integer_of_size value 4 true ;;
  with_header box body_data.

Definition write_serialized_box (box : Box) : result BoxWriterReturn :=
  _ <~ py_assert (needs_rewrite box) ;;
  match body box !! "serialized"%string with
  | None => Raise AssertionError
  | Some (PyBytes data) => with_header box data
  | Some _ => Raise AssertionError
  end.

(** The [for] loop of [_write_box_sequence]; [write_dirty] serialises a
    child that needs rewriting. *)
Fixpoint write_sub_boxes (write_dirty : BoxWriter) (boxes : list Box)
    (current_offset : Z) (body_data : list byte)
    (placeholder_offsets : list PlaceholderFileOffset) : Rd BoxWriterReturn :=
  match boxes with
  | [] => st_ret (body_data, placeholder_offsets)
  | sub_box :: rest =>
      if negb (needs_rewrite sub_box) then
        data <- read_data_from_offset (box_start sub_box) (box_size sub_box) ;;
        write_sub_boxes write_dirty rest current_offset (body_data ++ data)
                        placeholder_offsets
      else
        '(data, offsets) <- write_dirty sub_box (current_offset + len body_data) ;;
        write_sub_boxes write_dirty rest current_offset (body_data ++ data)
                        (placeholder_offsets ++ offsets)
  end.

Definition write_box_sequence_with (write_dirty : BoxWriter)
    (boxes : option (list Box)) (current_offset : Z) : Rd BoxWriterReturn :=
  match boxes with
  | None => st_ret ([], [])
  | Some l => write_sub_boxes write_dirty l current_offset [] []
  end.

(** The writers that serialise children take the sequence writer as
    [write_seq]. *)
Definition write_generic_container_box
    (write_seq : option (list Box) -> Z -> Rd BoxWriterReturn)
    (box : Box) (current_offset : Z) : Rd BoxWriterReturn :=
  _ <- st_assert (needs_rewrite box) ;;
  let current_offset := current_offset + 8 in
  let current_offset :=
    if negb (bool_decide (header box = ∅)) then current_offset + 4 else current_offset in
  '(body_data, placeholder_offsets) <- write_seq (sub_boxes box) current_offset ;;
  hd <- st_lift (write_box_header box (len body_data)) ;;
  st_ret (hd ++ body_data, placeholder_offsets).

(** [_write_stsd_box] replaces a missing child list by the empty one before
    it calls the sequence writer, which writes nothing for either. *)
Definition write_stsd_box
    (write_seq : option (list Box) -> Z -> Rd BoxWriterReturn)
    (box : Box) (current_offset : Z) : Rd BoxWriterReturn :=
  _ <- st_assert (needs_rewrite box) ;;
  let current_offset := current_offset + 12 in
  let count := match sub_boxes box with None => 0 | Some l => len l end in
  body_data <- st_lift (write_integer_of_size count 4 true) ;;
  let current_offset := current_offset + len body_data in
  '(sub_data, placeholder_offsets) <- write_seq (sub_boxes box) current_offset ;;
  let body_data := body_data ++ sub_data in
  hd <- st_lift (write_box_header box (len body_data)) ;;
  st_ret (hd ++ body_data, placeholder_offsets).

Definition write_av01_box
    (write_seq : option (list Box) -> Z -> Rd BoxWriterReturn)
    (box : Box) (current_offset : Z) : Rd BoxWriterReturn :=
  _ <- st_assert (needs_rewrite box) ;;
  let current_offset := current_offset + 8 in
  sampleentry <- st_lift (v <~ py_getitem (body box) "sampleentry" ;; as_bytes v) ;;
  visualsampleentry <-
    st_lift (v <~ py_getitem (body box) "visualsampleentry" ;; as_bytes v) ;;
  let body_data := sampleentry ++ visualsampleentry in
  let current_offset := current_offset + len body_data in
  '(sub_data, placeholder_offsets) <- write_seq (sub_boxes box) current_offset ;;
  let body_data := body_data ++ sub_data in
  hd <- st_lift (write_box_header box (len body_data)) ;;
  st_ret (hd ++ body_data, placeholder_offsets).

(** The methods that [box_writer_map] holds. *)
Inductive WriterName :=
| W_av1c | W_colr | W_pixi | W_generic_container | W_ipma | W_iloc | W_stco
| W_hdlr | W_stsd | W_av01 | W_auxi | W_tkhd | W_ccst | W_ispe | W_clap
| W_ftyp | W_pitm.

Definition box_writer_map : gmap string WriterName :=
  list_to_map
    [ ("av1C", W_av1c); ("colr", W_colr); ("pixi", W_pixi);
      ("ipco", W_generic_container); ("ipma", W_ipma);
      ("iprp", W_generic_container); ("iloc", W_iloc);
      ("meta", W_generic_container); ("moov", W_generic_container);
      ("trak", W_generic_container); ("mdia", W_generic_container);
      ("minf", W_generic_container); ("stbl", W_generic_container);
      ("stco", W_stco); ("hdlr", W_hdlr); ("stsd", W_stsd); ("av01", W_av01);
      ("auxi", W_auxi); ("tkhd", W_tkhd); ("ccst", W_ccst); ("ispe", W_ispe);
      ("clap", W_clap); ("ftyp", W_ftyp); ("pitm", W_pitm) ]%string.

Definition call_writer
    (write_seq : option (list Box) -> Z -> Rd BoxWriterReturn)
    (w : WriterName) (box : Box) (current_offset : Z) : Rd BoxWriterReturn :=
  match w with
  | W_av1c => st_lift (write_av1c_box box)
  | W_colr => st_lift (write_colr_box box)
  | W_pixi => st_lift (write_pixi_box box)
  | W_generic_container => write_generic_container_box write_seq box current_offset
  | W_ipma => st_lift (write_ipma_box box)
  | W_iloc => st_lift (write_iloc_box box current_offset)
  | W_stco => st_lift (write_stco_box box current_offset)
  | W_hdlr => st_lift (write_hdlr_box box)
  | W_stsd => write_stsd_box write_seq box current_offset
  | W_av01 => write_av01_box write_seq box current_offset
  | W_auxi => st_lift (write_auxi_box box)
  | W_tkhd => st_lift (write_tkhd_box box)
  | W_ccst => st_lift (write_ccst_box box)
  | W_ispe => st_lift (write_ispe_box box)
  | W_clap => st_lift (write_clap_box box)
  | W_ftyp => st_lift (write_ftyp_box box)
  | W_pitm => st_lift (write_pitm_box box)
  end.

(** Serialising one child that needs rewriting, as [_write_box_sequence]
    does: the writer of its type, or the serialized body. *)
Fixpoint write_dirty_sub_box (sub_box : Box) (current_offset : Z) {struct sub_box}
  : Rd BoxWriterReturn :=
  match box_writer_map !! box_type sub_box with
  | Some w =>
      call_writer (write_box_sequence_with write_dirty_sub_box) w sub_box current_offset
  | None =>
      serialized <- st_lift (py_getitem (body sub_box) "serialized") ;;
      _ <- st_assert (py_truthy serialized) ;;
      st_lift (write_serialized_box sub_box)
  end.

(** [AVIFWriter._write_box_sequence]. *)
Definition write_box_sequence : option (list Box) -> Z -> Rd BoxWriterReturn :=
  write_box_sequence_with write_dirty_sub_box.

(* ===================================================================== *)
(** * The parsed file                                                     *)
(* ===================================================================== *)

(** [class ParsedFile].  In the Python object [ipma] and [ipco] are the very
    nodes of [boxes]; they are kept here as fields of their own, which the
    property operations below read and update. *)
Record ParsedFile := mkParsed {
  reader : FileReader;
  boxes : list Box;
  ipma : option Box;
  ipco : option Box;
}.

(** The first box of a type in a list, with its index. *)
Fixpoint find_box (ty : BoxType) (l : list Box) (i : nat) : option (nat * Box) :=
  match l with
  | [] => None
  | b :: rest =>
      if String.eqb (box_type b) ty then Some (i, b) else find_box ty rest (S i)
  end.

(** [get_box_from_hierarchy], returning the box together with the path of
    child indices that leads to it from the top level.  A missing
    [box_array] stands for the top-level boxes. *)
Fixpoint box_path_from_hierarchy (top : list Box) (box_hierarchy : list string)
    (prefix : list nat) (box_array : option (list Box))
  : result (option (list nat * Box)) :=
  let '(prefix, arr) :=
    match box_array with
    | None => ([], top)
    | Some a => (prefix, a)
    end in
  match box_hierarchy with
  | [] => match arr with [] => Ok None | _ => Raise IndexError end
  | h :: rest =>
      match find_box h arr 0 with
      | None => Ok None
      | Some (i, box) =>
          match rest with
          | [] => Ok (Some (prefix ++ [i], box))
          | _ => box_path_from_hierarchy top rest (prefix ++ [i]) (sub_boxes box)
          end
      end
  end.

Definition get_box_from_hierarchy (top : list Box) (box_hierarchy : list string)
    (box_array : option (list Box)) : result (option Box) :=
  found <~ box_path_from_hierarchy top box_hierarchy [] box_array ;;
  Ok (snd <$> found).

(** [Box.mark_for_rewrite] on the node at the end of [path]: the node and
    all the boxes above it are marked. *)
Fixpoint mark_path (path : list nat) (l : list Box) : list Box :=
  match path with
  | [] => l
  | i :: rest =>
      match l !! i with
      | None => l
      | Some b =>
          let b := set_sub_boxes (mark_path rest <$> sub_boxes b) b in
          <[i := set_needs_rewrite true b]> l
      end
  end.

Definition mark_found (found : option (list nat * Box)) (top : list Box) : list Box :=
  match found with
  | Some (path, _) => mark_path path top
  | None => top
  end.

(** The [for] loop of [mark_offset_boxes_for_rewrite] over the children of
    [moov], the [j]-th of which is at [moov_path ++ [j]]. *)
Fixpoint mark_stco_boxes (moov_path : list nat) (children : list Box) (j : nat)
    (top : list Box) : result (list Box) :=
  match children with
  | [] => Ok top
  | box :: rest =>
      if negb (String.eqb (box_type box) "trak") then
        mark_stco_boxes moov_path rest (S j) top
      else
        stco <~ box_path_from_hierarchy top ["mdia"; "minf"; "stbl"; "stco"]%string
                  (moov_path ++ [j]) (sub_boxes box) ;;
        mark_stco_boxes moov_path rest (S j) (mark_found stco top)
  end.

(** [ParsedFile.mark_offset_boxes_for_rewrite]. *)
Definition mark_offset_boxes_for_rewrite (top : list Box) : result (list Box) :=
  iloc <~ box_path_from_hierarchy top ["meta"; "iloc"]%string [] None ;;
  let top := mark_found iloc top in
  moov <~ box_path_from_hierarchy top ["moov"]%string [] None ;;
  match moov with
  | Some (moov_path, moov_box) =>
      match sub_boxes moov_box with
      | Some children => mark_stco_boxes moov_path children 0 top
      | None => Ok top
      end
  | None => Ok top
  end.

(** [ParsedFile.boxes_have_changed]. *)
Definition boxes_have_changed (top : list Box) : bool :=
  existsb needs_rewrite top.

(** [ParsedFile.__init__]. *)
Definition ParsedFile_init (depth : nat) (input : list byte) : result ParsedFile :=
  let r := mkReader input 0 in
  _ <~ py_assert (8 <? file_size r) ;;
  '(box_size, r) <~ read_integer_of_size (file_size r) 4 true r ;;
  _ <~ py_assert (8 <? box_size) ;;
  '(ty, r) <~ read_string (file_size r) 4 r ;;
  if negb (bool_decide (ty = Some "ftyp"%string)) then Raise SystemExit
  else
    '(_, r) <~ rewind r ;;
    '(bs, r) <~ parse_box_sequence (S depth) (file_size r) (MAP_TOP_LEVEL depth) None r ;;
    ipma_box <~ get_box_from_hierarchy bs ["meta"; "iprp"; "ipma"]%string None ;;
    ipco_box <~ get_box_from_hierarchy bs ["meta"; "iprp"; "ipco"]%string None ;;
    Ok (mkParsed r bs ipma_box ipco_box).

(* ===================================================================== *)
(** * AVIFWriter.write                                                    *)
(* ===================================================================== *)

(** The first loop of [write]: every top-level box is copied or rewritten;
    the placeholders and the new positions of the [mdat] boxes are
    collected.  [fuel] bounds the chunks of each copy. *)
Fixpoint write_top_boxes (fuel : nat) (top : list Box) (r : FileReader) (out : OutFile)
    (placeholder_offsets : list PlaceholderFileOffset) (mdat_boxes : list (Box * Z))
  : result (FileReader * OutFile * list PlaceholderFileOffset * list (Box * Z)) :=
  match top with
  | [] => Ok (r, out, placeholder_offsets, mdat_boxes)
  | box :: rest =>
      let mdat_boxes :=
        if String.eqb (box_type box) "mdat"
        then mdat_boxes ++ [(box, out_tell out)] else mdat_boxes in
      if negb (needs_rewrite box) then
        '(r, out) <~ copy_data_to_destination fuel (box_start box) (box_size box) r out ;;
        write_top_boxes fuel rest r out placeholder_offsets mdat_boxes
      else
        match box_writer_map !! box_type box with
        | None => Raise AssertionError
        | Some w =>
            '((box_data, cur_offsets), r) <~
              call_writer write_box_sequence w box (out_tell out) r ;;
            write_top_boxes fuel rest r (out_write box_data out)
                            (placeholder_offsets ++ cur_offsets) mdat_boxes
        end
  end.

(** [AVIFWriter.write]: the destination once everything is written and
    every placeholder is patched. *)
Definition write (fuel : nat) (parsed_file : ParsedFile) (output : OutFile)
  : result OutFile :=
  top <~ (if boxes_have_changed (boxes parsed_file)
          then mark_offset_boxes_for_rewrite (boxes parsed_file)
          else Ok (boxes parsed_file)) ;;
  '(_, out, placeholder_offsets, mdat_boxes) <~
    write_top_boxes fuel top (reader parsed_file) output [] [] ;;
  patch_placeholders mdat_boxes placeholder_offsets out.

(* ===================================================================== *)
(** * Issue fixers                                                        *)
(* ===================================================================== *)

(** [l.remove(x)]: the first occurrence of [x] goes. *)
Fixpoint py_remove {A} `{EqDecision A} (x : A) (l : list A) : result (list A) :=
  match l with
  | [] => Raise ValueError
  | y :: rest =>
      if decide (y = x) then Ok rest
      else rest <~ py_remove x rest ;; Ok (y :: rest)
  end.

(** The fixer [_fix_brand] that [_remove_brand_factory(ftyp, brand)]
    returns.  [ftyp] is a top-level box, so [mark_for_rewrite] stops at
    it. *)
Definition fix_brand (brand : string) (ftyp : Box) : result Box :=
  major <~ py_getitem (body ftyp) "major" ;;
  compatible <~ py_getitem (body ftyp) "compatible" ;;
  compatible <~ match compatible with
                | PyStrList l => Ok l
                | _ => Raise AttributeError
                end ;;
  bd <~ (if bool_decide (PyStr brand = major) then
           compatible <~ py_remove (Some "avif"%string) compatible ;;
           compatible <~ py_remove (Some brand) compatible ;;
           Ok (<["compatible"%string := PyStrList compatible]>
                 (<["major"%string := PyStr "avif"]> (body ftyp)))
         else
           compatible <~ py_remove (Some brand) compatible ;;
           Ok (<["compatible"%string := PyStrList compatible]> (body ftyp))) ;;
  Ok (set_needs_rewrite true (set_body bd ftyp)).

(** The fix on the [ftyp] box that [validate_profile_brands] looks up with
    [get_box_from_hierarchy(["ftyp"])]. *)
Definition remove_brand (brand : string) (parsed_file : ParsedFile) : result ParsedFile :=
  found <~ box_path_from_hierarchy (boxes parsed_file) ["ftyp"%string] [] None ;;
  match found with
  | Some ([i], ftyp) =>
      ftyp <~ fix_brand brand ftyp ;;
      Ok (mkParsed (reader parsed_file) (<[i := ftyp]> (boxes parsed_file))
                   (ipma parsed_file) (ipco parsed_file))
  | _ => Raise AssertionError
  end.

(* ===================================================================== *)
(** * The AV1 sequence header                                             *)
(* ===================================================================== *)

(** The fields of a sequence header, by name. *)
Abbreviation Parsed := (gmap string Z) (only parsing).

Definition truthy (v : Z) : bool := negb (v =? 0).

(** [parsed[key] = yield of m]. *)
Definition set_from (key : string) (m : Bd Z) (parsed : Parsed) : Bd Parsed :=
  v <- m ;; st_ret (<[key := v]> parsed).

Definition get (parsed : Parsed) (key : string) : Bd Z :=
  st_lift (py_getitem parsed key).

(** The key [name[i]] of an operating point. *)
Definition indexed (name : string) (i : nat) : string :=
  name +:+ "[" +:+ pretty i +:+ "]".

(** The [for] loop over the operating points, from [i] on, [n] to go. *)
Fixpoint operating_points (n : nat) (i : nat) (parsed : Parsed) : Bd Parsed :=
  match n with
  | O => st_ret parsed
  | S n' =>
      parsed <- set_from (indexed "operating_point_idc" i) (f 12) parsed ;;
      parsed <- set_from (indexed "seq_level_idx" i) (f 5) parsed ;;
      level <- get parsed (indexed "seq_level_idx" i) ;;
      parsed <- (if 7 <? level
                 then set_from (indexed "seq_tier" i) (f 1) parsed
                 else st_ret (<[indexed "seq_tier" i := 0]> parsed)) ;;
      let parsed := <[indexed "decoder_model_present_for_this_op" i := 0]> parsed in
      delay <- get parsed "initial_display_delay_present_flag" ;;
      parsed <- (if truthy delay then
                   parsed <- set_from (indexed "initial_display_delay_present_for_this_op" i)
                                      (f 1) parsed ;;
                   this_op <- get parsed (indexed "initial_display_delay_present_for_this_op" i) ;;
                   if truthy this_op
                   then set_from (indexed "initial_display_delay_minus_1" i) (f 4) parsed
                   else st_ret parsed
                 else st_ret parsed) ;;
      operating_points n' (S i) parsed
  end.

(** [_parse_av1_sequence_header_obu], up to [color_config()]. *)
Definition sequence_header_start : Bd Parsed :=
  let parsed : Parsed := ∅ in
  parsed <- set_from "seq_profile" (f 3) parsed ;;
  parsed <- set_from "still_picture" (f 1) parsed ;;
  parsed <- set_from "reduced_still_picture_header" (f 1) parsed ;;
  reduced <- get parsed "reduced_still_picture_header" ;;
  parsed <-
    (if truthy reduced then
       let parsed := <["timing_info_present_flag" := 0]> parsed in
       let parsed := <["decoder_model_info_present_flag" := 0]> parsed in
       let parsed := <["initial_display_delay_present_flag" := 0]> parsed in
       let parsed := <["operating_points_cnt_minus_1" := 0]> parsed in
       let parsed := <["operating_point_idc[0]" := 0]> parsed in
       parsed <- set_from "seq_level_idx[0]" (f 5) parsed ;;
       let parsed := <["seq_tier[0]" := 0]> parsed in
       let parsed := <["decoder_model_present_for_this_op[0]" := 0]> parsed in
       let parsed := <["initial_display_delay_present_for_this_op[0]" := 0]> parsed in
       st_ret parsed
     else
       parsed <- set_from "timing_info_present_flag" (f 1) parsed ;;
       timing <- get parsed "timing_info_present_flag" ;;
       _ <- st_assert (timing =? 0) ;;
       let parsed := <["decoder_model_info_present_flag" := 0]> parsed in
       parsed <- set_from "initial_display_delay_present_flag" (f 1) parsed ;;
       parsed <- set_from "operating_points_cnt_minus_1" (f 5) parsed ;;
       cnt <- get parsed "operating_points_cnt_minus_1" ;;
       operating_points (Z.to_nat (cnt + 1)) 0 parsed) ;;
  parsed <- set_from "frame_width_bits_minus_1" (f 4) parsed ;;
  parsed <- set_from "frame_height_bits_minus_1" (f 4) parsed ;;
  wbits <- get parsed "frame_width_bits_minus_1" ;;
  parsed <- set_from "max_frame_width_minus_1" (f (wbits + 1)) parsed ;;
  hbits <- get parsed "frame_height_bits_minus_1" ;;
  parsed <- set_from "max_frame_height_minus_1" (f (hbits + 1)) parsed ;;
  parsed <- (if truthy reduced
             then st_ret (<["frame_id_numbers_present_flag" := 0]> parsed)
             else set_from "frame_id_numbers_present_flag" (f 1) parsed) ;;
  frame_ids <- get parsed "frame_id_numbers_present_flag" ;;
  parsed <- (if truthy frame_ids then
               parsed <- set_from "delta_frame_id_length_minus_2" (f 4) parsed ;;
               set_from "additional_frame_id_length_minus_1" (f 3) parsed
             else st_ret parsed) ;;
  parsed <- set_from "use_128x128_superblock" (f 1) parsed ;;
  parsed <- set_from "enable_filter_intra" (f 1) parsed ;;
  parsed <- set_from "enable_intra_edge_filter" (f 1) parsed ;;
  parsed <-
    (if truthy reduced then
       let parsed := <["enable_interintra_compound" := 0]> parsed in
       let parsed := <["enable_masked_compound" := 0]> parsed in
       let parsed := <["enable_warped_motion" := 0]> parsed in
       let parsed := <["enable_dual_filter" := 0]> parsed in
       let parsed := <["enable_order_hint" := 0]> parsed in
       let parsed := <["enable_jnt_comp" := 0]> parsed in
       let parsed := <["enable_ref_frame_mvs" := 0]> parsed in
       let parsed := <["seq_force_screen_content_tools" := 2]> parsed in
       let parsed := <["seq_choose_integer_mv" := 2]> parsed in
       st_ret parsed
     else
       parsed <- set_from "enable_interintra_compound" (f 1) parsed ;;
       parsed <- set_from "enable_masked_compound" (f 1) parsed ;;
       parsed <- set_from "enable_warped_motion" (f 1) parsed ;;
       parsed <- set_from "enable_dual_filter" (f 1) parsed ;;
       parsed <- set_from "enable_order_hint" (f 1) parsed ;;
       order_hint <- get parsed "enable_order_hint" ;;
       parsed <- (if truthy order_hint then
                    parsed <- set_from "enable_jnt_comp" (f 1) parsed ;;
                    set_from "enable_ref_frame_mvs" (f 1) parsed
                  else
                    st_ret (<["enable_ref_frame_mvs" := 0]>
                              (<["enable_jnt_comp" := 0]> parsed))) ;;
       parsed <- set_from "seq_choose_screen_content_tools" (f 1) parsed ;;
       choose_sct <- get parsed "seq_choose_screen_content_tools" ;;
       parsed <- (if truthy choose_sct
                  then st_ret (<["seq_force_screen_content_tools" := 2]> parsed)
                  else set_from "seq_force_screen_content_tools" (f 1) parsed) ;;
       force_sct <- get parsed "seq_force_screen_content_tools" ;;
       parsed <- (if 0 <? force_sct then
                    parsed <- set_from "seq_choose_integer_mv" (f 1) parsed ;;
                    choose_mv <- get parsed "seq_choose_integer_mv" ;;
                    if truthy choose_mv
                    then st_ret (<["seq_force_integer_mv" := 2]> parsed)
                    else set_from "seq_force_integer_mv" (f 1) parsed
                  else st_ret (<["seq_force_integer_mv" := 2]> parsed)) ;;
       if truthy order_hint
       then set_from "order_hint_bits_minus_1" (f 3) parsed
       else st_ret parsed) ;;
  parsed <- set_from "enable_superres" (f 1) parsed ;;
  parsed <- set_from "enable_cdef" (f 1) parsed ;;
  set_from "enable_restoration" (f 1) parsed.

(** [color_config()], first part: bit depth, [mono_chrome] and the colour
    description. *)
Definition color_config_description (parsed : Parsed) : Bd Parsed :=
  parsed <- set_from "high_bitdepth" (f 1) parsed ;;
  seq_profile <- get parsed "seq_profile" ;;
  high_bitdepth <- get parsed "high_bitdepth" ;;
  '(parsed, bitdepth) <-
    (if (seq_profile =? 2) && truthy high_bitdepth then
       parsed <- set_from "twelve_bit" (f 1) parsed ;;
       twelve_bit <- get parsed "twelve_bit" ;;
       st_ret (parsed, Some (if truthy twelve_bit then 12 else 10))
     else if seq_profile <=? 2 then
       st_ret (parsed, Some (if truthy high_bitdepth then 10 else 8))
     else st_ret (parsed, None)) ;;
  bitdepth <- st_lift (match bitdepth with
                       | Some b => Ok b
                       | None => Raise UnboundLocalError
                       end) ;;
  let parsed := <["calculated_bitdepth" := bitdepth]> parsed in
  parsed <- (if negb (seq_profile =? 1)
             then set_from "mono_chrome" (f 1) parsed
             else st_ret (<["mono_chrome" := 0]> parsed)) ;;
  mono_chrome <- get parsed "mono_chrome" ;;
  let numplanes := if truthy mono_chrome then 1 else 3 in
  let parsed := <["calculated_numplanes" := numplanes]> parsed in
  parsed <- set_from "color_description_present_flag" (f 1) parsed ;;
  present <- get parsed "color_description_present_flag" ;;
  if truthy present then
    parsed <- set_from "color_primaries" (f 8) parsed ;;
    parsed <- set_from "transfer_characteristics" (f 8) parsed ;;
    set_from "matrix_coefficients" (f 8) parsed
  else
    st_ret (<["matrix_coefficients" := 2]>
              (<["transfer_characteristics" := 2]>
                 (<["color_primaries" := 2]> parsed))).

(** [color_config()], second part: the colour range, the chroma
    subsampling and the chroma sample position. *)
Definition color_config_range (parsed : Parsed) : Bd Parsed :=
  mono_chrome <- get parsed "mono_chrome" ;;
  if truthy mono_chrome then
    parsed <- set_from "color_range" (f 1) parsed ;;
    st_ret (<["chroma_sample_position" := 0]>
              (<["subsampling_y" := 1]> (<["subsampling_x" := 1]> parsed)))
  else
    color_primaries <- get parsed "color_primaries" ;;
    transfer_characteristics <-
      (if color_primaries =? 1 then get parsed "transfer_characteristics" else st_ret 0) ;;
    matrix_coefficients <-
      (if (color_primaries =? 1) && (transfer_characteristics =? 13)
       then get parsed "matrix_coefficients" else st_ret 0) ;;
    if (color_primaries =? 1) && (transfer_characteristics =? 13)
       && (matrix_coefficients =? 0) then
      st_ret (<["subsampling_y" := 0]>
                (<["subsampling_x" := 0]> (<["color_range" := 1]> parsed)))
    else
      parsed <- set_from "color_range" (f 1) parsed ;;
      seq_profile <- get parsed "seq_profile" ;;
      parsed <-
        (if seq_profile =? 0 then
           st_ret (<["subsampling_y" := 1]> (<["subsampling_x" := 1]> parsed))
         else if seq_profile =? 1 then
           st_ret (<["subsampling_y" := 0]> (<["subsampling_x" := 0]> parsed))
         else
           twelve_bit <- get parsed "twelve_bit" ;;
           if truthy twelve_bit then
             parsed <- set_from "subsampling_x" (f 1) parsed ;;
             subsampling_x <- get parsed "subsampling_x" ;;
             if truthy subsampling_x
             then set_from "subsampling_y" (f 1) parsed
             else st_ret (<["subsampling_y" := 0]> parsed)
           else
             st_ret (<["subsampling_y" := 0]> (<["subsampling_x" := 1]> parsed))) ;;
      subsampling_x <- get parsed "subsampling_x" ;;
      subsampling_y <- (if truthy subsampling_x then get parsed "subsampling_y" else st_ret 0) ;;
      if truthy subsampling_x && truthy subsampling_y
      then set_from "chroma_sample_position" (f 2) parsed
      else st_ret parsed.

(** The end of the sequence header, after the subsampling. *)
Definition sequence_header_end (parsed : Parsed) : Bd Parsed :=
  parsed <- set_from "separate_uv_delta_q" (f 1) parsed ;;
  set_from "film_grain_params_present" (f 1) parsed.

(** [AV1ElementaryStream._parse_av1_sequence_header_obu]. *)
Definition parse_av1_sequence_header_obu : Bd Parsed :=
  parsed <- sequence_header_start ;;
  parsed <- color_config_description parsed ;;
  parsed <- color_config_range parsed ;;
  sequence_header_end parsed.

(* ===================================================================== *)
(** * The AV1 elementary stream                                           *)
(* ===================================================================== *)

(** [l[a:b]]: a negative index counts from the end, and both are clamped
    to the list. *)
Definition py_slice {A} (l : list A) (a b : Z) : list A :=
  let n := len l in
  let clamp i := if i <? 0 then Z.max 0 (n + i) else Z.min i n in
  take (Z.to_nat (clamp b - clamp a)) (drop (Z.to_nat (clamp a)) l).

(** [BitReader.get_byte]. *)
Definition get_byte : Bd Z := fun self =>
  _ <~ py_assert (bit_pos self =? 0) ;;
  byte <~ py_index (bits_data self) (bits_pos self) ;;
  Ok (byte_to_Z byte, mkBits (bits_data self) (bits_pos self + 1) (bit_pos self)).

(** [BitReader.skip_bytes]. *)
Definition skip_bytes (num : Z) : Bd unit := fun self =>
  _ <~ py_assert (bit_pos self =? 0) ;;
  Ok (tt, mkBits (bits_data self) (bits_pos self + num) (bit_pos self)).

(** [BitReader.eof]. *)
Definition eof : Bd bool := fun self =>
  Ok (len (bits_data self) =? bits_pos self, self).

(** [BitReader.get_bytes]: [num_bytes == 0] means all that is left. *)
Definition get_bytes (num_bytes : Z) : Bd (list byte) := fun self =>
  _ <~ py_assert (bit_pos self =? 0) ;;
  let pos := bits_pos self in
  num_bytes <~ (if num_bytes =? 0 then Ok (len (bits_data self) - pos)
                else
                  _ <~ py_assert (bits_pos self + num_bytes <=? len (bits_data self)) ;;
                  Ok num_bytes) ;;
  Ok (py_slice (bits_data self) pos (pos + num_bytes),
      mkBits (bits_data self) (bits_pos self + num_bytes) (bit_pos self)).

(** [BitReader.bit_reader_for_bytes]. *)
Definition sub_reader_for_bytes (num_bytes : Z) : Bd BitReader :=
  data <- get_bytes num_bytes ;;
  st_ret (BitReader_init data).

(** The loop of [read_leb128_value]: [n] turns to go, the next one with
    the index [i]. *)
Fixpoint read_leb128_loop (n : nat) (i : Z) (value : Z) : Bd Z :=
  match n with
  | O => st_ret value
  | S n' =>
      byte <- get_byte ;;
      let value := Z.lor value (Z.shiftl (Z.land byte 127) (i * 7)) in
      if Z.land byte 128 =? 0 then st_ret value
      else read_leb128_loop n' (i + 1) value
  end.

(** [BitReader.read_leb128_value]. *)
Definition read_leb128_value : Bd Z := read_leb128_loop 8 0 0.

(** An entry of [obu_list]. *)
Record OBU := mkOBU {
  obu_description : string;
  obu_header : gmap string Z;
  obu_body : gmap string Z;
}.

Abbreviation OBUParser := (St BitReader (gmap string Z)) (only parsing).

(** [obu_map] of [_parse_obus]. *)
Definition obu_map : gmap Z (option OBUParser * string) :=
  list_to_map
    [ (1, (Some parse_av1_sequence_header_obu, "OBU_SEQUENCE_HEADER"%string));
      (2, (None, "OBU_TEMPORAL_DELIMITER"%string));
      (3, (None, "OBU_FRAME_HEADER"%string));
      (4, (None, "OBU_TILE_GROUP"%string));
      (5, (None, "OBU_METADATA"%string));
      (6, (None, "OBU_FRAME"%string));
      (7, (None, "OBU_REDUNDANT_FRAME_HEADER"%string));
      (8, (None, "OBU_TILE_LIST"%string));
      (15, (None, "OBU_PADDING"%string)) ].

(** [_read_obu_header]. *)
Definition read_obu_header : Bd (gmap string Z) :=
  header <- set_from "forbidden_bit" (f 1) ∅ ;;
  header <- set_from "type" (f 4) header ;;
  header <- set_from "extension_flag" (f 1) header ;;
  header <- set_from "has_size_field" (f 1) header ;;
  header <- set_from "reserved_1bit" (f 1) header ;;
  extension_flag <- get header "extension_flag" ;;
  if negb (extension_flag =? 0) then
    header <- set_from "temporal_id" (f 3) header ;;
    header <- set_from "spatial_id" (f 2) header ;;
    set_from "extension_reserved_3bits" (f 3) header
  else st_ret header.

(** The [while] loop of [_parse_obus].  Every turn that does not raise
    moves the reader forward by two bytes at least, so one turn for each
    byte of the data is enough. *)
Fixpoint parse_obus_loop (fuel : nat) (obu_list : list OBU) : Bd (list OBU) :=
  at_end <- eof ;;
  if at_end : bool then st_ret obu_list
  else
    match fuel with
    | O => fun _ => OutOfFuel
    | S fuel' =>
        header <- read_obu_header ;;
        has_size_field <- get header "has_size_field" ;;
        _ <- st_assert (negb (has_size_field =? 0)) ;;
        obu_size <- read_leb128_value ;;
        ty <- get header "type" ;;
        let '(parse_function, description) :=
          match obu_map !! ty with
          | Some entry => entry
          | None => (None, "Unknown OBU"%string)
          end in
        body <- match parse_function with
                | Some parse =>
                    sub <- sub_reader_for_bytes obu_size ;;
                    st_lift ('(body, _) <~ parse sub ;; Ok body)
                | None =>
                    _ <- skip_bytes obu_size ;;
                    st_ret ∅
                end ;;
        parse_obus_loop fuel' (obu_list ++ [mkOBU description header body])
    end.

(** [AV1ElementaryStream._parse_obus], for the list it stores. *)
Definition parse_obus (data : list byte) : result (list OBU) :=
  '(obu_list, _) <~ parse_obus_loop (length data) [] (BitReader_init data) ;;
  Ok obu_list.

(** [AV1ElementaryStream.get_sequence_header_obu]. *)
Definition get_sequence_header_obu (data : list byte) : result (option OBU) :=
  obu_list <~ parse_obus data ;;
  Ok (List.find (fun obu => String.eqb (obu_description obu) "OBU_SEQUENCE_HEADER")
                obu_list).

(** [AV1ElementaryStream.generate_av1c_from_sequence_header]. *)
Definition generate_av1c_from_sequence_header (data : list byte) : result BoxBody :=
  sequence_header_obu <~ get_sequence_header_obu data ;;
  match sequence_header_obu with
  | None => Raise AssertionError
  | Some obu =>
      let sh_body := obu_body obu in
      seq_profile <~ py_getitem sh_body "seq_profile" ;;
      seq_level_idx_0 <~ py_getitem sh_body "seq_level_idx[0]" ;;
      seq_tier_0 <~ py_getitem sh_body "seq_tier[0]" ;;
      high_bitdepth <~ py_getitem sh_body "high_bitdepth" ;;
      let twelve_bit := default 0 (sh_body !! "twelve_bit"%string) in
      monochrome <~ py_getitem sh_body "mono_chrome" ;;
      chroma_subsampling_x <~ py_getitem sh_body "subsampling_x" ;;
      chroma_subsampling_y <~ py_getitem sh_body "subsampling_y" ;;
      let chroma_sample_position :=
        default 0 (sh_body !! "chroma_sample_position"%string) in
      delay <~ py_getitem sh_body "initial_display_delay_present_flag" ;;
      _ <~ py_assert (delay =? 0) ;;
      Ok (list_to_map
            [ ("marker", PyInt 1); ("version", PyInt 1);
              ("seq_profile", PyInt seq_profile);
              ("seq_level_idx_0", PyInt seq_level_idx_0);
              ("seq_tier_0", PyInt seq_tier_0);
              ("high_bitdepth", PyInt high_bitdepth);
              ("twelve_bit", PyInt twelve_bit);
              ("monochrome", PyInt monochrome);
              ("chroma_subsampling_x", PyInt chroma_subsampling_x);
              ("chroma_subsampling_y", PyInt chroma_subsampling_y);
              ("chroma_sample_position", PyInt chroma_sample_position);
              ("initial_presentation_delay_present", PyInt 0) ]%string)
  end.

(** [AV1ElementaryStream.generate_nclx_from_sequence_header]. *)
Definition generate_nclx_from_sequence_header (data : list byte) : result BoxBody :=
  sequence_header_obu <~ get_sequence_header_obu data ;;
  match sequence_header_obu with
  | None => Raise AssertionError
  | Some obu =>
      let sh_body := obu_body obu in
      color_primaries <~ py_getitem sh_body "color_primaries" ;;
      transfer_characteristics <~ py_getitem sh_body "transfer_characteristics" ;;
      matrix_coefficients <~ py_getitem sh_body "matrix_coefficients" ;;
      color_range <~ py_getitem sh_body "color_range" ;;
      Ok (list_to_map
            [ ("type", PyStr "nclx");
              ("color_primaries", PyInt color_primaries);
              ("transfer_characteristics", PyInt transfer_characteristics);
              ("matrix_coefficients", PyInt matrix_coefficients);
              ("full_range_flag", PyInt color_range) ]%string)
  end.

(** [AV1ElementaryStream.generate_ispe_from_sequence_header]. *)
Definition generate_ispe_from_sequence_header (data : list byte) : result BoxBody :=
  sequence_header_obu <~ get_sequence_header_obu data ;;
  match sequence_header_obu with
  | None => Raise AssertionError
  | Some obu =>
      let sh_body := obu_body obu in
      width <~ py_getitem sh_body "max_frame_width_minus_1" ;;
      height <~ py_getitem sh_body "max_frame_height_minus_1" ;;
      Ok (list_to_map [ ("width", PyInt (width + 1)); ("height", PyInt (height + 1)) ]%string)
  end.

(** [AV1ElementaryStream.generate_pixi_from_sequence_header]. *)
Definition generate_pixi_from_sequence_header (data : list byte) : result BoxBody :=
  sequence_header_obu <~ get_sequence_header_obu data ;;
  match sequence_header_obu with
  | None => Raise AssertionError
  | Some obu =>
      let sh_body := obu_body obu in
      bitdepth <~ py_getitem sh_body "calculated_bitdepth" ;;
      numplanes <~ py_getitem sh_body "calculated_numplanes" ;;
      Ok ({[ "bits_per_channel"%string :=
               PyIntList (replicate (Z.to_nat numplanes) bitdepth) ]})
  end.

(* ===================================================================== *)
(** * The item-property graph                                             *)
(* ===================================================================== *)

Abbreviation Associations := (gmap Z (list (Z * bool))) (only parsing).

(** [box.body["associations"]] of an [ipma] box. *)
Definition associations_of (ipma_box : Box) : result Associations :=
  v <~ py_getitem (body ipma_box) "associations" ;;
  match v with
  | PyAssoc m => Ok m
  | _ => Raise TypeError
  end.

Definition set_associations (m : Associations) (ipma_box : Box) : Box :=
  set_body (<["associations"%string := PyAssoc m]> (body ipma_box)) ipma_box.

(** The two boxes and the children of [ipco] that every property method
    asks for first; [None] is the early return. *)
Definition property_boxes (self : ParsedFile) : option (Box * Box * list Box) :=
  match ipma self, ipco self with
  | Some ipma_box, Some ipco_box =>
      match sub_boxes ipco_box with
      | Some props => Some (ipma_box, ipco_box, props)
      | None => None
      end
  | _, _ => None
  end.

Definition set_ipma (b : Box) (self : ParsedFile) : ParsedFile :=
  mkParsed (reader self) (boxes self) (Some b) (ipco self).

Definition set_ipco (b : Box) (self : ParsedFile) : ParsedFile :=
  mkParsed (reader self) (boxes self) (ipma self) (Some b).

(** The loop of [get_item_properties_for_item]. *)
Fixpoint collect_properties (props : list Box) (associations : list (Z * bool))
  : result (list (Box * bool)) :=
  match associations with
  | [] => Ok []
  | (property_index, essential) :: rest =>
      _ <~ py_assert ((1 <=? property_index) && (property_index <=? len props + 1)) ;;
      property_box <~ py_index props (property_index - 1) ;;
      properties <~ collect_properties props rest ;;
      Ok ((property_box, essential) :: properties)
  end.

(** [ParsedFile.get_item_properties_for_item]. *)
Definition get_item_properties_for_item (self : ParsedFile) (item_id : Z)
  : result (list (Box * bool)) :=
  match property_boxes self with
  | None => Ok []
  | Some (ipma_box, _, props) =>
      m <~ associations_of ipma_box ;;
      collect_properties props (default [] (m !! item_id))
  end.

(** The loop of [get_existing_property_if_present], from index [i]. *)
Fixpoint find_property (property_type : BoxType) (property_header : option BoxHeader)
    (property_body : option BoxBody) (props : list Box) (i : Z) : Z :=
  match props with
  | [] => -1
  | box :: rest =>
      if String.eqb (box_type box) property_type
         && bool_decide (Some (header box) = property_header)
         && bool_decide (Some (body box) = property_body)
      then i
      else find_property property_type property_header property_body rest (i + 1)
  end.

(** [ParsedFile.get_existing_property_if_present]. *)
Definition get_existing_property_if_present (self : ParsedFile)
    (property_type : BoxType) (property_header : option BoxHeader)
    (property_body : option BoxBody) : Z :=
  match ipco self with
  | Some ipco_box =>
      match sub_boxes ipco_box with
      | Some props => find_property property_type property_header property_body props 0
      | None => -1
      end
  | None => -1
  end.

(** The search loop of [add_property_association]: the position and the
    essential flag of the first association to [ipco_index], if any. *)
Fixpoint find_association (nprops : Z) (ipco_index : Z)
    (associations : list (Z * bool)) (cur_index : Z) : result (option (Z * bool)) :=
  match associations with
  | [] => Ok None
  | (property_index, cur_essential) :: rest =>
      _ <~ py_assert ((1 <=? property_index) && (property_index <=? nprops)) ;;
      if ipco_index =? property_index - 1 then Ok (Some (cur_index, cur_essential))
      else find_association nprops ipco_index rest (cur_index + 1)
  end.

(** [ParsedFile.add_property_association]. *)
Definition add_property_association (self : ParsedFile) (item_id ipco_index : Z)
    (essential : bool) (position : option Z) : result ParsedFile :=
  match property_boxes self with
  | None => Ok self
  | Some (ipma_box, _, props) =>
      m <~ associations_of ipma_box ;;
      let associations := default [] (m !! item_id) in
      found <~ find_association (len props) ipco_index associations 0 ;;
      match found with
      | None =>
          let current := default [] (m !! item_id) in
          let val := (ipco_index + 1, essential) in
          let position := match position with
                          | Some p => p
                          | None => len current
                          end in
          let m := <[item_id := py_insert current position val]> m in
          Ok (set_ipma (set_needs_rewrite true (set_associations m ipma_box)) self)
      | Some (association_index, existing_association_essential) =>
          if essential && negb existing_association_essential then
            current <~ match m !! item_id with
                       | Some l => Ok l
                       | None => Raise KeyError
                       end ;;
            updated <~ py_setitem current association_index (ipco_index + 1, essential) ;;
            let m := <[item_id := updated]> m in
            Ok (set_ipma (set_needs_rewrite true (set_associations m ipma_box)) self)
          else Ok self
      end
  end.

(** [_should_keep] of [remove_property_associations]. *)
Definition should_keep (props : list Box) (property_type : BoxType)
    (hd : option BoxHeader) (bd : option BoxBody) (prop_index : Z) : result bool :=
  _ <~ py_assert (Nat.ltb 0 (length props)) ;;
  _ <~ py_assert ((1 <=? prop_index) && (prop_index <=? len props)) ;;
  box <~ py_index props (prop_index - 1) ;;
  let keep := negb (String.eqb (box_type box) property_type) in
  let keep := match hd with
              | Some h => keep || negb (bool_decide (header box = h))
              | None => keep
              end in
  let keep := match bd with
              | Some b => keep || negb (bool_decide (body box = b))
              | None => keep
              end in
  Ok keep.

(** The filtering loop of [remove_property_associations]. *)
Fixpoint filter_associations (props : list Box) (property_type : BoxType)
    (hd : option BoxHeader) (bd : option BoxBody)
    (associations : list (Z * bool)) (position : Z)
    (filtered : list (Z * bool)) (first_removed : option Z * bool)
  : result (list (Z * bool) * (option Z * bool)) :=
  match associations with
  | [] => Ok (filtered, first_removed)
  | (prop_index, essential) :: rest =>
      keep <~ should_keep props property_type hd bd prop_index ;;
      if keep : bool then
        filter_associations props property_type hd bd rest (position + 1)
                            (filtered ++ [(prop_index, essential)]) first_removed
      else
        filter_associations props property_type hd bd rest (position + 1) filtered
          (match fst first_removed with
           | None => (Some position, essential)
           | Some _ => first_removed
           end)
  end.

(** [ParsedFile.remove_property_associations]. *)
Definition remove_property_associations (self : ParsedFile) (item_id : Z)
    (property_type : BoxType) (hd : option BoxHeader) (bd : option BoxBody)
  : result (ParsedFile * (option Z * bool)) :=
  match property_boxes self with
  | None => Ok (self, (None, true))
  | Some (ipma_box, _, props) =>
      m <~ associations_of ipma_box ;;
      let associations := default [] (m !! item_id) in
      '(filtered_associations, first_removed_assoc) <~
        filter_associations props property_type hd bd associations 0 [] (None, true) ;;
      if negb (bool_decide (associations = filtered_associations)) then
        let m := <[item_id := filtered_associations]> m in
        Ok (set_ipma (set_needs_rewrite true (set_associations m ipma_box)) self,
            first_removed_assoc)
      else Ok (self, (None, true))
  end.

(** The counting loop of [drop_unused_item_properties] over one
    association list: [prop_assoc_count[prop_index - 1] += 1]. *)
Fixpoint count_associations (associations : list (Z * bool)) (prop_assoc_count : list Z)
  : result (list Z) :=
  match associations with
  | [] => Ok prop_assoc_count
  | (prop_index, _) :: rest =>
      c <~ py_index prop_assoc_count (prop_index - 1) ;;
      prop_assoc_count <~ py_setitem prop_assoc_count (prop_index - 1) (c + 1) ;;
      count_associations rest prop_assoc_count
  end.

(** The same over the association lists of all the items. *)
Fixpoint count_all (lists : list (list (Z * bool))) (prop_assoc_count : list Z)
  : result (list Z) :=
  match lists with
  | [] => Ok prop_assoc_count
  | associations :: rest =>
      prop_assoc_count <~ count_associations associations prop_assoc_count ;;
      count_all rest prop_assoc_count
  end.

(** [list(accumulate(l))]: the running sums. *)
Fixpoint accumulate_from (acc : Z) (l : list Z) : list Z :=
  match l with
  | [] => []
  | x :: rest => (acc + x) :: accumulate_from (acc + x) rest
  end.

Definition accumulate (l : list Z) : list Z := accumulate_from 0 l.

(** The re-indexing loop over one association list. *)
Fixpoint decrement_associations (decrement_count : list Z) (associations : list (Z * bool))
  : result (list (Z * bool)) :=
  match associations with
  | [] => Ok []
  | (prop_index, essential) :: rest =>
      d <~ py_index decrement_count (prop_index - 1) ;;
      rest <~ decrement_associations decrement_count rest ;;
      Ok ((prop_index - d, essential) :: rest)
  end.

(** The same over the dictionary.  Every item has a list of its own, so
    the lists are updated independently. *)
Fixpoint decrement_all (decrement_count : list Z) (items : list (Z * list (Z * bool)))
  : result Associations :=
  match items with
  | [] => Ok ∅
  | (item_id, associations) :: rest =>
      associations <~ decrement_associations decrement_count associations ;;
      m <~ decrement_all decrement_count rest ;;
      Ok (<[item_id := associations]> m)
  end.

(** [[box for index, box in enumerate(props) if props_to_drop[index] == 0]]. *)
Fixpoint keep_properties (props : list Box) (props_to_drop : list Z) : result (list Box) :=
  match props with
  | [] => Ok []
  | box :: rest =>
      match props_to_drop with
      | [] => Raise IndexError
      | d :: ds =>
          kept <~ keep_properties rest ds ;;
          Ok (if d =? 0 then box :: kept else kept)
      end
  end.

(** [ParsedFile.drop_unused_item_properties]. *)
Definition drop_unused_item_properties (self : ParsedFile) : result ParsedFile :=
  match property_boxes self with
  | None => Ok self
  | Some (ipma_box, ipco_box, props) =>
      m <~ associations_of ipma_box ;;
      prop_assoc_count <~
        count_all (snd <$> map_to_list m) (replicate (length props) 0) ;;
      if forallb (fun c => negb (c =? 0)) prop_assoc_count then Ok self
      else
        let props_to_drop := map (fun v => if 0 <? v then 0 else 1) prop_assoc_count in
        let decrement_count := accumulate props_to_drop in
        m <~ decrement_all decrement_count (map_to_list m) ;;
        kept <~ keep_properties props props_to_drop ;;
        let ipma_box := set_associations m ipma_box in
        let ipco_box := set_needs_rewrite true (set_sub_boxes (Some kept) ipco_box) in
        Ok (set_ipco ipco_box (set_ipma ipma_box self))
  end.

(** [ParsedFile._add_property_if_needed].  The new box is marked for
    rewriting, and with it its parent [ipco]. *)
Definition add_property_if_needed (self : ParsedFile) (property_type : BoxType)
    (hd : BoxHeader) (bd : BoxBody) : ParsedFile * Z :=
  match property_boxes self with
  | None => (self, -1)
  | Some (_, ipco_box, props) =>
      let existing_box_index :=
        get_existing_property_if_present self property_type (Some hd) (Some bd) in
      if existing_box_index =? -1 then
        let box := set_needs_rewrite true
                     (set_body bd (set_header hd (Box_init property_type 0 0))) in
        let ipco_box :=
          set_needs_rewrite true (set_sub_boxes (Some (props ++ [box])) ipco_box) in
        (set_ipco ipco_box self, len props)
      else (self, existing_box_index)
  end.

(** [ParsedFile.replace_property_for_item]. *)
Definition replace_property_for_item (self : ParsedFile) (property_type : BoxType)
    (hd : BoxHeader) (bd : BoxBody) (item_id : Z)
    (old_header : option BoxHeader) (old_body : option BoxBody) : result ParsedFile :=
  let '(self, box_index) := add_property_if_needed self property_type hd bd in
  '(self, (position, essential)) <~
    remove_property_associations self item_id property_type old_header old_body ;;
  self <~ add_property_association self item_id box_index essential position ;;
  drop_unused_item_properties self.

(** [ParsedFile.add_property_for_item]. *)
Definition add_property_for_item (self : ParsedFile) (property_type : BoxType)
    (hd : BoxHeader) (bd : BoxBody) (item_id : Z) (essential : bool)
    (position : option Z) : result ParsedFile :=
  let '(self, box_index) := add_property_if_needed self property_type hd bd in
  add_property_association self item_id box_index essential position.

(* ===================================================================== *)
(** * Sample inputs                                                       *)
(* ===================================================================== *)

Definition u32 (n : Z) : list byte := be_bytes 4 n.

(** A 32-byte file: an [ftyp] box of 16 bytes, then an [mdat] box whose
    size field is 0 and which holds 8 bytes of payload. *)
Definition size_zero_file : list byte :=
  u32 16 ++ encode "ftyp" ++ encode "avif" ++ u32 0
  ++ u32 0 ++ encode "mdat" ++ replicate 8 "*"%byte.

(** The same file with the size of the [mdat] box written out. *)
Definition explicit_size_file : list byte :=
  u32 16 ++ encode "ftyp" ++ encode "avif" ++ u32 0
  ++ u32 16 ++ encode "mdat" ++ replicate 8 "*"%byte.

(** An [stsd] box that announces two entries and holds one child. *)
Definition short_stsd : list byte :=
  u32 24 ++ encode "stsd" ++ u32 0 ++ u32 2
  ++ u32 8 ++ encode "mp4a".

(** A property graph with one property in [ipco] and, for item 1, an
    association to property index 2. *)
Definition ispe_box : Box :=
  set_body {[ "width"%string := PyInt 4; "height"%string := PyInt 4 ]}
    (set_header {[ "version"%string := 0; "flags"%string := 0 ]} (Box_init "ispe" 20 100)).

Definition ipma_with (m : Associations) : Box :=
  set_associations m
    (set_header {[ "version"%string := 0; "flags"%string := 0 ]} (Box_init "ipma" 0 0)).

Definition ipco_with (props : list Box) : Box :=
  set_sub_boxes (Some props) (Box_init "ipco" 0 0).

Definition graph (m : Associations) (props : list Box) : ParsedFile :=
  mkParsed (mkReader [] 0) [] (Some (ipma_with m)) (Some (ipco_with props)).

Definition index_past_end : ParsedFile := graph {[ 1 := [(2, false)] ]} [ispe_box].

(** A reduced still-picture sequence header, 64 bits: profile 0, level 0,
    8x8 pixels, 8 bits, [mono_chrome = 0], a colour description with
    primaries 1, transfer 13 and matrix 0, then [separate_uv_delta_q = 0],
    [film_grain_params_present = 0] and three bits of padding. *)
Definition shortcut_header : list byte :=
  map byte_of_Z [24; 12; 221; 192; 32; 33; 160; 4].

(** An elementary stream of two OBUs: a temporal delimiter with an empty
    body, and the sequence header [shortcut_header]. *)
Definition sample_stream : list byte := [x12; x00; x0a; x08] ++ shortcut_header.

(** A [clap] box that crops to 6x4 pixels, one pixel off the centre to the
    left. *)
Definition clap_box : Box :=
  set_body {[ "width"%string := PyIntList [6; 1]; "height"%string := PyIntList [4; 1];
              "h_offset"%string := PyIntList [-1; 1];
              "v_offset"%string := PyIntList [0; 1] ]}
    (Box_init "clap" 40 155).

(** A [pitm] box of version 0 for the item 1. *)
Definition pitm_box : Box :=
  set_body {[ "item_id"%string := PyInt 1 ]}
    (set_header {[ "version"%string := 0; "flags"%string := 0 ]} (Box_init "pitm" 14 40)).

(** An [av1C] box for the main profile at level 2.0, eight bits, 4:2:0. *)
Definition av1c_box : Box :=
  set_body (list_to_map
              [ ("marker", PyInt 1); ("version", PyInt 1); ("seq_profile", PyInt 0);
                ("seq_level_idx_0", PyInt 0); ("seq_tier_0", PyInt 0);
                ("high_bitdepth", PyInt 0); ("twelve_bit", PyInt 0);
                ("monochrome", PyInt 0); ("chroma_subsampling_x", PyInt 1);
                ("chroma_subsampling_y", PyInt 1); ("chroma_sample_position", PyInt 0);
                ("initial_presentation_delay_present", PyInt 0) ]%string)
    (Box_init "av1C" 12 195).

Definition pixi_box : Box :=
  set_body {[ "bits_per_channel"%string := PyIntList [8; 8; 8] ]}
    (set_header {[ "version"%string := 0; "flags"%string := 0 ]} (Box_init "pixi" 16 120)).

Definition colr_box : Box :=
  set_body {[ "type"%string := PyStr "nclx"; "color_primaries"%string := PyInt 1;
              "transfer_characteristics"%string := PyInt 13;
              "matrix_coefficients"%string := PyInt 6;
              "full_range_flag"%string := PyInt 1 ]}
    (Box_init "colr" 19 136).

(** Two properties; item 1 is associated with the first one only. *)
Definition two_properties : ParsedFile :=
  graph {[ 1 := [(1, true)] ]} [ispe_box; pixi_box].

(** Three properties; the second one has no association. *)
Definition unused_second : ParsedFile :=
  graph {[ 1 := [(1, true); (3, false)]; 2 := [(3, true)] ]} [ispe_box; pixi_box; colr_box].

(** A file with [ftyp] at 0, [meta] at 24 and [mdat] at 66.  The [iloc]
    box of [meta] has one item with one extent, of offset 20 and length 8:
    the offset lies in [ftyp] and in no [mdat]. *)
Definition stray_offset_file : list byte :=
  u32 24 ++ encode "ftyp" ++ encode "avif" ++ u32 0 ++ encode "avif" ++ encode "MA1B"
  ++ u32 42 ++ encode "meta" ++ u32 0
  ++ u32 30 ++ encode "iloc" ++ u32 0
  ++ be_bytes 1 68 ++ be_bytes 1 0 ++ be_bytes 2 1
  ++ be_bytes 2 1 ++ be_bytes 2 0 ++ be_bytes 2 1 ++ u32 20 ++ u32 8
  ++ u32 16 ++ encode "mdat" ++ replicate 8 "*"%byte.

(** What [ParsedFile] makes of [size_zero_file]: the [mdat] box, which
    starts at 16, gets the size 32 and the end 48. *)
Definition size_zero_parsed : ParsedFile :=
  mkParsed (mkReader size_zero_file 48)
           [set_body {[ "major"%string := PyStr "avif"; "version"%string := PyInt 0;
                        "compatible"%string := PyStrList [] ]}
                     (Box_init "ftyp" 16 0);
            Box_init "mdat" 32 16]
           None None.

(** What [ParsedFile] makes of [explicit_size_file]. *)
Definition explicit_size_parsed : ParsedFile :=
  mkParsed (mkReader explicit_size_file 32)
           [set_body {[ "major"%string := PyStr "avif"; "version"%string := PyInt 0;
                        "compatible"%string := PyStrList [] ]}
                     (Box_init "ftyp" 16 0);
            Box_init "mdat" 16 16]
           None None.

(** A file whose [ipco] holds the same [ispe] property twice; item 1 has
    two associations, to the property indices [first] and [second]. *)
Definition ispe_pair_file (first second : Z) : list byte :=
  u32 16 ++ encode "ftyp" ++ encode "avif" ++ u32 0
  ++ u32 89 ++ encode "meta" ++ u32 0
  ++ u32 77 ++ encode "iprp"
  ++ u32 48 ++ encode "ipco"
  ++ u32 20 ++ encode "ispe" ++ u32 0 ++ u32 4 ++ u32 4
  ++ u32 20 ++ encode "ispe" ++ u32 0 ++ u32 4 ++ u32 4
  ++ u32 21 ++ encode "ipma" ++ u32 0 ++ u32 1
  ++ be_bytes 2 1 ++ be_bytes 1 2 ++ be_bytes 1 first ++ be_bytes 1 second.

Definition twin_ispe_file : list byte := ispe_pair_file 1 2.

(** What the parser makes of one of its [ispe] boxes. *)
Definition parsed_ispe (start : Z) : Box :=
  set_body {[ "width"%string := PyInt 4; "height"%string := PyInt 4 ]}
    (set_header {[ "version"%string := 0; "flags"%string := 0 ]}
       (Box_init "ispe" 20 start)).

(** An [stco] box with two chunk offsets, marked for rewriting. *)
Definition stco_box : Box :=
  set_needs_rewrite true
    (set_body {[ "entries"%string := PyIntList [100; 200] ]}
       (set_header {[ "version"%string := 0; "flags"%string := 0 ]}
          (Box_init "stco" 24 50))).

(** An [ftyp] box with the major brand [avif] and three compatible
    brands. *)
Definition ftyp_box : Box :=
  set_body {[ "major"%string := PyStr "avif"; "version"%string := PyInt 0;
              "compatible"%string :=
                PyStrList [Some "avif"; Some "MA1B"; Some "mif1"]%string ]}
    (Box_init "ftyp" 28 0).

(** A [meta] box with an [iloc] child, then a [moov] box with one [trak]
    that has no children. *)
Definition offsets_tree : list Box :=
  [set_sub_boxes (Some [Box_init "hdlr" 12 12; Box_init "iloc" 16 24]) (Box_init "meta" 40 0);
   set_sub_boxes (Some [Box_init "trak" 8 48]) (Box_init "moov" 16 40)].

(** A file whose [ipco] holds an [ispe] and a [pixi] box and whose [ipma]
    associates item 1 with the property index 0 and nothing else. *)
Definition zero_index_file : list byte :=
  u32 16 ++ encode "ftyp" ++ encode "avif" ++ u32 0
  ++ u32 84 ++ encode "meta" ++ u32 0
  ++ u32 72 ++ encode "iprp"
  ++ u32 44 ++ encode "ipco"
  ++ u32 20 ++ encode "ispe" ++ u32 0 ++ u32 4 ++ u32 4
  ++ u32 16 ++ encode "pixi" ++ u32 0 ++ be_bytes 1 3 ++ be_bytes 1 8 ++ be_bytes 1 8
  ++ be_bytes 1 8
  ++ u32 20 ++ encode "ipma" ++ u32 0 ++ u32 1
  ++ be_bytes 2 1 ++ be_bytes 1 1 ++ be_bytes 1 0.


(* ===================================================================== *)
(** * Vocabulary of the statements                                        *)
(* ===================================================================== *)

(** The association list that the property methods see for an item:
    [self.ipma.body["associations"].get(item_id, [])]. *)
Definition associations_for (self : ParsedFile) (item_id : Z) : option (list (Z * bool)) :=
  match ipma self with
  | Some ipma_box =>
      match associations_of ipma_box with
      | Ok m => Some (default [] (m !! item_id))
      | _ => None
      end
  | None => None
  end.

(** The children of [ipco]. *)
Definition properties_of (self : ParsedFile) : option (list Box) :=
  match ipco self with
  | Some ipco_box => sub_boxes ipco_box
  | None => None
  end.

(** Every property index of the list is between 1 and [nprops]: the
    invariant of the data model. *)
Definition indices_within (nprops : Z) (l : list (Z * bool)) : Prop :=
  Forall (fun a => 1 <= a.1 <= nprops) l.

(** The first association of a list to the property at [ipco_index], with
    its position. *)
Definition first_association (ipco_index : Z) (l : list (Z * bool))
  : option (nat * (Z * bool)) :=
  list_find (fun a => a.1 = ipco_index + 1) l.


(** Structural equality of a property box with [(type, header, body)]. *)
Definition same_property (ty : BoxType) (hd : BoxHeader) (bd : BoxBody) (box : Box) : Prop :=
  box_type box = ty /\ header box = hd /\ body box = bd.

(** The triple that the structural comparison looks at. *)
Definition property_key (box : Box) : BoxType * BoxHeader * BoxBody :=
  (box_type box, header box, body box).

(** A field of the sequence header that a run of the decoder returned. *)
Definition decoded_field (run : result (gmap string Z * BitReader)) (key : string)
  : option Z :=
  match run with
  | Ok (parsed, _) => parsed !! key
  | _ => None
  end.

(** The state after a method has stored the dictionary [m] in [ipma] and
    marked the box for rewriting. *)
Definition with_associations (m : Associations) (ipma_box : Box) (self : ParsedFile)
  : ParsedFile :=
  set_ipma (set_needs_rewrite true (set_associations m ipma_box)) self.

#[global] Instance same_property_dec (ty : BoxType) (hd : BoxHeader) (bd : BoxBody)
    (box : Box) : Decision (same_property ty hd bd box).
Proof. unfold same_property. apply _. Defined.

(** The first property of a list that is structurally equal to
    [(type, header, body)], with its index. *)
Definition first_property (ty : BoxType) (hd : BoxHeader) (bd : BoxBody)
    (props : list Box) : option (nat * Box) :=
  list_find (same_property ty hd bd) props.

(** The properties of a list that are structurally equal to
    [(type, header, body)]. *)
Definition properties_equal_to (ty : BoxType) (hd : BoxHeader) (bd : BoxBody)
    (props : list Box) : list Box :=
  filter (same_property ty hd bd) props.

(** No two properties of the list are structurally equal. *)
Definition no_duplicate_property (props : list Box) : Prop :=
  NoDup (property_key <$> props).

(** All the associations of the dictionary, item after item. *)
Definition all_associations (m : Associations) : list (Z * bool) :=
  concat (snd <$> map_to_list m).

(** Some item is associated with the property at index [k] (from 0) of
    [ipco]. *)
Definition referenced (m : Associations) (k : nat) : bool :=
  existsb (fun a => a.1 =? Z.of_nat k + 1) (all_associations m).

(** The number of unreferenced properties among the first [j]: those that
    [drop_unused_item_properties] removes before index [j]. *)
Fixpoint removed_before (m : Associations) (j : nat) : Z :=
  match j with
  | O => 0
  | S j' => removed_before m j' + (if referenced m j' then 0 else 1)
  end.

(** The referenced properties of [props], whose first element has index
    [k]. *)
Fixpoint surviving_from (m : Associations) (k : nat) (props : list Box) : list Box :=
  match props with
  | [] => []
  | box :: rest =>
      if referenced m k then box :: surviving_from m (S k) rest
      else surviving_from m (S k) rest
  end.

Definition surviving (m : Associations) (props : list Box) : list Box :=
  surviving_from m 0 props.

(** An association list after the removal: every index is decremented by
    the number of removed properties that preceded its property. *)
Definition reindexed (m : Associations) (l : list (Z * bool)) : list (Z * bool) :=
  map (fun a => (a.1 - removed_before m (Z.to_nat (a.1 - 1)), a.2)) l.

(** Every association of every item is within range. *)
Definition all_within (nprops : Z) (m : Associations) : Prop :=
  forall item l, m !! item = Some l -> indices_within nprops l.

(** The number of associations of a list to the property at index [k]. *)
Definition occurrences (k : nat) (l : list (Z * bool)) : Z :=
  Z.of_nat (length (filter (fun a => a.1 = Z.of_nat k + 1) l)).

(** The offset [o] lies in the original byte range of the box. *)
Definition in_mdat (mdat_box : Box) (o : Z) : Prop :=
  box_start mdat_box <= o < box_end mdat_box.

(** The original ranges of the recorded [mdat] boxes do not overlap. *)
Fixpoint mdats_disjoint (mdat_boxes : list (Box * Z)) : Prop :=
  match mdat_boxes with
  | [] => True
  | m :: rest =>
      Forall (fun m' => box_end m.1 <= box_start m'.1 \/ box_end m'.1 <= box_start m.1) rest
      /\ mdats_disjoint rest
  end.

(** The sizes an offset field can have. *)
Definition offset_width (n : Z) : Prop := n = 1 \/ n = 2 \/ n = 4 \/ n = 8.

(** The destination with [new] written over the bytes at [p]. *)
Definition overwritten (out : OutFile) (p : Z) (new : list byte) : OutFile :=
  mkOut (take (Z.to_nat p) (out_data out) ++ new
         ++ drop (Z.to_nat p + length new) (out_data out))
        (out_pos out).

(** The boxes of the list follow one another from [start] to [end_], each
    with a positive size. *)
Fixpoint tiles (start : Z) (top : list Box) (end_ : Z) : Prop :=
  match top with
  | [] => start = end_
  | box :: rest =>
      box_start box = start /\ 0 < box_size box
      /\ tiles (start + box_size box) rest end_
  end.

(** What [from_reader] fixes of a box and no recipe changes. *)
Definition geometry (box : Box) : Z * Z * Z * bool :=
  (box_start box, box_size box, box_end box, needs_rewrite box).

(** A computation on the reader that leaves the file as it is. *)
Definition keeps_file {A} (m : St FileReader A) : Prop :=
  forall r a r', m r = Ok (a, r') -> file r' = file r.

(** The children of [ipco] after [ParsedFile] has read [input]. *)
Definition parsed_properties (depth : nat) (input : list byte) : option (list Box) :=
  match ParsedFile_init depth input with
  | Ok parsed_file => properties_of parsed_file
  | _ => None
  end.

(** What is left of the file from the position of the reader on. *)
Definition remaining (r : FileReader) : list byte :=
  drop (Z.to_nat (fpos r)) (file r).

(** Where the file continues with [data], the computation [m], run with
    a limit [end_] that leaves room for [data], returns [a] and leaves the
    reader behind [data]. *)
Definition reads {A} (m : Z -> St FileReader A) (data : list byte) (a : A) : Prop :=
  forall (r : FileReader) (rest : list byte) (end_ : Z),
    0 <= fpos r -> fpos r + len data <= end_ -> remaining r = data ++ rest ->
    m end_ r = Ok (a, mkReader (file r) (fpos r + len data)).

(** The element sizes that [get_struct_type] knows. *)
Definition struct_size (nbytes : Z) : Prop :=
  nbytes = 1 \/ nbytes = 2 \/ nbytes = 4 \/ nbytes = 8.

(** The values that [struct.pack] accepts for a size. *)
Definition fits (nbytes : Z) (unsigned : bool) (value : Z) : Prop :=
  if unsigned then 0 <= value < 2 ^ (8 * nbytes)
  else - 2 ^ (8 * nbytes - 1) <= value < 2 ^ (8 * nbytes - 1).

(** The position of a bit reader, counted in bits from the start of its
    data. *)
Definition bit_offset (self : BitReader) : Z := 8 * bits_pos self + bit_pos self.

(** The [n] bits at the bit offset [off] of [data], most significant bit
    first, as a number. *)
Definition bit_field (data : list byte) (off n : Z) : Z :=
  (be_value data / 2 ^ (8 * len data - off - n)) mod 2 ^ n.

(** A bit reader in a state that its methods produce: inside a byte, at or
    after the start of the data. *)
Definition well_placed (self : BitReader) : Prop :=
  0 <= bits_pos self /\ 0 <= bit_pos self < 8.

(** [s.startswith(p)]. *)
Fixpoint starts_with (p s : string) : bool :=
  match p with
  | EmptyString => true
  | String a p' =>
      match s with
      | EmptyString => false
      | String b s' => Ascii.eqb a b && starts_with p' s'
      end
  end.

(** What the decoder guarantees of a field of the sequence header, by
    key: its sign and the width it was read with. *)
Definition field_test (key : string) (v : Z) : bool :=
  (0 <=? v)
  && (if String.eqb key "calculated_bitdepth" then (v =? 8) || (v =? 10) || (v =? 12)
      else if String.eqb key "calculated_numplanes" then (v =? 1) || (v =? 3)
      else if String.eqb key "seq_profile" then v <? 8
      else if starts_with "seq_level_idx[" key then v <? 32
      else if starts_with "seq_tier[" key then v <? 2
      else if String.eqb key "high_bitdepth" || String.eqb key "twelve_bit"
              || String.eqb key "mono_chrome" || String.eqb key "subsampling_x"
              || String.eqb key "subsampling_y" || String.eqb key "color_range"
              || String.eqb key "initial_display_delay_present_flag" then v <? 2
      else if String.eqb key "chroma_sample_position" then v <? 4
      else if String.eqb key "color_primaries"
              || String.eqb key "transfer_characteristics"
              || String.eqb key "matrix_coefficients" then v <? 256
      else if String.eqb key "frame_width_bits_minus_1"
              || String.eqb key "frame_height_bits_minus_1" then v <? 16
      else if String.eqb key "max_frame_width_minus_1"
              || String.eqb key "max_frame_height_minus_1" then v <? 65536
      else true).

Definition fields_ok (parsed : gmap string Z) : Prop :=
  map_Forall (fun key v => field_test key v = true) parsed.

(** A step of the decoder that returns fields within their bounds. *)
Definition yields_ok (m : St BitReader (gmap string Z)) : Prop :=
  forall r parsed r', m r = Ok (parsed, r') -> fields_ok parsed.

(** The bytes that [read_leb128_value] takes from [data]: up to the first
    one below 128, and [n] at most; none where the data ends before. *)
Fixpoint leb128_bytes (n : nat) (data : list byte) : option (list byte) :=
  match n with
  | O => Some []
  | S n' =>
      match data with
      | [] => None
      | b :: rest =>
          if byte_to_Z b <? 128 then Some [b]
          else option_map (cons b) (leb128_bytes n' rest)
      end
  end.

(** The number that LEB128 bytes stand for: seven bits of each, the lowest
    first. *)
Fixpoint leb128_sum (bs : list byte) : Z :=
  match bs with
  | [] => 0
  | b :: rest => byte_to_Z b mod 128 + 128 * leb128_sum rest
  end.

(** A computation that returns or raises, whatever the state it starts
    in. *)
Definition terminates {S A} (m : St S A) : Prop := forall s, m s <> OutOfFuel.

(** A box type that [read_string] gives back as it was written: four
    bytes of UTF-8 that do not end with a NUL. *)
Definition type_ok (ty : BoxType) : Prop :=
  len (encode ty) = 4 /\ decode_data_to_string (encode ty) = ty.

(** The box that the parser makes of a box without children of [size]
    bytes at [start]. *)
Definition parsed_leaf (ty : BoxType) (size start : Z) (hd : BoxHeader) (bd : BoxBody)
  : Box :=
  mkBox ty size start (start + size) None hd bd false.

(** The header of a full box. *)
Definition full_header (version flags : Z) : BoxHeader :=
  {[ "version"%string := version; "flags"%string := flags ]}.

(** The bytes that [write_box_header] puts behind the type for the header
    [h], with the kind of box, full or not, that they make. *)
Definition header_bytes (full : bool) (h : BoxHeader) (hb : list byte) : Prop :=
  if full then
    exists version flags,
      h = full_header version flags /\ 0 <= version < 256 /\ 0 <= flags < 2 ^ 24
      /\ hb = be_bytes 1 version ++ be_bytes 3 flags
  else h = ∅ /\ hb = [].

(** The body that [parse_ispe_box] returns. *)
Definition ispe_body (width height : Z) : BoxBody :=
  {[ "width"%string := PyInt width; "height"%string := PyInt height ]}.

(** The body that [parse_pixi_box] returns. *)
Definition pixi_body (bits_per_channel : list Z) : BoxBody :=
  {[ "bits_per_channel"%string := PyIntList bits_per_channel ]}.

(** The body that [parse_colr_box] returns for the colour type [nclx]. *)
Definition nclx_body (color_primaries transfer_characteristics matrix_coefficients
                      full_range_flag : Z) : BoxBody :=
  {[ "type"%string := PyStr "nclx";
     "color_primaries"%string := PyInt color_primaries;
     "transfer_characteristics"%string := PyInt transfer_characteristics;
     "matrix_coefficients"%string := PyInt matrix_coefficients;
     "full_range_flag"%string := PyInt full_range_flag ]}.

(** The body that [parse_clap_box] returns. *)
Definition clap_body (width height h_offset v_offset : list Z) : BoxBody :=
  {[ "width"%string := PyIntList width; "height"%string := PyIntList height;
     "h_offset"%string := PyIntList h_offset;
     "v_offset"%string := PyIntList v_offset ]}.

(** A rational of a [clap] body: two numbers of 32 bits with a sign. *)
Definition rational (l : list Z) : Prop :=
  length l = 2%nat /\ Forall (fun v => - 2147483648 <= v < 2147483648) l.

(** The body that [parse_pitm_box] returns. *)
Definition pitm_body (item_id : Z) : BoxBody := {[ "item_id"%string := PyInt item_id ]}.

(** The bit reader over [data] that has read [off] bits. *)
Definition reader_at (data : list byte) (off : Z) : BitReader :=
  mkBits data (off / 8) (off mod 8).

(** The body that [parse_av1c_box] returns for a box of four bytes with no
    presentation delay. *)
Definition av1c_body (marker version seq_profile seq_level_idx_0 seq_tier_0
                      high_bitdepth twelve_bit monochrome chroma_subsampling_x
                      chroma_subsampling_y chroma_sample_position : Z) : BoxBody :=
  <["initial_presentation_delay_present"%string := PyInt 0]>
    (<["chroma_sample_position"%string := PyInt chroma_sample_position]>
    (<["chroma_subsampling_y"%string := PyInt chroma_subsampling_y]>
    (<["chroma_subsampling_x"%string := PyInt chroma_subsampling_x]>
    (<["monochrome"%string := PyInt monochrome]>
    (<["twelve_bit"%string := PyInt twelve_bit]>
    (<["high_bitdepth"%string := PyInt high_bitdepth]>
    (<["seq_tier_0"%string := PyInt seq_tier_0]>
    (<["seq_level_idx_0"%string := PyInt seq_level_idx_0]>
    (<["seq_profile"%string := PyInt seq_profile]>
    (<["version"%string := PyInt version]>
    (<["marker"%string := PyInt marker]> ∅))))))))))).

(** The values that the fields of an [av1C] box have room for. *)
Definition av1c_ranges (marker version seq_profile seq_level_idx_0 seq_tier_0
                        high_bitdepth twelve_bit monochrome chroma_subsampling_x
                        chroma_subsampling_y chroma_sample_position : Z) : Prop :=
  0 <= marker < 2 /\ 0 <= version < 128 /\ 0 <= seq_profile < 8
  /\ 0 <= seq_level_idx_0 < 32 /\ 0 <= seq_tier_0 < 2 /\ 0 <= high_bitdepth < 2
  /\ 0 <= twelve_bit < 2 /\ 0 <= monochrome < 2 /\ 0 <= chroma_subsampling_x < 2
  /\ 0 <= chroma_subsampling_y < 2 /\ 0 <= chroma_sample_position < 4.

(** The four bytes of an [av1C] box with no presentation delay. *)
Definition av1c_bytes (marker version seq_profile seq_level_idx_0 seq_tier_0
                       high_bitdepth twelve_bit monochrome chroma_subsampling_x
                       chroma_subsampling_y chroma_sample_position : Z) : list byte :=
  [ byte_of_Z (marker * 128 + version);
    byte_of_Z (seq_profile * 32 + seq_level_idx_0);
    byte_of_Z (seq_tier_0 * 128 + high_bitdepth * 64 + twelve_bit * 32 + monochrome * 16
               + chroma_subsampling_x * 8 + chroma_subsampling_y * 4
               + chroma_sample_position);
    byte_of_Z 0 ].

(** A placeholder of four bytes whose position, in a box written at
    [start], is that of four bytes of [data] that hold its value. *)
Definition points_at_value (start : Z) (data : list byte) (p : PlaceholderFileOffset)
  : Prop :=
  ph_size p = 4 /\ ph_dependents p = [] /\ start <= ph_file_pos p
  /\ take 4 (drop (Z.to_nat (ph_file_pos p - start)) data) = be_bytes 4 (ph_value p).

(** The body that [parse_ftyp_box] returns. *)
Definition ftyp_body (major : string) (version : Z) (brands : list string) : BoxBody :=
  {[ "major"%string := PyStr major; "version"%string := PyInt version;
     "compatible"%string := PyStrList (map Some brands) ]}.

(** A property box is of the type, and has the header and the body when
    they are given: what [remove_property_associations] looks for. *)
Definition property_matches (ty : BoxType) (hd : option BoxHeader) (bd : option BoxBody)
    (box : Box) : Prop :=
  box_type box = ty
  /\ (forall h, hd = Some h -> header box = h)
  /\ (forall b, bd = Some b -> body box = b).

(** An association points to such a property. *)
Definition association_matches (props : list Box) (ty : BoxType) (hd : option BoxHeader)
    (bd : option BoxBody) (a : Z * bool) : Prop :=
  exists box, props !! Z.to_nat (a.1 - 1) = Some box /\ property_matches ty hd bd box.

#[global] Instance property_matches_dec (ty : BoxType) (hd : option BoxHeader)
    (bd : option BoxBody) (box : Box) : Decision (property_matches ty hd bd box).
Proof.
  unfold property_matches.
  destruct (decide (box_type box = ty)) as [Hty|Hty]; [|right; tauto].
  destruct hd as [h|].
  - destruct (decide (header box = h)) as [Hh|Hh].
    + destruct bd as [b|].
      * destruct (decide (body box = b)) as [Hb|Hb].
        -- left. repeat split; congruence.
        -- right. intros (_ & _ & H). exact (Hb (H b eq_refl)).
      * left. repeat split; congruence.
    + right. intros (_ & H & _). exact (Hh (H h eq_refl)).
  - destruct bd as [b|].
    + destruct (decide (body box = b)) as [Hb|Hb].
      * left. repeat split; congruence.
      * right. intros (_ & _ & H). exact (Hb (H b eq_refl)).
    + left. repeat split; congruence.
Defined.

#[global] Instance association_matches_dec (props : list Box) (ty : BoxType)
    (hd : option BoxHeader) (bd : option BoxBody) (a : Z * bool) :
  Decision (association_matches props ty hd bd a).
Proof.
  unfold association_matches.
  destruct (props !! Z.to_nat (a.1 - 1)) as [box|].
  - destruct (decide (property_matches ty hd bd box)) as [H|H].
    + left. exists box. split; [reflexivity|exact H].
    + right. intros (box' & [= <-] & H'). exact (H H').
  - right. intros (box' & [=] & _).
Defined.

(** The box at the end of a path of child indices from a list of boxes. *)
Fixpoint box_at (path : list nat) (l : list Box) : option Box :=
  match path with
  | [] => None
  | i :: rest =>
      match l !! i with
      | None => None
      | Some b =>
          match rest with
          | [] => Some b
          | _ => match sub_boxes b with
                 | Some children => box_at rest children
                 | None => None
                 end
          end
      end
  end.

(** The boxes that a path leads into: the list itself for the empty path,
    the children of the box at the end of the path otherwise. *)
Definition children_at (path : list nat) (l : list Box) : option (list Box) :=
  match path with
  | [] => Some l
  | _ => match box_at path l with
         | Some b => sub_boxes b
         | None => None
         end
  end.

(** At the end of the path there is a box of the type that needs
    rewriting. *)
Definition marked_at (ty : BoxType) (path : list nat) (l : list Box) : Prop :=
  exists b, box_at path l = Some b /\ box_type b = ty /\ needs_rewrite b = true.


(** The destination after [new] has been written at [p] and the handle
    has been put back where it was: the bytes from [p] on are replaced,
    and a file that ends before [p] is first filled up with zeros. *)
Definition written_at (out : OutFile) (p : Z) (new : list byte) : OutFile :=
  mkOut (out_data (out_write new (mkOut (out_data out) p))) (out_pos out).






(* ===================================================================== *)
(** * Properties of the parser                                            *)
(* ===================================================================== *)

(** A box header whose size field reads 0 gives a box of size [end_],
    whatever the position [start] of the box: [size = end - size]. *)
Lemma from_reader_zero_size_field (end_ : Z) (r r1 r' : FileReader) (box : Box) :
  read_integer_of_size end_ 4 true r = Ok (0, r1) ->
  from_reader end_ r = Ok (box, r') ->
  box_start box = fpos r /\ box_size box = end_ /\ box_end box = fpos r + end_.
Proof.
  intros Hsz Hbox. unfold from_reader, st_bind, position in Hbox.
  rewrite Hsz in Hbox.
  destruct (read_string end_ 4 r1) as [[[ty|] r2]| |]; simpl in Hbox; try discriminate.
  unfold st_assert, st_lift, py_assert in Hbox.
  destruct (8 <=? end_ - 0); simpl in Hbox; try discriminate.
  injection Hbox as <- _. simpl. repeat split; lia.
Qed.

(** C5: on the 32-byte sample the [mdat] box starts at 16 and has a size
    field of 0; [Box.from_reader], called with [end = 32], returns a box of
    size 32 that ends at 48, not at the end of the parent range. *)
Theorem from_reader_size_zero_overruns :
  exists box r',
    from_reader 32 (mkReader size_zero_file 16) = Ok (box, r')
    /\ box_start box = 16 /\ box_size box = 32 /\ box_end box = 48.
Proof.
  eexists _, _. split; [vm_compute; reflexivity|].
  repeat split.
Qed.

(** The check of the expected count never fails: a call with a count
    returns what the call without one returns. *)
Lemma parse_box_sequence_count_unchecked
    (depth : nat) (end_ : Z) (box_map : gmap string BoxRecipe) (n : Z) (r : FileReader) :
  parse_box_sequence depth end_ box_map (Some n) r
  = parse_box_sequence depth end_ box_map None r.
Proof.
  destruct depth as [|depth]; [reflexivity|].
  unfold parse_box_sequence; fold parse_box_sequence.
  unfold st_bind, position.
  destruct (parse_box_loop _ _ _ _ _ _) as [[bs r']| |]; try reflexivity.
  destruct (negb (n =? Z.of_nat (length bs))) eqn:E; [|reflexivity].
  reflexivity.
Qed.

(** C2: the [stsd] sample announces [entry_count = 2] and holds a single
    child box.  The call of [parse_box_sequence] on its children with the
    expected count 2 returns the one child instead of failing, and so
    [parse_stsd_box], which passes the entry count it has read, accepts
    the box. *)
Theorem parse_box_sequence_accepts_count_mismatch (depth : nat) :
  exists child r',
    read_integer_of_size 24 4 true (mkReader short_stsd 12) = Ok (2, mkReader short_stsd 16)
    /\ parse_box_sequence (S depth) 24 ∅ (Some 2) (mkReader short_stsd 16)
       = Ok ([child], r')
    /\ exists stsd,
         parse_box_sequence (S depth) 24 (MAP_STBL_BOX (S depth)) None
                            (mkReader short_stsd 0)
         = Ok ([stsd], r')
         /\ box_type stsd = "stsd"%string
         /\ sub_boxes stsd = Some [child].
Proof.
  eexists _, _. split; [vm_compute; reflexivity|].
  split; [vm_compute; reflexivity|].
  eexists. split; [vm_compute; reflexivity|].
  split; reflexivity.
Qed.

(* ===================================================================== *)
(** * Properties of the sequence-header decoder                           *)
(* ===================================================================== *)

Section StateInversion.

Context {S A B : Type}.

Lemma st_bind_ok (m : St S A) (k : A -> St S B) (s s' : S) (b : B) :
  st_bind m k s = Ok (b, s') ->
  exists a s1, m s = Ok (a, s1) /\ k a s1 = Ok (b, s').
Proof.
  unfold st_bind. destruct (m s) as [[a s1]| |]; try discriminate. eauto.
Qed.

Lemma st_ret_ok (a a' : A) (s s' : S) :
  st_ret a s = Ok (a', s') -> a' = a /\ s' = s.
Proof. unfold st_ret. intros H. injection H as <- <-. auto. Qed.

End StateInversion.

Lemma set_from_ok (key : string) (m : St BitReader Z) (parsed parsed' : gmap string Z)
    (r r' : BitReader) :
  set_from key m parsed r = Ok (parsed', r') ->
  exists v, m r = Ok (v, r') /\ parsed' = <[key := v]> parsed.
Proof.
  unfold set_from. intros H. apply st_bind_ok in H as (v & r1 & Hm & H).
  apply st_ret_ok in H as [-> ->]. eauto.
Qed.

Lemma get_ok (parsed : gmap string Z) (key : string) (v : Z) (r r' : BitReader) :
  get parsed key r = Ok (v, r') -> parsed !! key = Some v /\ r' = r.
Proof.
  unfold get, st_lift, py_getitem. destruct (parsed !! key); try discriminate.
  intros H. injection H as <- <-. auto.
Qed.

(** Inversion of a successful run of decoder code, one step at a time. *)
Ltac invert_run :=
  repeat match goal with
    | H : st_bind _ _ _ = Ok _ |- _ =>
        let a := fresh "v" in let s := fresh "r" in
        apply st_bind_ok in H as (a & s & ? & H)
    | H : set_from _ _ _ _ = Ok _ |- _ =>
        let v := fresh "v" in apply set_from_ok in H as (v & ? & ->)
    | H : get _ _ _ = Ok _ |- _ => apply get_ok in H as [? ->]
    | H : st_ret _ _ = Ok _ |- _ => apply st_ret_ok in H as [-> ->]
    | H : (if ?c then _ else _) _ = Ok _ |- _ => destruct c eqn:?
    end.

(** On the shortcut the second part of [color_config()] sets the three
    fields and hands the reader back as it got it. *)
Lemma color_config_range_shortcut (parsed : gmap string Z) (r : BitReader) :
  parsed !! "mono_chrome"%string = Some 0 ->
  parsed !! "color_primaries"%string = Some 1 ->
  parsed !! "transfer_characteristics"%string = Some 13 ->
  parsed !! "matrix_coefficients"%string = Some 0 ->
  color_config_range parsed r
  = Ok (<["subsampling_y"%string := 0]>
          (<["subsampling_x"%string := 0]> (<["color_range"%string := 1]> parsed)), r).
Proof.
  intros Hm Hp Ht Hc.
  unfold color_config_range, st_bind, get, st_lift, py_getitem.
  rewrite Hm. simpl. rewrite Hp. simpl. rewrite Ht. simpl. rewrite Hc. reflexivity.
Qed.

(** The second part of [color_config()] only ever writes four keys. *)
Lemma color_config_range_keeps (parsed parsed' : gmap string Z) (r r' : BitReader)
    (k : string) :
  color_config_range parsed r = Ok (parsed', r') ->
  k <> "color_range"%string -> k <> "subsampling_x"%string ->
  k <> "subsampling_y"%string -> k <> "chroma_sample_position"%string ->
  parsed' !! k = parsed !! k.
Proof.
  intros H K1 K2 K3 K4. unfold color_config_range in H.
  invert_run; rewrite ?lookup_insert_ne by congruence; reflexivity.
Qed.

Lemma sequence_header_end_keeps (parsed parsed' : gmap string Z) (r r' : BitReader)
    (k : string) :
  sequence_header_end parsed r = Ok (parsed', r') ->
  k <> "separate_uv_delta_q"%string -> k <> "film_grain_params_present"%string ->
  parsed' !! k = parsed !! k.
Proof.
  intros H K1 K2. unfold sequence_header_end in H.
  invert_run; rewrite ?lookup_insert_ne by congruence; reflexivity.
Qed.

(** C9: when the decoder returns a sequence header with [mono_chrome = 0],
    [color_primaries = 1], [transfer_characteristics = 13] and
    [matrix_coefficients = 0], then [color_range = 1], [subsampling_x = 0]
    and [subsampling_y = 0]; these three fields were set with the reader
    left where the colour description ended, and the next field was read
    from that same position. *)
Theorem sequence_header_shortcut (r r' : BitReader) (parsed : gmap string Z) :
  parse_av1_sequence_header_obu r = Ok (parsed, r') ->
  parsed !! "mono_chrome"%string = Some 0 ->
  parsed !! "color_primaries"%string = Some 1 ->
  parsed !! "transfer_characteristics"%string = Some 13 ->
  parsed !! "matrix_coefficients"%string = Some 0 ->
  parsed !! "color_range"%string = Some 1
  /\ parsed !! "subsampling_x"%string = Some 0
  /\ parsed !! "subsampling_y"%string = Some 0
  /\ exists described ranged at_description,
       st_bind sequence_header_start color_config_description r
       = Ok (described, at_description)
       /\ color_config_range described at_description = Ok (ranged, at_description)
       /\ sequence_header_end ranged at_description = Ok (parsed, r').
Proof.
  intros Hrun Hm Hp Ht Hc. unfold parse_av1_sequence_header_obu in Hrun.
  apply st_bind_ok in Hrun as (p0 & r0 & Hstart & Hrun).
  apply st_bind_ok in Hrun as (p1 & r1 & Hdescr & Hrun).
  apply st_bind_ok in Hrun as (p2 & r2 & Hrange & Hend).
  assert (Hkeep : forall k : string,
             k <> "color_range"%string -> k <> "subsampling_x"%string ->
             k <> "subsampling_y"%string -> k <> "chroma_sample_position"%string ->
             k <> "separate_uv_delta_q"%string -> k <> "film_grain_params_present"%string ->
             p1 !! k = parsed !! k).
  { intros k K1 K2 K3 K4 K5 K6.
    rewrite (sequence_header_end_keeps _ _ _ _ k Hend K5 K6).
    symmetry. exact (color_config_range_keeps _ _ _ _ k Hrange K1 K2 K3 K4). }
  assert (Hshort := color_config_range_shortcut p1 r1).
  rewrite !Hkeep in Hshort by congruence.
  specialize (Hshort Hm Hp Ht Hc). rewrite Hshort in Hrange.
  injection Hrange as <- <-.
  rewrite !(sequence_header_end_keeps _ _ _ _ _ Hend) by congruence.
  refine (conj _ (conj _ (conj _ _))).
  - rewrite !lookup_insert_ne by congruence. apply lookup_insert_eq.
  - rewrite lookup_insert_ne by congruence. apply lookup_insert_eq.
  - apply lookup_insert_eq.
  - exists p1, (<["subsampling_y"%string := 0]>
                 (<["subsampling_x"%string := 0]> (<["color_range"%string := 1]> p1))), r1.
    repeat split; try assumption.
    unfold st_bind. rewrite Hstart. exact Hdescr.
Qed.

Lemma sequence_header_shortcut_witness :
  let run := parse_av1_sequence_header_obu (BitReader_init shortcut_header) in
  decoded_field run "mono_chrome" = Some 0
  /\ decoded_field run "color_range" = Some 1
  /\ decoded_field run "subsampling_x" = Some 0
  /\ decoded_field run "subsampling_y" = Some 0.
Proof.
  intros run.
  assert (F1 : decoded_field run "mono_chrome" = Some 0) by (vm_compute; reflexivity).
  assert (F2 : decoded_field run "color_primaries" = Some 1) by (vm_compute; reflexivity).
  assert (F3 : decoded_field run "transfer_characteristics" = Some 13)
    by (vm_compute; reflexivity).
  assert (F4 : decoded_field run "matrix_coefficients" = Some 0) by (vm_compute; reflexivity).
  split; [exact F1|].
  subst run.
  destruct (parse_av1_sequence_header_obu (BitReader_init shortcut_header))
    as [[parsed r']| |] eqn:E; try discriminate F1.
  simpl in *.
  destruct (sequence_header_shortcut _ _ _ E F1 F2 F3 F4) as (H1 & H2 & H3 & _).
  repeat split; assumption.
Defined.

(* ===================================================================== *)
(** * Properties of the item-property graph                               *)
(* ===================================================================== *)

(** ** get_item_properties_for_item *)

(** The guard of [get_item_properties_for_item] lets the index
    [len(props) + 1] through, and the lookup then fails. *)
Lemma collect_properties_past_end (props : list Box) (essential : bool)
    (rest : list (Z * bool)) :
  collect_properties props ((len props + 1, essential) :: rest) = Raise IndexError.
Proof.
  unfold collect_properties; fold collect_properties.
  assert (H : (1 <=? len props + 1) && (len props + 1 <=? len props + 1) = true).
  { unfold len. apply andb_true_intro. split; apply Z.leb_le; lia. }
  rewrite H. simpl. unfold py_index.
  replace (len props + 1 - 1) with (len props) by lia. unfold len.
  rewrite Z.ltb_irrefl, andb_false_r.
  replace (Z.of_nat (length props) <? 0) with false
    by (symmetry; apply Z.ltb_ge; lia).
  rewrite andb_false_r. reflexivity.
Qed.

(** The same on a parsed file: [ipco] has two properties and the second
    association of item 1 has the property index 3. *)
Lemma get_item_properties_of_parsed_file :
  res_bind (ParsedFile_init 3 (ispe_pair_file 1 3))
           (fun parsed_file => get_item_properties_for_item parsed_file 1)
  = Raise IndexError.
Proof. vm_compute. reflexivity. Qed.

(** C10: with one property in [ipco] and an association of item 1 to
    property index 2, the guard [1 <= property_index <= len + 1] passes and
    the lookup [sub_boxes[property_index - 1]] raises [IndexError]. *)
Theorem get_item_properties_index_past_end :
  py_assert ((1 <=? 2) && (2 <=? len [ispe_box] + 1)) = Ok tt
  /\ get_item_properties_for_item index_past_end 1 = Raise IndexError.
Proof. split; vm_compute; reflexivity. Qed.

(** ** add_property_association *)

(** The search loop agrees with [first_association] when the indices are
    within range. *)
Lemma find_association_first (nprops ipco_index : Z) (l : list (Z * bool)) (c : Z) :
  indices_within nprops l ->
  find_association nprops ipco_index l c
  = Ok (match first_association ipco_index l with
        | Some (i, a) => Some (c + Z.of_nat i, a.2)
        | None => None
        end).
Proof.
  unfold indices_within, first_association. revert c.
  induction l as [|[p e] l IH]; intros c Hl; [reflexivity|].
  apply Forall_cons in Hl as [Hp Hl]. simpl in Hp.
  cbn [find_association list_find].
  replace ((1 <=? p) && (p <=? nprops)) with true
    by (symmetry; apply andb_true_intro; split; apply Z.leb_le; lia).
  cbn [py_assert res_bind].
  case_decide as Hd; simpl in Hd.
  - subst p. rewrite Z.add_simpl_r, Z.eqb_refl. simpl. do 3 f_equal. lia.
  - replace (ipco_index =? p - 1) with false by (symmetry; apply Z.eqb_neq; lia).
    rewrite IH by assumption.
    destruct (list_find _ l) as [[i a]|]; simpl; [|reflexivity].
    do 3 f_equal. lia.
Qed.

Lemma associations_for_set (self : ParsedFile) (ipma_box : Box)
    (m : gmap Z (list (Z * bool))) (item_id : Z) :
  associations_for (set_ipma (set_needs_rewrite true (set_associations m ipma_box)) self)
                   item_id
  = Some (default [] (m !! item_id)).
Proof.
  unfold associations_for, associations_of, py_getitem. simpl.
  rewrite lookup_insert_eq. reflexivity.
Qed.
Lemma associations_of_set (m : gmap Z (list (Z * bool))) (ipma_box : Box) :
  associations_of (set_needs_rewrite true (set_associations m ipma_box)) = Ok m.
Proof.
  unfold associations_of, py_getitem. simpl. rewrite lookup_insert_eq. reflexivity.
Qed.

Lemma property_boxes_with_associations (self : ParsedFile) (ipma_box ipco_box b : Box)
    (props : list Box) (m : gmap Z (list (Z * bool))) :
  property_boxes self = Some (b, ipco_box, props) ->
  property_boxes (with_associations m ipma_box self)
  = Some (set_needs_rewrite true (set_associations m ipma_box), ipco_box, props).
Proof.
  unfold property_boxes, with_associations. simpl.
  destruct (ipma self); try discriminate.
  destruct (ipco self) as [c|]; try discriminate.
  destruct (sub_boxes c); try discriminate.
  intros H. injection H as _ <- <-. reflexivity.
Qed.

Lemma first_association_lt (ipco_index : Z) (l : list (Z * bool)) (i : nat) (a : Z * bool) :
  first_association ipco_index l = Some (i, a) ->
  l !! i = Some a /\ a.1 = ipco_index + 1 /\ (i < length l)%nat.
Proof.
  unfold first_association. intros H. apply list_find_Some in H as (Hi & Ha & _).
  split; [assumption|]. split; [assumption|]. eapply lookup_lt_Some. eassumption.
Qed.

(** What [add_property_association] returns when every index of the list
    is within range. *)
Lemma add_property_association_run (self : ParsedFile) (ipma_box ipco_box : Box)
    (props : list Box) (m : gmap Z (list (Z * bool)))
    (item_id ipco_index : Z) (essential : bool) (position : option Z) :
  property_boxes self = Some (ipma_box, ipco_box, props) ->
  associations_of ipma_box = Ok m ->
  indices_within (len props) (default [] (m !! item_id)) ->
  add_property_association self item_id ipco_index essential position
  = Ok (let l := default [] (m !! item_id) in
        match first_association ipco_index l with
        | None =>
            with_associations
              (<[item_id := py_insert l (default (len l) position)
                                      (ipco_index + 1, essential)]> m) ipma_box self
        | Some (i, a) =>
            if essential && negb a.2
            then with_associations
                   (<[item_id := <[i := (ipco_index + 1, essential)]> l]> m) ipma_box self
            else self
        end).
Proof.
  intros Hboxes Hm Hrange. unfold add_property_association.
  rewrite Hboxes, Hm. cbn [res_bind].
  rewrite (find_association_first _ _ _ 0 Hrange). cbn [res_bind].
  destruct (first_association ipco_index (default [] (m !! item_id)))
    as [[i a]|] eqn:Hfirst; cbn zeta.
  - destruct (essential && negb a.2); [|reflexivity].
    apply first_association_lt in Hfirst as (Hi & _ & Hlt).
    destruct (m !! item_id) as [l|] eqn:Hl; simpl in *; [|lia].
    unfold py_setitem.
    replace ((0 <=? 0 + Z.of_nat i) && (0 + Z.of_nat i <? Z.of_nat (length l))) with true
      by (symmetry; apply andb_true_intro; split; [apply Z.leb_le|apply Z.ltb_lt]; lia).
    cbn [res_bind]. rewrite Z.add_0_l, Nat2Z.id. reflexivity.
  - destruct position; reflexivity.
Qed.
Lemma py_insert_split {A} (l : list A) (p : Z) :
  exists j : nat,
    (j <= length l)%nat /\ forall x : A, py_insert l p x = take j l ++ x :: drop j l.
Proof.
  unfold py_insert.
  set (j := if p <? 0 then Z.max 0 (Z.of_nat (length l) + p)
            else Z.min p (Z.of_nat (length l))).
  exists (Z.to_nat j). split; [|reflexivity].
  subst j. destruct (p <? 0) eqn:E; [apply Z.ltb_lt in E|apply Z.ltb_ge in E]; lia.
Qed.


Lemma list_find_middle {A} (P : A -> Prop) `{forall a, Decision (P a)}
    (l1 l2 : list A) (x : A) :
  Forall (fun a => ~ P a) l1 -> P x ->
  list_find P (l1 ++ x :: l2) = Some (length l1, x).
Proof.
  intros Hl1 Hx. induction Hl1 as [|a l1 Ha _ IH]; simpl.
  - rewrite decide_True by assumption. reflexivity.
  - rewrite decide_False by assumption. rewrite IH. reflexivity.
Qed.

Lemma filter_none {A} (P : A -> Prop) `{forall a, Decision (P a)} (l : list A) :
  Forall (fun a => ~ P a) l -> filter P l = [].
Proof.
  induction 1 as [|a l Ha _ IH]; [reflexivity|].
  rewrite filter_cons_False by assumption. exact IH.
Qed.


Lemma associations_for_self (self : ParsedFile) (ipma_box ipco_box : Box)
    (props : list Box) (m : gmap Z (list (Z * bool))) (item_id : Z) :
  property_boxes self = Some (ipma_box, ipco_box, props) ->
  associations_of ipma_box = Ok m ->
  associations_for self item_id = Some (default [] (m !! item_id)).
Proof.
  unfold property_boxes, associations_for.
  destruct (ipma self); try discriminate.
  destruct (ipco self) as [c|]; try discriminate.
  destruct (sub_boxes c); try discriminate.
  intros H Hm. injection H as -> _ _. rewrite Hm. reflexivity.
Qed.

Lemma properties_of_with_associations (self : ParsedFile) (ipma_box : Box)
    (m : gmap Z (list (Z * bool))) :
  properties_of (with_associations m ipma_box self) = properties_of self.
Proof. reflexivity. Qed.








(** ** _add_property_if_needed *)

Lemma property_test_spec (ty : string) (hd : gmap string Z) (bd : gmap string PyVal)
    (box : Box) :
  String.eqb (box_type box) ty
  && bool_decide (Some (header box) = Some hd)
  && bool_decide (Some (body box) = Some bd) = true
  <-> same_property ty hd bd box.
Proof.
  unfold same_property.
  rewrite !andb_true_iff, String.eqb_eq, !bool_decide_eq_true.
  split.
  - intros [[H1 H2] H3]. injection H2 as H2. injection H3 as H3. auto.
  - intros (H1 & H2 & H3). rewrite H2, H3. auto.
Qed.

(** The scan of [ipco] agrees with [first_property]. *)
Lemma find_property_first (ty : string) (hd : gmap string Z) (bd : gmap string PyVal)
    (props : list Box) (c : Z) :
  find_property ty (Some hd) (Some bd) props c
  = match first_property ty hd bd props with
    | Some (i, _) => c + Z.of_nat i
    | None => -1
    end.
Proof.
  unfold first_property. revert c.
  induction props as [|box props IH]; intros c; [reflexivity|].
  cbn [find_property list_find].
  destruct (String.eqb (box_type box) ty
            && bool_decide (Some (header box) = Some hd)
            && bool_decide (Some (body box) = Some bd)) eqn:E.
  - apply property_test_spec in E. rewrite decide_True by assumption. simpl. lia.
  - rewrite decide_False.
    + rewrite IH. destruct (list_find _ props) as [[i b]|]; simpl; lia.
    + intros H. apply property_test_spec in H. congruence.
Qed.

Lemma first_property_Some (ty : string) (hd : gmap string Z) (bd : gmap string PyVal)
    (props : list Box) (i : nat) (box : Box) :
  first_property ty hd bd props = Some (i, box) ->
  props !! i = Some box /\ same_property ty hd bd box.
Proof.
  unfold first_property. intros H. apply list_find_Some in H as (H1 & H2 & _). auto.
Qed.

Lemma first_property_None (ty : string) (hd : gmap string Z) (bd : gmap string PyVal)
    (props : list Box) :
  first_property ty hd bd props = None ->
  Forall (fun box => ~ same_property ty hd bd box) props.
Proof. unfold first_property. intros H. apply list_find_None in H. exact H. Qed.

Lemma same_property_key (ty : string) (hd : gmap string Z) (bd : gmap string PyVal)
    (box : Box) :
  same_property ty hd bd box <-> property_key box = (ty, hd, bd).
Proof.
  unfold same_property, property_key. split.
  - intros (-> & -> & ->). reflexivity.
  - intros H. injection H as -> -> ->. auto.
Qed.

(** The box that [_add_property_if_needed] appends. *)
Lemma new_property_same (ty : string) (hd : gmap string Z) (bd : gmap string PyVal) :
  same_property ty hd bd
    (set_needs_rewrite true (set_body bd (set_header hd (Box_init ty 0 0)))).
Proof. repeat split. Qed.

(** What [_add_property_if_needed] does to the property list. *)
Lemma add_property_if_needed_run (self : ParsedFile) (ipma_box ipco_box : Box)
    (props : list Box) (ty : string) (hd : gmap string Z) (bd : gmap string PyVal) :
  property_boxes self = Some (ipma_box, ipco_box, props) ->
  add_property_if_needed self ty hd bd
  = match first_property ty hd bd props with
    | Some (i, _) => (self, Z.of_nat i)
    | None =>
        let box := set_needs_rewrite true (set_body bd (set_header hd (Box_init ty 0 0))) in
        (set_ipco (set_needs_rewrite true (set_sub_boxes (Some (props ++ [box])) ipco_box))
                  self,
         len props)
    end.
Proof.
  intros Hboxes. unfold add_property_if_needed. rewrite Hboxes.
  assert (Hget : get_existing_property_if_present self ty (Some hd) (Some bd)
                 = find_property ty (Some hd) (Some bd) props 0).
  { unfold get_existing_property_if_present. unfold property_boxes in Hboxes.
    destruct (ipma self); try discriminate.
    destruct (ipco self) as [c|]; try discriminate.
    destruct (sub_boxes c); try discriminate.
    injection Hboxes as _ _ ->. reflexivity. }
  rewrite Hget, find_property_first.
  destruct (first_property ty hd bd props) as [[i b]|].
  - replace (0 + Z.of_nat i =? -1) with false by (symmetry; apply Z.eqb_neq; lia).
    f_equal.
  - reflexivity.
Qed.

Lemma property_boxes_set_ipco (self : ParsedFile) (ipma_box ipco_box c : Box)
    (props props' : list Box) :
  property_boxes self = Some (ipma_box, ipco_box, props) ->
  sub_boxes c = Some props' ->
  property_boxes (set_ipco c self) = Some (ipma_box, c, props').
Proof.
  unfold property_boxes. simpl.
  destruct (ipma self); try discriminate.
  destruct (ipco self) as [c0|]; try discriminate.
  destruct (sub_boxes c0); try discriminate.
  intros H ->. injection H as -> _ _. reflexivity.
Qed.

Lemma first_property_app_new (ty : string) (hd : gmap string Z) (bd : gmap string PyVal)
    (props : list Box) (box : Box) :
  first_property ty hd bd props = None ->
  same_property ty hd bd box ->
  first_property ty hd bd (props ++ [box]) = Some (length props, box).
Proof.
  intros Hnone Hsame. unfold first_property.
  apply list_find_middle; [|assumption].
  apply first_property_None. exact Hnone.
Qed.

(** After [_add_property_if_needed] the returned index is that of the first
    structurally equal property, nothing but the end of the list has
    changed, and a list without duplicates stays without duplicates. *)
Lemma add_property_if_needed_effect (self : ParsedFile) (ipma_box ipco_box : Box)
    (props : list Box) (ty : string) (hd : gmap string Z) (bd : gmap string PyVal) :
  property_boxes self = Some (ipma_box, ipco_box, props) ->
  exists self' ipco' props' (i : nat) box,
    add_property_if_needed self ty hd bd = (self', Z.of_nat i)
    /\ property_boxes self' = Some (ipma_box, ipco', props')
    /\ first_property ty hd bd props' = Some (i, box)
    /\ (length props <= length props')%nat
    /\ match first_property ty hd bd props with
       | Some _ => self' = self /\ props' = props
       | None => props' = props ++ [box]
       end
    /\ (no_duplicate_property props -> no_duplicate_property props').
Proof.
  intros Hboxes. rewrite (add_property_if_needed_run _ _ _ _ _ _ _ Hboxes).
  destruct (first_property ty hd bd props) as [[i b]|] eqn:Hfirst.
  - exists self, ipco_box, props, i, b. repeat split; auto.
  - eexists _, _, (props ++ [_]), (length props), _.
    split; [reflexivity|].
    split; [eapply property_boxes_set_ipco; [exact Hboxes|reflexivity]|].
    split; [apply first_property_app_new; [exact Hfirst|apply new_property_same]|].
    split; [rewrite length_app; simpl; lia|].
    split; [reflexivity|].
    unfold no_duplicate_property. intros Hnodup.
    rewrite fmap_app. apply NoDup_app. split; [exact Hnodup|].
    split; [|apply NoDup_singleton].
    intros k Hk Hk'. apply list_elem_of_singleton in Hk'. subst k.
    apply list_elem_of_fmap in Hk as (b & Hb & Hin).
    apply first_property_None in Hfirst.
    rewrite Forall_forall in Hfirst. apply (Hfirst b Hin).
    apply same_property_key. symmetry. exact Hb.
Qed.
Lemma properties_of_boxes (self : ParsedFile) (ipma_box ipco_box : Box) (props : list Box) :
  property_boxes self = Some (ipma_box, ipco_box, props) ->
  properties_of self = Some props.
Proof.
  unfold property_boxes, properties_of.
  destruct (ipma self); try discriminate.
  destruct (ipco self) as [c|]; try discriminate.
  destruct (sub_boxes c); try discriminate.
  intros H. injection H as _ _ ->. reflexivity.
Qed.

(** What a caller can rely on after [add_property_association]. *)
Lemma add_property_association_effect (self : ParsedFile) (ipma_box ipco_box : Box)
    (props : list Box) (m : gmap Z (list (Z * bool)))
    (item_id ipco_index : Z) (essential : bool) (position : option Z) :
  property_boxes self = Some (ipma_box, ipco_box, props) ->
  associations_of ipma_box = Ok m ->
  indices_within (len props) (default [] (m !! item_id)) ->
  exists self' ipma' (m' : gmap Z (list (Z * bool))),
    add_property_association self item_id ipco_index essential position = Ok self'
    /\ property_boxes self' = Some (ipma', ipco_box, props)
    /\ associations_of ipma' = Ok m'
    /\ (exists e, (ipco_index + 1, e) ∈ default [] (m' !! item_id))
    /\ (forall other, other <> item_id -> m' !! other = m !! other).
Proof.
  intros Hboxes Hm Hrange.
  rewrite (add_property_association_run _ _ _ _ _ _ _ _ _ Hboxes Hm Hrange). cbn zeta.
  destruct (first_association ipco_index (default [] (m !! item_id)))
    as [[i [p e0]]|] eqn:Hfirst.
  - apply first_association_lt in Hfirst as (Hi & Hp & Hlt). simpl in Hp. subst p.
    destruct (essential && negb (ipco_index + 1, e0).2).
    + eexists _, _, _. split; [reflexivity|].
      split; [eapply property_boxes_with_associations; exact Hboxes|].
      split; [apply associations_of_set|].
      split.
      * exists essential. rewrite lookup_insert_eq. simpl.
        apply list_elem_of_lookup. exists i. apply list_lookup_insert_eq. exact Hlt.
      * intros other Hne. apply lookup_insert_ne. congruence.
    + exists self, ipma_box, m. repeat split; auto.
      exists e0. apply list_elem_of_lookup. eauto.
  - eexists _, _, _. split; [reflexivity|].
    split; [eapply property_boxes_with_associations; exact Hboxes|].
    split; [apply associations_of_set|].
    split.
    + exists essential. rewrite lookup_insert_eq. simpl.
      destruct (py_insert_split (default [] (m !! item_id))
                  (default (len (default [] (m !! item_id))) position)) as (j & _ & ->).
      apply elem_of_app. right. apply list_elem_of_here.
    + intros other Hne. apply lookup_insert_ne. congruence.
Qed.

Lemma properties_equal_to_unique (ty : string) (hd : gmap string Z)
    (bd : gmap string PyVal) (props : list Box) (box : Box) :
  no_duplicate_property props ->
  box ∈ props ->
  same_property ty hd bd box ->
  properties_equal_to ty hd bd props = [box].
Proof.
  unfold no_duplicate_property, properties_equal_to.
  intros Hnodup Hin Hsame. induction props as [|a props IH]; [inversion Hin|].
  rewrite fmap_cons in Hnodup. apply NoDup_cons in Hnodup as [Hfresh Hnodup].
  apply same_property_key in Hsame.
  apply elem_of_cons in Hin as [->|Hin].
  - rewrite filter_cons_True by (apply same_property_key; exact Hsame).
    f_equal. apply filter_none. apply Forall_forall. intros b Hb Hb'.
    apply same_property_key in Hb'. apply Hfresh.
    apply list_elem_of_fmap. exists b. split; [congruence|exact Hb].
  - rewrite filter_cons_False.
    + apply IH; assumption.
    + intros Ha. apply same_property_key in Ha. apply Hfresh.
      apply list_elem_of_fmap. exists box. split; [congruence|exact Hin].
Qed.

Lemma indices_within_mono (n n' : Z) (l : list (Z * bool)) :
  n <= n' -> indices_within n l -> indices_within n' l.
Proof.
  unfold indices_within. intros Hn Hl. eapply Forall_impl; [exact Hl|].
  intros a Ha. simpl in *. lia.
Qed.

(** C6, as stated: the parser takes the properties as the file has them,
    so a file with the same [ispe] box twice gives an [ipco] with two
    structurally equal entries. *)
Lemma parsed_ipco_keeps_equal_properties :
  parsed_properties 3 twin_ispe_file = Some [parsed_ispe 44; parsed_ispe 64]
  /\ property_key (parsed_ispe 44) = property_key (parsed_ispe 64)
  /\ ~ no_duplicate_property [parsed_ispe 44; parsed_ispe 64].
Proof.
  split; [vm_compute; reflexivity|]. split; [reflexivity|].
  unfold no_duplicate_property. intros H. apply NoDup_cons in H as [Hnotin _].
  apply Hnotin. apply list_elem_of_here.
Qed.

(** C6: [_add_property_if_needed] returns the index of the first property
    of [ipco] that is structurally equal to [(type, header, body)] and
    leaves the list alone when there is one; only when there is none does
    it append a new box, whose index it returns.  A list without two
    structurally equal entries therefore stays without.  Adding the same
    property for two different items appends at most once: both items end
    up associated with the same entry, which is the only one equal to
    [(type, header, body)] when the list had no duplicates. *)
Theorem add_property_if_needed_dedup (self : ParsedFile) (ipma_box ipco_box : Box)
    (props : list Box) (ty : string) (hd : gmap string Z) (bd : gmap string PyVal) :
  property_boxes self = Some (ipma_box, ipco_box, props) ->
  (forall i box,
      first_property ty hd bd props = Some (i, box) ->
      add_property_if_needed self ty hd bd = (self, Z.of_nat i)
      /\ props !! i = Some box /\ same_property ty hd bd box)
  /\ (first_property ty hd bd props = None ->
      exists self' box,
        add_property_if_needed self ty hd bd = (self', len props)
        /\ properties_of self' = Some (props ++ [box])
        /\ same_property ty hd bd box)
  /\ (no_duplicate_property props ->
      exists props',
        properties_of (add_property_if_needed self ty hd bd).1 = Some props'
        /\ no_duplicate_property props')
  /\ (forall (m : gmap Z (list (Z * bool))) item1 item2 e1 e2 pos1 pos2,
        associations_of ipma_box = Ok m ->
        item1 <> item2 ->
        indices_within (len props) (default [] (m !! item1)) ->
        indices_within (len props) (default [] (m !! item2)) ->
        exists self1 self2 props2 (i : nat) box l1 l2,
          add_property_for_item self ty hd bd item1 e1 pos1 = Ok self1
          /\ add_property_for_item self1 ty hd bd item2 e2 pos2 = Ok self2
          /\ properties_of self1 = Some props2
          /\ properties_of self2 = Some props2
          /\ first_property ty hd bd props2 = Some (i, box)
          /\ (no_duplicate_property props -> properties_equal_to ty hd bd props2 = [box])
          /\ associations_for self2 item1 = Some l1
          /\ associations_for self2 item2 = Some l2
          /\ (exists e, (Z.of_nat i + 1, e) ∈ l1)
          /\ (exists e, (Z.of_nat i + 1, e) ∈ l2)).
Proof.
  intros Hboxes.
  pose proof (add_property_if_needed_run _ _ _ _ ty hd bd Hboxes) as Hrun.
  refine (conj _ (conj _ (conj _ _))).
  - intros i box Hfirst. rewrite Hfirst in Hrun. split; [exact Hrun|].
    apply first_property_Some in Hfirst. exact Hfirst.
  - intros Hnone. rewrite Hnone in Hrun. eexists _, _.
    split; [exact Hrun|]. split; [reflexivity|apply new_property_same].
  - intros Hnodup.
    destruct (add_property_if_needed_effect _ _ _ _ ty hd bd Hboxes)
      as (self' & ipco' & props' & i & box & Hadd & Hboxes' & _ & _ & _ & Hdup).
    exists props'. rewrite Hadd. simpl.
    split; [eapply properties_of_boxes; exact Hboxes'|exact (Hdup Hnodup)].
  - intros m item1 item2 e1 e2 pos1 pos2 Hm Hne Hrange1 Hrange2.
    destruct (add_property_if_needed_effect _ _ _ _ ty hd bd Hboxes)
      as (selfA & ipcoA & propsA & i & box & HaddA & HboxesA & HfirstA & HlenA & _ & Hdup).
    assert (Hlen : len props <= len propsA) by (unfold len; lia).
    destruct (add_property_association_effect selfA _ _ _ m item1 (Z.of_nat i) e1 pos1
                HboxesA Hm (indices_within_mono _ _ _ Hlen Hrange1))
      as (self1 & ipma1 & m1 & Hadd1 & Hboxes1 & Hm1 & Hin1 & Hother1).
    pose proof (add_property_if_needed_run _ _ _ _ ty hd bd Hboxes1) as HrunB.
    rewrite HfirstA in HrunB.
    assert (Hrange2' : indices_within (len propsA) (default [] (m1 !! item2))).
    { rewrite Hother1 by congruence. exact (indices_within_mono _ _ _ Hlen Hrange2). }
    destruct (add_property_association_effect self1 _ _ _ m1 item2 (Z.of_nat i) e2 pos2
                Hboxes1 Hm1 Hrange2')
      as (self2 & ipma2 & m2 & Hadd2 & Hboxes2 & Hm2 & Hin2 & Hother2).
    exists self1, self2, propsA, i, box,
           (default [] (m2 !! item1)), (default [] (m2 !! item2)).
    split. { unfold add_property_for_item. rewrite HaddA. exact Hadd1. }
    split. { unfold add_property_for_item. rewrite HrunB. exact Hadd2. }
    split; [eapply properties_of_boxes; exact Hboxes1|].
    split; [eapply properties_of_boxes; exact Hboxes2|].
    split; [exact HfirstA|].
    split.
    { intros Hnodup. apply first_property_Some in HfirstA as [Hi Hsame].
      apply properties_equal_to_unique; [exact (Hdup Hnodup)| |exact Hsame].
      apply list_elem_of_lookup. eauto. }
    split; [exact (associations_for_self _ _ _ _ _ item1 Hboxes2 Hm2)|].
    split; [exact (associations_for_self _ _ _ _ _ item2 Hboxes2 Hm2)|].
    split; [|exact Hin2].
    rewrite Hother2 by congruence. exact Hin1.
Qed.

Lemma add_property_if_needed_dedup_witness :
  exists self1 self2 props2 box,
    add_property_for_item two_properties "pixi" (header pixi_box) (body pixi_box) 1 false None
    = Ok self1
    /\ add_property_for_item self1 "pixi" (header pixi_box) (body pixi_box) 2 false None
       = Ok self2
    /\ properties_of self2 = Some props2
    /\ properties_equal_to "pixi" (header pixi_box) (body pixi_box) props2 = [box].
Proof.
  destruct (add_property_if_needed_dedup two_properties _ _ _
              "pixi" (header pixi_box) (body pixi_box) eq_refl) as (_ & _ & _ & H).
  assert (Hrange1 : indices_within (len [ispe_box; pixi_box])
                      (default [] (({[ 1 := [(1, true)] ]} : gmap Z (list (Z * bool))) !! 1))).
  { unfold indices_within. rewrite lookup_singleton_eq. simpl.
    apply Forall_cons. split; [unfold len; simpl; lia|apply Forall_nil_2]. }
  assert (Hrange2 : indices_within (len [ispe_box; pixi_box])
                      (default [] (({[ 1 := [(1, true)] ]} : gmap Z (list (Z * bool))) !! 2))).
  { unfold indices_within. rewrite lookup_singleton_ne by lia. apply Forall_nil_2. }
  assert (Hnodup : no_duplicate_property [ispe_box; pixi_box]).
  { unfold no_duplicate_property. apply (bool_decide_unpack _). vm_compute. reflexivity. }
  destruct (H _ 1 2 false false None None eq_refl ltac:(lia) Hrange1 Hrange2)
    as (self1 & self2 & props2 & i & box & l1 & l2
        & H1 & H2 & H3 & H4 & H5 & H6 & _).
  exists self1, self2, props2, box.
  split; [exact H1|]. split; [exact H2|]. split; [exact H4|exact (H6 Hnodup)].
Defined.

(** ** drop_unused_item_properties *)

Lemma py_index_within {A} (l : list A) (i : Z) (x : A) :
  0 <= i -> l !! Z.to_nat i = Some x -> py_index l i = Ok x.
Proof.
  intros Hi Hx. unfold py_index.
  pose proof (lookup_lt_Some _ _ _ Hx) as Hlt.
  replace ((0 <=? i) && (i <? Z.of_nat (length l))) with true
    by (symmetry; apply andb_true_intro; split; [apply Z.leb_le|apply Z.ltb_lt]; lia).
  rewrite Hx. reflexivity.
Qed.

Lemma py_setitem_within {A} (l : list A) (i : Z) (x : A) :
  0 <= i < Z.of_nat (length l) -> py_setitem l i x = Ok (<[Z.to_nat i := x]> l).
Proof.
  intros Hi. unfold py_setitem.
  replace ((0 <=? i) && (i <? Z.of_nat (length l))) with true
    by (symmetry; apply andb_true_intro; split; [apply Z.leb_le|apply Z.ltb_lt]; lia).
  reflexivity.
Qed.

Lemma occurrences_cons (k : nat) (a : Z * bool) (l : list (Z * bool)) :
  occurrences k (a :: l)
  = (if decide (a.1 = Z.of_nat k + 1) then 1 else 0) + occurrences k l.
Proof.
  unfold occurrences. rewrite filter_cons. case_decide; simpl; lia.
Qed.

Lemma occurrences_nonneg (k : nat) (l : list (Z * bool)) : 0 <= occurrences k l.
Proof. unfold occurrences. lia. Qed.

Lemma occurrences_existsb (k : nat) (l : list (Z * bool)) :
  existsb (fun a => a.1 =? Z.of_nat k + 1) l = (0 <? occurrences k l).
Proof.
  induction l as [|a l IH]; [reflexivity|].
  rewrite occurrences_cons. simpl. rewrite IH.
  pose proof (occurrences_nonneg k l).
  case_decide as Hd.
  - rewrite (proj2 (Z.eqb_eq _ _) Hd). simpl. symmetry. apply Z.ltb_lt. lia.
  - rewrite (proj2 (Z.eqb_neq _ _) Hd). simpl. reflexivity.
Qed.

(** The counting loop adds to every counter the number of associations to
    its property. *)
Lemma count_associations_spec (n : nat) (l : list (Z * bool)) (c : list Z) :
  indices_within (Z.of_nat n) l ->
  length c = n ->
  exists c',
    count_associations l c = Ok c'
    /\ length c' = n
    /\ forall k v, c !! k = Some v -> c' !! k = Some (v + occurrences k l).
Proof.
  unfold indices_within. revert c.
  induction l as [|[p e] l IH]; intros c Hl Hc.
  - exists c. split; [reflexivity|]. split; [assumption|].
    intros k v Hk. rewrite Hk. f_equal. unfold occurrences. simpl. lia.
  - apply Forall_cons in Hl as [Hp Hl]. simpl in Hp.
    assert (Hlt : (Z.to_nat (p - 1) < length c)%nat) by lia.
    destruct (lookup_lt_is_Some_2 _ _ Hlt) as [v0 Hv0].
    cbn [count_associations].
    rewrite (py_index_within c (p - 1) v0) by (assumption || lia). cbn [res_bind].
    rewrite py_setitem_within by lia. cbn [res_bind].
    destruct (IH (<[Z.to_nat (p - 1) := v0 + 1]> c) Hl) as (c' & Hrun & Hlen & Hval).
    { rewrite length_insert. exact Hc. }
    exists c'. split; [exact Hrun|]. split; [exact Hlen|].
    intros k v Hk. rewrite occurrences_cons. simpl.
    destruct (decide (k = Z.to_nat (p - 1))) as [->|Hne].
    + rewrite Hv0 in Hk. injection Hk as <-.
      rewrite (Hval _ (v0 + 1)) by (apply list_lookup_insert_eq; exact Hlt).
      rewrite decide_True by lia. f_equal. lia.
    + rewrite (Hval _ v) by (rewrite list_lookup_insert_ne by congruence; exact Hk).
      rewrite decide_False by lia. f_equal.
Qed.

Lemma occurrences_app (k : nat) (l1 l2 : list (Z * bool)) :
  occurrences k (l1 ++ l2) = occurrences k l1 + occurrences k l2.
Proof. unfold occurrences. rewrite filter_app, length_app. lia. Qed.

Lemma count_all_spec (n : nat) (lists : list (list (Z * bool))) (c : list Z) :
  Forall (indices_within (Z.of_nat n)) lists ->
  length c = n ->
  exists c',
    count_all lists c = Ok c'
    /\ length c' = n
    /\ forall k v, c !! k = Some v -> c' !! k = Some (v + occurrences k (concat lists)).
Proof.
  revert c. induction lists as [|l lists IH]; intros c Hl Hc.
  - exists c. split; [reflexivity|]. split; [assumption|].
    intros k v Hk. rewrite Hk. f_equal. unfold occurrences. simpl. lia.
  - apply Forall_cons in Hl as [Hl Hlists].
    destruct (count_associations_spec n l c Hl Hc) as (c1 & Hrun1 & Hlen1 & Hval1).
    destruct (IH c1 Hlists Hlen1) as (c' & Hrun & Hlen & Hval).
    exists c'. cbn [count_all]. rewrite Hrun1. cbn [res_bind].
    split; [exact Hrun|]. split; [exact Hlen|].
    intros k v Hk. rewrite (Hval k _ (Hval1 k v Hk)).
    simpl. rewrite occurrences_app. f_equal. lia.
Qed.

(** The counters, once every association is counted. *)
Lemma count_all_from_zero (m : gmap Z (list (Z * bool))) (n : nat) :
  all_within (Z.of_nat n) m ->
  exists c,
    count_all (snd <$> map_to_list m) (replicate n 0) = Ok c
    /\ length c = n
    /\ forall k, (k < n)%nat -> c !! k = Some (occurrences k (all_associations m)).
Proof.
  intros Hall.
  destruct (count_all_spec n (snd <$> map_to_list m) (replicate n 0))
    as (c & Hrun & Hlen & Hval).
  - apply Forall_forall. intros l Hl.
    apply list_elem_of_fmap in Hl as ([item l'] & -> & Hin).
    apply elem_of_map_to_list in Hin. exact (Hall item l' Hin).
  - apply length_replicate.
  - exists c. split; [exact Hrun|]. split; [exact Hlen|].
    intros k Hk. rewrite (Hval k 0); [reflexivity|].
    apply lookup_replicate_2. exact Hk.
Qed.
Lemma referenced_occurrences (m : gmap Z (list (Z * bool))) (k : nat) :
  referenced m k = (0 <? occurrences k (all_associations m)).
Proof. apply occurrences_existsb. Qed.

(** An association of some item references its property. *)
Lemma referenced_elem (m : gmap Z (list (Z * bool))) (item : Z) (l : list (Z * bool))
    (a : Z * bool) :
  m !! item = Some l -> a ∈ l -> 1 <= a.1 ->
  referenced m (Z.to_nat (a.1 - 1)) = true.
Proof.
  intros Hm Ha Hp. unfold referenced. apply existsb_exists. exists a. split.
  - unfold all_associations. apply in_concat. exists l. split.
    + apply list_elem_of_In. apply list_elem_of_fmap. exists (item, l).
      split; [reflexivity|]. apply elem_of_map_to_list. exact Hm.
    + apply list_elem_of_In. exact Ha.
  - apply Z.eqb_eq. lia.
Qed.

(** The flags and the running sums of [drop_unused_item_properties]. *)
Lemma props_to_drop_spec (m : gmap Z (list (Z * bool))) (c : list Z) :
  (forall k, (k < length c)%nat -> c !! k = Some (occurrences k (all_associations m))) ->
  map (fun v => if 0 <? v then 0 else 1) c
  = map (fun k => if referenced m k then 0 else 1) (seq 0 (length c)).
Proof.
  intros Hc. apply list_eq. intros k.
  rewrite !list_lookup_fmap.
  destruct (decide (k < length c)%nat) as [Hk|Hk].
  - rewrite (Hc k Hk), lookup_seq_lt by exact Hk. simpl.
    rewrite referenced_occurrences. reflexivity.
  - rewrite !lookup_ge_None_2; [reflexivity| |]; [rewrite length_seq|]; lia.
Qed.

Lemma accumulate_from_lookup (fl : nat -> Z) (n s j : nat) (acc : Z) :
  (j < n)%nat ->
  accumulate_from acc (map fl (seq s n)) !! j
  = Some (acc + foldr (fun k t => fl k + t) 0 (seq s (S j))).
Proof.
  revert s j acc. induction n as [|n IH]; intros s j acc Hj; [lia|].
  cbn [seq map accumulate_from].
  destruct j as [|j].
  - simpl. f_equal. lia.
  - cbn [lookup list_lookup]. rewrite IH by lia.
    f_equal. change (seq s (S (S j))) with (s :: seq (S s) (S j)).
    cbn [foldr]. lia.
Qed.

Lemma removed_before_sum (m : gmap Z (list (Z * bool))) (j : nat) :
  foldr (fun k t => (if referenced m k then 0 else 1) + t) 0 (seq 0 j)
  = removed_before m j.
Proof.
  induction j as [|j IH]; [reflexivity|].
  rewrite seq_S, foldr_app. cbn [removed_before foldr plus].
  rewrite <- IH. clear IH.
  generalize (if referenced m j then 0 else 1). intros z.
  generalize 0%nat. induction j as [|j IH]; intros s; simpl; [lia|].
  rewrite IH. lia.
Qed.

Lemma decrement_count_lookup (m : gmap Z (list (Z * bool))) (n j : nat) :
  (j < n)%nat ->
  accumulate (map (fun k => if referenced m k then 0 else 1) (seq 0 n)) !! j
  = Some (removed_before m (S j)).
Proof.
  intros Hj. unfold accumulate.
  rewrite (accumulate_from_lookup (fun k => if referenced m k then 0 else 1)) by exact Hj.
  rewrite removed_before_sum. f_equal.
Qed.

Lemma length_accumulate_from (acc : Z) (l : list Z) :
  length (accumulate_from acc l) = length l.
Proof. revert acc. induction l as [|x l IH]; intros acc; simpl; [|rewrite IH]; reflexivity. Qed.

(** The re-indexing loop on the list of an item. *)
Lemma decrement_associations_spec (m : gmap Z (list (Z * bool))) (n : nat) (item : Z)
    (l0 l : list (Z * bool)) :
  m !! item = Some l0 ->
  l ⊆ l0 ->
  indices_within (Z.of_nat n) l ->
  decrement_associations
    (accumulate (map (fun k => if referenced m k then 0 else 1) (seq 0 n))) l
  = Ok (reindexed m l).
Proof.
  intros Hm Hsub Hl. unfold indices_within in Hl.
  induction l as [|[p e] l IH]; [reflexivity|].
  apply Forall_cons in Hl as [Hp Hl]. simpl in Hp.
  cbn [decrement_associations].
  rewrite (py_index_within _ (p - 1) (removed_before m (S (Z.to_nat (p - 1)))));
    [|lia|apply decrement_count_lookup; lia].
  cbn [res_bind].
  rewrite IH; [|intros x Hx; apply Hsub; apply list_elem_of_further; exact Hx|exact Hl].
  cbn [res_bind]. unfold reindexed. cbn [map fst snd]. do 3 f_equal.
  cbn [removed_before].
  assert (Hr : referenced m (Z.to_nat (p - 1)) = true).
  { apply (referenced_elem m item l0 (p, e) Hm); [|simpl; lia].
    apply Hsub. apply list_elem_of_here. }
  rewrite Hr. lia.
Qed.

Lemma decrement_all_spec (m : gmap Z (list (Z * bool))) (n : nat)
    (items : list (Z * list (Z * bool))) :
  all_within (Z.of_nat n) m ->
  items ⊆ map_to_list m ->
  decrement_all
    (accumulate (map (fun k => if referenced m k then 0 else 1) (seq 0 n))) items
  = Ok (list_to_map (prod_map id (reindexed m) <$> items)).
Proof.
  intros Hall Hsub. induction items as [|[item l] items IH]; [reflexivity|].
  assert (Hm : m !! item = Some l).
  { apply elem_of_map_to_list. apply Hsub. apply list_elem_of_here. }
  cbn [decrement_all].
  rewrite (decrement_associations_spec m n item l l Hm);
    [|intros x Hx; exact Hx|exact (Hall _ _ Hm)].
  cbn [res_bind].
  rewrite IH by (intros x Hx; apply Hsub; apply list_elem_of_further; exact Hx).
  reflexivity.
Qed.

Lemma keep_properties_spec (m : gmap Z (list (Z * bool))) (props : list Box) (s : nat) :
  keep_properties props
    (map (fun k => if referenced m k then 0 else 1) (seq s (length props)))
  = Ok (surviving_from m s props).
Proof.
  revert s. induction props as [|box props IH]; intros s; [reflexivity|].
  cbn [length seq map keep_properties surviving_from].
  rewrite IH. cbn [res_bind]. destruct (referenced m s); reflexivity.
Qed.

(** When every property is referenced nothing is removed. *)
Lemma removed_before_none (m : gmap Z (list (Z * bool))) (n j : nat) :
  (forall k, (k < n)%nat -> referenced m k = true) ->
  (j <= n)%nat -> removed_before m j = 0.
Proof.
  intros Hall. induction j as [|j IH]; intros Hj; [reflexivity|].
  cbn [removed_before]. rewrite IH, Hall by lia. reflexivity.
Qed.

Lemma surviving_from_all (m : gmap Z (list (Z * bool))) (props : list Box) (s : nat) :
  (forall k, (k < s + length props)%nat -> referenced m k = true) ->
  surviving_from m s props = props.
Proof.
  revert s. induction props as [|box props IH]; intros s Hall; [reflexivity|].
  cbn [surviving_from]. rewrite Hall by (simpl; lia).
  f_equal. apply IH. intros k Hk. apply Hall. simpl. lia.
Qed.
Lemma surviving_from_same (m : gmap Z (list (Z * bool))) (props : list Box) (s : nat) :
  (forall k, (s <= k < s + length props)%nat -> referenced m k = true) ->
  surviving_from m s props = props.
Proof.
  revert s. induction props as [|box props IH]; intros s Hall; [reflexivity|].
  cbn [surviving_from]. rewrite Hall by (simpl; lia).
  f_equal. apply IH. intros k Hk. apply Hall. simpl. lia.
Qed.

Lemma surviving_from_single (m : gmap Z (list (Z * bool))) (props : list Box)
    (s k0 : nat) :
  (forall k, (s <= k < s + length props)%nat -> referenced m k = false <-> k = k0) ->
  (s <= k0 < s + length props)%nat ->
  surviving_from m s props = delete (k0 - s)%nat props.
Proof.
  revert s. induction props as [|box props IH]; intros s Hone Hk0; [simpl in Hk0; lia|].
  cbn [surviving_from]. simpl in Hk0.
  destruct (decide (k0 = s)) as [->|Hne].
  - rewrite (proj2 (Hone s ltac:(simpl; lia)) eq_refl).
    rewrite Nat.sub_diag. simpl. apply surviving_from_same.
    intros k Hk. destruct (referenced m k) eqn:E; [reflexivity|].
    apply Hone in E; [lia|simpl; lia].
  - destruct (referenced m s) eqn:E.
    + replace (k0 - s)%nat with (S (k0 - S s)) by lia. simpl. f_equal.
      apply IH; [|lia]. intros k Hk. apply Hone. simpl. lia.
    + apply Hone in E; [congruence|simpl; lia].
Qed.

Lemma removed_before_single (m : gmap Z (list (Z * bool))) (n k0 j : nat) :
  (forall k, (k < n)%nat -> referenced m k = false <-> k = k0) ->
  (j <= n)%nat ->
  removed_before m j = if (k0 <? j)%nat then 1 else 0.
Proof.
  intros Hone. induction j as [|j IH]; intros Hj; [reflexivity|].
  cbn [removed_before]. rewrite IH by lia.
  destruct (referenced m j) eqn:E.
  - assert (k0 <> j) by (intros <-; rewrite (proj2 (Hone k0 ltac:(lia)) eq_refl) in E;
                         discriminate).
    destruct (Nat.ltb_spec k0 j), (Nat.ltb_spec k0 (S j)); lia.
  - apply Hone in E; [|lia]. subst k0.
    rewrite Nat.ltb_irrefl, (proj2 (Nat.ltb_lt j (S j))) by lia. reflexivity.
Qed.

Lemma associations_for_dropped (self : ParsedFile) (ipma_box c : Box)
    (m : gmap Z (list (Z * bool))) (item : Z) :
  associations_for (set_ipco c (set_ipma (set_associations m ipma_box) self)) item
  = Some (default [] (m !! item)).
Proof.
  unfold associations_for, associations_of, py_getitem. simpl.
  rewrite lookup_insert_eq. reflexivity.
Qed.

Lemma reindexed_same (m : gmap Z (list (Z * bool))) (n : nat) (l : list (Z * bool)) :
  (forall k, (k < n)%nat -> referenced m k = true) ->
  indices_within (Z.of_nat n) l ->
  reindexed m l = l.
Proof.
  intros Hall Hl. unfold reindexed. rewrite <- (map_id l) at 2.
  apply map_ext_in. intros [p e] Hin. unfold indices_within in Hl.
  rewrite Forall_forall in Hl. apply list_elem_of_In in Hin.
  specialize (Hl _ Hin). simpl in *.
  rewrite (removed_before_none m n) by (assumption || lia).
  f_equal. lia.
Qed.

(** With every association within range, [drop_unused_item_properties]
    keeps exactly the properties that some item references, and replaces
    every property index by itself minus the number of removed properties
    that preceded it.  In particular, when a single property is left
    without association, that property is deleted from the list and the
    indices above it are decremented by one, for every item. *)
Lemma drop_unused_item_properties_spec (self : ParsedFile) (ipma_box ipco_box : Box)
    (props : list Box) (m : gmap Z (list (Z * bool))) :
  property_boxes self = Some (ipma_box, ipco_box, props) ->
  associations_of ipma_box = Ok m ->
  all_within (len props) m ->
  exists self',
    drop_unused_item_properties self = Ok self'
    /\ properties_of self' = Some (surviving m props)
    /\ (forall item,
          associations_for self' item = Some (reindexed m (default [] (m !! item))))
    /\ (forall k0 : nat,
          (k0 < length props)%nat ->
          (forall k, (k < length props)%nat -> referenced m k = false <-> k = k0) ->
          properties_of self' = Some (delete k0 props)
          /\ forall item,
               associations_for self' item
               = Some (map (fun a => (if Z.of_nat k0 + 1 <? a.1 then a.1 - 1 else a.1, a.2))
                           (default [] (m !! item)))).
Proof.
  intros Hboxes Hm Hall. unfold len in Hall.
  assert (Hitem : forall item, indices_within (Z.of_nat (length props))
                                 (default [] (m !! item))).
  { intros item. destruct (m !! item) as [l|] eqn:E; [exact (Hall _ _ E)|].
    apply Forall_nil_2. }
  assert (Hmain : exists self',
             drop_unused_item_properties self = Ok self'
             /\ properties_of self' = Some (surviving m props)
             /\ forall item,
                  associations_for self' item
                  = Some (reindexed m (default [] (m !! item)))).
  { unfold drop_unused_item_properties. rewrite Hboxes, Hm. cbn [res_bind].
    destruct (count_all_from_zero m (length props) Hall) as (c & Hrun & Hlen & Hval).
    rewrite Hrun. cbn [res_bind].
    destruct (forallb (fun c0 => negb (c0 =? 0)) c) eqn:Hzero.
    - assert (Href : forall k, (k < length props)%nat -> referenced m k = true).
      { intros k Hk. rewrite referenced_occurrences.
        pose proof (occurrences_nonneg k (all_associations m)).
        rewrite forallb_forall in Hzero.
        specialize (Hzero (occurrences k (all_associations m))).
        rewrite negb_true_iff, Z.eqb_neq in Hzero.
        apply Z.ltb_lt. cut (occurrences k (all_associations m) <> 0); [lia|].
        apply Hzero. apply list_elem_of_In. apply list_elem_of_lookup.
        exists k. apply Hval. exact Hk. }
      exists self. split; [reflexivity|]. split.
      + rewrite (properties_of_boxes _ _ _ _ Hboxes). unfold surviving.
        rewrite surviving_from_same; [reflexivity|]. intros k Hk. apply Href. lia.
      + intros item. rewrite (associations_for_self _ _ _ _ _ item Hboxes Hm).
        rewrite (reindexed_same m (length props)); [reflexivity|exact Href|apply Hitem].
    - rewrite (props_to_drop_spec m c) by (rewrite Hlen; exact Hval).
      rewrite Hlen.
      rewrite (decrement_all_spec m (length props) (map_to_list m) Hall) by reflexivity.
      cbn [res_bind]. rewrite keep_properties_spec. cbn [res_bind].
      eexists. split; [reflexivity|]. split; [reflexivity|].
      intros item. rewrite associations_for_dropped.
      rewrite list_to_map_fmap, list_to_map_to_list, lookup_fmap.
      destruct (m !! item); reflexivity. }
  destruct Hmain as (self' & Hrun & Hprops & Hassoc).
  exists self'. split; [exact Hrun|]. split; [exact Hprops|]. split; [exact Hassoc|].
  intros k0 Hk0 Hone. split.
  - rewrite Hprops. unfold surviving.
    rewrite (surviving_from_single m props 0 k0); [rewrite Nat.sub_0_r; reflexivity| |lia].
    intros k Hk. apply Hone. lia.
  - intros item. rewrite Hassoc. f_equal. unfold reindexed.
    apply map_ext_in. intros [p e] Hin. apply list_elem_of_In in Hin.
    pose proof (Hitem item) as Hl. unfold indices_within in Hl.
    rewrite Forall_forall in Hl. specialize (Hl _ Hin). simpl in *.
    rewrite (removed_before_single m (length props) k0) by (assumption || lia).
    f_equal.
    destruct (Nat.ltb_spec k0 (Z.to_nat (p - 1))), (Z.ltb_spec (Z.of_nat k0 + 1) p); lia.
Qed.

(** [referenced] says what its name says. *)
Lemma referenced_spec (m : gmap Z (list (Z * bool))) (k : nat) :
  referenced m k = true
  <-> exists item l e, m !! item = Some l /\ (Z.of_nat k + 1, e) ∈ l.
Proof.
  unfold referenced, all_associations. rewrite existsb_exists. split.
  - intros ([p e] & Hin & Hp). apply Z.eqb_eq in Hp. simpl in Hp. subst p.
    apply in_concat in Hin as (l & Hl & Hin).
    apply list_elem_of_In, list_elem_of_fmap in Hl as ([item l'] & -> & Hl).
    apply elem_of_map_to_list in Hl.
    exists item, l', e. split; [exact Hl|]. apply list_elem_of_In. exact Hin.
  - intros (item & l & e & Hm & Hin). exists (Z.of_nat k + 1, e). split.
    + apply in_concat. exists l. split; apply list_elem_of_In; [|exact Hin].
      apply list_elem_of_fmap. exists (item, l). split; [reflexivity|].
      apply elem_of_map_to_list. exact Hm.
    + apply Z.eqb_eq. reflexivity.
Qed.

Lemma drop_unused_item_properties_spec_witness :
  exists self',
    drop_unused_item_properties unused_second = Ok self'
    /\ properties_of self' = Some [ispe_box; colr_box]
    /\ associations_for self' 1 = Some [(1, true); (2, false)]
    /\ associations_for self' 2 = Some [(2, true)].
Proof.
  assert (Hall : all_within (len [ispe_box; pixi_box; colr_box])
                   {[ 1 := [(1, true); (3, false)]; 2 := [(3, true)] ]}).
  { intros item l Hl. unfold indices_within, len.
    destruct (decide (item = 1)) as [->|H1].
    - rewrite lookup_insert_eq in Hl. injection Hl as <-.
      repeat (apply Forall_cons; split; [simpl; lia|]). apply Forall_nil_2.
    - rewrite lookup_insert_ne in Hl by congruence.
      destruct (decide (item = 2)) as [->|H2].
      + rewrite lookup_singleton_eq in Hl. injection Hl as <-.
        repeat (apply Forall_cons; split; [simpl; lia|]). apply Forall_nil_2.
      + rewrite lookup_singleton_ne in Hl by congruence. discriminate. }
  destruct (drop_unused_item_properties_spec unused_second _ _ _ _ eq_refl eq_refl Hall)
    as (self' & Hrun & Hprops & Hassoc & _).
  exists self'. split; [exact Hrun|].
  split; [rewrite Hprops; vm_compute; reflexivity|].
  split; rewrite Hassoc; vm_compute; reflexivity.
Defined.

(** C8: [ipco] holds an [ispe] and a [pixi] box and [ipma] associates
    item 1 with the property index 0 and nothing else, which the parser
    takes as it is.  Nothing refers to either property.  The counting loop
    reads the index 0 as [prop_assoc_count[-1]], the count of the last
    property: [ispe] is dropped, [pixi] stays although it has no
    association, and the index 0 is decremented to -1. *)
Theorem drop_unused_item_properties_index_zero :
  exists parsed_file ipma_box dropped kept,
    ParsedFile_init 3 zero_index_file = Ok parsed_file
    /\ ipma parsed_file = Some ipma_box
    /\ associations_of ipma_box = Ok {[ 1 := [(0, false)] ]}
    /\ fmap (map box_type) (properties_of parsed_file) = Some ["ispe"; "pixi"]%string
    /\ referenced {[ 1 := [(0, false)] ]} 0 = false
    /\ referenced {[ 1 := [(0, false)] ]} 1 = false
    /\ drop_unused_item_properties parsed_file = Ok dropped
    /\ properties_of dropped = Some [kept]
    /\ box_type kept = "pixi"%string
    /\ associations_for dropped 1 = Some [(-1, false)].
Proof.
  assert (F : match ParsedFile_init 3 zero_index_file with
              | Ok parsed_file =>
                  match ipma parsed_file with
                  | Some ipma_box => associations_of ipma_box = Ok {[ 1 := [(0, false)] ]}
                  | None => False
                  end
                  /\ fmap (map box_type) (properties_of parsed_file)
                     = Some ["ispe"; "pixi"]%string
                  /\ match drop_unused_item_properties parsed_file with
                     | Ok dropped =>
                         match properties_of dropped with
                         | Some [kept] => box_type kept = "pixi"%string
                         | _ => False
                         end
                         /\ associations_for dropped 1 = Some [(-1, false)]
                     | _ => False
                     end
              | _ => False
              end) by (vm_compute; repeat split; reflexivity).
  destruct (ParsedFile_init 3 zero_index_file) as [parsed_file| |] eqn:Hparse;
    try contradiction.
  destruct F as (Ha & Hp & F).
  destruct (ipma parsed_file) as [ipma_box|] eqn:Hipma; try contradiction.
  destruct (drop_unused_item_properties parsed_file) as [dropped| |] eqn:Hdrop;
    try contradiction.
  destruct F as (Hk & Hd).
  destruct (properties_of dropped) as [[|kept [|? ?]]|] eqn:Hprops; try contradiction.
  exists parsed_file, ipma_box, dropped, kept.
  split; [reflexivity|]. split; [exact Hipma|]. split; [exact Ha|]. split; [exact Hp|].
  split; [vm_compute; reflexivity|]. split; [vm_compute; reflexivity|].
  split; [exact Hdrop|]. split; [exact Hprops|]. split; [exact Hk|exact Hd].
Qed.

Lemma surviving_from_elem (m : gmap Z (list (Z * bool))) (k : nat) (props : list Box)
    (box : Box) :
  box ∈ surviving_from m k props -> box ∈ props.
Proof.
  revert k. induction props as [|b props IH]; intros k; simpl; [auto|].
  destruct (referenced m k).
  - intros H. apply elem_of_cons in H as [->|H]; [apply list_elem_of_here|].
    apply list_elem_of_further. exact (IH _ H).
  - intros H. apply list_elem_of_further. exact (IH _ H).
Qed.

(** The removal of unused properties, the only other change that the tool
    makes to the list, keeps a list without duplicates without. *)
Lemma surviving_no_duplicate (m : gmap Z (list (Z * bool))) (props : list Box) :
  no_duplicate_property props -> no_duplicate_property (surviving m props).
Proof.
  unfold no_duplicate_property, surviving. generalize 0%nat.
  induction props as [|b props IH]; intros k Hnodup; simpl; [exact Hnodup|].
  rewrite fmap_cons in Hnodup. apply NoDup_cons in Hnodup as [Hnotin Hnodup].
  destruct (referenced m k); [|exact (IH _ Hnodup)].
  rewrite fmap_cons. apply NoDup_cons. split; [|exact (IH _ Hnodup)].
  intros Hin. apply Hnotin. apply list_elem_of_fmap in Hin as (box & Hkey & Hbox).
  apply list_elem_of_fmap. exists box. split; [exact Hkey|].
  exact (surviving_from_elem _ _ _ _ Hbox).
Qed.

(* ===================================================================== *)
(** * Properties of the offset patching                                   *)
(* ===================================================================== *)

Lemma get_offset_list_nonempty (p : PlaceholderFileOffset) : get_offset_list p <> [].
Proof.
  unfold get_offset_list. destruct (ph_dependents p); simpl; discriminate.
Qed.

Lemma offsets_all_in (mdat_box : Box) (offsets : list Z) :
  Forall (in_mdat mdat_box) offsets ->
  forallb id (map (fun o => (box_start mdat_box <=? o) && (o <? box_end mdat_box)) offsets)
  = true.
Proof.
  induction 1 as [|o offsets Ho _ IH]; [reflexivity|].
  simpl. rewrite IH, andb_true_r. unfold id, in_mdat in *.
  apply andb_true_intro. split; [apply Z.leb_le|apply Z.ltb_lt]; lia.
Qed.

Lemma offsets_none_in (mdat_box : Box) (offsets : list Z) :
  Forall (fun o => ~ in_mdat mdat_box o) offsets ->
  existsb id (map (fun o => (box_start mdat_box <=? o) && (o <? box_end mdat_box)) offsets)
  = false.
Proof.
  induction 1 as [|o offsets Ho _ IH]; [reflexivity|].
  simpl. rewrite IH, orb_false_r. unfold id, in_mdat in *.
  destruct (Z.leb_spec (box_start mdat_box) o), (Z.ltb_spec o (box_end mdat_box));
    simpl; try reflexivity. lia.
Qed.

Lemma forallb_false_of_none (l : list bool) :
  l <> [] -> existsb id l = false -> forallb id l = false.
Proof.
  destruct l as [|b l]; [congruence|]. simpl. unfold id.
  intros _ H. apply orb_false_elim in H as [-> _]. reflexivity.
Qed.

(** The search ends on the region that holds all the offsets, when the
    regions do not overlap. *)
Lemma find_mdat_in_region (offsets : list Z) (mdat_boxes : list (Box * Z))
    (cur : option (Box * Z)) (mdat_box : Box) (new_offset : Z) :
  mdats_disjoint mdat_boxes ->
  (mdat_box, new_offset) ∈ mdat_boxes ->
  offsets <> [] ->
  Forall (in_mdat mdat_box) offsets ->
  exists found,
    find_mdat offsets mdat_boxes cur = Ok (Some found)
    /\ found.2 - box_start found.1 = new_offset - box_start mdat_box.
Proof.
  intros Hdis Hin Hne Hall. revert cur.
  induction mdat_boxes as [|[mb no] rest IH]; intros cur; [inversion Hin|].
  destruct Hdis as [Hhead Hdis]. cbn [find_mdat].
  destruct (forallb id _) eqn:Hf.
  - eexists. split; [reflexivity|]. simpl.
    apply elem_of_cons in Hin as [Heq|Hin]; [injection Heq as <- <-; reflexivity|].
    exfalso. rewrite Forall_forall in Hhead. specialize (Hhead _ Hin). simpl in Hhead.
    destruct offsets as [|o offsets]; [congruence|].
    apply Forall_cons in Hall as [Ho _]. simpl in Hf.
    apply andb_true_iff in Hf as [Hf _]. unfold id in Hf.
    apply andb_true_iff in Hf as [H1 H2]. apply Z.leb_le in H1. apply Z.ltb_lt in H2.
    unfold in_mdat in Ho. lia.
  - apply elem_of_cons in Hin as [Heq|Hin].
    + injection Heq as <- <-. rewrite offsets_all_in in Hf by exact Hall. discriminate.
    + rewrite offsets_none_in.
      * cbn [negb py_assert res_bind]. apply IH; assumption.
      * rewrite Forall_forall in Hhead. specialize (Hhead _ Hin). simpl in Hhead.
        eapply Forall_impl; [exact Hall|]. unfold in_mdat. intros o Ho Hmb. lia.
Qed.

(** When no region holds any of the offsets, the search runs to the end of
    the list and is left with its last element. *)
Lemma find_mdat_in_no_region (offsets : list Z) (mdat_boxes : list (Box * Z))
    (cur : option (Box * Z)) :
  offsets <> [] ->
  Forall (fun m => Forall (fun o => ~ in_mdat m.1 o) offsets) mdat_boxes ->
  find_mdat offsets mdat_boxes cur = Ok (last (from_option (fun c => [c]) [] cur ++ mdat_boxes)).
Proof.
  intros Hne Hall. revert cur.
  induction Hall as [|[mb no] rest Hnone _ IH]; intros cur.
  - simpl. rewrite app_nil_r. destruct cur; reflexivity.
  - cbn [find_mdat]. simpl in Hnone.
    pose proof (offsets_none_in mb offsets Hnone) as He.
    assert (Hmap : map (fun o => (box_start mb <=? o) && (o <? box_end mb)) offsets <> [])
      by (destruct offsets; [congruence|discriminate]).
    rewrite (forallb_false_of_none _ Hmap He), He.
    cbn [negb py_assert res_bind]. rewrite IH. f_equal.
    destruct cur; simpl; rewrite ?last_cons_cons; reflexivity.
Qed.

Lemma length_be_bytes (n : nat) (v : Z) : length (be_bytes n v) = n.
Proof.
  revert v. induction n as [|n IH]; intros v; [reflexivity|].
  simpl. rewrite length_app, IH. simpl. lia.
Qed.

Lemma byte_to_of_Z (v : Z) : byte_to_Z (byte_of_Z v) = v mod 256.
Proof.
  unfold byte_to_Z, byte_of_Z.
  pose proof (Z.mod_pos_bound v 256 ltac:(lia)) as Hb.
  destruct (Byte.of_N (Z.to_N (v mod 256))) as [b|] eqn:E.
  - apply Byte.to_of_N in E. rewrite E. lia.
  - apply Byte.of_N_None_iff in E. lia.
Qed.

Lemma be_value_snoc (l : list byte) (b : byte) :
  be_value (l ++ [b]) = be_value l * 256 + byte_to_Z b.
Proof. unfold be_value. rewrite fold_left_app. reflexivity. Qed.

(** The bytes written for a value that fits read back as the value. *)
Lemma be_value_be_bytes (n : nat) (v : Z) :
  0 <= v < 256 ^ Z.of_nat n -> be_value (be_bytes n v) = v.
Proof.
  revert v. induction n as [|n IH]; intros v Hv.
  - simpl in *. unfold be_value. simpl. lia.
  - cbn [be_bytes]. rewrite be_value_snoc, byte_to_of_Z, IH.
    + pose proof (Z.div_mod v 256 ltac:(lia)). lia.
    + rewrite Nat2Z.inj_succ, Z.pow_succ_r in Hv by lia.
      split; [apply Z.div_pos; lia|]. apply Z.div_lt_upper_bound; lia.
Qed.

Lemma write_delta_run (p : PlaceholderFileOffset) (out : OutFile) (delta : Z) :
  offset_width (ph_size p) ->
  0 <= ph_file_pos p ->
  ph_file_pos p + ph_size p <= len (out_data out) ->
  0 <= out_pos out ->
  let v := ph_value p + delta in
  write_delta p out delta
  = if (0 <=? v) && (v <=? 2 ^ (8 * ph_size p) - 1)
    then Ok (overwritten out (ph_file_pos p) (be_bytes (Z.to_nat (ph_size p)) v))
    else Raise AssertionError.
Proof.
  intros Hw Hpos Hend Hout v. unfold write_delta. fold v.
  assert (Hsz : 0 < ph_size p) by (unfold offset_width in Hw; lia).
  rewrite Z.shiftl_1_l, (Z.mul_comm (ph_size p) 8).
  destruct (0 <=? v) eqn:H0; [|reflexivity]. cbn [py_assert res_bind andb].
  destruct (v <=? 2 ^ (8 * ph_size p) - 1) eqn:H1; [|reflexivity].
  cbn [py_assert res_bind]. apply Z.leb_le in H0, H1.
  unfold write_integer_of_size, get_struct_type.
  replace ((ph_size p =? 1) || (ph_size p =? 2) || (ph_size p =? 4) || (ph_size p =? 8))
    with true
    by (unfold offset_width in Hw; destruct Hw as [->|[->|[->| ->]]]; reflexivity).
  cbn [py_assert res_bind struct_pack].
  replace ((0 <=? v) && (v <? 2 ^ (8 * ph_size p))) with true
    by (symmetry; apply andb_true_intro; split; [apply Z.leb_le|apply Z.ltb_lt]; lia).
  cbn [res_bind]. unfold out_seek, out_tell.
  replace (ph_file_pos p <? 0) with false by (symmetry; apply Z.ltb_ge; lia).
  cbn [res_bind]. unfold out_write. cbn [out_data out_pos].
  replace (out_pos out <? 0) with false by (symmetry; apply Z.ltb_ge; lia).
  unfold overwritten. f_equal. f_equal.
  unfold len in Hend.
  replace (Z.to_nat (ph_file_pos p) - length (out_data out))%nat with 0%nat by lia.
  simpl. rewrite app_nil_r. reflexivity.
Qed.

(** A placeholder that belongs to no region is patched with the delta of
    the last [mdat] box of the file. *)
Lemma patch_placeholder_in_no_region (mdat_boxes : list (Box * Z))
    (placeholder : PlaceholderFileOffset) (out : OutFile) (mdat_box : Box) (new_offset : Z) :
  Forall (fun m => Forall (fun o => ~ in_mdat m.1 o) (get_offset_list placeholder))
         mdat_boxes ->
  last mdat_boxes = Some (mdat_box, new_offset) ->
  patch_placeholder mdat_boxes placeholder out
  = write_delta placeholder out (new_offset - box_start mdat_box).
Proof.
  intros Hnone Hlast. unfold patch_placeholder.
  rewrite (find_mdat_in_no_region _ _ None (get_offset_list_nonempty placeholder) Hnone).
  simpl. rewrite Hlast. reflexivity.
Qed.

Lemma offsets_not_all_in (mdat_box : Box) (offsets : list Z) :
  ~ Forall (in_mdat mdat_box) offsets ->
  forallb id (map (fun o => (box_start mdat_box <=? o) && (o <? box_end mdat_box)) offsets)
  = false.
Proof.
  intros Hnot. apply not_true_is_false. intros Hall. apply Hnot.
  apply Forall_forall. intros o Ho.
  rewrite forallb_forall in Hall.
  specialize (Hall ((box_start mdat_box <=? o) && (o <? box_end mdat_box))).
  unfold id in Hall. apply list_elem_of_In in Ho.
  apply andb_true_iff in Hall as [H1 H2];
    [|apply in_map_iff; exists o; split; [reflexivity|exact Ho]].
  apply Z.leb_le in H1. apply Z.ltb_lt in H2. unfold in_mdat. lia.
Qed.

Lemma offsets_some_in (mdat_box : Box) (offsets : list Z) :
  Exists (in_mdat mdat_box) offsets ->
  existsb id (map (fun o => (box_start mdat_box <=? o) && (o <? box_end mdat_box)) offsets)
  = true.
Proof.
  induction 1 as [o offsets Ho|o offsets _ IH]; simpl.
  - unfold id, in_mdat in *.
    replace (box_start mdat_box <=? o) with true by (symmetry; apply Z.leb_le; lia).
    replace (o <? box_end mdat_box) with true by (symmetry; apply Z.ltb_lt; lia).
    reflexivity.
  - rewrite IH. apply orb_true_r.
Qed.

(** Offsets that no single region holds, some of which lie in a region,
    stop the writer: this is the assertion of the search loop. *)
Lemma patch_placeholder_straddling (mdat_boxes : list (Box * Z))
    (placeholder : PlaceholderFileOffset) (out : OutFile) :
  Forall (fun m => ~ Forall (in_mdat m.1) (get_offset_list placeholder)) mdat_boxes ->
  Exists (fun m => Exists (in_mdat m.1) (get_offset_list placeholder)) mdat_boxes ->
  patch_placeholder mdat_boxes placeholder out = Raise AssertionError.
Proof.
  intros Hnot Hsome. unfold patch_placeholder.
  assert (Hfind : forall cur,
             find_mdat (get_offset_list placeholder) mdat_boxes cur = Raise AssertionError).
  { induction mdat_boxes as [|[mb no] rest IH]; intros cur; [inversion Hsome|].
    apply Forall_cons in Hnot as [Hhead Hnot]. simpl in Hhead.
    cbn [find_mdat]. rewrite (offsets_not_all_in _ _ Hhead).
    destruct (existsb id _) eqn:Hany; [reflexivity|].
    cbn [negb py_assert res_bind]. apply IH; [exact Hnot|].
    apply Exists_cons in Hsome as [Hin|Hrest]; [|exact Hrest].
    simpl in Hin. rewrite (offsets_some_in _ _ Hin) in Hany. discriminate. }
  rewrite Hfind. reflexivity.
Qed.

(** C3: the sample is parsed, the brand [MA1B] is removed from [ftyp],
    which shrinks by four bytes, and the file is written.  The extent
    offset 20, stored at 58 in the source, lies in no [mdat] (the only one
    spans 66..82 in the source and starts at 62 in the output); [write]
    finishes all the same, and the four bytes of the placeholder, at 54 in
    the output, hold 20 + (62 - 66) = 16. *)
Theorem write_patches_stray_offset :
  exists parsed_file fixed out,
    ParsedFile_init 3 stray_offset_file = Ok parsed_file
    /\ take 4 (drop 58 stray_offset_file) = u32 20
    /\ filter (fun box => box_type box = "mdat"%string) (boxes parsed_file)
       = [Box_init "mdat" 16 66]
    /\ ~ in_mdat (Box_init "mdat" 16 66) 20
    /\ remove_brand "MA1B" parsed_file = Ok fixed
    /\ write 1 fixed out_empty = Ok out
    /\ take 4 (drop 54 (out_data out)) = u32 16.
Proof.
  eexists _, _, _.
  split; [vm_compute; reflexivity|]. split; [reflexivity|].
  split; [vm_compute; reflexivity|]. split; [unfold in_mdat; simpl; lia|].
  split; [vm_compute; reflexivity|]. split; vm_compute; reflexivity.
Qed.

(** One turn of the patching loop on a destination that holds the bytes
    of the placeholder: a placeholder all of whose resolved offsets lie in
    the original range of one recorded [mdat] box, the ranges being
    disjoint, is patched with the delta [D] of that box: the bytes at its
    recorded position are overwritten with [value + D] on [size] bytes when
    [0 <= value + D <= 2^(8 * size) - 1], and the write aborts otherwise;
    with [D = 0] the value written is the original one. *)
Lemma patch_placeholder_moves_offset
    (mdat_boxes : list (Box * Z)) (placeholder : PlaceholderFileOffset) (out : OutFile)
    (mdat_box : Box) (new_offset : Z) :
  mdats_disjoint mdat_boxes ->
  (mdat_box, new_offset) ∈ mdat_boxes ->
  Forall (in_mdat mdat_box) (get_offset_list placeholder) ->
  offset_width (ph_size placeholder) ->
  0 <= ph_file_pos placeholder ->
  ph_file_pos placeholder + ph_size placeholder <= len (out_data out) ->
  0 <= out_pos out ->
  let D := new_offset - box_start mdat_box in
  let new_value := ph_value placeholder + D in
  let width := Z.to_nat (ph_size placeholder) in
  let max_val := 2 ^ (8 * ph_size placeholder) - 1 in
  (0 <= new_value <= max_val ->
   patch_placeholder mdat_boxes placeholder out
   = Ok (overwritten out (ph_file_pos placeholder) (be_bytes width new_value))
   /\ be_value (be_bytes width new_value) = new_value)
  /\ (~ 0 <= new_value <= max_val ->
      patch_placeholder mdat_boxes placeholder out = Raise AssertionError)
  /\ (D = 0 -> 0 <= ph_value placeholder <= max_val ->
      patch_placeholder mdat_boxes placeholder out
      = Ok (overwritten out (ph_file_pos placeholder)
                        (be_bytes width (ph_value placeholder)))).
Proof.
  intros Hdis Hin Hall Hw Hpos Hend Hout D new_value width max_val.
  destruct (find_mdat_in_region _ _ None _ _ Hdis Hin
              (get_offset_list_nonempty placeholder) Hall) as ([mb no] & Hfind & Hdelta).
  simpl in Hdelta.
  assert (Hrun : patch_placeholder mdat_boxes placeholder out
                 = if (0 <=? new_value) && (new_value <=? max_val)
                   then Ok (overwritten out (ph_file_pos placeholder)
                                        (be_bytes width new_value))
                   else Raise AssertionError).
  { unfold patch_placeholder. rewrite Hfind. cbn [res_bind]. rewrite Hdelta.
    exact (write_delta_run placeholder out D Hw Hpos Hend Hout). }
  assert (Hin_range : 0 <= new_value <= max_val ->
                      (0 <=? new_value) && (new_value <=? max_val) = true).
  { intros [H0 H1]. apply andb_true_intro. split; apply Z.leb_le; assumption. }
  refine (conj _ (conj _ _)).
  - intros Hv. rewrite Hrun, (Hin_range Hv). split; [reflexivity|].
    apply be_value_be_bytes. subst width max_val.
    assert (0 < ph_size placeholder) by (unfold offset_width in Hw; lia).
    rewrite Z2Nat.id by lia.
    replace 256 with (2 ^ 8) by reflexivity. rewrite <- Z.pow_mul_r by lia. lia.
  - intros Hv. rewrite Hrun.
    destruct (Z.leb_spec 0 new_value), (Z.leb_spec new_value max_val);
      try reflexivity. lia.
  - intros HD Hv. subst new_value. rewrite HD, Z.add_0_r in *.
    rewrite Hrun, (Hin_range Hv). reflexivity.
Qed.

Lemma patch_placeholder_moves_offset_witness :
  patch_placeholder [(Box_init "mdat" 16 66, 58)] (mkPlaceholder 50 4 70 [])
                    (mkOut (replicate 74 x00) 74)
  = Ok (overwritten (mkOut (replicate 74 x00) 74) 50 (be_bytes 4 62))
  /\ be_value (be_bytes 4 62) = 62.
Proof.
  refine (proj1 (patch_placeholder_moves_offset
                   [(Box_init "mdat" 16 66, 58)] (mkPlaceholder 50 4 70 [])
                   (mkOut (replicate 74 x00) 74) (Box_init "mdat" 16 66) 58
                   _ _ _ _ _ _ _) _).
  - simpl. split; [apply Forall_nil_2|exact I].
  - apply list_elem_of_here.
  - apply Forall_cons. split; [unfold in_mdat; simpl; lia|apply Forall_nil_2].
  - unfold offset_width. simpl. lia.
  - simpl. lia.
  - unfold len. simpl. lia.
  - simpl. lia.
  - simpl. lia.
Defined.
(* ===================================================================== *)
(** * Properties of the round trip                                        *)
(* ===================================================================== *)

(** When the source has fewer than [count] bytes left, the copy loop
    reaches the end of the file with bytes still to copy; from there on
    [file.read] returns nothing and the count stays where it is. *)
Lemma copy_loop_short (fuel : nat) (count : Z) (r : FileReader) (out : OutFile) :
  0 < count -> 0 <= fpos r -> file_size r < fpos r + count ->
  copy_loop fuel count r out = OutOfFuel.
Proof.
  revert count r out. induction fuel as [|fuel IH]; intros count r out Hcount Hpos Hshort;
    cbn [copy_loop]; rewrite (proj2 (Z.ltb_lt 0 count) Hcount); [reflexivity|].
  unfold file_read. cbn [res_bind].
  replace (Z.min 32768 count <? 0) with false by (symmetry; apply Z.ltb_ge; lia).
  set (data := take (Z.to_nat (Z.min 32768 count)) (drop (Z.to_nat (fpos r)) (file r))).
  assert (Hlen : Z.of_nat (length data) <= file_size r - fpos r
                 \/ (length data = 0)%nat).
  { subst data. unfold file_size. rewrite length_take, length_drop. lia. }
  apply IH; cbn [fpos file]; unfold file_size in *; cbn [file]; lia.
Qed.

Lemma copy_data_to_destination_short (fuel : nat) (offset count : Z) (r : FileReader)
    (out : OutFile) :
  0 <= offset -> 0 < count -> file_size r < offset + count ->
  copy_data_to_destination fuel offset count r out = OutOfFuel.
Proof.
  intros Hoff Hcount Hshort. unfold copy_data_to_destination, file_seek.
  replace (offset <? 0) with false by (symmetry; apply Z.ltb_ge; lia).
  cbn [res_bind]. rewrite copy_loop_short; [reflexivity|exact Hcount|exact Hoff|].
  cbn [fpos]. exact Hshort.
Qed.

(** Writing at the end of the destination appends. *)
Lemma out_write_at_end (data : list byte) (out : OutFile) :
  out_pos out = len (out_data out) ->
  out_write data out = mkOut (out_data out ++ data) (out_pos out + len data).
Proof.
  intros Hpos. unfold out_write, len in *. rewrite Hpos, Nat2Z.id.
  rewrite Nat.sub_diag. simpl. rewrite app_nil_r, firstn_all, drop_ge by lia.
  rewrite app_nil_r. reflexivity.
Qed.

(** When the source has the [count] bytes, the loop copies them, in chunks
    of 32768 bytes, and [fuel] chunks are enough. *)
Lemma copy_loop_enough (fuel : nat) (count : Z) (r : FileReader) (out : OutFile) :
  0 <= count -> 0 <= fpos r -> fpos r + count <= file_size r ->
  count <= 32768 * Z.of_nat fuel ->
  out_pos out = len (out_data out) ->
  copy_loop fuel count r out
  = Ok (mkReader (file r) (fpos r + count),
        mkOut (out_data out
               ++ take (Z.to_nat count) (drop (Z.to_nat (fpos r)) (file r)))
              (out_pos out + count)).
Proof.
  revert count r out.
  induction fuel as [|fuel IH]; intros count r out Hcount Hpos Hend Hfuel Hout.
  - assert (count = 0) by lia. subst count. simpl.
    rewrite app_nil_r, !Z.add_0_r. destruct r, out. reflexivity.
  - cbn [copy_loop]. destruct (0 <? count) eqn:E.
    + apply Z.ltb_lt in E. unfold file_read. cbn [res_bind].
      replace (Z.min 32768 count <? 0) with false by (symmetry; apply Z.ltb_ge; lia).
      set (n := Z.min 32768 count).
      set (data := take (Z.to_nat n) (drop (Z.to_nat (fpos r)) (file r))).
      assert (Hlen : Z.of_nat (length data) = n).
      { subst data. unfold file_size in Hend. rewrite length_take, length_drop. lia. }
      rewrite Hlen, out_write_at_end by exact Hout.
      rewrite IH; cbn [fpos file out_data out_pos]; unfold file_size, len in *;
        cbn [file]; rewrite ?length_app; try lia.
      f_equal. f_equal; [f_equal; lia|]. f_equal; [|lia].
      rewrite <- app_assoc. f_equal. subst data.
      replace (Z.to_nat (fpos r + n)) with (Z.to_nat (fpos r) + Z.to_nat n)%nat by lia.
      rewrite <- drop_drop, take_take_drop. f_equal. lia.
    + apply Z.ltb_ge in E. assert (count = 0) by lia. subst count. simpl.
      rewrite app_nil_r, !Z.add_0_r. destruct r, out. reflexivity.
Qed.

Lemma copy_data_to_destination_enough (fuel : nat) (offset count : Z) (r : FileReader)
    (out : OutFile) :
  0 <= offset -> 0 <= count -> offset + count <= file_size r -> 0 <= fpos r ->
  count <= 32768 * Z.of_nat fuel ->
  out_pos out = len (out_data out) ->
  copy_data_to_destination fuel offset count r out
  = Ok (r, mkOut (out_data out ++ take (Z.to_nat count) (drop (Z.to_nat offset) (file r)))
                 (out_pos out + count)).
Proof.
  intros Hoff Hcount Hend Hpos Hfuel Hout. unfold copy_data_to_destination, file_seek.
  replace (offset <? 0) with false by (symmetry; apply Z.ltb_ge; lia).
  cbn [res_bind]. rewrite copy_loop_enough by (cbn [fpos file]; assumption).
  cbn [res_bind fpos file].
  replace (fpos r <? 0) with false by (symmetry; apply Z.ltb_ge; lia).
  destruct r. reflexivity.
Qed.

(** The first loop of [write] on a box that needs no rewriting. *)
Lemma write_top_boxes_clean (fuel : nat) (box : Box) (rest : list Box) (r : FileReader)
    (out : OutFile) (phs : list PlaceholderFileOffset) (mdat_boxes : list (Box * Z)) :
  needs_rewrite box = false ->
  write_top_boxes fuel (box :: rest) r out phs mdat_boxes
  = res_bind (copy_data_to_destination fuel (box_start box) (box_size box) r out)
      (fun ro => write_top_boxes fuel rest ro.1 ro.2 phs
                   (if String.eqb (box_type box) "mdat"
                    then mdat_boxes ++ [(box, out_tell out)] else mdat_boxes)).
Proof.
  intros Hclean. cbn [write_top_boxes]. rewrite Hclean. cbn [negb].
  destruct (copy_data_to_destination _ _ _ _ _) as [[r' out']| |]; reflexivity.
Qed.

(** C1: [ParsedFile] accepts the sample, whose last box has the size field
    0, and marks nothing for rewriting; the copy of that box then asks for
    32 bytes where the source has 16 left, and [write] never returns,
    whatever the fuel. *)
Theorem write_hangs_on_size_zero_box (depth : nat) :
  ParsedFile_init depth size_zero_file = Ok size_zero_parsed
  /\ boxes_have_changed (boxes size_zero_parsed) = false
  /\ forall fuel, write fuel size_zero_parsed out_empty = OutOfFuel.
Proof.
  split; [vm_compute; reflexivity|]. split; [reflexivity|].
  intros fuel. unfold write.
  change (boxes_have_changed (boxes size_zero_parsed)) with false.
  cbn [res_bind]. unfold size_zero_parsed. cbn [boxes reader].
  rewrite write_top_boxes_clean by reflexivity.
  destruct fuel as [|fuel]; [vm_compute; reflexivity|].
  rewrite copy_data_to_destination_enough by (vm_compute; congruence || reflexivity).
  cbn [res_bind fst snd].
  rewrite write_top_boxes_clean by reflexivity.
  rewrite copy_data_to_destination_short; [reflexivity| | |]; vm_compute; congruence.
Qed.

Lemma tiles_le (start end_ : Z) (top : list Box) : tiles start top end_ -> start <= end_.
Proof.
  revert start. induction top as [|box top IH]; intros start; simpl; [lia|].
  intros (_ & Hsize & Hrest). specialize (IH _ Hrest). lia.
Qed.

(** The first loop of [write] over boxes that need no rewriting and follow
    one another up to the end of the source: the destination receives the
    source from [start] on. *)
Lemma write_top_boxes_copies (fuel : nat) (top : list Box) (r : FileReader)
    (out : OutFile) (phs : list PlaceholderFileOffset) (mdat_boxes : list (Box * Z))
    (start : Z) :
  existsb needs_rewrite top = false ->
  tiles start top (file_size r) ->
  0 <= start -> 0 <= fpos r ->
  file_size r <= 32768 * Z.of_nat fuel ->
  out_pos out = len (out_data out) ->
  exists mdat_boxes',
    write_top_boxes fuel top r out phs mdat_boxes
    = Ok (r, mkOut (out_data out ++ drop (Z.to_nat start) (file r))
                   (out_pos out + (file_size r - start)),
          phs, mdat_boxes').
Proof.
  revert out mdat_boxes start.
  induction top as [|box top IH]; intros out mdat_boxes start Hclean Htiles Hstart Hpos
                                         Hfuel Hout.
  - simpl in Htiles. subst start. exists mdat_boxes. simpl.
    unfold file_size. rewrite Nat2Z.id, drop_all, app_nil_r, Z.sub_diag, Z.add_0_r.
    destruct out. reflexivity.
  - simpl in Hclean. apply orb_false_elim in Hclean as [Hbox Hclean].
    destruct Htiles as (Hs & Hsize & Hrest). pose proof (tiles_le _ _ _ Hrest) as Hle.
    rewrite write_top_boxes_clean by exact Hbox.
    rewrite copy_data_to_destination_enough by lia.
    cbn [res_bind fst snd].
    edestruct (IH (mkOut (out_data out
                          ++ take (Z.to_nat (box_size box))
                               (drop (Z.to_nat (box_start box)) (file r)))
                         (out_pos out + box_size box))) as (mdat_boxes' & Hrun);
      [exact Hclean|exact Hrest|lia|exact Hpos|exact Hfuel| |].
    + cbn [out_data out_pos]. unfold len in *. rewrite length_app, length_take, length_drop.
      unfold file_size in *. lia.
    + exists mdat_boxes'. rewrite Hrun. cbn [out_data out_pos]. subst start.
      replace (out_pos out + box_size box
               + (file_size r - (box_start box + box_size box)))
        with (out_pos out + (file_size r - box_start box)) by lia.
      replace (Z.to_nat (box_start box + box_size box))
        with (Z.to_nat (box_start box) + Z.to_nat (box_size box))%nat by lia.
      rewrite <- app_assoc, <- drop_drop, take_drop. reflexivity.
Qed.

(** Round trip when the boxes cover the source: with nothing marked for
    rewriting, [write] produces the bytes of the source. *)
Lemma write_roundtrip_when_tiled (fuel : nat) (parsed_file : ParsedFile) :
  boxes_have_changed (boxes parsed_file) = false ->
  tiles 0 (boxes parsed_file) (file_size (reader parsed_file)) ->
  0 <= fpos (reader parsed_file) ->
  file_size (reader parsed_file) <= 32768 * Z.of_nat fuel ->
  write fuel parsed_file out_empty
  = Ok (mkOut (file (reader parsed_file)) (file_size (reader parsed_file))).
Proof.
  intros Hclean Htiles Hpos Hfuel. unfold write. rewrite Hclean. cbn [res_bind].
  destruct (write_top_boxes_copies fuel (boxes parsed_file) (reader parsed_file)
              out_empty [] [] 0 Hclean Htiles ltac:(lia) Hpos Hfuel eq_refl)
    as (mdat_boxes' & ->).
  cbn [res_bind patch_placeholders out_empty out_data out_pos].
  rewrite Z.sub_0_r. reflexivity.
Qed.

(** ** The parser leaves the file as it is *)

Lemma keeps_file_ret {A} (a : A) : keeps_file (st_ret a).
Proof. intros r a' r' H. apply st_ret_ok in H as [_ ->]. reflexivity. Qed.

Lemma keeps_file_bind {A B} (m : St FileReader A) (k : A -> St FileReader B) :
  keeps_file m -> (forall a, keeps_file (k a)) -> keeps_file (st_bind m k).
Proof.
  intros Hm Hk r b r' H. apply st_bind_ok in H as (a & r1 & H1 & H2).
  rewrite (Hk _ _ _ _ H2). exact (Hm _ _ _ H1).
Qed.

Lemma keeps_file_lift {A} (m : result A) : keeps_file (st_lift m).
Proof.
  intros r a r'. unfold st_lift. destruct m; try discriminate.
  intros H. injection H as _ <-. reflexivity.
Qed.

Lemma keeps_file_assert (b : bool) : keeps_file (st_assert b).
Proof. apply keeps_file_lift. Qed.

Lemma keeps_file_position : keeps_file position.
Proof. intros r a r' H. injection H as _ <-. reflexivity. Qed.

Lemma keeps_file_reader_size : keeps_file reader_size.
Proof. intros r a r' H. injection H as _ <-. reflexivity. Qed.

Lemma keeps_file_seek (p : Z) : keeps_file (file_seek p).
Proof.
  intros r a r'. unfold file_seek. destruct (p <? 0); try discriminate.
  intros H. injection H as _ <-. reflexivity.
Qed.

Lemma keeps_file_read (n : Z) : keeps_file (file_read n).
Proof. intros r a r' H. injection H as _ <-. reflexivity. Qed.

Lemma keeps_file_if {A} (c : bool) (m1 m2 : St FileReader A) :
  keeps_file m1 -> keeps_file m2 -> keeps_file (if c then m1 else m2).
Proof. destruct c; auto. Qed.

Create HintDb keeps_file.
#[local] Hint Resolve keeps_file_ret keeps_file_lift keeps_file_assert keeps_file_position
  keeps_file_reader_size keeps_file_seek keeps_file_read : keeps_file.

(** Splits a computation into its steps and closes those that are known. *)
Ltac keeps_file_steps :=
  repeat first
    [ solve [auto with keeps_file]
    | apply keeps_file_bind; [|intros]
    | apply keeps_file_if ].

Lemma keeps_file_read_data (nbytes : Z) (end_ : option Z) :
  keeps_file (read_data nbytes end_).
Proof. unfold read_data. keeps_file_steps. Qed.

Lemma keeps_file_skip_to (p : Z) : keeps_file (skip_to p).
Proof. apply keeps_file_seek. Qed.

#[local] Hint Resolve keeps_file_read_data keeps_file_skip_to : keeps_file.

Lemma keeps_file_read_integer_of_size (end_ nbytes : Z) (unsigned : bool) :
  keeps_file (read_integer_of_size end_ nbytes unsigned).
Proof. unfold read_integer_of_size. keeps_file_steps. Qed.

#[local] Hint Resolve keeps_file_read_integer_of_size : keeps_file.

Lemma keeps_file_read_integer_array_of_size (end_ nbytes : Z) (count : nat)
    (unsigned : bool) :
  keeps_file (read_integer_array_of_size end_ nbytes count unsigned).
Proof. induction count; simpl; keeps_file_steps. Qed.

Lemma keeps_file_read_string_loop (n : nat) (buf : list byte) :
  keeps_file (read_string_loop n buf).
Proof.
  revert buf. induction n as [|n IH]; intros buf; simpl; keeps_file_steps.
Qed.

#[local] Hint Resolve keeps_file_read_integer_array_of_size keeps_file_read_string_loop
  : keeps_file.

Lemma keeps_file_read_string (end_ sz : Z) : keeps_file (read_string end_ sz).
Proof. unfold read_string. keeps_file_steps. Qed.

#[local] Hint Resolve keeps_file_read_string : keeps_file.

Lemma keeps_file_from_reader (end_ : Z) : keeps_file (from_reader end_).
Proof.
  unfold from_reader. keeps_file_steps. destruct a1; keeps_file_steps.
Qed.

Lemma keeps_file_run_body_parser (p : Box -> list byte -> Z -> result (BoxBody * Box * Z))
    (box : Box) :
  keeps_file (run_body_parser p box).
Proof.
  intros r a r'. unfold run_body_parser.
  destruct (p box (file r) (fpos r)) as [[parsed pos]| |]; try discriminate.
  simpl. intros H. injection H as _ <-. reflexivity.
Qed.

#[local] Hint Resolve keeps_file_from_reader keeps_file_run_body_parser : keeps_file.

Lemma keeps_file_BoxRecipe_parse (parse_seq : Z -> gmap string BoxRecipe -> Rd (list Box))
    (self : BoxRecipe) (dst_box : Box) :
  (forall e m, keeps_file (parse_seq e m)) ->
  keeps_file (BoxRecipe_parse parse_seq self dst_box).
Proof.
  intros Hseq. unfold BoxRecipe_parse. keeps_file_steps.
  - destruct a as [|v1 [|v2 [|v3 [|v4 [|]]]]]; keeps_file_steps.
  - destruct (sequence_map self); [keeps_file_steps; apply Hseq|].
    destruct (body_parser self); keeps_file_steps. destruct a0. keeps_file_steps.
Qed.

Lemma keeps_file_parse_box_loop (parse_recipe : BoxRecipe -> Box -> Rd Box) (n : nat)
    (end_ : Z) (box_map : gmap string BoxRecipe) (boxes : list Box) :
  (forall rc box, keeps_file (parse_recipe rc box)) ->
  keeps_file (parse_box_loop parse_recipe n end_ box_map boxes).
Proof.
  intros Hrc. revert boxes. induction n as [|n IH]; intros boxes; simpl.
  - keeps_file_steps. intros r b r'. discriminate.
  - keeps_file_steps.
Qed.

Lemma keeps_file_parse_box_sequence (depth : nat) (end_ : Z)
    (box_map : gmap string BoxRecipe) (expected_box_count : option Z) :
  keeps_file (parse_box_sequence depth end_ box_map expected_box_count).
Proof.
  revert end_ box_map expected_box_count.
  induction depth as [|depth IH]; intros end_ box_map expected; simpl.
  - intros r a r'. discriminate.
  - keeps_file_steps.
    + apply keeps_file_parse_box_loop. intros rc box.
      apply keeps_file_BoxRecipe_parse. intros e m. apply IH.
    + destruct expected; keeps_file_steps.
Qed.
(** ** The top-level boxes cover what the parser has read *)

Lemma from_reader_geometry (end_ : Z) (r r' : FileReader) (box : Box) :
  from_reader end_ r = Ok (box, r') ->
  box_start box = fpos r /\ 8 <= box_size box
  /\ box_end box = box_start box + box_size box /\ needs_rewrite box = false.
Proof.
  unfold from_reader. intros H.
  apply st_bind_ok in H as (start & r1 & Hpos & H). injection Hpos as <- <-.
  apply st_bind_ok in H as (sz & r2 & _ & H).
  apply st_bind_ok in H as (ty & r3 & _ & H).
  destruct ty as [ty|]; [|discriminate].
  apply st_bind_ok in H as (sz' & r4 & _ & H).
  apply st_bind_ok in H as ([] & r5 & Hassert & H).
  apply st_ret_ok in H as [-> ->].
  unfold st_assert, st_lift, py_assert in Hassert.
  destruct (8 <=? sz') eqn:E; [|discriminate].
  apply Z.leb_le in E. simpl. auto.
Qed.

Lemma tiles_snoc (start p : Z) (top : list Box) (box : Box) :
  tiles start top p -> box_start box = p -> 0 < box_size box ->
  tiles start (top ++ [box]) (p + box_size box).
Proof.
  revert start. induction top as [|b top IH]; intros start; simpl.
  - intros -> Hs Hp. auto.
  - intros (H1 & H2 & H3) Hs Hp. auto.
Qed.

(** A recipe changes the header, the body and the children of a box, not
    its place in the file, as long as its body parser does not either. *)
Lemma BoxRecipe_parse_geometry (parse_seq : Z -> gmap string BoxRecipe -> Rd (list Box))
    (self : BoxRecipe) (dst_box box' : Box) (r r' : FileReader) :
  (forall p b data pos bd b' pos',
      body_parser self = Some p -> p b data pos = Ok (bd, b', pos') ->
      geometry b' = geometry b) ->
  BoxRecipe_parse parse_seq self dst_box r = Ok (box', r') ->
  geometry box' = geometry dst_box.
Proof.
  intros Hp H. unfold BoxRecipe_parse in H.
  apply st_bind_ok in H as (box1 & r1 & Hhead & H).
  assert (Hbox1 : geometry box1 = geometry dst_box).
  { destruct (full_box self).
    - apply st_bind_ok in Hhead as (vs & r0 & _ & Hhead).
      destruct vs as [|v1 [|v2 [|v3 [|v4 [|]]]]]; try discriminate.
      apply st_ret_ok in Hhead as [-> _]. reflexivity.
    - apply st_ret_ok in Hhead as [-> _]. reflexivity. }
  rewrite <- Hbox1. clear Hhead Hbox1.
  destruct (sequence_map self) as [m|].
  - apply st_bind_ok in H as (subs & r2 & _ & H).
    apply st_ret_ok in H as [-> _]. reflexivity.
  - destruct (body_parser self) as [p|] eqn:E.
    + apply st_bind_ok in H as ([bd b'] & r2 & Hrun & H).
      apply st_ret_ok in H as [-> _]. unfold run_body_parser in Hrun.
      destruct (p box1 (file r1) (fpos r1)) as [[[bd0 b0] pos0]| |] eqn:Ep;
        try discriminate.
      simpl in Hrun. injection Hrun as -> -> _.
      rewrite <- (Hp _ _ _ _ _ _ _ eq_refl Ep). reflexivity.
    + apply st_bind_ok in H as ([] & r2 & _ & H).
      apply st_ret_ok in H as [-> _]. reflexivity.
Qed.

(** The loop of [parse_box_sequence] appends boxes that follow one another
    and leaves the reader at the end of the last one. *)
Lemma parse_box_loop_tiles (parse_recipe : BoxRecipe -> Box -> Rd Box) (n : nat)
    (end_ start : Z) (box_map : gmap string BoxRecipe) (top bs : list Box)
    (r r' : FileReader) :
  (forall ty box r1 box' r1',
      parse_recipe (recipe_for box_map ty) box r1 = Ok (box', r1') ->
      geometry box' = geometry box) ->
  0 <= fpos r ->
  tiles start top (fpos r) -> existsb needs_rewrite top = false ->
  parse_box_loop parse_recipe n end_ box_map top r = Ok (bs, r') ->
  tiles start bs (fpos r') /\ existsb needs_rewrite bs = false.
Proof.
  intros Hrc. revert top r.
  assert (Hstop : forall top r,
             tiles start top (fpos r) -> existsb needs_rewrite top = false ->
             st_ret top r = Ok (bs, r') ->
             tiles start bs (fpos r') /\ existsb needs_rewrite bs = false).
  { intros top r Ht Hc H. apply st_ret_ok in H as [-> ->]. auto. }
  induction n as [|n IH]; intros top r Hpos Ht Hc H; simpl in H;
    apply st_bind_ok in H as (pos & r0 & Hp & H); injection Hp as <- <-;
    destruct (fpos r <=? end_ - 8); eauto; try discriminate.
  apply st_bind_ok in H as (box & r1 & Hbox & H).
  apply from_reader_geometry in Hbox as (Hs & Hsize & Hend & Hclean).
  apply st_bind_ok in H as (box' & r2 & Hparse & H).
  apply Hrc in Hparse. unfold geometry in Hparse. injection Hparse as E1 E2 E3 E4.
  apply st_bind_ok in H as (pos & r3 & _ & H).
  apply st_bind_ok in H as ([] & r4 & _ & H).
  apply st_bind_ok in H as ([] & r5 & Hseek & H).
  unfold skip_to, file_seek in Hseek.
  destruct (box_end box' <? 0) eqn:Eneg; [discriminate|]. injection Hseek as <-.
  apply IH in H; [exact H| | |]; cbn [fpos].
  - lia.
  - replace (box_end box') with (fpos r + box_size box') by lia.
    apply tiles_snoc; [exact Ht|lia|lia].
  - rewrite existsb_app. simpl. rewrite Hc, E4, Hclean. reflexivity.
Qed.

(** The body parsers of the top-level recipes hand the box back as it is. *)
Lemma top_level_recipe_geometry (depth : nat) (ty : string)
    (p : Box -> list byte -> Z -> result (BoxBody * Box * Z)) (b b' : Box)
    (data : list byte) (pos pos' : Z) (bd : BoxBody) :
  body_parser (recipe_for (MAP_TOP_LEVEL depth) ty) = Some p ->
  p b data pos = Ok (bd, b', pos') ->
  geometry b' = geometry b.
Proof.
  unfold recipe_for, MAP_TOP_LEVEL.
  destruct (decide (ty = "ftyp"%string)) as [->|N1].
  - rewrite lookup_insert_eq. simpl. intros [= <-] H.
    unfold parse_ftyp_box, body_parser_of in H.
    match type of H with res_bind (?m ?s) _ = _ => destruct (m s) as [[parsed r']| |] eqn:E end;
      try discriminate.
    simpl in H. injection H as -> _.
    repeat (apply st_bind_ok in E as (? & ? & _ & E)).
    apply st_ret_ok in E as [[= _ <-] _]. reflexivity.
  - rewrite lookup_insert_ne by congruence.
    destruct (decide (ty = "meta"%string)) as [->|N2];
      [rewrite lookup_insert_eq; discriminate|rewrite lookup_insert_ne by congruence].
    destruct (decide (ty = "moov"%string)) as [->|N3];
      [rewrite lookup_insert_eq; discriminate|rewrite lookup_insert_ne by congruence].
    destruct (decide (ty = "moof"%string)) as [->|N4].
    + rewrite lookup_singleton_eq. simpl. intros [= <-]. discriminate.
    + rewrite lookup_singleton_ne by congruence. discriminate.
Qed.

(** What [ParsedFile] holds after a successful parse: the source as it
    is, and top-level boxes, none marked for rewriting, that follow one
    another from the start of the file to the position where the parser
    stopped. *)
Lemma ParsedFile_init_tiles (depth : nat) (input : list byte) (parsed_file : ParsedFile) :
  ParsedFile_init depth input = Ok parsed_file ->
  file (reader parsed_file) = input
  /\ tiles 0 (boxes parsed_file) (fpos (reader parsed_file))
  /\ boxes_have_changed (boxes parsed_file) = false.
Proof.
  unfold ParsedFile_init. intros H.
  destruct (py_assert _); try discriminate. cbn [res_bind] in H.
  destruct (read_integer_of_size _ 4 true _) as [[box_size r1]| |] eqn:E1;
    try discriminate. cbn [res_bind] in H.
  destruct (py_assert _); try discriminate. cbn [res_bind] in H.
  destruct (read_string _ 4 r1) as [[ty r2]| |] eqn:E2; try discriminate.
  cbn [res_bind] in H.
  destruct (negb _); try discriminate.
  destruct (rewind r2) as [[[] r3]| |] eqn:E3; try discriminate. cbn [res_bind] in H.
  destruct (parse_box_sequence _ _ _ _ r3) as [[bs r4]| |] eqn:E4; try discriminate.
  cbn [res_bind] in H.
  destruct (get_box_from_hierarchy bs _ _) as [ipma_box| |]; try discriminate.
  cbn [res_bind] in H.
  destruct (get_box_from_hierarchy bs _ _) as [ipco_box| |]; try discriminate.
  cbn [res_bind] in H. injection H as <-. cbn [reader boxes].
  pose proof (keeps_file_read_integer_of_size _ _ _ _ _ _ E1) as F1.
  pose proof (keeps_file_read_string _ _ _ _ _ E2) as F2.
  pose proof (keeps_file_seek _ _ _ _ E3) as F3.
  pose proof (keeps_file_parse_box_sequence _ _ _ _ _ _ _ E4) as F4.
  cbn [file] in F1. split; [congruence|].
  unfold rewind, file_seek in E3. simpl in E3. injection E3 as <-.
  cbn [parse_box_sequence] in E4.
  apply st_bind_ok in E4 as (pos & r5 & Hp & E4). injection Hp as <- <-.
  apply st_bind_ok in E4 as (bs' & r6 & Hloop & E4).
  apply st_bind_ok in E4 as ([] & r7 & Hret & E4).
  apply st_ret_ok in Hret as [_ ->]. apply st_ret_ok in E4 as [-> ->].
  eapply parse_box_loop_tiles in Hloop; [exact Hloop| |cbn [fpos]; lia|reflexivity|reflexivity].
  intros ty' box ra box' rb Hrun.
  eapply BoxRecipe_parse_geometry; [|exact Hrun].
  intros p b data pos bd b' pos' Hp Hb. eapply top_level_recipe_geometry; eassumption.
Qed.

(** Round trip: when the parser accepts the source and stops where the
    source ends, [write] gives back the bytes of the source, with fuel for
    the chunks of the copy. *)
Lemma parse_then_write_roundtrip (depth fuel : nat) (input : list byte)
    (parsed_file : ParsedFile) :
  ParsedFile_init depth input = Ok parsed_file ->
  fpos (reader parsed_file) = len input ->
  len input <= 32768 * Z.of_nat fuel ->
  write fuel parsed_file out_empty = Ok (mkOut input (len input)).
Proof.
  intros Hparse Hend Hfuel.
  apply ParsedFile_init_tiles in Hparse as (Hfile & Htiles & Hclean).
  rewrite write_roundtrip_when_tiled; unfold file_size; rewrite ?Hfile; unfold len in *;
    try (rewrite <- Hend; exact Htiles); try lia; auto.
Qed.
(** The copy loop moves at most 32768 bytes a turn. *)
Lemma copy_loop_out_of_fuel (fuel : nat) (count : Z) (r : FileReader) (out : OutFile) :
  32768 * Z.of_nat fuel < count ->
  copy_loop fuel count r out = OutOfFuel.
Proof.
  revert count r out. induction fuel as [|fuel IH]; intros count r out Hfuel;
    cbn [copy_loop]; rewrite (proj2 (Z.ltb_lt 0 count)) by lia; [reflexivity|].
  unfold file_read. cbn [res_bind].
  replace (Z.min 32768 count <? 0) with false by (symmetry; apply Z.ltb_ge; lia).
  apply IH. rewrite length_take. lia.
Qed.

(** Top-level boxes that need no rewriting and end beyond the end of the
    source: the copy of the first one that overruns never ends. *)
Lemma write_top_boxes_overrun (fuel : nat) (top : list Box) (r : FileReader)
    (out : OutFile) (phs : list PlaceholderFileOffset) (mdat_boxes : list (Box * Z))
    (start end_ : Z) :
  existsb needs_rewrite top = false ->
  tiles start top end_ -> file_size r < end_ ->
  0 <= start <= file_size r -> 0 <= fpos r ->
  out_pos out = len (out_data out) ->
  write_top_boxes fuel top r out phs mdat_boxes = OutOfFuel.
Proof.
  revert out mdat_boxes start.
  induction top as [|box top IH]; intros out mdat_boxes start Hclean Htiles Hover Hstart
                                         Hpos Hout.
  - simpl in Htiles. lia.
  - simpl in Hclean. apply orb_false_elim in Hclean as [Hbox Hclean].
    destruct Htiles as (Hs & Hsize & Hrest).
    rewrite write_top_boxes_clean by exact Hbox.
    destruct (Z_le_gt_dec (box_start box + box_size box) (file_size r)) as [Hfit|Hshort];
      [|rewrite copy_data_to_destination_short by lia; reflexivity].
    destruct (Z_le_gt_dec (box_size box) (32768 * Z.of_nat fuel)) as [Hfuel|Hfuel].
    + rewrite copy_data_to_destination_enough by lia. cbn [res_bind fst snd].
      eapply IH; [exact Hclean|exact Hrest|exact Hover|lia|exact Hpos|].
      cbn [out_data out_pos]. unfold len in *.
      rewrite length_app, length_take, length_drop. unfold file_size in *. lia.
    + unfold copy_data_to_destination, file_seek.
      replace (box_start box <? 0) with false by (symmetry; apply Z.ltb_ge; lia).
      cbn [res_bind]. rewrite copy_loop_out_of_fuel by lia. reflexivity.
Qed.

(** When the parser accepts the source but stops beyond its end, as it
    does after a last box whose size field is 0, [write] never returns. *)
Lemma parse_then_write_overrun (depth : nat) (input : list byte)
    (parsed_file : ParsedFile) :
  ParsedFile_init depth input = Ok parsed_file ->
  len input < fpos (reader parsed_file) ->
  forall fuel, write fuel parsed_file out_empty = OutOfFuel.
Proof.
  intros Hparse Hover fuel.
  apply ParsedFile_init_tiles in Hparse as (Hfile & Htiles & Hclean).
  unfold write. rewrite Hclean. cbn [res_bind].
  rewrite (write_top_boxes_overrun fuel _ _ _ _ _ 0 (fpos (reader parsed_file)));
    unfold file_size, len in *; rewrite ?Hfile; auto; lia.
Qed.

(** The round trip on the sample whose boxes state their sizes. *)
Example roundtrip_explicit_size_file :
  write 1 explicit_size_parsed out_empty = Ok (mkOut explicit_size_file 32).
Proof.
  apply (parse_then_write_roundtrip 0); [vm_compute; reflexivity|reflexivity|].
  vm_compute. congruence.
Qed.

(* ===================================================================== *)
(** * Integers on the wire                                                *)
(* ===================================================================== *)

Lemma struct_size_cases (nbytes : Z) :
  get_struct_type nbytes true = Ok (nbytes, true) /\ struct_size nbytes
  \/ get_struct_type nbytes true = Raise AssertionError /\ ~ struct_size nbytes.
Proof.
  unfold get_struct_type, struct_size.
  destruct (Z.eqb_spec nbytes 1), (Z.eqb_spec nbytes 2), (Z.eqb_spec nbytes 4),
    (Z.eqb_spec nbytes 8); simpl; try (left; split; [reflexivity|lia]).
  right. split; [reflexivity|lia].
Qed.

Lemma get_struct_type_ok (nbytes : Z) (unsigned : bool) :
  struct_size nbytes -> get_struct_type nbytes unsigned = Ok (nbytes, unsigned).
Proof. unfold struct_size. intros [->|[->|[->| ->]]]; reflexivity. Qed.

Lemma get_struct_type_bad (nbytes : Z) (unsigned : bool) :
  ~ struct_size nbytes -> get_struct_type nbytes unsigned = Raise AssertionError.
Proof.
  unfold get_struct_type, struct_size. intros H.
  destruct (Z.eqb_spec nbytes 1), (Z.eqb_spec nbytes 2), (Z.eqb_spec nbytes 4),
    (Z.eqb_spec nbytes 8); simpl; try reflexivity; exfalso; apply H; lia.
Qed.

Lemma struct_pack_fits (nbytes : Z) (unsigned : bool) (value : Z) :
  fits nbytes unsigned value ->
  struct_pack (nbytes, unsigned) value
  = Ok (be_bytes (Z.to_nat nbytes)
          (if unsigned then value else value mod 2 ^ (8 * nbytes))).
Proof.
  unfold fits, struct_pack. destruct unsigned; intros [H1 H2].
  - rewrite (proj2 (Z.leb_le _ _) H1), (proj2 (Z.ltb_lt _ _) H2). reflexivity.
  - rewrite (proj2 (Z.leb_le _ _) H1), (proj2 (Z.ltb_lt _ _) H2). reflexivity.
Qed.

Lemma struct_pack_overflow (nbytes : Z) (unsigned : bool) (value : Z) :
  ~ fits nbytes unsigned value ->
  struct_pack (nbytes, unsigned) value = Raise StructError.
Proof.
  unfold fits, struct_pack. destruct unsigned; intros H.
  - destruct (Z.leb_spec 0 value), (Z.ltb_spec value (2 ^ (8 * nbytes)));
      try reflexivity. exfalso. apply H. lia.
  - destruct (Z.leb_spec (- 2 ^ (8 * nbytes - 1)) value),
      (Z.ltb_spec value (2 ^ (8 * nbytes - 1))); try reflexivity.
    exfalso. apply H. lia.
Qed.

Lemma pow_256 (n : Z) : 0 <= n -> 256 ^ n = 2 ^ (8 * n).
Proof. intros Hn. replace 256 with (2 ^ 8) by reflexivity. rewrite <- Z.pow_mul_r; lia. Qed.

(** What [struct.unpack] makes of the bytes that [struct.pack] produced. *)
Lemma struct_unpack_pack (nbytes : Z) (unsigned : bool) (value : Z) (data : list byte) :
  0 < nbytes ->
  struct_pack (nbytes, unsigned) value = Ok data ->
  struct_unpack (nbytes, unsigned) data = Ok value /\ len data = nbytes.
Proof.
  intros Hn Hpack.
  assert (Hfits : fits nbytes unsigned value).
  { unfold fits.
    unfold struct_pack in Hpack. destruct unsigned.
    - destruct (Z.leb_spec 0 value), (Z.ltb_spec value (2 ^ (8 * nbytes)));
        try discriminate. lia.
    - destruct (Z.leb_spec (- 2 ^ (8 * nbytes - 1)) value),
        (Z.ltb_spec value (2 ^ (8 * nbytes - 1))); try discriminate. lia. }
  rewrite (struct_pack_fits _ _ _ Hfits) in Hpack. injection Hpack as <-.
  assert (Hlen : len (be_bytes (Z.to_nat nbytes)
                        (if unsigned then value else value mod 2 ^ (8 * nbytes))) = nbytes).
  { unfold len. rewrite length_be_bytes. lia. }
  split; [|exact Hlen]. unfold struct_unpack. unfold len in Hlen. rewrite Hlen, Z.eqb_refl.
  assert (Hpow : 0 < 2 ^ (8 * nbytes)) by (apply Z.pow_pos_nonneg; lia).
  assert (Hhalf : 2 ^ (8 * nbytes) = 2 * 2 ^ (8 * nbytes - 1)).
  { rewrite <- Z.pow_succ_r by lia. f_equal. lia. }
  unfold fits in Hfits. destruct unsigned.
  - rewrite be_value_be_bytes; [reflexivity|]. rewrite Z2Nat.id, pow_256 by lia. exact Hfits.
  - rewrite be_value_be_bytes
      by (rewrite Z2Nat.id, pow_256 by lia; apply Z.mod_pos_bound; lia).
    f_equal. destruct (Z.leb_spec 0 value) as [Hpos|Hneg].
    + rewrite Z.mod_small by lia.
      rewrite (proj2 (Z.ltb_lt _ _)) by lia. reflexivity.
    + replace (value mod 2 ^ (8 * nbytes)) with (value + 2 ^ (8 * nbytes)).
      * destruct (Z.ltb_spec (value + 2 ^ (8 * nbytes)) (2 ^ (8 * nbytes - 1))); lia.
      * symmetry. rewrite <- (Z.mod_small (value + 2 ^ (8 * nbytes)) (2 ^ (8 * nbytes))) by lia.
        rewrite <- Z.add_mod_idemp_r, Z.mod_same, Z.add_0_r by lia. reflexivity.
Qed.

Lemma remaining_advance (r : FileReader) (data rest : list byte) :
  0 <= fpos r -> remaining r = data ++ rest ->
  remaining (mkReader (file r) (fpos r + len data)) = rest.
Proof.
  unfold remaining, len. cbn [file fpos]. intros Hpos Hrem.
  replace (Z.to_nat (fpos r + Z.of_nat (length data)))
    with (Z.to_nat (fpos r) + length data)%nat by lia.
  rewrite <- drop_drop, Hrem, drop_app_length. reflexivity.
Qed.

(** [file.read] where the file continues with [data]. *)
Lemma file_read_remaining (r : FileReader) (data rest : list byte) :
  remaining r = data ++ rest ->
  file_read (len data) r = Ok (data, mkReader (file r) (fpos r + len data)).
Proof.
  unfold remaining, file_read, len. intros Hrem.
  replace (Z.of_nat (length data) <? 0) with false by (symmetry; apply Z.ltb_ge; lia).
  rewrite Hrem, Nat2Z.id, take_app_length. reflexivity.
Qed.

Lemma reads_ret {A} (a : A) : reads (fun _ => st_ret a) [] a.
Proof.
  intros r rest end_ _ _ _. unfold st_ret, len. simpl. rewrite Z.add_0_r.
  destruct r. reflexivity.
Qed.

Lemma reads_bind {A B} (m : Z -> St FileReader A) (k : A -> Z -> St FileReader B)
    (d1 d2 : list byte) (a : A) (b : B) :
  reads m d1 a -> reads (k a) d2 b ->
  reads (fun end_ => st_bind (m end_) (fun x => k x end_)) (d1 ++ d2) b.
Proof.
  intros Hm Hk r rest end_ Hpos Hend Hrem. unfold len in *. rewrite length_app in *.
  unfold st_bind. rewrite <- app_assoc in Hrem.
  rewrite (Hm r (d2 ++ rest) end_ Hpos ltac:(unfold len; lia) Hrem).
  rewrite (Hk (mkReader (file r) (fpos r + len d1)) rest end_);
    cbn [file fpos]; unfold len; try lia.
  - do 3 f_equal. lia.
  - apply (remaining_advance r d1 (d2 ++ rest) Hpos Hrem).
Qed.

Lemma reads_read_data (data : list byte) :
  reads (fun end_ => read_data (len data) (Some end_)) data data.
Proof.
  intros r rest end_ Hpos Hend Hrem. unfold read_data, st_bind, position, reader_size.
  unfold st_assert, st_lift, py_assert.
  rewrite (proj2 (Z.leb_le _ _) Hend). exact (file_read_remaining r data rest Hrem).
Qed.

(** Reading back an integer that was packed. *)
Lemma reads_integer (nbytes value : Z) (unsigned : bool) (data : list byte) :
  write_integer_of_size value nbytes unsigned = Ok data ->
  reads (fun end_ => read_integer_of_size end_ nbytes unsigned) data value.
Proof.
  unfold write_integer_of_size. intros Hwrite.
  destruct (get_struct_type nbytes unsigned) as [fmt| |] eqn:Hfmt; try discriminate.
  assert (Hsize : struct_size nbytes).
  { destruct (struct_size_cases nbytes) as [[_ H]|[_ H]]; [exact H|].
    rewrite (get_struct_type_bad _ unsigned H) in Hfmt. discriminate. }
  rewrite (get_struct_type_ok _ unsigned Hsize) in Hfmt. injection Hfmt as <-.
  cbn [res_bind] in Hwrite.
  destruct (struct_unpack_pack nbytes unsigned value data) as [Hunpack Hlen];
    [unfold struct_size in Hsize; lia|exact Hwrite|].
  intros r rest end_ Hpos Hend Hrem. unfold read_integer_of_size, st_bind.
  rewrite <- Hlen at 1. rewrite (reads_read_data data r rest end_ Hpos Hend Hrem).
  unfold st_lift. rewrite (get_struct_type_ok _ unsigned Hsize), Hunpack. reflexivity.
Qed.

(** X1. An integer written with [write_integer_of_size] and read at the
    place where it was stored with [read_integer_of_size], with the same
    size and signedness, is the integer that was written, and the reader
    is left behind it. *)
Theorem read_integer_of_written (value nbytes end_ : Z) (unsigned : bool)
    (data pre post : list byte) :
  write_integer_of_size value nbytes unsigned = Ok data ->
  len pre + nbytes <= end_ ->
  read_integer_of_size end_ nbytes unsigned (mkReader (pre ++ data ++ post) (len pre))
  = Ok (value, mkReader (pre ++ data ++ post) (len pre + nbytes)).
Proof.
  intros Hwrite Hend.
  assert (Hlen : len data = nbytes).
  { unfold write_integer_of_size in Hwrite.
    destruct (get_struct_type nbytes unsigned) as [fmt| |] eqn:Hfmt; try discriminate.
    destruct (struct_size_cases nbytes) as [[_ H]|[_ H]];
      [|rewrite (get_struct_type_bad _ unsigned H) in Hfmt; discriminate].
    rewrite (get_struct_type_ok _ unsigned H) in Hfmt. injection Hfmt as <-.
    apply (struct_unpack_pack nbytes unsigned value data);
      [unfold struct_size in H; lia|exact Hwrite]. }
  rewrite (reads_integer _ _ _ _ Hwrite (mkReader (pre ++ data ++ post) (len pre)) post end_);
    cbn [file fpos]; unfold len in *; try lia.
  - rewrite Hlen. reflexivity.
  - unfold remaining. cbn [file fpos]. rewrite Nat2Z.id, drop_app_length. reflexivity.
Qed.

Lemma read_integer_of_written_witness :
  read_integer_of_size 10 4 false
    (mkReader ([x00; x00] ++ [xff; xff; xff; xfe] ++ [x00]) 2)
  = Ok (-2, mkReader ([x00; x00] ++ [xff; xff; xff; xfe] ++ [x00]) 6).
Proof.
  apply (read_integer_of_written (-2) 4 10 false [xff; xff; xff; xfe] [x00; x00] [x00]).
  - vm_compute. reflexivity.
  - vm_compute. congruence.
Defined.

(** X2. [write_integer_of_size] fails with an assertion for a size other
    than 1, 2, 4 and 8, and with [struct.error] for a value that the size
    cannot hold; otherwise it returns [nbytes] bytes. *)
Theorem write_integer_of_size_cases (value nbytes : Z) (unsigned : bool) :
  (~ struct_size nbytes ->
   write_integer_of_size value nbytes unsigned = Raise AssertionError)
  /\ (struct_size nbytes -> ~ fits nbytes unsigned value ->
      write_integer_of_size value nbytes unsigned = Raise StructError)
  /\ (struct_size nbytes -> fits nbytes unsigned value ->
      exists data,
        write_integer_of_size value nbytes unsigned = Ok data /\ len data = nbytes).
Proof.
  unfold write_integer_of_size. refine (conj _ (conj _ _)).
  - intros H. rewrite (get_struct_type_bad _ _ H). reflexivity.
  - intros Hs Hf. rewrite (get_struct_type_ok _ _ Hs). cbn [res_bind].
    apply struct_pack_overflow. exact Hf.
  - intros Hs Hf. rewrite (get_struct_type_ok _ _ Hs). cbn [res_bind].
    rewrite (struct_pack_fits _ _ _ Hf). eexists. split; [reflexivity|].
    unfold len. rewrite length_be_bytes. unfold struct_size in Hs. lia.
Qed.

Lemma write_integer_of_size_cases_witness :
  write_integer_of_size 7 3 true = Raise AssertionError
  /\ write_integer_of_size 256 1 true = Raise StructError
  /\ exists data, write_integer_of_size (-1) 2 false = Ok data /\ len data = 2.
Proof.
  destruct (write_integer_of_size_cases 7 3 true) as (H1 & _ & _).
  destruct (write_integer_of_size_cases 256 1 true) as (_ & H2 & _).
  destruct (write_integer_of_size_cases (-1) 2 false) as (_ & _ & H3).
  split; [apply H1; unfold struct_size; lia|].
  split; [apply H2; [unfold struct_size; lia|unfold fits; simpl; lia]|].
  apply H3; [unfold struct_size; lia|unfold fits; simpl; lia].
Defined.

(** X3. [read_integer_of_size] checks the limit it is given, not the size
    of the file: past the limit it fails with an assertion; within the
    limit but with too few bytes left in the file it fails with
    [struct.error], on the short buffer; and when it succeeds the reader
    has moved by [nbytes], is within the limit and within the file. *)
Theorem read_integer_of_size_bounds (end_ nbytes : Z) (unsigned : bool) (r : FileReader) :
  (end_ < fpos r + nbytes ->
   read_integer_of_size end_ nbytes unsigned r = Raise AssertionError)
  /\ (struct_size nbytes -> 0 <= fpos r -> fpos r + nbytes <= end_ ->
      file_size r < fpos r + nbytes ->
      read_integer_of_size end_ nbytes unsigned r = Raise StructError)
  /\ (forall v r',
        0 <= fpos r ->
        read_integer_of_size end_ nbytes unsigned r = Ok (v, r') ->
        file r' = file r /\ fpos r' = fpos r + nbytes
        /\ fpos r' <= end_ /\ fpos r' <= file_size r).
Proof.
  unfold read_integer_of_size, read_data, st_bind, position, reader_size, st_assert,
    st_lift, py_assert, file_read.
  refine (conj _ (conj _ _)).
  - intros H. rewrite (proj2 (Z.leb_gt _ _) H). reflexivity.
  - intros Hs Hpos Hend Hshort. rewrite (proj2 (Z.leb_le _ _) Hend).
    rewrite (get_struct_type_ok _ _ Hs). unfold struct_unpack.
    replace (nbytes <? 0) with false
      by (symmetry; apply Z.ltb_ge; unfold struct_size in Hs; lia).
    rewrite length_take, length_drop.
    replace (_ =? nbytes) with false; [reflexivity|].
    symmetry. apply Z.eqb_neq. unfold file_size in Hshort. unfold struct_size in Hs. lia.
  - intros v r' Hpos. destruct (Z.leb_spec (fpos r + nbytes) end_) as [Hend|]; [|discriminate].
    destruct (struct_size_cases nbytes) as [[_ Hs]|[_ Hs]];
      [rewrite (get_struct_type_ok _ unsigned Hs)
      |rewrite (get_struct_type_bad _ unsigned Hs); discriminate].
    replace (nbytes <? 0) with false
      by (symmetry; apply Z.ltb_ge; unfold struct_size in Hs; lia).
    unfold struct_unpack. rewrite length_take, length_drop.
    destruct (Z.eqb_spec (Z.of_nat (Z.to_nat nbytes `min` (length (file r) - Z.to_nat (fpos r))))
                nbytes) as [Hlen|]; [|discriminate].
    intros H. assert (Hr : r' = mkReader (file r) (fpos r + nbytes)).
    { destruct unsigned; injection H as _ <-; rewrite Hlen; reflexivity. }
    subst r'. cbn [file fpos]. unfold file_size. unfold struct_size in Hs.
    repeat split; lia.
Qed.

Lemma read_integer_of_size_bounds_witness :
  read_integer_of_size 3 4 true (mkReader [x00; x00; x00; x2a] 0) = Raise AssertionError
  /\ read_integer_of_size 8 4 true (mkReader [x00; x00; x2a] 0) = Raise StructError.
Proof.
  destruct (read_integer_of_size_bounds 3 4 true (mkReader [x00; x00; x00; x2a] 0))
    as (H1 & _ & _).
  destruct (read_integer_of_size_bounds 8 4 true (mkReader [x00; x00; x2a] 0))
    as (_ & H2 & _).
  split; [apply H1; simpl; lia|].
  apply H2; [unfold struct_size; lia|simpl; lia|simpl; lia|vm_compute; reflexivity].
Defined.

(* ===================================================================== *)
(** * Bit reading                                                         *)
(* ===================================================================== *)

Lemma be_value_app (a b : list byte) :
  be_value (a ++ b) = be_value a * 256 ^ len b + be_value b.
Proof.
  induction b as [|x b IH] using rev_ind.
  - rewrite app_nil_r. change (be_value []) with 0. change (256 ^ len []) with 1. lia.
  - rewrite app_assoc, !be_value_snoc, IH. unfold len. rewrite length_app. simpl.
    rewrite Nat2Z.inj_add, Z.pow_add_r by lia. simpl (256 ^ Z.of_nat 1). lia.
Qed.

Lemma byte_to_Z_range (b : byte) : 0 <= byte_to_Z b < 256.
Proof.
  unfold byte_to_Z. pose proof (Byte.to_N_bounded b) as H.
  lia.
Qed.

Lemma be_value_range (l : list byte) : 0 <= be_value l < 256 ^ len l.
Proof.
  induction l as [|x l IH] using rev_ind.
  - unfold be_value, len. simpl. lia.
  - rewrite be_value_snoc. unfold len in *. rewrite length_app. simpl.
    rewrite Nat2Z.inj_add, Z.pow_add_r by lia. pose proof (byte_to_Z_range x).
    simpl (256 ^ Z.of_nat 1). lia.
Qed.

(** The byte at index [k] is a digit of the big-endian number. *)
Lemma byte_at_be_value (data : list byte) (k : nat) (b : byte) :
  data !! k = Some b ->
  byte_to_Z b = (be_value data / 256 ^ (len data - 1 - Z.of_nat k)) mod 256.
Proof.
  intros Hk. pose proof (lookup_lt_Some _ _ _ Hk) as Hlt.
  rewrite <- (take_drop_middle data k b Hk) at 1 2.
  set (pre := take k data). set (post := drop (S k) data).
  assert (Hpost : len post = len data - 1 - Z.of_nat k).
  { subst post. unfold len. rewrite length_drop. lia. }
  replace (len (pre ++ b :: post)) with (len data)
    by (unfold len; subst pre post; rewrite length_app, length_take; simpl;
        rewrite length_drop; lia).
  rewrite <- Hpost.
  change (pre ++ b :: post) with (pre ++ [b] ++ post).
  rewrite app_assoc, be_value_app, be_value_snoc.
  pose proof (be_value_range post) as Hr.
  assert (Hp : 0 < 256 ^ len post) by (apply Z.pow_pos_nonneg; unfold len; lia).
  rewrite Z.div_add_l by lia. rewrite (Z.div_small (be_value post)) by lia.
  rewrite Z.add_0_r, Z.add_comm, Z.mod_add by lia.
  symmetry. apply Z.mod_small. apply byte_to_Z_range.
Qed.

Lemma lor_shift_bit (v b : Z) : b = 0 \/ b = 1 -> Z.lor (Z.shiftl v 1) b = v * 2 + b.
Proof.
  intros Hb. rewrite Z.shiftl_mul_pow2 by lia. change (2 ^ 1) with 2.
  rewrite <- Z.lxor_lor, <- Z.add_nocarry_lxor; try reflexivity.
  - destruct Hb as [-> | ->]; [apply Z.land_0_r|].
    change 1 with (Z.ones 1). rewrite Z.land_ones by lia. change (2 ^ 1) with 2.
    apply Z.mod_mul. lia.
  - destruct Hb as [-> | ->]; [apply Z.land_0_r|].
    change 1 with (Z.ones 1). rewrite Z.land_ones by lia. change (2 ^ 1) with 2.
    apply Z.mod_mul. lia.
Qed.

Lemma bit_field_range (data : list byte) (off n : Z) :
  0 <= n -> 0 <= bit_field data off n < 2 ^ n.
Proof. intros Hn. unfold bit_field. apply Z.mod_pos_bound. apply Z.pow_pos_nonneg; lia. Qed.

(** A field of [n + 1] bits is its first bit followed by the other [n]. *)
Lemma bit_field_step (data : list byte) (off n : Z) :
  0 <= n -> off + n + 1 <= 8 * len data ->
  bit_field data off (n + 1) = bit_field data off 1 * 2 ^ n + bit_field data (off + 1) n.
Proof.
  intros Hn Hoff. unfold bit_field.
  set (N := be_value data). pose (T := 8 * len data - off).
  replace (8 * len data - off - (n + 1)) with (T - n - 1) by (subst T; lia).
  replace (8 * len data - off - 1) with (T - n - 1 + n) by (subst T; lia).
  replace (8 * len data - (off + 1) - n) with (T - n - 1) by (subst T; lia).
  assert (HT : 0 <= T - n - 1) by (subst T; lia). clearbody T.
  rewrite (Z.pow_add_r 2 (T - n - 1) n) by lia.
  assert (Hp : 0 < 2 ^ n) by (apply Z.pow_pos_nonneg; lia).
  assert (Hq : 0 < 2 ^ (T - n - 1)) by (apply Z.pow_pos_nonneg; lia).
  rewrite <- Z.div_div by lia.
  set (X := N / 2 ^ (T - n - 1)).
  rewrite Z.pow_add_r by lia. change (2 ^ 1) with 2. rewrite Z.rem_mul_r by lia. lia.
Qed.

Lemma get_next_bit_spec (self : BitReader) :
  well_placed self -> bit_offset self + 1 <= 8 * len (bits_data self) ->
  exists self',
    get_next_bit self = Ok (bit_field (bits_data self) (bit_offset self) 1, self')
    /\ bits_data self' = bits_data self /\ well_placed self'
    /\ bit_offset self' = bit_offset self + 1.
Proof.
  unfold well_placed, bit_offset. intros [Hpos Hbit] Hroom.
  destruct self as [data pos bp]. cbn [bits_data bits_pos bit_pos] in *.
  assert (Hlt : (Z.to_nat pos < length data)%nat) by (unfold len in Hroom; lia).
  destruct (lookup_lt_is_Some_2 data _ Hlt) as [b Hb].
  unfold get_next_bit. cbn [bits_data bits_pos bit_pos].
  rewrite (py_index_within data pos b Hpos Hb). cbn [res_bind].
  assert (Hval : Z.land (Z.shiftr (byte_to_Z b) (7 - bp)) 1 = bit_field data (8 * pos + bp) 1).
  { change 1 with (Z.ones 1) at 1. rewrite Z.land_ones, Z.shiftr_div_pow2 by lia.
    rewrite (byte_at_be_value data _ b Hb). rewrite Z2Nat.id by lia.
    unfold bit_field. set (N := be_value data).
    rewrite pow_256 by (unfold len in *; lia).
    rewrite <- !Z.testbit_spec' by (unfold len in *; lia).
    f_equal. change 256 with (2 ^ 8). rewrite Z.mod_pow2_bits_low by lia.
    rewrite Z.div_pow2_bits by (unfold len in *; lia). f_equal. lia. }
  rewrite Hval. destruct (Z.leb_spec 8 (bp + 1)).
  - eexists. split; [reflexivity|]. cbn [bits_data bits_pos bit_pos]. repeat split; lia.
  - eexists. split; [reflexivity|]. cbn [bits_data bits_pos bit_pos]. repeat split; lia.
Qed.

Lemma f_loop_spec (n : nat) (acc : Z) (self : BitReader) :
  well_placed self -> bit_offset self + Z.of_nat n <= 8 * len (bits_data self) ->
  exists self',
    f_loop n acc self
    = Ok (acc * 2 ^ Z.of_nat n + bit_field (bits_data self) (bit_offset self) (Z.of_nat n),
          self')
    /\ bits_data self' = bits_data self /\ well_placed self'
    /\ bit_offset self' = bit_offset self + Z.of_nat n.
Proof.
  revert acc self. induction n as [|n IH]; intros acc self Hplaced Hroom.
  - exists self. cbn [f_loop]. unfold st_ret, bit_field. simpl (2 ^ Z.of_nat 0).
    rewrite Z.mod_1_r. split; [do 2 f_equal; lia|].
    split; [reflexivity|]. split; [exact Hplaced|lia].
  - cbn [f_loop]. unfold st_bind.
    destruct (get_next_bit_spec self Hplaced ltac:(lia)) as (s1 & -> & Hd1 & Hp1 & Ho1).
    destruct (IH (Z.lor (Z.shiftl acc 1) (bit_field (bits_data self) (bit_offset self) 1)) s1
                Hp1 ltac:(rewrite Hd1; lia)) as (s2 & -> & Hd2 & Hp2 & Ho2).
    exists s2. rewrite Hd1, Ho1 in *.
    split; [|split; [exact Hd2|split; [exact Hp2|lia]]].
    do 2 f_equal. rewrite lor_shift_bit.
    + rewrite Nat2Z.inj_succ. unfold Z.succ.
      rewrite (bit_field_step (bits_data self) (bit_offset self) (Z.of_nat n)) by lia.
      rewrite Z.pow_add_r by lia. change (2 ^ 1) with 2. lia.
    + pose proof (bit_field_range (bits_data self) (bit_offset self) 1 ltac:(lia)) as Hr.
      change (2 ^ 1) with 2 in Hr. lia.
Qed.

(** What [f] returns where the data has the bits. *)
Lemma f_bit_field (num_bits : Z) (self : BitReader) :
  well_placed self -> 0 <= num_bits ->
  bit_offset self + num_bits <= 8 * len (bits_data self) ->
  exists self',
    f num_bits self = Ok (bit_field (bits_data self) (bit_offset self) num_bits, self')
    /\ 0 <= bit_field (bits_data self) (bit_offset self) num_bits < 2 ^ num_bits
    /\ bits_data self' = bits_data self /\ well_placed self'
    /\ bit_offset self' = bit_offset self + num_bits.
Proof.
  intros Hplaced Hn Hroom. unfold f.
  destruct (f_loop_spec (Z.to_nat num_bits) 0 self Hplaced ltac:(lia))
    as (self' & Hrun & Hd & Hp & Ho).
  rewrite Z2Nat.id in * by lia. exists self'. rewrite Hrun. simpl (0 * _ + _).
  split; [reflexivity|]. split; [exact (bit_field_range _ _ _ Hn)|].
  split; [exact Hd|]. split; [exact Hp|exact Ho].
Qed.

(** X4. [BitReader.f(n)] returns the [n] bits at the position of the
    reader, most significant bit first: a number below [2^n], the field of
    the big-endian value of the data at that bit offset.  The reader moves
    by [n] bits and stays inside a byte. *)
Theorem f_reads_bit_field (num_bits : Z) (self : BitReader) :
  well_placed self -> 0 <= num_bits ->
  bit_offset self + num_bits <= 8 * len (bits_data self) ->
  exists self',
    f num_bits self = Ok (bit_field (bits_data self) (bit_offset self) num_bits, self')
    /\ 0 <= bit_field (bits_data self) (bit_offset self) num_bits < 2 ^ num_bits
    /\ bits_data self' = bits_data self /\ well_placed self'
    /\ bit_offset self' = bit_offset self + num_bits.
Proof. exact (f_bit_field num_bits self). Qed.

Lemma f_reads_bit_field_witness :
  exists self',
    f 12 (mkBits [xab; xcd; xef] 0 4) = Ok (3021, self') /\ bit_offset self' = 16.
Proof.
  destruct (f_reads_bit_field 12 (mkBits [xab; xcd; xef] 0 4))
    as (self' & Hrun & _ & _ & _ & Hoff).
  - unfold well_placed. simpl. lia.
  - lia.
  - vm_compute. congruence.
  - exists self'. split; [exact Hrun|exact Hoff].
Defined.

(** A field of [a + b] bits is a field of [a] bits followed by one of [b]. *)
Lemma bit_field_split (data : list byte) (off a b : Z) :
  0 <= a -> 0 <= b -> off + a + b <= 8 * len data ->
  bit_field data off (a + b)
  = bit_field data off a * 2 ^ b + bit_field data (off + a) b.
Proof.
  intros Ha Hb Hoff. unfold bit_field.
  set (N := be_value data). pose (T := 8 * len data - off).
  replace (8 * len data - off - (a + b)) with (T - a - b) by (subst T; lia).
  replace (8 * len data - off - a) with (T - a - b + b) by (subst T; lia).
  replace (8 * len data - (off + a) - b) with (T - a - b) by (subst T; lia).
  assert (HT : 0 <= T - a - b) by (subst T; lia). clearbody T.
  rewrite (Z.pow_add_r 2 (T - a - b) b) by lia.
  assert (Hp : 0 < 2 ^ b) by (apply Z.pow_pos_nonneg; lia).
  assert (Hq : 0 < 2 ^ (T - a - b)) by (apply Z.pow_pos_nonneg; lia).
  assert (Hr : 0 < 2 ^ a) by (apply Z.pow_pos_nonneg; lia).
  rewrite <- Z.div_div by lia.
  set (X := N / 2 ^ (T - a - b)).
  rewrite (Z.add_comm a b), Z.pow_add_r by lia. rewrite Z.rem_mul_r by lia. lia.
Qed.

Lemma well_placed_unique (s1 s2 : BitReader) :
  well_placed s1 -> well_placed s2 -> bits_data s1 = bits_data s2 ->
  bit_offset s1 = bit_offset s2 -> s1 = s2.
Proof.
  unfold well_placed, bit_offset. destruct s1 as [d1 p1 b1], s2 as [d2 p2 b2].
  cbn [bits_data bits_pos bit_pos].
  intros [? ?] [? ?] -> Hoff. f_equal; lia.
Qed.

(** X5. Two reads in a row are one read of the two widths: [f(a)]
    followed by [f(b)] yields the halves of what [f(a + b)] yields, and
    leaves the reader in the same state. *)
Theorem f_then_f (a b : Z) (self : BitReader) :
  well_placed self -> 0 <= a -> 0 <= b ->
  bit_offset self + a + b <= 8 * len (bits_data self) ->
  st_bind (f a) (fun x => st_bind (f b) (fun y => st_ret (x * 2 ^ b + y))) self
  = f (a + b) self.
Proof.
  intros Hplaced Ha Hb Hroom.
  destruct (f_bit_field (a + b) self Hplaced ltac:(lia) ltac:(lia))
    as (s & -> & _ & Hd & Hp & Ho).
  unfold st_bind.
  destruct (f_bit_field a self Hplaced Ha ltac:(lia))
    as (s1 & -> & _ & Hd1 & Hp1 & Ho1).
  destruct (f_bit_field b s1 Hp1 Hb ltac:(rewrite Hd1; lia))
    as (s2 & -> & _ & Hd2 & Hp2 & Ho2).
  unfold st_ret. rewrite Hd1, Ho1.
  rewrite <- (bit_field_split (bits_data self) (bit_offset self) a b Ha Hb Hroom).
  do 2 f_equal. apply well_placed_unique; try assumption; [congruence|lia].
Qed.

Lemma f_then_f_witness :
  st_bind (f 3) (fun x => st_bind (f 5) (fun y => st_ret (x * 2 ^ 5 + y)))
          (mkBits [xab; xcd] 0 2)
  = f 8 (mkBits [xab; xcd] 0 2).
Proof.
  apply (f_then_f 3 5 (mkBits [xab; xcd] 0 2)).
  - unfold well_placed. simpl. lia.
  - lia.
  - lia.
  - vm_compute. congruence.
Defined.

Lemma get_next_bit_at_end (self : BitReader) :
  0 <= bits_pos self -> len (bits_data self) <= bits_pos self ->
  get_next_bit self = Raise IndexError.
Proof.
  intros Hpos Hend. unfold get_next_bit, py_index. fold (len (bits_data self)).
  replace (bits_pos self <? len (bits_data self)) with false
    by (symmetry; apply Z.ltb_ge; lia).
  replace (bits_pos self <? 0) with false by (symmetry; apply Z.ltb_ge; lia).
  rewrite !andb_false_r. reflexivity.
Qed.

Lemma f_loop_short (n : nat) (acc : Z) (self : BitReader) :
  well_placed self -> bit_offset self <= 8 * len (bits_data self) ->
  8 * len (bits_data self) < bit_offset self + Z.of_nat n ->
  f_loop n acc self = Raise IndexError.
Proof.
  revert acc self. induction n as [|n IH]; intros acc self Hplaced Hin Hshort; [lia|].
  cbn [f_loop]. unfold st_bind.
  destruct (Z_lt_le_dec (bits_pos self) (len (bits_data self))) as [Hlt|Hge].
  - destruct (get_next_bit_spec self Hplaced) as (s1 & -> & Hd1 & Hp1 & Ho1).
    { unfold bit_offset, well_placed in *. lia. }
    apply IH; [exact Hp1| |]; rewrite Hd1, Ho1.
    + unfold bit_offset, well_placed in *. lia.
    + lia.
  - rewrite get_next_bit_at_end; [reflexivity| |exact Hge].
    unfold well_placed in Hplaced. lia.
Qed.

(** X6. When fewer than [n] bits are left, [f(n)] does not return a short
    value: it raises [IndexError], from the index of the byte after the
    last. *)
Theorem f_past_the_end (num_bits : Z) (self : BitReader) :
  well_placed self -> 0 < num_bits ->
  8 * len (bits_data self) < bit_offset self + num_bits ->
  f num_bits self = Raise IndexError.
Proof.
  intros Hplaced Hn Hshort. unfold f.
  destruct (Z_le_gt_dec (bit_offset self) (8 * len (bits_data self))) as [Hin|Hout].
  - apply f_loop_short; [exact Hplaced|exact Hin|lia].
  - destruct (Z.to_nat num_bits) as [|n] eqn:E; [lia|]. cbn [f_loop]. unfold st_bind.
    rewrite get_next_bit_at_end; [reflexivity| |];
      unfold bit_offset, well_placed in *; lia.
Qed.

Lemma f_past_the_end_witness : f 8 (mkBits [xab; xcd] 1 1) = Raise IndexError.
Proof.
  apply f_past_the_end.
  - unfold well_placed. simpl. lia.
  - lia.
  - vm_compute. reflexivity.
Defined.

(* ===================================================================== *)
(** * The fields of the sequence header                                   *)
(* ===================================================================== *)

Lemma land_1 (x : Z) : Z.land x 1 = x mod 2.
Proof. exact (Z.land_ones x 1 ltac:(lia)). Qed.

Lemma get_next_bit_range (self self' : BitReader) (bit : Z) :
  get_next_bit self = Ok (bit, self') -> bit = 0 \/ bit = 1.
Proof.
  unfold get_next_bit. destruct (py_index _ _) as [b| |]; try discriminate.
  cbn [res_bind]. intros H.
  assert (Hbit : bit = Z.land (Z.shiftr (byte_to_Z b) (7 - bit_pos self)) 1).
  { destruct (8 <=? bit_pos self + 1); injection H as <- _; reflexivity. }
  subst bit. rewrite land_1.
  pose proof (Z.mod_pos_bound (Z.shiftr (byte_to_Z b) (7 - bit_pos self)) 2 ltac:(lia)).
  lia.
Qed.

Lemma f_loop_range (n : nat) (acc v : Z) (self self' : BitReader) :
  f_loop n acc self = Ok (v, self') ->
  acc * 2 ^ Z.of_nat n <= v < (acc + 1) * 2 ^ Z.of_nat n.
Proof.
  revert acc self. induction n as [|n IH]; intros acc self H.
  - apply st_ret_ok in H as [-> _]. simpl. lia.
  - cbn [f_loop] in H. apply st_bind_ok in H as (bit & s1 & Hbit & H).
    apply get_next_bit_range in Hbit. apply IH in H.
    rewrite lor_shift_bit in H by exact Hbit.
    rewrite Nat2Z.inj_succ, Z.pow_succ_r by lia.
    assert (0 < 2 ^ Z.of_nat n) by (apply Z.pow_pos_nonneg; lia). nia.
Qed.

(** Whatever the state of the reader, [f(n)] returns a number of [n]
    bits. *)
Lemma f_range (num_bits v : Z) (self self' : BitReader) :
  f num_bits self = Ok (v, self') -> 0 <= v < 2 ^ Z.max 0 num_bits.
Proof.
  unfold f. intros H. apply f_loop_range in H.
  replace (Z.of_nat (Z.to_nat num_bits)) with (Z.max 0 num_bits) in H by lia. lia.
Qed.

Lemma fields_ok_insert (key : string) (v : Z) (parsed : gmap string Z) :
  field_test key v = true -> fields_ok parsed -> fields_ok (<[key := v]> parsed).
Proof. intros Hv Hp. apply map_Forall_insert_2; assumption. Qed.

Lemma yields_ok_ret (parsed : gmap string Z) : fields_ok parsed -> yields_ok (st_ret parsed).
Proof. intros Hp r p r' H. apply st_ret_ok in H as [-> _]. exact Hp. Qed.

Lemma yields_ok_set_from (key : string) (n : Z) (parsed : gmap string Z) :
  fields_ok parsed ->
  (forall v, 0 <= v < 2 ^ Z.max 0 n -> field_test key v = true) ->
  yields_ok (set_from key (f n) parsed).
Proof.
  intros Hp Hkey r p r' H. apply set_from_ok in H as (v & Hf & ->).
  apply fields_ok_insert; [|exact Hp]. apply Hkey. exact (f_range _ _ _ _ Hf).
Qed.

Lemma yields_ok_bind (m : St BitReader (gmap string Z))
    (k : gmap string Z -> St BitReader (gmap string Z)) :
  yields_ok m -> (forall parsed, fields_ok parsed -> yields_ok (k parsed)) ->
  yields_ok (st_bind m k).
Proof.
  intros Hm Hk r p r' H. apply st_bind_ok in H as (p1 & r1 & H1 & H2).
  exact (Hk p1 (Hm _ _ _ H1) _ _ _ H2).
Qed.

Lemma yields_ok_get (parsed : gmap string Z) (key : string)
    (k : Z -> St BitReader (gmap string Z)) :
  fields_ok parsed ->
  (forall v, parsed !! key = Some v -> field_test key v = true -> yields_ok (k v)) ->
  yields_ok (st_bind (get parsed key) k).
Proof.
  intros Hp Hk r p r' H. apply st_bind_ok in H as (v & r1 & Hg & H).
  apply get_ok in Hg as [Hv ->]. exact (Hk v Hv (Hp _ _ Hv) _ _ _ H).
Qed.

Lemma yields_ok_bind_any {A} (m : St BitReader A) (k : A -> St BitReader (gmap string Z)) :
  (forall a, yields_ok (k a)) -> yields_ok (st_bind m k).
Proof.
  intros Hk r p r' H. apply st_bind_ok in H as (a & r1 & _ & H). exact (Hk a _ _ _ H).
Qed.

Lemma yields_ok_assert (b : bool) (k : unit -> St BitReader (gmap string Z)) :
  yields_ok (k tt) -> yields_ok (st_bind (st_assert b) k).
Proof.
  intros Hk r p r' H. apply st_bind_ok in H as ([] & r1 & _ & H). exact (Hk _ _ _ H).
Qed.

Lemma yields_ok_if (c : bool) (m1 m2 : St BitReader (gmap string Z)) :
  yields_ok m1 -> yields_ok m2 -> yields_ok (if c then m1 else m2).
Proof. destruct c; auto. Qed.

Lemma field_test_bound (key : string) (v b : Z) :
  0 <= v < b -> (forall w, field_test key w = (0 <=? w) && (w <? b)) ->
  field_test key v = true.
Proof.
  intros Hv ->. apply andb_true_intro. split; [apply Z.leb_le|apply Z.ltb_lt]; lia.
Qed.

(** Closes the bound of a field from the width it was read with. *)
Ltac field_bound :=
  let v := fresh "v" in let Hv := fresh "Hv" in
  intros v Hv;
  try (match type of Hv with
       | context [2 ^ ?e] =>
           let x := eval vm_compute in (2 ^ e) in change (2 ^ e) with x in Hv
       end);
  unfold field_test, indexed;
  cbv [String.app String.eqb starts_with Ascii.eqb Bool.eqb andb orb];
  rewrite (proj2 (Z.leb_le 0 v)) by lia;
  try reflexivity; apply Z.ltb_lt; lia.

Ltac field_const :=
  unfold field_test, indexed;
  cbv [String.app String.eqb starts_with Ascii.eqb Bool.eqb andb orb]; reflexivity.

(** One step of the decoder after the other. *)
Ltac yields_ok_steps :=
  repeat first
    [ assumption
    | apply yields_ok_ret
    | apply yields_ok_if
    | apply yields_ok_assert
    | apply yields_ok_set_from; [|solve [field_bound]]
    | apply fields_ok_insert; [solve [field_const]|]
    | progress cbv zeta
    | apply yields_ok_bind; [|intros ? ?]
    | apply yields_ok_get; [|intros ? ? ?]
    | match goal with
      | |- yields_ok (st_bind _ _) => apply yields_ok_bind_any; intros ?
      end ].

Lemma fields_ok_empty : fields_ok ∅.
Proof. apply map_Forall_empty. Qed.

Lemma operating_points_ok (n i : nat) (parsed : gmap string Z) :
  fields_ok parsed -> yields_ok (operating_points n i parsed).
Proof.
  revert i parsed. induction n as [|n IH]; intros i parsed Hp; cbn [operating_points].
  - yields_ok_steps.
  - yields_ok_steps. apply IH. assumption.
Qed.

(** The frame size is read with the width that the header gave for it,
    sixteen bits at most. *)
Lemma frame_size_ok (key bits_key : string) (bits : Z) (parsed : gmap string Z) :
  fields_ok parsed ->
  (forall w, field_test bits_key w = (0 <=? w) && (w <? 16)) ->
  (forall w, field_test key w = (0 <=? w) && (w <? 65536)) ->
  field_test bits_key bits = true ->
  yields_ok (set_from key (f (bits + 1)) parsed).
Proof.
  intros Hp Hbits Hkey Hb. apply yields_ok_set_from; [exact Hp|]. intros v Hv.
  rewrite Hbits in Hb. apply andb_true_iff in Hb as [H0 H1].
  apply Z.leb_le in H0. apply Z.ltb_lt in H1.
  assert (2 ^ Z.max 0 (bits + 1) <= 2 ^ 16) by (apply Z.pow_le_mono_r; lia).
  change (2 ^ 16) with 65536 in *.
  rewrite Hkey. apply andb_true_intro. split; [apply Z.leb_le|apply Z.ltb_lt]; lia.
Qed.

Lemma sequence_header_start_ok : yields_ok sequence_header_start.
Proof.
  unfold sequence_header_start. pose proof fields_ok_empty.
  yields_ok_steps.
  all: try (apply operating_points_ok; yields_ok_steps).
  - eapply frame_size_ok; [assumption| | |eassumption]; intros w; reflexivity.
  - eapply frame_size_ok; [assumption| | |eassumption]; intros w; reflexivity.
Qed.

Lemma color_config_description_ok (parsed : gmap string Z) :
  fields_ok parsed -> yields_ok (color_config_description parsed).
Proof.
  intros Hp r p r' H. unfold color_config_description in H.
  apply st_bind_ok in H as (p1 & r1 & H1 & H).
  assert (Hp1 : fields_ok p1) by (revert H1; apply yields_ok_set_from; [exact Hp|field_bound]).
  apply st_bind_ok in H as (seq_profile & r2 & _ & H).
  apply st_bind_ok in H as (high_bitdepth & r3 & _ & H).
  apply st_bind_ok in H as ([p2 bitdepth] & r4 & Hdepth & H).
  assert (Hp2 : fields_ok p2
                /\ forall b, bitdepth = Some b -> field_test "calculated_bitdepth" b = true).
  { destruct ((seq_profile =? 2) && truthy high_bitdepth).
    - apply st_bind_ok in Hdepth as (p3 & r5 & H3 & Hdepth).
      apply st_bind_ok in Hdepth as (twelve_bit & r6 & _ & Hdepth).
      apply st_ret_ok in Hdepth as [[= -> ->] _]. split.
      + revert H3. apply yields_ok_set_from; [exact Hp1|field_bound].
      + intros b [= <-]. destruct (truthy twelve_bit); reflexivity.
    - destruct (seq_profile <=? 2); apply st_ret_ok in Hdepth as [[= -> ->] _];
        (split; [exact Hp1|]); intros b Hb; [|discriminate].
      injection Hb as <-. destruct (truthy high_bitdepth); reflexivity. }
  destruct Hp2 as [Hp2 Hdepth_ok].
  apply st_bind_ok in H as (b & r5 & Hb & H).
  destruct bitdepth as [b'|]; [|discriminate]. injection Hb as <- <-.
  match type of H with ?m _ = _ => assert (Hm : yields_ok m) end;
    [|exact (Hm _ _ _ H)].
  clear H.
  assert (Hp3 : fields_ok (<["calculated_bitdepth" := b']> p2))
    by (apply fields_ok_insert; [exact (Hdepth_ok _ eq_refl)|exact Hp2]).
  yields_ok_steps.
  apply fields_ok_insert; [destruct (truthy v); reflexivity|assumption].
Qed.

Lemma color_config_range_ok (parsed : gmap string Z) :
  fields_ok parsed -> yields_ok (color_config_range parsed).
Proof. intros Hp. unfold color_config_range. yields_ok_steps. Qed.

Lemma sequence_header_end_ok (parsed : gmap string Z) :
  fields_ok parsed -> yields_ok (sequence_header_end parsed).
Proof. intros Hp. unfold sequence_header_end. yields_ok_steps. Qed.

Lemma parse_av1_sequence_header_obu_ok : yields_ok parse_av1_sequence_header_obu.
Proof.
  unfold parse_av1_sequence_header_obu.
  apply yields_ok_bind; [exact sequence_header_start_ok|intros p0 H0].
  apply yields_ok_bind; [exact (color_config_description_ok p0 H0)|intros p1 H1].
  apply yields_ok_bind; [exact (color_config_range_ok p1 H1)|intros p2 H2].
  exact (sequence_header_end_ok p2 H2).
Qed.





(* ===================================================================== *)
(** * The OBUs of an elementary stream                                    *)
(* ===================================================================== *)

Lemma lor_shiftl_add (value x k : Z) :
  0 <= k -> 0 <= value < 2 ^ k -> Z.lor value (Z.shiftl x k) = value + x * 2 ^ k.
Proof.
  intros Hk Hv. rewrite Z.shiftl_mul_pow2 by lia.
  rewrite <- Z.lxor_lor, <- Z.add_nocarry_lxor; try reflexivity.
  all: apply Z.bits_inj'; intros n Hn; rewrite Z.land_spec, Z.bits_0.
  all: destruct (Z.lt_ge_cases n k) as [Hlt|Hge];
    [rewrite Z.mul_pow2_bits_low by lia; apply andb_false_r|].
  all: replace (Z.testbit value n) with false; [reflexivity|].
  all: symmetry; destruct (Z.eq_dec value 0) as [->|Hne]; [apply Z.bits_0|].
  all: apply Z.bits_above_log2; [lia|].
  all: apply Z.lt_le_trans with k; [|lia]; apply Z.log2_lt_pow2; lia.
Qed.

Lemma continuation_bit (b : byte) :
  (Z.land (byte_to_Z b) 128 =? 0) = (byte_to_Z b <? 128).
Proof. destruct b; reflexivity. Qed.

Lemma get_byte_at (self : BitReader) (b : byte) (rest : list byte) :
  bit_pos self = 0 -> 0 <= bits_pos self ->
  drop (Z.to_nat (bits_pos self)) (bits_data self) = b :: rest ->
  get_byte self = Ok (byte_to_Z b, mkBits (bits_data self) (bits_pos self + 1) 0).
Proof.
  intros Hbit Hpos Hdrop. unfold get_byte. rewrite Hbit. cbn [Z.eqb py_assert res_bind].
  assert (Hb : bits_data self !! Z.to_nat (bits_pos self) = Some b).
  { rewrite <- (Nat.add_0_r (Z.to_nat (bits_pos self))), <- lookup_drop, Hdrop.
    reflexivity. }
  pose proof (lookup_lt_Some _ _ _ Hb) as Hlt.
  unfold py_index. rewrite (proj2 (Z.leb_le 0 _) Hpos).
  rewrite (proj2 (Z.ltb_lt (bits_pos self) _)) by lia.
  cbn [andb]. rewrite Hb. reflexivity.
Qed.

Lemma get_byte_at_end (self : BitReader) :
  bit_pos self = 0 -> 0 <= bits_pos self ->
  drop (Z.to_nat (bits_pos self)) (bits_data self) = [] ->
  get_byte self = Raise IndexError.
Proof.
  intros Hbit Hpos Hdrop. unfold get_byte. rewrite Hbit. cbn [Z.eqb py_assert res_bind].
  assert (Hlen : (length (bits_data self) <= Z.to_nat (bits_pos self))%nat).
  { destruct (le_lt_dec (length (bits_data self)) (Z.to_nat (bits_pos self))) as [H|H];
      [exact H|].
    apply (f_equal length) in Hdrop. rewrite length_drop in Hdrop. simpl in Hdrop. lia. }
  unfold py_index.
  rewrite (proj2 (Z.ltb_ge (bits_pos self) _)) by lia. rewrite andb_false_r.
  rewrite (proj2 (Z.ltb_ge (bits_pos self) 0)) by lia. rewrite andb_false_r.
  reflexivity.
Qed.

Lemma drop_succ_tail {A} (l : list A) (n : nat) (x : A) (rest : list A) :
  drop n l = x :: rest -> drop (S n) l = rest.
Proof.
  intros H. replace (S n) with (n + 1)%nat by lia.
  rewrite <- drop_drop, H. reflexivity.
Qed.

Lemma read_leb128_loop_spec (n : nat) (i value : Z) (self : BitReader) :
  bit_pos self = 0 -> 0 <= bits_pos self -> 0 <= i -> 0 <= value < 128 ^ i ->
  read_leb128_loop n i value self
  = match leb128_bytes n (drop (Z.to_nat (bits_pos self)) (bits_data self)) with
    | Some bs =>
        Ok (value + 128 ^ i * leb128_sum bs,
            mkBits (bits_data self) (bits_pos self + len bs) 0)
    | None => Raise IndexError
    end.
Proof.
  revert i value self. induction n as [|n IH]; intros i value self Hbit Hpos Hi Hv.
  - cbn [read_leb128_loop leb128_bytes leb128_sum]. unfold st_ret, len.
    destruct self as [d p b]. cbn in *. subst b. do 3 f_equal; lia.
  - cbn [read_leb128_loop leb128_bytes].
    destruct (drop (Z.to_nat (bits_pos self)) (bits_data self)) as [|b rest] eqn:Hdrop.
    + unfold st_bind. rewrite get_byte_at_end by assumption. reflexivity.
    + unfold st_bind at 1. rewrite (get_byte_at self b rest) by assumption.
      rewrite continuation_bit.
      assert (Hval : Z.lor value (Z.shiftl (Z.land (byte_to_Z b) 127) (i * 7))
                     = value + byte_to_Z b mod 128 * 128 ^ i).
      { change 127 with (Z.ones 7). rewrite Z.land_ones by lia.
        change (2 ^ 7) with 128.
        replace (128 ^ i) with (2 ^ (i * 7)) in *
          by (rewrite Z.mul_comm, Z.pow_mul_r by lia; reflexivity).
        apply lor_shiftl_add; lia. }
      rewrite Hval.
      destruct (byte_to_Z b <? 128).
      * unfold st_ret. cbn [leb128_sum]. unfold len. cbn [length].
        do 3 f_equal; lia.
      * pose proof (Z.mod_pos_bound (byte_to_Z b) 128 ltac:(lia)) as Hm.
        rewrite IH; cbn [bits_data bits_pos bit_pos]; try lia.
        -- replace (Z.to_nat (bits_pos self + 1)) with (S (Z.to_nat (bits_pos self))) by lia.
           rewrite (drop_succ_tail _ _ _ _ Hdrop).
           destruct (leb128_bytes n rest) as [bs|]; cbn [option_map]; [|reflexivity].
           cbn [leb128_sum]. unfold len. cbn [length].
           rewrite Z.pow_add_r by lia. change (128 ^ 1) with 128.
           f_equal. f_equal; [ring|f_equal; lia].
        -- rewrite Z.pow_add_r by lia. change (128 ^ 1) with 128.
           assert (0 < 128 ^ i) by (apply Z.pow_pos_nonneg; lia). nia.
Qed.

Lemma leb128_bytes_taken (n : nat) (data bs : list byte) :
  leb128_bytes n data = Some bs ->
  (length bs <= n)%nat /\ (0 < n -> 0 < length bs)%nat
  /\ take (length bs) data = bs /\ 0 <= leb128_sum bs < 128 ^ len bs.
Proof.
  revert data bs. induction n as [|n IH]; intros data bs H.
  - injection H as <-. cbn. repeat split; try lia; try reflexivity.
  - cbn [leb128_bytes] in H. destruct data as [|b rest]; [discriminate|].
    pose proof (byte_to_Z_range b) as Hb.
    pose proof (Z.mod_pos_bound (byte_to_Z b) 128 ltac:(lia)) as Hm.
    destruct (byte_to_Z b <? 128).
    + injection H as <-. change (128 ^ len [b]) with 128.
      cbn [length leb128_sum take]. repeat split; try lia; reflexivity.
    + destruct (leb128_bytes n rest) as [bs'|] eqn:E; [|discriminate].
      injection H as <-. destruct (IH _ _ E) as (H1 & _ & H3 & H4).
      cbn [length leb128_sum take]. rewrite H3. unfold len in *. cbn [length].
      rewrite Nat2Z.inj_succ, Z.pow_succ_r by lia. repeat split; try lia.
Qed.

Lemma read_leb128_value_ok (self self' : BitReader) (v : Z) :
  bit_pos self = 0 -> 0 <= bits_pos self ->
  read_leb128_value self = Ok (v, self') ->
  0 <= v < 2 ^ 56 /\ bits_data self' = bits_data self /\ bit_pos self' = 0
  /\ bits_pos self + 1 <= bits_pos self' <= bits_pos self + 8
  /\ bits_pos self' <= len (bits_data self).
Proof.
  intros Hbit Hpos H. unfold read_leb128_value in H.
  rewrite read_leb128_loop_spec in H by (try assumption; simpl; lia).
  destruct (leb128_bytes 8 _) as [bs|] eqn:E; [|discriminate].
  injection H as <- <-. cbn [bits_data bits_pos bit_pos].
  destruct (leb128_bytes_taken _ _ _ E) as (H1 & H2 & H3 & H4).
  specialize (H2 ltac:(lia)).
  assert (Hlen : (length bs <= length (drop (Z.to_nat (bits_pos self)) (bits_data self)))%nat).
  { rewrite <- H3 at 1. rewrite length_take. lia. }
  rewrite length_drop in Hlen.
  assert (128 ^ len bs <= 128 ^ 8) by (apply Z.pow_le_mono_r; unfold len; lia).
  change (128 ^ 8) with (2 ^ 56) in *. change (128 ^ 0) with 1.
  unfold len in *. repeat split; try lia.
Qed.

(** X8. At a byte boundary [read_leb128_value] takes the bytes up to the
    first one below 128, eight at most, and returns the number that their
    low seven bits spell, the lowest first; it raises IndexError where the
    data ends before, and AssertionError inside a byte.  What it returns
    is below 2^56, and it leaves the reader one to eight bytes further,
    within the data. *)
Theorem read_leb128_value_spec (self : BitReader) :
  0 <= bits_pos self ->
  read_leb128_value self
  = (if bit_pos self =? 0 then
       match leb128_bytes 8 (drop (Z.to_nat (bits_pos self)) (bits_data self)) with
       | Some bs =>
           Ok (leb128_sum bs, mkBits (bits_data self) (bits_pos self + len bs) 0)
       | None => Raise IndexError
       end
     else Raise AssertionError)
  /\ forall v self',
      read_leb128_value self = Ok (v, self') ->
      0 <= v < 2 ^ 56
      /\ bits_pos self + 1 <= bits_pos self' <= bits_pos self + 8
      /\ bits_pos self' <= len (bits_data self).
Proof.
  intros Hpos. destruct (Z.eqb_spec (bit_pos self) 0) as [Hbit|Hbit].
  - split.
    + unfold read_leb128_value.
      rewrite read_leb128_loop_spec by (try assumption; simpl; lia).
      destruct (leb128_bytes 8 _); [|reflexivity]. do 2 f_equal. simpl. lia.
    + intros v self' H.
      destruct (read_leb128_value_ok _ _ _ Hbit Hpos H) as (H1 & _ & _ & H2 & H3).
      auto.
  - assert (H : read_leb128_value self = Raise AssertionError).
    { unfold read_leb128_value. cbn [read_leb128_loop]. unfold st_bind, get_byte.
      rewrite (proj2 (Z.eqb_neq _ _) Hbit). reflexivity. }
    split; [exact H|]. intros v self' H'. rewrite H in H'. discriminate.
Qed.

Lemma read_leb128_value_spec_witness :
  read_leb128_value (mkBits [x02; xe5; x8e; x26; xff] 1 0)
  = Ok (624485, mkBits [x02; xe5; x8e; x26; xff] 4 0).
Proof.
  destruct (read_leb128_value_spec (mkBits [x02; xe5; x8e; x26; xff] 1 0)) as [H _].
  - simpl. lia.
  - rewrite H. reflexivity.
Defined.

Lemma st_bind_not_out {S A B} (m : St S A) (k : A -> St S B) (s : S) :
  m s <> OutOfFuel -> (forall a s', m s = Ok (a, s') -> k a s' <> OutOfFuel) ->
  st_bind m k s <> OutOfFuel.
Proof.
  unfold st_bind. destruct (m s) as [[a s']| |]; intros H1 H2;
    [apply H2; reflexivity|discriminate|congruence].
Qed.

Lemma terminates_ret {S A} (a : A) : terminates (st_ret (S := S) a).
Proof. intros s. discriminate. Qed.

Lemma terminates_bind {S A B} (m : St S A) (k : A -> St S B) :
  terminates m -> (forall a, terminates (k a)) -> terminates (st_bind m k).
Proof. intros Hm Hk s. apply st_bind_not_out; [apply Hm|]. intros a s' _. apply Hk. Qed.

Lemma terminates_lift {S A} (m : result A) : m <> OutOfFuel -> terminates (st_lift (S := S) m).
Proof. intros Hm s. unfold st_lift. destruct m; [discriminate|discriminate|congruence]. Qed.

Lemma terminates_assert {S} (b : bool) : terminates (st_assert (S := S) b).
Proof. apply terminates_lift. destruct b; discriminate. Qed.

Lemma terminates_get (parsed : gmap string Z) (key : string) : terminates (get parsed key).
Proof. apply terminates_lift. unfold py_getitem. destruct (parsed !! key); discriminate. Qed.

Lemma terminates_get_next_bit : terminates get_next_bit.
Proof.
  intros self. unfold get_next_bit. destruct (py_index _ _) as [b| |] eqn:E.
  - cbn [res_bind]. destruct (8 <=? bit_pos self + 1); discriminate.
  - discriminate.
  - unfold py_index in E.
    repeat match type of E with
           | context [if ?c then _ else _] => destruct c
           | context [match ?o with Some _ => _ | None => _ end] => destruct o
           end; discriminate.
Qed.

Lemma terminates_f_loop (n : nat) (acc : Z) : terminates (f_loop n acc).
Proof.
  revert acc. induction n as [|n IH]; intros acc; cbn [f_loop].
  - apply terminates_ret.
  - apply terminates_bind; [exact terminates_get_next_bit|]. intros bit. apply IH.
Qed.

Lemma terminates_f (num_bits : Z) : terminates (f num_bits).
Proof. apply terminates_f_loop. Qed.

Lemma terminates_set_from (key : string) (m : St BitReader Z) (parsed : gmap string Z) :
  terminates m -> terminates (set_from key m parsed).
Proof. intros Hm. apply terminates_bind; [exact Hm|]. intros v. apply terminates_ret. Qed.

Lemma terminates_if {S A} (c : bool) (m1 m2 : St S A) :
  terminates m1 -> terminates m2 -> terminates (if c then m1 else m2).
Proof. destruct c; auto. Qed.

(** One step of the decoder after the other. *)
Ltac terminates_steps :=
  repeat first
    [ assumption
    | progress cbv zeta
    | match goal with
      | |- terminates (set_from _ _ _) => apply terminates_set_from
      | |- terminates (get _ _) => apply terminates_get
      | |- terminates (f _) => apply terminates_f
      | |- terminates (st_assert _) => apply terminates_assert
      | |- terminates (st_ret _) => apply terminates_ret
      | |- terminates (if _ then _ else _) => apply terminates_if
      | |- terminates (let '(_, _) := ?a in _) => destruct a
      | |- terminates (st_lift match ?b with Some _ => _ | None => _ end) =>
          apply terminates_lift; destruct b; discriminate
      | |- terminates (st_bind _ _) => apply terminates_bind; [|intros ?]
      end ].

Lemma operating_points_terminates (n i : nat) (parsed : gmap string Z) :
  terminates (operating_points n i parsed).
Proof.
  revert i parsed. induction n as [|n IH]; intros i parsed; cbn [operating_points].
  - terminates_steps.
  - terminates_steps. apply IH.
Qed.

Lemma parse_av1_sequence_header_obu_terminates : terminates parse_av1_sequence_header_obu.
Proof.
  unfold parse_av1_sequence_header_obu.
  apply terminates_bind; [|intros p0; apply terminates_bind;
                            [|intros p1; apply terminates_bind; [|intros p2]]].
  - unfold sequence_header_start. terminates_steps. apply operating_points_terminates.
  - unfold color_config_description. terminates_steps.
  - unfold color_config_range. terminates_steps.
  - unfold sequence_header_end. terminates_steps.
Qed.

Lemma f_ok_inv (n : Z) (self self' : BitReader) (v : Z) :
  well_placed self -> 0 < n -> f n self = Ok (v, self') ->
  bits_data self' = bits_data self /\ well_placed self'
  /\ bit_offset self' = bit_offset self + n
  /\ bit_offset self' <= 8 * len (bits_data self).
Proof.
  intros Hwp Hn H. unfold f in H.
  destruct (Z.le_gt_cases (bit_offset self + n) (8 * len (bits_data self))) as [Hle|Hgt].
  - destruct (f_loop_spec (Z.to_nat n) 0 self Hwp ltac:(lia)) as (s & Hs & H1 & H2 & H3).
    rewrite Hs in H. injection H as _ <-.
    split; [exact H1|split; [exact H2|split; lia]].
  - exfalso.
    destruct (Z.le_gt_cases (bit_offset self) (8 * len (bits_data self))) as [Hin|Hout].
    + rewrite f_loop_short in H by (try assumption; lia). discriminate.
    + destruct (Z.to_nat n) as [|k] eqn:Ek; [lia|]. cbn [f_loop] in H.
      unfold st_bind in H. rewrite get_next_bit_at_end in H; [discriminate| |];
        unfold well_placed, bit_offset in *; lia.
Qed.

Lemma read_obu_header_ok (self self' : BitReader) (header : gmap string Z) :
  bit_pos self = 0 -> 0 <= bits_pos self ->
  read_obu_header self = Ok (header, self') ->
  bits_data self' = bits_data self /\ bit_pos self' = 0
  /\ bits_pos self + 1 <= bits_pos self' <= bits_pos self + 2
  /\ bits_pos self' <= len (bits_data self).
Proof.
  intros Hbit Hpos H. unfold read_obu_header in H.
  assert (Hwp : well_placed self) by (unfold well_placed; lia).
  invert_run.
  all: repeat match goal with
         | Hf : f ?n ?s = Ok (_, ?s'), Hs : well_placed ?s |- _ =>
             let D := fresh "D" in let W := fresh "W" in
             let O := fresh "O" in let L := fresh "L" in
             destruct (f_ok_inv n s s' _ Hs ltac:(lia) Hf) as (D & W & O & L);
             clear Hf
         end.
  all: unfold well_placed, bit_offset in *.
  all: repeat split; try congruence; try lia.
  all: repeat match goal with D : bits_data _ = bits_data _ |- _ => rewrite D in * end; lia.
Qed.

Lemma read_obu_header_terminates : terminates read_obu_header.
Proof. unfold read_obu_header. terminates_steps. Qed.

Lemma get_bytes_ok (num_bytes : Z) (self self' : BitReader) (data : list byte) :
  0 <= num_bytes -> bits_pos self <= len (bits_data self) ->
  get_bytes num_bytes self = Ok (data, self') ->
  bits_data self' = bits_data self /\ bit_pos self' = bit_pos self
  /\ bits_pos self <= bits_pos self' <= len (bits_data self).
Proof.
  intros Hn Hpos H. unfold get_bytes in H.
  destruct (bit_pos self =? 0); [|discriminate]. cbn [py_assert res_bind] in H.
  destruct (Z.eqb_spec num_bytes 0) as [->|Hne]; cbn [res_bind] in H.
  - injection H as _ <-. cbn. repeat split; try reflexivity; lia.
  - destruct (Z.leb_spec (bits_pos self + num_bytes) (len (bits_data self)));
      [|discriminate].
    cbn [py_assert res_bind] in H. injection H as _ <-. cbn.
    repeat split; try reflexivity; lia.
Qed.

Lemma get_bytes_terminates (num_bytes : Z) : terminates (get_bytes num_bytes).
Proof.
  intros self. unfold get_bytes. destruct (bit_pos self =? 0); [|discriminate].
  cbn [py_assert res_bind]. destruct (num_bytes =? 0); cbn [res_bind]; [discriminate|].
  destruct (_ <=? _); discriminate.
Qed.

Lemma get_byte_terminates : terminates get_byte.
Proof.
  intros self. unfold get_byte. destruct (bit_pos self =? 0); [|discriminate].
  cbn [py_assert res_bind]. destruct (py_index _ _) as [b| |] eqn:E; try discriminate.
  unfold py_index in E.
  repeat match type of E with
         | context [if ?c then _ else _] => destruct c
         | context [match ?o with Some _ => _ | None => _ end] => destruct o
         end; discriminate.
Qed.

Lemma read_leb128_loop_terminates (n : nat) (i value : Z) :
  terminates (read_leb128_loop n i value).
Proof.
  revert i value. induction n as [|n IH]; intros i value; cbn [read_leb128_loop].
  - apply terminates_ret.
  - apply terminates_bind; [exact get_byte_terminates|]. intros b.
    apply terminates_if; [apply terminates_ret|apply IH].
Qed.

Lemma obu_map_parser (ty : Z) (p : St BitReader (gmap string Z)) (d : string) :
  obu_map !! ty = Some (Some p, d) ->
  ty = 1 /\ p = parse_av1_sequence_header_obu /\ d = "OBU_SEQUENCE_HEADER"%string.
Proof.
  unfold obu_map. rewrite !list_to_map_cons, list_to_map_nil. cbn [fst snd]. intros H.
  repeat (apply lookup_insert_Some in H as [[<- H]|[? H]];
          [injection H as <- <- || discriminate H; auto|]).
  rewrite lookup_empty in H. discriminate.
Qed.

Lemma obu_map_no_parser (ty : Z) (d : string) :
  obu_map !! ty = Some (None, d) -> d <> "OBU_SEQUENCE_HEADER"%string.
Proof.
  unfold obu_map. rewrite !list_to_map_cons, list_to_map_nil. cbn [fst snd]. intros H.
  repeat (apply lookup_insert_Some in H as [[<- H]|[? H]];
          [discriminate H || (injection H as <-; discriminate)|]).
  rewrite lookup_empty in H. discriminate.
Qed.

(** A turn of the loop of [_parse_obus] that goes through, as the three
    effects it has: a list with one more OBU, which is a sequence header
    only if its body comes from the decoder, and a reader two bytes
    further at least, at a byte boundary. *)
Lemma parse_obus_turn (fuel : nat) (obu_list result : list OBU) (self self' : BitReader) :
  bit_pos self = 0 -> 0 <= bits_pos self ->
  bits_pos self <> len (bits_data self) ->
  parse_obus_loop (S fuel) obu_list self = Ok (result, self') ->
  exists obu s,
    parse_obus_loop fuel (obu_list ++ [obu]) s = Ok (result, self')
    /\ bits_data s = bits_data self /\ bit_pos s = 0
    /\ bits_pos self + 2 <= bits_pos s
    /\ bits_pos self + 2 <= len (bits_data self)
    /\ (obu_description obu = "OBU_SEQUENCE_HEADER"%string ->
        exists r r', parse_av1_sequence_header_obu r = Ok (obu_body obu, r')).
Proof.
  intros Hbit Hpos Hne H. cbn [parse_obus_loop] in H.
  apply st_bind_ok in H as (at_end & s0 & He & H).
  unfold eof in He. injection He as <- <-.
  destruct (Z.eqb_spec (len (bits_data self)) (bits_pos self)) as [|_]; [congruence|].
  apply st_bind_ok in H as (header & s1 & Hh & H).
  destruct (read_obu_header_ok _ _ _ Hbit Hpos Hh) as (D1 & B1 & P1 & L1).
  apply st_bind_ok in H as (has_size & s1' & Hg & H). apply get_ok in Hg as [_ ->].
  apply st_bind_ok in H as ([] & s1' & Ha & H).
  assert (s1' = s1) as ->.
  { unfold st_assert, st_lift in Ha. destruct (py_assert _) as [[]| |]; try discriminate.
    injection Ha as <-. reflexivity. }
  apply st_bind_ok in H as (obu_size & s2 & Hl & H).
  destruct (read_leb128_value_ok _ _ _ B1 ltac:(lia) Hl) as (V2 & D2 & B2 & P2 & L2).
  apply st_bind_ok in H as (ty & s2' & Hg & H). apply get_ok in Hg as [_ ->].
  destruct (match obu_map !! ty with
            | Some entry => entry
            | None => (None, "Unknown OBU"%string)
            end) as [parse_function description] eqn:Emap.
  apply st_bind_ok in H as (body & s3 & Hbody & H).
  exists (mkOBU description header body), s3. split; [exact H|].
  destruct parse_function as [parse|].
  - apply st_bind_ok in Hbody as (sub & s3' & Hsub & Hparse).
    unfold sub_reader_for_bytes in Hsub.
    apply st_bind_ok in Hsub as (bytes & s3'' & Hbytes & Hsub).
    apply st_ret_ok in Hsub as [-> ->].
    assert (L2' : bits_pos s2 <= len (bits_data s2)) by (rewrite D2; lia).
    destruct (get_bytes_ok obu_size s2 _ _ ltac:(lia) L2' Hbytes) as (D3 & B3 & P3).
    unfold st_lift in Hparse.
    destruct (parse (BitReader_init bytes)) as [[b r']| |] eqn:Ep; try discriminate.
    cbn [res_bind] in Hparse. injection Hparse as <- <-.
    rewrite D1 in L2.
    split; [congruence|]. split; [congruence|]. split; [lia|]. split; [lia|].
    intros _. cbn [obu_body].
    destruct (obu_map !! ty) as [entry|] eqn:El; [|discriminate].
    subst entry. apply obu_map_parser in El as (_ & -> & _). eauto.
  - apply st_bind_ok in Hbody as ([] & s3' & Hskip & Hret).
    apply st_ret_ok in Hret as [-> ->]. unfold skip_bytes in Hskip.
    rewrite B2 in Hskip. cbn [Z.eqb py_assert res_bind] in Hskip.
    injection Hskip as <-. cbn [bits_data bits_pos bit_pos].
    rewrite D1 in L2.
    split; [congruence|]. split; [congruence|]. split; [lia|]. split; [lia|].
    cbn [obu_description]. intros ->.
    destruct (obu_map !! ty) as [entry|] eqn:El; [|discriminate].
    subst entry. apply obu_map_no_parser in El. congruence.
Qed.

Lemma skip_bytes_terminates (num : Z) : terminates (skip_bytes num).
Proof. intros self. unfold skip_bytes. destruct (bit_pos self =? 0); discriminate. Qed.

(** The loop of [_parse_obus] comes to an end: a turn that goes through
    takes two bytes at least, so a reader with [d] bytes left needs half
    as many turns, and one more to find out that it is past the end. *)
Lemma parse_obus_loop_terminates (fuel : nat) (obu_list : list OBU) (self : BitReader) :
  bit_pos self = 0 -> 0 <= bits_pos self ->
  (len (bits_data self) - bits_pos self = 0
   \/ (len (bits_data self) - bits_pos self < 0 /\ (1 <= fuel)%nat)
   \/ 1 <= len (bits_data self) - bits_pos self <= 2 * Z.of_nat fuel - 1) ->
  parse_obus_loop fuel obu_list self <> OutOfFuel.
Proof.
  revert obu_list self.
  induction fuel as [|fuel IH]; intros obu_list self Hbit Hpos Hinv;
    cbn [parse_obus_loop]; (apply st_bind_not_out; [discriminate|]);
    intros at_end s0 He; unfold eof in He; injection He as <- <-;
    destruct (Z.eqb_spec (len (bits_data self)) (bits_pos self)) as [Heq|Hne];
    try (unfold st_ret; discriminate).
  - lia.
  - apply st_bind_not_out; [apply read_obu_header_terminates|]. intros header s1 Hh.
    destruct (read_obu_header_ok _ _ _ Hbit Hpos Hh) as (D1 & B1 & P1 & L1).
    apply st_bind_not_out; [apply terminates_get|]. intros has_size s1' Hg.
    apply get_ok in Hg as [_ ->].
    apply st_bind_not_out; [apply terminates_assert|]. intros [] s1' Ha.
    assert (s1' = s1) as ->.
    { unfold st_assert, st_lift in Ha.
      destruct (py_assert _) as [[]| |]; try discriminate.
      injection Ha as <-. reflexivity. }
    apply st_bind_not_out; [apply read_leb128_loop_terminates|]. intros obu_size s2 Hl.
    destruct (read_leb128_value_ok _ _ _ B1 ltac:(lia) Hl) as (V2 & D2 & B2 & P2 & L2).
    apply st_bind_not_out; [apply terminates_get|]. intros ty s2' Hg.
    apply get_ok in Hg as [_ ->].
    destruct (match obu_map !! ty with
              | Some entry => entry
              | None => (None, "Unknown OBU"%string)
              end) as [parse_function description] eqn:Emap.
    rewrite D1 in L2.
    assert (L2' : bits_pos s2 <= len (bits_data s2)) by (rewrite D2, D1; lia).
    apply st_bind_not_out.
    + destruct parse_function as [parse|].
      * assert (parse = parse_av1_sequence_header_obu) as ->.
        { destruct (obu_map !! ty) as [entry|] eqn:El; [|discriminate].
          subst entry. apply obu_map_parser in El as (_ & -> & _). reflexivity. }
        apply terminates_bind.
        -- apply terminates_bind; [apply get_bytes_terminates|].
           intros data. apply terminates_ret.
        -- intros sub. apply terminates_lift.
           pose proof (parse_av1_sequence_header_obu_terminates sub) as Hp.
           destruct (parse_av1_sequence_header_obu sub) as [[b r']| |];
             [discriminate|discriminate|congruence].
      * apply terminates_bind; [apply skip_bytes_terminates|].
        intros u. apply terminates_ret.
    + intros body s3 Hbody.
      assert (H3 : bits_data s3 = bits_data self /\ bit_pos s3 = 0
                   /\ bits_pos s2 <= bits_pos s3).
      { destruct parse_function as [parse|].
        - apply st_bind_ok in Hbody as (sub & s3' & Hsub & Hparse).
          unfold sub_reader_for_bytes in Hsub.
          apply st_bind_ok in Hsub as (bytes & s3'' & Hbytes & Hsub).
          apply st_ret_ok in Hsub as [-> ->].
          destruct (get_bytes_ok obu_size s2 _ _ ltac:(lia) L2' Hbytes) as (D3 & B3 & P3).
          unfold st_lift in Hparse.
          destruct (parse (BitReader_init bytes)) as [[b r']| |]; try discriminate.
          cbn [res_bind] in Hparse. injection Hparse as _ <-.
          split; [congruence|]. split; [congruence|]. lia.
        - apply st_bind_ok in Hbody as ([] & s3' & Hskip & Hret).
          apply st_ret_ok in Hret as [_ ->]. unfold skip_bytes in Hskip.
          rewrite B2 in Hskip. cbn [Z.eqb py_assert res_bind] in Hskip.
          injection Hskip as <-. cbn [bits_data bits_pos bit_pos].
          split; [congruence|]. split; [congruence|]. lia. }
      destruct H3 as (D3 & B3 & P3).
      apply IH; [exact B3|lia|]. rewrite D3. lia.
Qed.

Lemma parse_obus_loop_count (fuel : nat) (obu_list result : list OBU)
    (self self' : BitReader) :
  bit_pos self = 0 -> 0 <= bits_pos self ->
  parse_obus_loop fuel obu_list self = Ok (result, self') ->
  bits_pos self <= len (bits_data self)
  /\ 2 * (len result - len obu_list) <= len (bits_data self) - bits_pos self.
Proof.
  revert obu_list self.
  induction fuel as [|fuel IH]; intros obu_list self Hbit Hpos H.
  - cbn [parse_obus_loop] in H. apply st_bind_ok in H as (at_end & s0 & He & H).
    unfold eof in He. injection He as <- <-.
    destruct (Z.eqb_spec (len (bits_data self)) (bits_pos self)); [|discriminate].
    apply st_ret_ok in H as [-> _]. lia.
  - destruct (Z.eq_dec (bits_pos self) (len (bits_data self))) as [Heq|Hne].
    + cbn [parse_obus_loop] in H. apply st_bind_ok in H as (at_end & s0 & He & H).
      unfold eof in He. injection He as <- <-.
      rewrite (proj2 (Z.eqb_eq _ _)) in H by congruence.
      apply st_ret_ok in H as [-> _]. lia.
    + destruct (parse_obus_turn _ _ _ _ _ Hbit Hpos Hne H)
        as (obu & s & Hs & D & B & P & L & _).
      apply IH in Hs as [Hs1 Hs2]; [|exact B|lia].
      rewrite D in Hs1, Hs2. unfold len in *. rewrite length_app in Hs2.
      cbn [length] in Hs2. lia.
Qed.

Lemma parse_obus_loop_bodies (fuel : nat) (obu_list result : list OBU)
    (self self' : BitReader) (P : OBU -> Prop) :
  (forall obu,
      (obu_description obu = "OBU_SEQUENCE_HEADER"%string ->
       exists r r', parse_av1_sequence_header_obu r = Ok (obu_body obu, r')) ->
      P obu) ->
  bit_pos self = 0 -> 0 <= bits_pos self ->
  Forall P obu_list ->
  parse_obus_loop fuel obu_list self = Ok (result, self') ->
  Forall P result.
Proof.
  intros HP. revert obu_list self.
  induction fuel as [|fuel IH]; intros obu_list self Hbit Hpos Hl H.
  - cbn [parse_obus_loop] in H. apply st_bind_ok in H as (at_end & s0 & He & H).
    unfold eof in He. injection He as <- <-.
    destruct (Z.eqb_spec (len (bits_data self)) (bits_pos self)); [|discriminate].
    apply st_ret_ok in H as [-> _]. exact Hl.
  - destruct (Z.eq_dec (bits_pos self) (len (bits_data self))) as [Heq|Hne].
    + cbn [parse_obus_loop] in H. apply st_bind_ok in H as (at_end & s0 & He & H).
      unfold eof in He. injection He as <- <-.
      rewrite (proj2 (Z.eqb_eq _ _)) in H by congruence.
      apply st_ret_ok in H as [-> _]. exact Hl.
    + destruct (parse_obus_turn _ _ _ _ _ Hbit Hpos Hne H)
        as (obu & s & Hs & D & B & Ps & L & Hobu).
      apply IH in Hs; [exact Hs|exact B|lia|].
      apply Forall_app. split; [exact Hl|]. constructor; [|constructor].
      apply HP. exact Hobu.
Qed.

(** X9. [_parse_obus] comes to an end on any data, with a list or an
    exception: every turn of its loop that goes through takes two bytes at
    least.  So the list has half as many OBUs as the data has bytes, at
    most. *)
Theorem parse_obus_terminates (data : list byte) :
  parse_obus data <> OutOfFuel
  /\ forall obu_list, parse_obus data = Ok obu_list -> 2 * len obu_list <= len data.
Proof.
  unfold parse_obus. split.
  - pose proof (parse_obus_loop_terminates (length data) [] (BitReader_init data)
                  eq_refl ltac:(simpl; lia)) as H.
    destruct (parse_obus_loop _ _ _) as [[l s]| |]; [discriminate|discriminate|].
    exfalso. apply H; [|reflexivity]. cbn [BitReader_init bits_data bits_pos].
    unfold len. lia.
  - intros obu_list H.
    destruct (parse_obus_loop _ _ _) as [[l s]| |] eqn:E; try discriminate.
    injection H as ->.
    apply parse_obus_loop_count in E as [_ E]; [|reflexivity|simpl; lia].
    cbn [BitReader_init bits_data bits_pos] in E. unfold len in *. cbn [length] in E. lia.
Qed.

Lemma parse_obus_terminates_witness :
  exists obu_list, parse_obus [x12; x00] = Ok obu_list /\ 2 * len obu_list <= 2.
Proof.
  assert (F : match parse_obus [x12; x00] with Ok l => length l = 1%nat | _ => False end)
    by (vm_compute; reflexivity).
  destruct (parse_obus [x12; x00]) as [l| |] eqn:E; try contradiction.
  exists l. split; [reflexivity|].
  exact (proj2 (parse_obus_terminates [x12; x00]) l E).
Defined.

(** The sequence header that the generators work from has its body from
    the decoder, so its fields are within their bounds. *)
Lemma get_sequence_header_obu_fields (data : list byte) (obu : OBU) :
  get_sequence_header_obu data = Ok (Some obu) -> fields_ok (obu_body obu).
Proof.
  unfold get_sequence_header_obu, parse_obus. intros H.
  destruct (parse_obus_loop _ _ _) as [[l s]| |] eqn:E; try discriminate.
  cbn [res_bind] in H. injection H as H.
  apply find_some in H as [Hin Hd]. apply String.eqb_eq in Hd.
  apply (parse_obus_loop_bodies _ _ _ _ _
           (fun obu => obu_description obu = "OBU_SEQUENCE_HEADER"%string ->
                       fields_ok (obu_body obu))) in E.
  - rewrite Forall_forall in E. apply E; [|exact Hd].
    apply list_elem_of_In. exact Hin.
  - intros o Ho Hdesc. destruct (Ho Hdesc) as (r & r' & Hr).
    exact (parse_av1_sequence_header_obu_ok _ _ _ Hr).
  - reflexivity.
  - simpl. lia.
  - constructor.
Qed.

Lemma field_in_bound (parsed : gmap string Z) (key : string) (v b : Z) :
  fields_ok parsed -> py_getitem parsed key = Ok v ->
  (forall w, field_test key w = (0 <=? w) && (w <? b)) -> 0 <= v < b.
Proof.
  intros Hp Hv Hkey. unfold py_getitem in Hv.
  destruct (parsed !! key) as [v'|] eqn:E; [|discriminate]. injection Hv as ->.
  specialize (Hp _ _ E). cbv beta in Hp. rewrite Hkey in Hp.
  apply andb_true_iff in Hp as [H0 H1]. apply Z.leb_le in H0. apply Z.ltb_lt in H1. lia.
Qed.

(** The [pixi] body that is generated from a sequence header. *)
Lemma generated_pixi_fields (data : list byte) (body : gmap string PyVal) :
  generate_pixi_from_sequence_header data = Ok body ->
  exists (planes : nat) (depth : Z),
    body = {[ "bits_per_channel"%string := PyIntList (replicate planes depth) ]}
    /\ (planes = 1%nat \/ planes = 3%nat)
    /\ (depth = 8 \/ depth = 10 \/ depth = 12).
Proof.
  unfold generate_pixi_from_sequence_header. intros H.
  destruct (get_sequence_header_obu data) as [[obu|]| |] eqn:E; try discriminate.
  cbn [res_bind] in H. pose proof (get_sequence_header_obu_fields _ _ E) as Hp.
  unfold py_getitem in H.
  destruct (obu_body obu !! "calculated_bitdepth"%string) as [depth|] eqn:Ed;
    [|discriminate].
  destruct (obu_body obu !! "calculated_numplanes"%string) as [planes|] eqn:En;
    [|discriminate].
  cbn [res_bind] in H. injection H as <-.
  exists (Z.to_nat planes), depth. split; [reflexivity|].
  pose proof (Hp _ _ Ed) as Fd. pose proof (Hp _ _ En) as Fn. cbv beta in Fd, Fn.
  apply andb_true_iff in Fd as [_ Fd]. apply andb_true_iff in Fn as [_ Fn].
  cbn in Fd, Fn. split.
  - destruct (Z.eqb_spec planes 1) as [->|]; [left; reflexivity|].
    destruct (Z.eqb_spec planes 3) as [->|]; [right; reflexivity|discriminate].
  - destruct (Z.eqb_spec depth 8), (Z.eqb_spec depth 10), (Z.eqb_spec depth 12);
      try discriminate; auto.
Qed.

(** X10. The [pixi] body that [generate_pixi_from_sequence_header] returns
    has one channel or three, all of the same depth, which is 8, 10 or
    12. *)
Theorem generate_pixi_shape (data : list byte) (body : gmap string PyVal) :
  generate_pixi_from_sequence_header data = Ok body ->
  exists (planes : nat) (depth : Z),
    body = {[ "bits_per_channel"%string := PyIntList (replicate planes depth) ]}
    /\ (planes = 1%nat \/ planes = 3%nat)
    /\ (depth = 8 \/ depth = 10 \/ depth = 12).
Proof. exact (generated_pixi_fields data body). Qed.

Lemma generate_pixi_shape_witness :
  exists (planes : nat) (depth : Z),
    generate_pixi_from_sequence_header sample_stream
    = Ok {[ "bits_per_channel"%string := PyIntList (replicate planes depth) ]}
    /\ (planes = 1%nat \/ planes = 3%nat)
    /\ (depth = 8 \/ depth = 10 \/ depth = 12).
Proof.
  assert (F : match generate_pixi_from_sequence_header sample_stream with
              | Ok _ => True
              | _ => False
              end) by (vm_compute; exact I).
  destruct (generate_pixi_from_sequence_header sample_stream) as [body| |] eqn:E;
    try contradiction.
  destruct (generate_pixi_shape sample_stream body E) as (planes & depth & -> & H).
  exists planes, depth. split; [reflexivity|exact H].
Defined.

(** The [ispe] body that is generated from a sequence header. *)
Lemma generated_ispe_fields (data : list byte) (body : gmap string PyVal) :
  generate_ispe_from_sequence_header data = Ok body ->
  exists width height,
    body = list_to_map [ ("width", PyInt width); ("height", PyInt height) ]%string
    /\ 1 <= width <= 65536 /\ 1 <= height <= 65536.
Proof.
  unfold generate_ispe_from_sequence_header. intros H.
  destruct (get_sequence_header_obu data) as [[obu|]| |] eqn:E; try discriminate.
  cbn [res_bind] in H. pose proof (get_sequence_header_obu_fields _ _ E) as Hp.
  destruct (py_getitem (obu_body obu) "max_frame_width_minus_1") as [w| |] eqn:Ew;
    try discriminate.
  destruct (py_getitem (obu_body obu) "max_frame_height_minus_1") as [h| |] eqn:Eh;
    try discriminate.
  cbn [res_bind] in H. injection H as <-.
  exists (w + 1), (h + 1). split; [reflexivity|].
  pose proof (field_in_bound _ _ _ 65536 Hp Ew ltac:(intros; reflexivity)).
  pose proof (field_in_bound _ _ _ 65536 Hp Eh ltac:(intros; reflexivity)).
  lia.
Qed.

(** X11. The [ispe] body that [generate_ispe_from_sequence_header] returns
    has a width and a height between 1 and 65536, one more than the
    sixteen bits at most that the sequence header holds for each. *)
Theorem generate_ispe_shape (data : list byte) (body : gmap string PyVal) :
  generate_ispe_from_sequence_header data = Ok body ->
  exists width height,
    body = list_to_map [ ("width", PyInt width); ("height", PyInt height) ]%string
    /\ 1 <= width <= 65536 /\ 1 <= height <= 65536.
Proof. exact (generated_ispe_fields data body). Qed.

Lemma generate_ispe_shape_witness :
  exists width height,
    generate_ispe_from_sequence_header sample_stream
    = Ok (list_to_map [ ("width", PyInt width); ("height", PyInt height) ]%string)
    /\ 1 <= width <= 65536 /\ 1 <= height <= 65536.
Proof.
  assert (F : match generate_ispe_from_sequence_header sample_stream with
              | Ok _ => True
              | _ => False
              end) by (vm_compute; exact I).
  destruct (generate_ispe_from_sequence_header sample_stream) as [body| |] eqn:E;
    try contradiction.
  destruct (generate_ispe_shape sample_stream body E) as (width & height & -> & H).
  exists width, height. split; [reflexivity|exact H].
Defined.

(* ===================================================================== *)
(** * Boxes that are written and parsed again                             *)
(* ===================================================================== *)

Lemma drop_be_bytes (n : nat) (v : Z) : drop 1 (be_bytes (S n) v) = be_bytes n v.
Proof.
  revert v. induction n as [|n IH]; intros v; [reflexivity|].
  change (be_bytes (S (S n)) v) with (be_bytes (S n) (v / 256) ++ [byte_of_Z v]).
  rewrite drop_app_le by (rewrite length_be_bytes; lia).
  rewrite IH. reflexivity.
Qed.

Lemma write_integer_unsigned (value nbytes : Z) :
  struct_size nbytes -> 0 <= value < 2 ^ (8 * nbytes) ->
  write_integer_of_size value nbytes true = Ok (be_bytes (Z.to_nat nbytes) value).
Proof.
  intros Hs Hv. unfold write_integer_of_size.
  rewrite (get_struct_type_ok _ true Hs). cbn [res_bind].
  exact (struct_pack_fits nbytes true value Hv).
Qed.

(** The header that [write_box_header] writes for a box without
    version and flags. *)
Lemma write_box_header_plain (box : Box) (body_size : Z) :
  len (encode (box_type box)) = 4 -> header box = ∅ ->
  0 <= body_size <= 4294967287 ->
  write_box_header box body_size
  = Ok (be_bytes 4 (8 + body_size) ++ encode (box_type box)).
Proof.
  intros Hty Hh Hsize. unfold write_box_header. rewrite Hty, Hh.
  change (4 =? 4) with true. cbn [py_assert res_bind]. rewrite bool_decide_eq_true_2 by reflexivity.
  cbn [negb]. replace (4 + 4 + 0 + body_size) with (8 + body_size) by lia.
  rewrite (proj2 (Z.leb_le _ _)) by lia. cbn [py_assert res_bind].
  rewrite (struct_pack_fits 4 true) by (unfold fits; lia). reflexivity.
Qed.

(** The header that [write_box_header] writes for a full box. *)
Lemma write_box_header_full (box : Box) (version flags body_size : Z) :
  len (encode (box_type box)) = 4 -> header box = full_header version flags ->
  0 <= version < 256 -> 0 <= flags < 2 ^ 32 ->
  0 <= body_size <= 4294967283 ->
  write_box_header box body_size
  = Ok (be_bytes 4 (12 + body_size) ++ encode (box_type box)
        ++ be_bytes 1 version ++ be_bytes 3 flags).
Proof.
  intros Hty Hh Hv Hf Hsize. unfold write_box_header. rewrite Hty, Hh.
  change (4 =? 4) with true. cbn [py_assert res_bind].
  rewrite bool_decide_eq_false_2.
  2:{ unfold full_header. intros H. apply (f_equal (lookup "version"%string)) in H.
      rewrite lookup_insert_eq, lookup_empty in H. discriminate. }
  cbn [negb]. replace (4 + 4 + 4 + body_size) with (12 + body_size) by lia.
  rewrite (proj2 (Z.leb_le _ _)) by lia. cbn [py_assert res_bind].
  rewrite (struct_pack_fits 4 true) by (unfold fits; lia). cbn [res_bind].
  unfold py_getitem, full_header. rewrite lookup_insert_eq. cbn [res_bind].
  rewrite (struct_pack_fits 1 true) by (unfold fits; lia). cbn [res_bind].
  rewrite lookup_insert_ne, lookup_singleton_eq by discriminate. cbn [res_bind].
  rewrite (struct_pack_fits 4 true) by (unfold fits; lia). cbn [res_bind].
  change (Z.to_nat 4) with 4%nat. rewrite drop_be_bytes.
  rewrite <- app_assoc. reflexivity.
Qed.

Lemma reads_lift {A} (a : A) : reads (fun _ => st_lift (Ok a)) [] a.
Proof. exact (reads_ret a). Qed.

Lemma reads_string (ty : BoxType) :
  type_ok ty -> reads (fun end_ => read_string end_ 4) (encode ty) (Some ty).
Proof.
  intros [Hlen Hdec] r rest end_ Hpos Hend Hrem. unfold read_string.
  change (4 =? 0) with false. cbv iota. unfold st_bind.
  rewrite <- Hlen at 1.
  rewrite (reads_read_data (encode ty) r rest end_ Hpos Hend Hrem).
  unfold st_ret. rewrite Hdec. reflexivity.
Qed.

Lemma reads_integer_array (values : list Z) (nbytes : Z) (unsigned : bool)
    (data : list byte) :
  write_integer_array_of_size values nbytes unsigned = Ok data ->
  reads (fun end_ => read_integer_array_of_size end_ nbytes (length values) unsigned)
        data values.
Proof.
  revert data. induction values as [|v vs IH]; intros data H.
  - cbn [write_integer_array_of_size] in H.
    destruct (get_struct_type nbytes unsigned); try discriminate.
    injection H as <-. exact (reads_ret []).
  - cbn [write_integer_array_of_size] in H.
    destruct (get_struct_type nbytes unsigned) as [fmt| |] eqn:Hfmt; try discriminate.
    cbn [res_bind] in H.
    destruct (struct_pack fmt v) as [d| |] eqn:Hd; try discriminate.
    cbn [res_bind] in H.
    destruct (write_integer_array_of_size vs nbytes unsigned) as [ds| |] eqn:Hds;
      try discriminate.
    injection H as <-. cbn [length read_integer_array_of_size].
    apply (reads_bind (fun end_ => read_integer_of_size end_ nbytes unsigned)
             (fun v end_ =>
                st_bind (read_integer_array_of_size end_ nbytes (length vs) unsigned)
                        (fun vs => st_ret (v :: vs)))
             d ds v (v :: vs)).
    + apply reads_integer. unfold write_integer_of_size. rewrite Hfmt. exact Hd.
    + rewrite <- (app_nil_r ds).
      apply (reads_bind
               (fun end_ => read_integer_array_of_size end_ nbytes (length vs) unsigned)
               (fun vs _ => st_ret (v :: vs)) ds [] vs (v :: vs)).
      * exact (IH ds eq_refl).
      * exact (reads_ret (v :: vs)).
Qed.

Lemma byte_of_Z_mod (v : Z) : byte_of_Z (v mod 256) = byte_of_Z v.
Proof. unfold byte_of_Z. rewrite Z.mod_mod by lia. reflexivity. Qed.

(** The flags of a full box, put together from their three bytes. *)
Lemma flags_of_bytes (flags : Z) :
  0 <= flags < 2 ^ 24 ->
  Z.lor (Z.lor (Z.shiftl (flags / 65536) 16) (Z.shiftl (flags / 256 mod 256) 8))
        (flags mod 256)
  = flags.
Proof.
  intros Hf.
  pose proof (Z.mod_pos_bound flags 256 ltac:(lia)) as H0.
  pose proof (Z.mod_pos_bound (flags / 256) 256 ltac:(lia)) as H1.
  assert (H2 : 0 <= flags / 65536) by (apply Z.div_pos; lia).
  rewrite (Z.lor_comm (Z.shiftl (flags / 65536) 16)).
  rewrite (Z.shiftl_mul_pow2 (flags / 256 mod 256)) by lia.
  rewrite lor_shiftl_add by (change (2 ^ 8) with 256; change (2 ^ 16) with 65536; lia).
  rewrite Z.lor_comm.
  replace (flags / 256 mod 256 * 2 ^ 8 + flags / 65536 * 2 ^ 16)
    with (Z.shiftl (flags / 256 mod 256 + flags / 65536 * 256) 8)
    by (rewrite Z.shiftl_mul_pow2 by lia; change (2 ^ 8) with 256;
        change (2 ^ 16) with 65536; lia).
  rewrite lor_shiftl_add by (change (2 ^ 8) with 256; lia).
  change (2 ^ 8) with 256.
  pose proof (Z.div_mod flags 256 ltac:(lia)) as D0.
  pose proof (Z.div_mod (flags / 256) 256 ltac:(lia)) as D1.
  replace (flags / 65536) with (flags / 256 / 256)
    by (rewrite Z.div_div by lia; reflexivity).
  lia.
Qed.

(** The version and the flags of a full box, read back. *)
Lemma reads_version_flags (version flags : Z) :
  0 <= version < 256 -> 0 <= flags < 2 ^ 24 ->
  reads (fun end_ => read_integer_array_of_size end_ 1 4 true)
        (be_bytes 1 version ++ be_bytes 3 flags)
        [version; flags / 65536; flags / 256 mod 256; flags mod 256].
Proof.
  intros Hv Hf.
  apply (reads_integer_array [version; flags / 65536; flags / 256 mod 256; flags mod 256]
           1 true).
  pose proof (Z.mod_pos_bound flags 256 ltac:(lia)) as H0.
  pose proof (Z.mod_pos_bound (flags / 256) 256 ltac:(lia)) as H1.
  assert (H2 : 0 <= flags / 65536 < 256).
  { split; [apply Z.div_pos; lia|apply Z.div_lt_upper_bound; lia]. }
  cbn [write_integer_array_of_size].
  rewrite (get_struct_type_ok 1 true) by (unfold struct_size; lia). cbn [res_bind].
  rewrite !(struct_pack_fits 1 true) by (unfold fits; change (2 ^ (8 * 1)) with 256; lia).
  cbn [res_bind]. f_equal. change (Z.to_nat 1) with 1%nat. cbn [be_bytes app].
  rewrite !byte_of_Z_mod. rewrite Z.div_div by lia. reflexivity.
Qed.

Lemma header_bytes_length (full : bool) (h : BoxHeader) (hb : list byte) :
  header_bytes full h hb -> len hb = if full then 4 else 0.
Proof.
  destruct full; cbn [header_bytes].
  - intros (version & flags & _ & _ & _ & ->). reflexivity.
  - intros [_ ->]. reflexivity.
Qed.

Lemma write_box_header_bytes (full : bool) (box : Box) (hb : list byte) (body_size : Z) :
  len (encode (box_type box)) = 4 -> header_bytes full (header box) hb ->
  0 <= body_size <= 4294967283 ->
  write_box_header box body_size
  = Ok (be_bytes 4 (8 + len hb + body_size) ++ encode (box_type box) ++ hb).
Proof.
  intros Hty Hh Hsize. destruct full; cbn [header_bytes] in Hh.
  - destruct Hh as (version & flags & Hh & Hv & Hf & ->).
    assert (Hf' : 0 <= flags < 2 ^ 32).
    { split; [lia|]. apply Z.lt_trans with (2 ^ 24); [lia|reflexivity]. }
    rewrite (write_box_header_full box version flags body_size Hty Hh Hv Hf' Hsize).
    unfold len. rewrite length_app, !length_be_bytes.
    replace (8 + Z.of_nat (1 + 3) + body_size) with (12 + body_size) by lia.
    reflexivity.
  - destruct Hh as [Hh ->].
    rewrite (write_box_header_plain box body_size Hty Hh) by lia.
    rewrite app_nil_r. change (len []) with 0.
    replace (8 + 0 + body_size) with (8 + body_size) by lia. reflexivity.
Qed.

Lemma from_reader_written (ty : BoxType) (total end_ : Z) (r : FileReader)
    (rest : list byte) :
  type_ok ty -> 8 <= total < 2 ^ 32 -> 0 <= fpos r -> fpos r + 8 <= end_ ->
  remaining r = (be_bytes 4 total ++ encode ty) ++ rest ->
  from_reader end_ r = Ok (Box_init ty total (fpos r), mkReader (file r) (fpos r + 8)).
Proof.
  intros Hty Htotal Hpos Hend Hrem.
  pose proof (proj1 Hty) as Hlen.
  assert (Hread :
    st_bind (read_integer_of_size end_ 4 true)
            (fun sz => st_bind (read_string end_ 4) (fun ty => st_ret (sz, ty))) r
    = Ok ((total, Some ty), mkReader (file r) (fpos r + 8))).
  { assert (Hint : reads (fun end_ => read_integer_of_size end_ 4 true)
                     (be_bytes 4 total) total).
    { apply reads_integer. apply (write_integer_unsigned total 4).
      - unfold struct_size. lia.
      - change (2 ^ (8 * 4)) with 4294967296.
        change (2 ^ 32) with 4294967296 in Htotal. lia. }
    assert (Hstr : reads (fun end_ => st_bind (read_string end_ 4)
                                        (fun ty => st_ret (total, ty)))
                     (encode ty ++ []) (total, Some ty)).
    { apply (reads_bind (fun end_ => read_string end_ 4)
               (fun ty _ => st_ret (total, ty)) (encode ty) [] (Some ty));
        [apply reads_string; exact Hty|apply reads_ret]. }
    pose proof (reads_bind (fun end_ => read_integer_of_size end_ 4 true)
                  (fun sz end_ => st_bind (read_string end_ 4) (fun ty => st_ret (sz, ty)))
                  (be_bytes 4 total) (encode ty ++ []) total (total, Some ty)
                  Hint Hstr r rest end_ Hpos) as H.
    cbv beta in H. rewrite H.
    - do 3 f_equal. unfold len in *. rewrite length_app, app_nil_r, length_be_bytes. lia.
    - unfold len in *. rewrite length_app, app_nil_r, length_be_bytes. lia.
    - rewrite app_nil_r. exact Hrem. }
  unfold from_reader. unfold st_bind at 1. unfold position.
  unfold st_bind in Hread |- *.
  destruct (read_integer_of_size end_ 4 true r) as [[sz r1]| |]; try discriminate.
  destruct (read_string end_ 4 r1) as [[ty' r2]| |]; try discriminate.
  injection Hread as -> -> ->.
  destruct (Z.eqb_spec total 1); [lia|]. destruct (Z.eqb_spec total 0); [lia|].
  unfold st_ret, st_assert, st_lift. rewrite (proj2 (Z.leb_le 8 total)) by lia.
  reflexivity.
Qed.

Lemma parse_box_loop_done (parse_recipe : BoxRecipe -> Box -> Rd Box) (n : nat)
    (end_ : Z) (box_map : gmap string BoxRecipe) (boxes : list Box) (r : FileReader) :
  end_ - 8 < fpos r ->
  parse_box_loop parse_recipe n end_ box_map boxes r = Ok (boxes, r).
Proof.
  intros H. destruct n; cbn [parse_box_loop]; unfold st_bind, position;
    rewrite (proj2 (Z.leb_gt _ _)) by lia; reflexivity.
Qed.

Lemma set_header_same (b : Box) : set_header (header b) b = b.
Proof. destruct b. reflexivity. Qed.

(** A box without children that a body parser reads: the header, then
    the body. *)
Lemma BoxRecipe_parse_leaf (parse_seq : Z -> gmap string BoxRecipe -> Rd (list Box))
    (name : string) (full : bool) (p : Box -> list byte -> Z -> result (BoxBody * Box * Z))
    (dst_box : Box) (h : BoxHeader) (hb body_data rest : list byte) (bd : BoxBody)
    (r : FileReader) :
  header_bytes full h hb -> header dst_box = ∅ ->
  0 <= fpos r -> fpos r + len hb + len body_data = box_end dst_box ->
  remaining r = hb ++ body_data ++ rest ->
  (forall b r1,
      header b = h -> box_end b = fpos r1 + len body_data -> 0 <= fpos r1 ->
      remaining r1 = body_data ++ rest ->
      p b (file r1) (fpos r1) = Ok (bd, b, fpos r1 + len body_data)) ->
  BoxRecipe_parse parse_seq (recipe_body name full p) dst_box r
  = Ok (set_body bd (set_header h dst_box),
        mkReader (file r) (fpos r + len hb + len body_data)).
Proof.
  intros Hh Hempty Hpos Hend Hrem Hp. unfold BoxRecipe_parse.
  assert (Hb : 0 <= len body_data) by (unfold len; lia).
  assert (Hhb : 0 <= len hb) by (unfold len; lia).
  pose proof (remaining_advance r hb (body_data ++ rest) Hpos Hrem) as Hrem1.
  cbn [recipe_body full_box sequence_map body_parser].
  destruct full; cbn [header_bytes] in Hh.
  - destruct Hh as (version & flags & -> & Hv & Hf & ->).
    unfold st_bind at 1. unfold st_bind at 1.
    rewrite (reads_version_flags version flags Hv Hf r (body_data ++ rest)
               (box_end dst_box) Hpos ltac:(lia) Hrem).
    rewrite flags_of_bytes by exact Hf. unfold st_ret at 1.
    unfold st_bind, run_body_parser. cbn [file fpos].
    pose proof (Hp (set_header (full_header version flags) dst_box)
                  (mkReader (file r)
                     (fpos r + len (be_bytes 1 version ++ be_bytes 3 flags)))
                  eq_refl ltac:(cbn [set_header box_end fpos]; lia)
                  ltac:(cbn [fpos]; lia) Hrem1) as Hp'.
    cbn [file fpos] in Hp'. unfold full_header in Hp' |- *. rewrite Hp'.
    cbn [res_bind]. reflexivity.
  - destruct Hh as [-> ->]. unfold st_bind, st_ret, run_body_parser.
    rewrite <- Hempty, set_header_same.
    change (len []) with 0 in *. rewrite Z.add_0_r in *.
    rewrite (Hp dst_box r Hempty ltac:(lia) Hpos).
    + cbn [res_bind]. reflexivity.
    + rewrite Hrem. reflexivity.
Qed.

(** A body parser that reads the body from the position of the reader up
    to the end of the box, and returns the box as it got it. *)
Lemma body_parser_of_reads (m : Box -> Z -> Rd (BoxBody * Box)) (b : Box)
    (body_data rest : list byte) (bd : BoxBody) (r1 : FileReader) :
  reads (m b) body_data (bd, b) ->
  box_end b = fpos r1 + len body_data -> 0 <= fpos r1 ->
  remaining r1 = body_data ++ rest ->
  body_parser_of (fun box => m box (box_end box)) b (file r1) (fpos r1)
  = Ok (bd, b, fpos r1 + len body_data).
Proof.
  intros Hm Hend Hpos Hrem. unfold body_parser_of.
  replace (mkReader (file r1) (fpos r1)) with r1 by (destruct r1; reflexivity).
  rewrite (Hm r1 rest (box_end b) Hpos ltac:(lia) Hrem). reflexivity.
Qed.

Lemma st_bind_eq {S A B} (m : St S A) (k : A -> St S B) (s s' : S) (a : A) :
  m s = Ok (a, s') -> st_bind m k s = k a s'.
Proof. intros H. unfold st_bind. rewrite H. reflexivity. Qed.

(** A box without children, as [write_box_header] and a box writer lay it
    out, is parsed back to its type, its header and the body that the
    body parser finds, wherever it is in the file. *)
Lemma leaf_box_parses (depth : nat) (box_map : gmap string BoxRecipe) (name : string)
    (full : bool) (p : Box -> list byte -> Z -> result (BoxBody * Box * Z))
    (ty : BoxType) (h : BoxHeader) (hb body_data rest : list byte) (bd : BoxBody)
    (total : Z) (r : FileReader) :
  total = 8 + len hb + len body_data ->
  type_ok ty -> box_map !! ty = Some (recipe_body name full p) ->
  header_bytes full h hb -> total < 4294967296 -> 0 <= fpos r ->
  remaining r = (be_bytes 4 total ++ encode ty ++ hb) ++ body_data ++ rest ->
  (forall b r1,
      header b = h -> box_end b = fpos r1 + len body_data -> 0 <= fpos r1 ->
      remaining r1 = body_data ++ rest ->
      p b (file r1) (fpos r1) = Ok (bd, b, fpos r1 + len body_data)) ->
  parse_box_sequence (S depth) (fpos r + total) box_map None r
  = Ok ([parsed_leaf ty total (fpos r) h bd], mkReader (file r) (fpos r + total)).
Proof.
  intros Htotal Hty Hmap Hh Hmax Hpos Hrem Hp.
  assert (Hb : 0 <= len body_data) by (unfold len; lia).
  assert (Hhb : 0 <= len hb) by (unfold len; lia).
  set (P := BoxRecipe_parse (fun e m => parse_box_sequence depth e m None)).
  assert (Hloop : parse_box_loop P (Z.to_nat (fpos r + total - fpos r)) (fpos r + total)
                    box_map [] r
                  = Ok ([parsed_leaf ty total (fpos r) h bd],
                        mkReader (file r) (fpos r + total))).
  { destruct (Z.to_nat (fpos r + total - fpos r)) as [|n] eqn:En; [lia|].
    cbn [parse_box_loop]. unfold st_bind at 1. unfold position at 1.
    rewrite (proj2 (Z.leb_le _ _)) by lia.
    rewrite (st_bind_eq _ _ _ _ _
               (from_reader_written ty total (fpos r + total) r
                  (hb ++ body_data ++ rest) Hty
                  ltac:(change (2 ^ 32) with 4294967296; lia) Hpos ltac:(lia)
                  ltac:(rewrite Hrem, <- !app_assoc; reflexivity))).
    unfold recipe_for. cbn [Box_init box_type]. rewrite Hmap.
    assert (Hrem1 : remaining (mkReader (file r) (fpos r + 8))
                    = hb ++ body_data ++ rest).
    { pose proof (remaining_advance r (be_bytes 4 total ++ encode ty)
                    (hb ++ body_data ++ rest) Hpos
                    ltac:(rewrite Hrem, <- !app_assoc; reflexivity)) as H.
      unfold len in H. rewrite length_app, length_be_bytes in H.
      destruct Hty as [Hlen _]. unfold len in Hlen.
      replace (Z.of_nat (4 + length (encode ty))) with 8 in H by lia. exact H. }
    unfold P at 1.
    rewrite (st_bind_eq _ _ _ _ _
               (BoxRecipe_parse_leaf _ name full p (Box_init ty total (fpos r)) h hb
                  body_data rest bd (mkReader (file r) (fpos r + 8)) Hh eq_refl
                  ltac:(cbn [fpos]; lia) ltac:(cbn [fpos Box_init box_end]; lia) Hrem1
                  Hp)).
    unfold st_bind at 1. unfold position at 1. cbn [file fpos].
    unfold st_bind at 1. unfold st_assert, st_lift.
    cbn [set_body set_header Box_init box_end].
    rewrite (proj2 (Z.leb_le _ _)) by lia. cbn [py_assert].
    unfold st_bind at 1. unfold skip_to, file_seek.
    rewrite (proj2 (Z.ltb_ge _ _)) by lia. cbn [file].
    rewrite parse_box_loop_done by (cbn [fpos]; lia).
    reflexivity. }
  cbn [parse_box_sequence]. fold P. unfold st_bind at 1. unfold position at 1.
  unfold st_bind at 1. rewrite Hloop. reflexivity.
Qed.

Lemma type_ok_ispe : type_ok "ispe".
Proof. split; reflexivity. Qed.

Lemma reads_ispe (b : Box) (width height : Z) :
  0 <= width < 4294967296 -> 0 <= height < 4294967296 ->
  reads (fun end_ =>
           st_bind (read_integer_of_size end_ 4 true) (fun width =>
           st_bind (read_integer_of_size end_ 4 true) (fun height =>
           st_ret (ispe_body width height, b))))
        (be_bytes 4 width ++ be_bytes 4 height ++ [])
        (ispe_body width height, b).
Proof.
  intros Hw Hh.
  apply (reads_bind (fun end_ => read_integer_of_size end_ 4 true)
           (fun width end_ =>
              st_bind (read_integer_of_size end_ 4 true) (fun height =>
              st_ret (ispe_body width height, b)))
           (be_bytes 4 width) (be_bytes 4 height ++ []) width
           (ispe_body width height, b)).
  { apply reads_integer, (write_integer_unsigned width 4);
      [unfold struct_size; lia|exact Hw]. }
  apply (reads_bind (fun end_ => read_integer_of_size end_ 4 true)
           (fun height _ => st_ret (ispe_body width height, b))
           (be_bytes 4 height) [] height (ispe_body width height, b)).
  { apply reads_integer, (write_integer_unsigned height 4);
      [unfold struct_size; lia|exact Hh]. }
  apply reads_ret.
Qed.

(** An [ispe] box, written and parsed again. *)
Lemma ispe_round_trip (box : Box) (version flags width height : Z) :
  box_type box = "ispe"%string -> needs_rewrite box = true ->
  header box = full_header version flags -> 0 <= version < 256 -> 0 <= flags < 2 ^ 24 ->
  body box !! "width"%string = Some (PyInt width) ->
  body box !! "height"%string = Some (PyInt height) ->
  0 <= width < 2 ^ 32 -> 0 <= height < 2 ^ 32 ->
  exists data,
    write_ispe_box box = Ok (data, []) /\ len data = 20
    /\ forall depth r rest,
        0 <= fpos r -> remaining r = data ++ rest ->
        parse_box_sequence (S depth) (fpos r + 20) MAP_IPCO_BOX None r
        = Ok ([parsed_leaf "ispe" 20 (fpos r) (header box) (ispe_body width height)],
              mkReader (file r) (fpos r + 20)).
Proof.
  intros Hty Hneeds Hheader Hv Hf Hwidth Hheight Hw Hh.
  change (2 ^ 32) with 4294967296 in *.
  set (hb := be_bytes 1 version ++ be_bytes 3 flags).
  set (body_data := be_bytes 4 width ++ be_bytes 4 height).
  assert (Hhb : header_bytes true (header box) hb).
  { rewrite Hheader. exists version, flags. auto. }
  assert (Hlen : len body_data = 8)
    by (unfold len, body_data; rewrite length_app, !length_be_bytes; reflexivity).
  exists ((be_bytes 4 20 ++ encode "ispe" ++ hb) ++ body_data).
  split; [|split].
  - unfold write_ispe_box, body_int, py_getitem. rewrite Hneeds, Hwidth, Hheight.
    cbn [py_assert res_bind as_int].
    rewrite !(write_integer_unsigned _ 4) by (try (unfold struct_size; lia); assumption).
    cbn [res_bind]. unfold with_header. change (Z.to_nat 4) with 4%nat. fold body_data.
    rewrite (write_box_header_bytes true box hb);
      [|rewrite Hty; reflexivity|exact Hhb|lia].
    rewrite Hty. reflexivity.
  - reflexivity.
  - intros depth r rest Hpos Hrem.
    apply (leaf_box_parses depth MAP_IPCO_BOX "Image Spatial Extents Box" true
             parse_ispe_box "ispe" (header box) hb body_data rest _ 20 r);
      try assumption; try reflexivity.
    + exact type_ok_ispe.
    + intros b r1 Hb Hend Hpos1 Hrem1.
      apply (body_parser_of_reads
               (fun box end_ =>
                  st_bind (read_integer_of_size end_ 4 true) (fun width =>
                  st_bind (read_integer_of_size end_ 4 true) (fun height =>
                  st_ret (ispe_body width height, box))))
               b body_data rest); try assumption.
      subst body_data. rewrite <- (app_nil_r (be_bytes 4 height)).
      apply reads_ispe; assumption.
Qed.

(** X12. An [ispe] box that is marked for rewriting, with a version below
    256, flags below 2^24 and a width and a height below 2^32, is written
    by [write_ispe_box] as 20 bytes; wherever these are in a file,
    [parse_box_sequence] reads them back, with the recipes of [ipco], as
    one box of the same type, header, width and height. *)
Theorem ispe_written_and_parsed (box : Box) (version flags width height : Z) :
  box_type box = "ispe"%string -> needs_rewrite box = true ->
  header box = full_header version flags -> 0 <= version < 256 -> 0 <= flags < 2 ^ 24 ->
  body box !! "width"%string = Some (PyInt width) ->
  body box !! "height"%string = Some (PyInt height) ->
  0 <= width < 2 ^ 32 -> 0 <= height < 2 ^ 32 ->
  exists data,
    write_ispe_box box = Ok (data, []) /\ len data = 20
    /\ forall depth r rest,
        0 <= fpos r -> remaining r = data ++ rest ->
        parse_box_sequence (S depth) (fpos r + 20) MAP_IPCO_BOX None r
        = Ok ([parsed_leaf "ispe" 20 (fpos r) (header box) (ispe_body width height)],
              mkReader (file r) (fpos r + 20)).
Proof. exact (ispe_round_trip box version flags width height). Qed.

Lemma ispe_written_and_parsed_witness :
  exists data,
    write_ispe_box (set_needs_rewrite true ispe_box) = Ok (data, []) /\ len data = 20
    /\ parse_box_sequence 1 (7 + 20) MAP_IPCO_BOX None
         (mkReader (replicate 7 x00 ++ data ++ [xff]) 7)
       = Ok ([parsed_leaf "ispe" 20 7 (full_header 0 0) (ispe_body 4 4)],
             mkReader (replicate 7 x00 ++ data ++ [xff]) 27).
Proof.
  destruct (ispe_written_and_parsed (set_needs_rewrite true ispe_box) 0 0 4 4)
    as (data & Hw & Hl & Hp); try reflexivity; try (split; [discriminate|reflexivity]).
  exists data. split; [exact Hw|]. split; [exact Hl|].
  apply (Hp 0%nat (mkReader (replicate 7 x00 ++ data ++ [xff]) 7) [xff]).
  - discriminate.
  - reflexivity.
Defined.

Lemma write_integer_array_fits (values : list Z) (nbytes : Z) (unsigned : bool) :
  struct_size nbytes -> Forall (fits nbytes unsigned) values ->
  exists data,
    write_integer_array_of_size values nbytes unsigned = Ok data
    /\ len data = nbytes * len values.
Proof.
  intros Hs Hv. induction Hv as [|v vs Hfit _ IH].
  - exists []. cbn [write_integer_array_of_size].
    rewrite (get_struct_type_ok _ unsigned Hs). split; [reflexivity|].
    unfold len. simpl. lia.
  - destruct IH as (ds & Hds & Hlen). cbn [write_integer_array_of_size].
    rewrite (get_struct_type_ok _ unsigned Hs). cbn [res_bind].
    rewrite (struct_pack_fits _ _ _ Hfit). cbn [res_bind]. rewrite Hds. cbn [res_bind].
    eexists. split; [reflexivity|]. unfold len in *.
    rewrite length_app, length_be_bytes. cbn [length].
    unfold struct_size in Hs. lia.
Qed.

(** The loop of [write_pixi_box] writes the array of the values. *)
Lemma write_values_loop (values : list Z) (acc data : list byte) :
  write_integer_array_of_size values 1 true = Ok data ->
  fold_left (fun acc value =>
               res_bind acc (fun done =>
               res_bind (write_integer_of_size value 1 true) (fun b => Ok (done ++ b))))
            values (Ok acc)
  = Ok (acc ++ data).
Proof.
  revert acc data. induction values as [|v vs IH]; intros acc data H.
  - cbn [write_integer_array_of_size] in H.
    destruct (get_struct_type 1 true); try discriminate. injection H as <-.
    rewrite app_nil_r. reflexivity.
  - cbn [write_integer_array_of_size] in H. cbn [fold_left res_bind].
    unfold write_integer_of_size at 2.
    destruct (get_struct_type 1 true) as [fmt| |]; try discriminate.
    cbn [res_bind] in H |- *.
    destruct (struct_pack fmt v) as [d| |]; try discriminate. cbn [res_bind] in H |- *.
    destruct (write_integer_array_of_size vs 1 true) as [ds| |]; try discriminate.
    injection H as <-. rewrite (IH (acc ++ d) ds eq_refl), <- app_assoc. reflexivity.
Qed.

Lemma type_ok_pixi : type_ok "pixi".
Proof. split; reflexivity. Qed.

Lemma reads_pixi (b : Box) (bpp : list Z) (data : list byte) :
  len bpp < 256 -> write_integer_array_of_size bpp 1 true = Ok data ->
  reads (fun end_ =>
           st_bind (read_integer_of_size end_ 1 true) (fun num_channels =>
           st_bind (read_integer_array_of_size end_ 1 (Z.to_nat num_channels) true)
                   (fun bpp => st_ret (pixi_body bpp, b))))
        (be_bytes 1 (len bpp) ++ data ++ [])
        (pixi_body bpp, b).
Proof.
  intros Hn Hdata.
  apply (reads_bind (fun end_ => read_integer_of_size end_ 1 true)
           (fun num_channels end_ =>
              st_bind (read_integer_array_of_size end_ 1 (Z.to_nat num_channels) true)
                      (fun bpp => st_ret (pixi_body bpp, b)))
           (be_bytes 1 (len bpp)) (data ++ []) (len bpp) (pixi_body bpp, b)).
  { apply reads_integer, (write_integer_unsigned (len bpp) 1);
      [unfold struct_size; lia|].
    change (2 ^ (8 * 1)) with 256. unfold len in *. lia. }
  unfold len at 1. rewrite Nat2Z.id.
  apply (reads_bind (fun end_ => read_integer_array_of_size end_ 1 (length bpp) true)
           (fun bpp _ => st_ret (pixi_body bpp, b)) data [] bpp (pixi_body bpp, b)).
  { apply reads_integer_array. exact Hdata. }
  apply reads_ret.
Qed.

(** A [pixi] box, written and parsed again. *)
Lemma pixi_round_trip (box : Box) (version flags : Z) (bpp : list Z) :
  box_type box = "pixi"%string -> needs_rewrite box = true ->
  header box = full_header version flags -> 0 <= version < 256 -> 0 <= flags < 2 ^ 24 ->
  body box !! "bits_per_channel"%string = Some (PyIntList bpp) ->
  len bpp < 256 -> Forall (fun value => 0 <= value < 256) bpp ->
  exists data,
    write_pixi_box box = Ok (data, []) /\ len data = 13 + len bpp
    /\ forall depth r rest,
        0 <= fpos r -> remaining r = data ++ rest ->
        parse_box_sequence (S depth) (fpos r + len data) MAP_IPCO_BOX None r
        = Ok ([parsed_leaf "pixi" (len data) (fpos r) (header box) (pixi_body bpp)],
              mkReader (file r) (fpos r + len data)).
Proof.
  intros Hty Hneeds Hheader Hv Hf Hbpp Hn Hvalues.
  destruct (write_integer_array_fits bpp 1 true) as (values & Hwrite & Hlen).
  { unfold struct_size. lia. }
  { exact Hvalues. }
  set (hb := be_bytes 1 version ++ be_bytes 3 flags).
  set (body_data := be_bytes 1 (len bpp) ++ values).
  assert (Hhb : header_bytes true (header box) hb).
  { rewrite Hheader. exists version, flags. auto. }
  assert (Hhlen : len hb = 4) by reflexivity.
  assert (Hblen : len body_data = 1 + len bpp).
  { unfold body_data, len in *. rewrite length_app, length_be_bytes. lia. }
  assert (Hdlen : len ((be_bytes 4 (13 + len bpp) ++ encode "pixi" ++ hb) ++ body_data)
                  = 13 + len bpp).
  { unfold len in *. rewrite !length_app, length_be_bytes. simpl length. lia. }
  exists ((be_bytes 4 (13 + len bpp) ++ encode "pixi" ++ hb) ++ body_data).
  split; [|split].
  - unfold write_pixi_box, py_getitem. rewrite Hneeds, Hbpp.
    cbn [py_assert res_bind as_int_list].
    rewrite (write_integer_unsigned (len bpp) 1)
      by (try (unfold struct_size; lia); change (2 ^ (8 * 1)) with 256;
          unfold len in *; lia).
    cbn [res_bind]. rewrite (write_values_loop bpp [] values Hwrite). cbn [res_bind app].
    unfold with_header. change (Z.to_nat 1) with 1%nat. fold body_data.
    rewrite (write_box_header_bytes true box hb);
      [|rewrite Hty; reflexivity|exact Hhb|unfold len in *; lia].
    rewrite Hty, Hblen. cbn [res_bind].
    replace (8 + len hb + (1 + len bpp)) with (13 + len bpp) by lia.
    reflexivity.
  - exact Hdlen.
  - intros depth r rest Hpos Hrem. rewrite Hdlen.
    apply (leaf_box_parses depth MAP_IPCO_BOX "Pixel Information Box" true
             parse_pixi_box "pixi" (header box) hb body_data rest _ (13 + len bpp) r);
      try assumption; try reflexivity; try exact type_ok_pixi; try lia;
      try (rewrite Hrem, <- !app_assoc; reflexivity).
    intros b r1 Hb Hend Hpos1 Hrem1.
    apply (body_parser_of_reads
               (fun box end_ =>
                  st_bind (read_integer_of_size end_ 1 true) (fun num_channels =>
                  st_bind (read_integer_array_of_size end_ 1 (Z.to_nat num_channels) true)
                          (fun bpp => st_ret (pixi_body bpp, box))))
             b body_data rest); try assumption.
    subst body_data. rewrite <- (app_nil_r values).
    apply reads_pixi; assumption.
Qed.

(** X13. A [pixi] box that is marked for rewriting, with a version below
    256, flags below 2^24, fewer than 256 channels and every depth below
    256, is written by [write_pixi_box] as 13 bytes and one for each
    channel; wherever these are in a file, [parse_box_sequence] reads them
    back, with the recipes of [ipco], as one box of the same type, header
    and depths. *)
Theorem pixi_written_and_parsed (box : Box) (version flags : Z) (bpp : list Z) :
  box_type box = "pixi"%string -> needs_rewrite box = true ->
  header box = full_header version flags -> 0 <= version < 256 -> 0 <= flags < 2 ^ 24 ->
  body box !! "bits_per_channel"%string = Some (PyIntList bpp) ->
  len bpp < 256 -> Forall (fun value => 0 <= value < 256) bpp ->
  exists data,
    write_pixi_box box = Ok (data, []) /\ len data = 13 + len bpp
    /\ forall depth r rest,
        0 <= fpos r -> remaining r = data ++ rest ->
        parse_box_sequence (S depth) (fpos r + len data) MAP_IPCO_BOX None r
        = Ok ([parsed_leaf "pixi" (len data) (fpos r) (header box) (pixi_body bpp)],
              mkReader (file r) (fpos r + len data)).
Proof. exact (pixi_round_trip box version flags bpp). Qed.

Lemma pixi_written_and_parsed_witness :
  exists data,
    write_pixi_box (set_needs_rewrite true pixi_box) = Ok (data, []) /\ len data = 16
    /\ parse_box_sequence 1 (0 + len data) MAP_IPCO_BOX None (mkReader data 0)
       = Ok ([parsed_leaf "pixi" (len data) 0 (full_header 0 0) (pixi_body [8; 8; 8])],
             mkReader data (0 + len data)).
Proof.
  destruct (pixi_written_and_parsed (set_needs_rewrite true pixi_box) 0 0 [8; 8; 8])
    as (data & Hw & Hl & Hp); try reflexivity; try (split; [discriminate|reflexivity]).
  { repeat constructor; discriminate. }
  exists data. split; [exact Hw|]. split; [exact Hl|].
  apply (Hp 0%nat (mkReader data 0) []).
  - discriminate.
  - unfold remaining. cbn [file fpos]. rewrite app_nil_r. reflexivity.
Defined.

(** Splits what is read along the first step of the computation. *)
Ltac reads_step :=
  lazymatch goal with
  | |- reads (fun end_ => st_bind (@?m end_) (fun x => @?k end_ x)) (?d1 ++ ?d2) ?b =>
      eapply (reads_bind m (fun x end_ => k end_ x) d1 d2 _ b); [|cbv beta]
  end.

(** Reads back an unsigned integer that fits its size. *)
Ltac reads_unsigned :=
  apply reads_integer, write_integer_unsigned;
  [unfold struct_size; lia
  |match goal with
   | |- context [2 ^ ?e] => let x := eval vm_compute in (2 ^ e) in change (2 ^ e) with x
   end; lia].

Lemma type_ok_colr : type_ok "colr".
Proof. split; reflexivity. Qed.

Lemma type_ok_nclx : type_ok "nclx".
Proof. split; reflexivity. Qed.

Lemma reads_nclx (b : Box) (cp tc mc fr : Z) :
  0 <= cp < 65536 -> 0 <= tc < 65536 -> 0 <= mc < 65536 -> 0 <= fr < 2 ->
  reads (fun end_ =>
           st_bind (read_string end_ 4) (fun ty =>
           if bool_decide (ty = Some "nclx"%string) then
             st_bind (read_integer_of_size end_ 2 true) (fun color_primaries =>
             st_bind (read_integer_of_size end_ 2 true) (fun transfer_characteristics =>
             st_bind (read_integer_of_size end_ 2 true) (fun matrix_coefficients =>
             st_bind (read_integer_of_size end_ 1 true) (fun flag =>
             st_ret ({[ "type"%string := py_str ty;
                        "color_primaries"%string := PyInt color_primaries;
                        "transfer_characteristics"%string := PyInt transfer_characteristics;
                        "matrix_coefficients"%string := PyInt matrix_coefficients;
                        "full_range_flag"%string := PyInt (Z.shiftr flag 7) ]}, b)))))
           else if bool_decide (ty = Some "rICC"%string)
                   || bool_decide (ty = Some "prof"%string) then
             st_bind position (fun pos =>
             st_bind (read_data (end_ - pos) (Some end_)) (fun icc_data =>
             st_ret ({[ "type"%string := py_str ty;
                        "icc_data"%string := PyBytes icc_data ]}, b)))
           else st_lift (Raise AssertionError)))
        (encode "nclx" ++ be_bytes 2 cp ++ be_bytes 2 tc ++ be_bytes 2 mc
         ++ be_bytes 1 (Z.shiftl fr 7) ++ [])
        (nclx_body cp tc mc fr, b).
Proof.
  intros Hcp Htc Hmc Hfr.
  assert (Hflag : 0 <= Z.shiftl fr 7 < 256)
    by (rewrite Z.shiftl_mul_pow2 by lia; change (2 ^ 7) with 128; lia).
  reads_step; [apply reads_string; exact type_ok_nclx|].
  rewrite bool_decide_eq_true_2 by reflexivity.
  reads_step; [reads_unsigned|].
  reads_step; [reads_unsigned|].
  reads_step; [reads_unsigned|].
  reads_step; [reads_unsigned|].
  rewrite Z.shiftr_shiftl_l, Z.sub_diag, Z.shiftl_0_r by lia.
  apply reads_ret.
Qed.

(** A [colr] box of the type [nclx], written and parsed again. *)
Lemma colr_round_trip (box : Box) (cp tc mc fr : Z) :
  box_type box = "colr"%string -> needs_rewrite box = true -> header box = ∅ ->
  body box !! "type"%string = Some (PyStr "nclx") ->
  body box !! "color_primaries"%string = Some (PyInt cp) ->
  body box !! "transfer_characteristics"%string = Some (PyInt tc) ->
  body box !! "matrix_coefficients"%string = Some (PyInt mc) ->
  body box !! "full_range_flag"%string = Some (PyInt fr) ->
  0 <= cp < 65536 -> 0 <= tc < 65536 -> 0 <= mc < 65536 -> 0 <= fr < 2 ->
  exists data,
    write_colr_box box = Ok (data, []) /\ len data = 19
    /\ forall depth r rest,
        0 <= fpos r -> remaining r = data ++ rest ->
        parse_box_sequence (S depth) (fpos r + 19) MAP_IPCO_BOX None r
        = Ok ([parsed_leaf "colr" 19 (fpos r) ∅ (nclx_body cp tc mc fr)],
              mkReader (file r) (fpos r + 19)).
Proof.
  intros Hty Hneeds Hheader Htype Hcp' Htc' Hmc' Hfr' Hcp Htc Hmc Hfr.
  assert (Hflag : 0 <= Z.shiftl fr 7 < 256)
    by (rewrite Z.shiftl_mul_pow2 by lia; change (2 ^ 7) with 128; lia).
  set (body_data := encode "nclx" ++ be_bytes 2 cp ++ be_bytes 2 tc ++ be_bytes 2 mc
                    ++ be_bytes 1 (Z.shiftl fr 7)).
  assert (Hhb : header_bytes false (header box) []) by (split; [exact Hheader|reflexivity]).
  assert (Hlen : len body_data = 11) by reflexivity.
  exists ((be_bytes 4 19 ++ encode "colr" ++ []) ++ body_data).
  split; [|split].
  - unfold write_colr_box, body_int, py_getitem.
    rewrite Hneeds, Htype, Hcp', Htc', Hmc', Hfr'.
    cbn [py_assert res_bind as_int].
    rewrite bool_decide_eq_true_2 by reflexivity. cbn [py_assert res_bind].
    rewrite !(write_integer_unsigned _ 2)
      by (try (unfold struct_size; lia); change (2 ^ (8 * 2)) with 65536; assumption).
    cbn [res_bind].
    rewrite (write_integer_unsigned _ 1)
      by (try (unfold struct_size; lia); change (2 ^ (8 * 1)) with 256; assumption).
    cbn [res_bind]. unfold with_header.
    change (Z.to_nat 2) with 2%nat. change (Z.to_nat 1) with 1%nat. fold body_data.
    rewrite (write_box_header_bytes false box []);
      [|rewrite Hty; reflexivity|exact Hhb|lia].
    rewrite Hty. reflexivity.
  - reflexivity.
  - intros depth r rest Hpos Hrem.
    apply (leaf_box_parses depth MAP_IPCO_BOX "Color Information Box" false
             parse_colr_box "colr" ∅ [] body_data rest _ 19 r);
      try assumption; try reflexivity; try exact type_ok_colr;
      try (split; reflexivity).
    intros b r1 Hb Hend Hpos1 Hrem1.
    apply (body_parser_of_reads
             (fun box end_ =>
                st_bind (read_string end_ 4) (fun ty =>
                if bool_decide (ty = Some "nclx"%string) then
                  st_bind (read_integer_of_size end_ 2 true) (fun color_primaries =>
                  st_bind (read_integer_of_size end_ 2 true) (fun transfer_characteristics =>
                  st_bind (read_integer_of_size end_ 2 true) (fun matrix_coefficients =>
                  st_bind (read_integer_of_size end_ 1 true) (fun flag =>
                  st_ret ({[ "type"%string := py_str ty;
                             "color_primaries"%string := PyInt color_primaries;
                             "transfer_characteristics"%string :=
                               PyInt transfer_characteristics;
                             "matrix_coefficients"%string := PyInt matrix_coefficients;
                             "full_range_flag"%string := PyInt (Z.shiftr flag 7) ]},
                          box)))))
                else if bool_decide (ty = Some "rICC"%string)
                        || bool_decide (ty = Some "prof"%string) then
                  st_bind position (fun pos =>
                  st_bind (read_data (end_ - pos) (Some end_)) (fun icc_data =>
                  st_ret ({[ "type"%string := py_str ty;
                             "icc_data"%string := PyBytes icc_data ]}, box)))
                else st_lift (Raise AssertionError)))
             b body_data rest); try assumption.
    subst body_data. rewrite <- (app_nil_r (be_bytes 1 (Z.shiftl fr 7))).
    apply reads_nclx; assumption.
Qed.

(** X14. A [colr] box of the colour type [nclx] that is marked for
    rewriting, with no version and flags, colour primaries, transfer
    characteristics and matrix coefficients below 65536 and a range flag of
    0 or 1, is written by [write_colr_box] as 19 bytes; wherever these are
    in a file, [parse_box_sequence] reads them back, with the recipes of
    [ipco], as one box of the same type and values. *)
Theorem colr_written_and_parsed (box : Box) (cp tc mc fr : Z) :
  box_type box = "colr"%string -> needs_rewrite box = true -> header box = ∅ ->
  body box !! "type"%string = Some (PyStr "nclx") ->
  body box !! "color_primaries"%string = Some (PyInt cp) ->
  body box !! "transfer_characteristics"%string = Some (PyInt tc) ->
  body box !! "matrix_coefficients"%string = Some (PyInt mc) ->
  body box !! "full_range_flag"%string = Some (PyInt fr) ->
  0 <= cp < 65536 -> 0 <= tc < 65536 -> 0 <= mc < 65536 -> 0 <= fr < 2 ->
  exists data,
    write_colr_box box = Ok (data, []) /\ len data = 19
    /\ forall depth r rest,
        0 <= fpos r -> remaining r = data ++ rest ->
        parse_box_sequence (S depth) (fpos r + 19) MAP_IPCO_BOX None r
        = Ok ([parsed_leaf "colr" 19 (fpos r) ∅ (nclx_body cp tc mc fr)],
              mkReader (file r) (fpos r + 19)).
Proof. exact (colr_round_trip box cp tc mc fr). Qed.

Lemma colr_written_and_parsed_witness :
  exists data,
    write_colr_box (set_needs_rewrite true colr_box) = Ok (data, []) /\ len data = 19
    /\ parse_box_sequence 1 (0 + 19) MAP_IPCO_BOX None (mkReader data 0)
       = Ok ([parsed_leaf "colr" 19 0 ∅ (nclx_body 1 13 6 1)], mkReader data (0 + 19)).
Proof.
  destruct (colr_written_and_parsed (set_needs_rewrite true colr_box) 1 13 6 1)
    as (data & Hw & Hl & Hp); try reflexivity; try (split; [discriminate|reflexivity]).
  exists data. split; [exact Hw|]. split; [exact Hl|].
  apply (Hp 0%nat (mkReader data 0) []).
  - discriminate.
  - unfold remaining. cbn [file fpos]. rewrite app_nil_r. reflexivity.
Defined.

Lemma type_ok_clap : type_ok "clap".
Proof. split; reflexivity. Qed.

Lemma rational_written (l : list Z) :
  rational l ->
  exists data, write_integer_array_of_size l 4 false = Ok data /\ len data = 8.
Proof.
  intros [Hlen Hl].
  destruct (write_integer_array_fits l 4 false) as (data & Hdata & Hd).
  - unfold struct_size. lia.
  - exact Hl.
  - exists data. split; [exact Hdata|]. unfold len in *. lia.
Qed.

Lemma reads_rational (l : list Z) (data : list byte) :
  rational l -> write_integer_array_of_size l 4 false = Ok data ->
  reads (fun end_ => read_integer_array_of_size end_ 4 2 false) data l.
Proof.
  intros [Hlen _] Hdata. rewrite <- Hlen. apply reads_integer_array. exact Hdata.
Qed.

(** A [clap] box, written and parsed again. *)
Lemma clap_round_trip (box : Box) (width height h_offset v_offset : list Z) :
  box_type box = "clap"%string -> needs_rewrite box = true -> header box = ∅ ->
  body box !! "width"%string = Some (PyIntList width) ->
  body box !! "height"%string = Some (PyIntList height) ->
  body box !! "h_offset"%string = Some (PyIntList h_offset) ->
  body box !! "v_offset"%string = Some (PyIntList v_offset) ->
  rational width -> rational height -> rational h_offset -> rational v_offset ->
  exists data,
    write_clap_box box = Ok (data, []) /\ len data = 40
    /\ forall depth r rest,
        0 <= fpos r -> remaining r = data ++ rest ->
        parse_box_sequence (S depth) (fpos r + 40) MAP_IPCO_BOX None r
        = Ok ([parsed_leaf "clap" 40 (fpos r) ∅
                 (clap_body width height h_offset v_offset)],
              mkReader (file r) (fpos r + 40)).
Proof.
  intros Hty Hneeds Hheader Hw' Hh' Hho' Hvo' Hw Hh Hho Hvo.
  destruct (rational_written _ Hw) as (dw & Hdw & Lw).
  destruct (rational_written _ Hh) as (dh & Hdh & Lh).
  destruct (rational_written _ Hho) as (dho & Hdho & Lho).
  destruct (rational_written _ Hvo) as (dvo & Hdvo & Lvo).
  set (body_data := dw ++ dh ++ dho ++ dvo).
  assert (Hhb : header_bytes false (header box) []) by (split; [exact Hheader|reflexivity]).
  assert (Hlen : len body_data = 32).
  { unfold body_data, len in *. rewrite !length_app. lia. }
  assert (Hdata : len ((be_bytes 4 40 ++ encode "clap" ++ []) ++ body_data) = 40).
  { unfold len in *. rewrite !length_app, length_be_bytes. simpl length. lia. }
  exists ((be_bytes 4 40 ++ encode "clap" ++ []) ++ body_data).
  split; [|split].
  - unfold write_clap_box, py_getitem. rewrite Hneeds, Hw', Hh', Hho', Hvo'.
    cbn [py_assert res_bind as_int_list]. rewrite Hdw, Hdh, Hdho, Hdvo.
    cbn [res_bind]. unfold with_header. fold body_data.
    rewrite (write_box_header_bytes false box []);
      [|rewrite Hty; reflexivity|exact Hhb|lia].
    rewrite Hty, Hlen. reflexivity.
  - exact Hdata.
  - intros depth r rest Hpos Hrem.
    apply (leaf_box_parses depth MAP_IPCO_BOX "Clean Aperture Box" false
             parse_clap_box "clap" ∅ [] body_data rest _ 40 r);
      try assumption; try reflexivity; try exact type_ok_clap;
      try (split; reflexivity); try (rewrite Hlen; reflexivity).
    intros b r1 Hb Hend Hpos1 Hrem1.
    apply (body_parser_of_reads
             (fun box end_ =>
                st_bind (read_integer_array_of_size end_ 4 2 false) (fun width =>
                st_bind (read_integer_array_of_size end_ 4 2 false) (fun height =>
                st_bind (read_integer_array_of_size end_ 4 2 false) (fun h_offset =>
                st_bind (read_integer_array_of_size end_ 4 2 false) (fun v_offset =>
                st_ret (clap_body width height h_offset v_offset, box))))))
             b body_data rest); try assumption.
    subst body_data. rewrite <- (app_nil_r dvo).
    reads_step; [eapply reads_rational; [|eassumption]; assumption|].
    reads_step; [eapply reads_rational; [|eassumption]; assumption|].
    reads_step; [eapply reads_rational; [|eassumption]; assumption|].
    reads_step; [eapply reads_rational; [|eassumption]; assumption|].
    apply reads_ret.
Qed.

(** X15. A [clap] box that is marked for rewriting, with no version and
    flags and four rationals of two signed numbers of 32 bits each, is
    written by [write_clap_box] as 40 bytes; wherever these are in a file,
    [parse_box_sequence] reads them back, with the recipes of [ipco], as
    one box of the same type and rationals. *)
Theorem clap_written_and_parsed (box : Box) (width height h_offset v_offset : list Z) :
  box_type box = "clap"%string -> needs_rewrite box = true -> header box = ∅ ->
  body box !! "width"%string = Some (PyIntList width) ->
  body box !! "height"%string = Some (PyIntList height) ->
  body box !! "h_offset"%string = Some (PyIntList h_offset) ->
  body box !! "v_offset"%string = Some (PyIntList v_offset) ->
  rational width -> rational height -> rational h_offset -> rational v_offset ->
  exists data,
    write_clap_box box = Ok (data, []) /\ len data = 40
    /\ forall depth r rest,
        0 <= fpos r -> remaining r = data ++ rest ->
        parse_box_sequence (S depth) (fpos r + 40) MAP_IPCO_BOX None r
        = Ok ([parsed_leaf "clap" 40 (fpos r) ∅
                 (clap_body width height h_offset v_offset)],
              mkReader (file r) (fpos r + 40)).
Proof. exact (clap_round_trip box width height h_offset v_offset). Qed.

Lemma clap_written_and_parsed_witness :
  exists data,
    write_clap_box (set_needs_rewrite true clap_box) = Ok (data, []) /\ len data = 40
    /\ parse_box_sequence 1 (0 + 40) MAP_IPCO_BOX None (mkReader data 0)
       = Ok ([parsed_leaf "clap" 40 0 ∅ (clap_body [6; 1] [4; 1] [-1; 1] [0; 1])],
             mkReader data (0 + 40)).
Proof.
  destruct (clap_written_and_parsed (set_needs_rewrite true clap_box)
              [6; 1] [4; 1] [-1; 1] [0; 1])
    as (data & Hw & Hl & Hp); try reflexivity;
    try (split; [reflexivity|repeat constructor; discriminate]).
  exists data. split; [exact Hw|]. split; [exact Hl|].
  apply (Hp 0%nat (mkReader data 0) []).
  - discriminate.
  - unfold remaining. cbn [file fpos]. rewrite app_nil_r. reflexivity.
Defined.

Lemma type_ok_pitm : type_ok "pitm".
Proof. split; reflexivity. Qed.

Lemma reads_header_of (b : Box) (key : string) (v : Z) :
  header b !! key = Some v -> reads (fun _ => header_of b key) [] v.
Proof. intros H. unfold header_of. rewrite H. apply reads_lift. Qed.

(** A [pitm] box, written and parsed again. *)
Lemma pitm_round_trip (box : Box) (version flags item_id : Z) :
  box_type box = "pitm"%string -> needs_rewrite box = true ->
  header box = full_header version flags -> version = 0 \/ version = 1 ->
  0 <= flags < 2 ^ 24 ->
  body box !! "item_id"%string = Some (PyInt item_id) ->
  0 <= item_id < (if version =? 0 then 65536 else 4294967296) ->
  exists data,
    write_pitm_box box = Ok (data, [])
    /\ len data = (if version =? 0 then 14 else 16)
    /\ forall depth depth' r rest,
        0 <= fpos r -> remaining r = data ++ rest ->
        parse_box_sequence (S depth) (fpos r + len data) (MAP_META_BOX depth') None r
        = Ok ([parsed_leaf "pitm" (len data) (fpos r) (header box) (pitm_body item_id)],
              mkReader (file r) (fpos r + len data)).
Proof.
  intros Hty Hneeds Hheader Hversion Hf Hid' Hid.
  set (id_size := if version =? 0 then 2 else 4).
  set (hb := be_bytes 1 version ++ be_bytes 3 flags).
  set (body_data := be_bytes (Z.to_nat id_size) item_id).
  assert (Hhb : header_bytes true (header box) hb).
  { rewrite Hheader. exists version, flags. repeat split; try tauto; lia. }
  assert (Hhlen : len hb = 4) by reflexivity.
  assert (Hsize : struct_size id_size /\ 0 <= item_id < 2 ^ (8 * id_size)
                  /\ len body_data = id_size
                  /\ id_size = (if version <? 1 then 2 else 4)
                  /\ 12 + id_size = (if version =? 0 then 14 else 16)).
  { unfold body_data, len. rewrite length_be_bytes. unfold struct_size, id_size.
    destruct Hversion as [-> | ->]; cbn in Hid |- *; repeat split; lia. }
  destruct Hsize as (Hs & Hfit & Hblen & Hwsize & Htotal).
  assert (Hdlen : len ((be_bytes 4 (12 + id_size) ++ encode "pitm" ++ hb) ++ body_data)
                  = 12 + id_size).
  { unfold len in *. rewrite !length_app, length_be_bytes. simpl length. lia. }
  exists ((be_bytes 4 (12 + id_size) ++ encode "pitm" ++ hb) ++ body_data).
  split; [|split].
  - unfold write_pitm_box, body_int, py_getitem. rewrite Hneeds, Hheader, Hid'.
    unfold full_header. rewrite lookup_insert_eq.
    cbn [py_assert res_bind as_int].
    replace ((version =? 0) || (version =? 1)) with true
      by (destruct Hversion as [-> | ->]; reflexivity).
    cbn [py_assert res_bind]. rewrite <- Hwsize.
    rewrite (write_integer_unsigned item_id id_size Hs Hfit). cbn [res_bind].
    unfold with_header. fold body_data.
    rewrite (write_box_header_bytes true box hb);
      [|rewrite Hty; reflexivity|exact Hhb|unfold struct_size in Hs; lia].
    rewrite Hty, Hblen, Hhlen. cbn [res_bind].
    replace (8 + 4 + id_size) with (12 + id_size) by lia. reflexivity.
  - rewrite Hdlen. exact Htotal.
  - intros depth depth' r rest Hpos Hrem. rewrite Hdlen.
    apply (leaf_box_parses depth (MAP_META_BOX depth') "Primary Item Box" true
             parse_pitm_box "pitm" (header box) hb body_data rest _ (12 + id_size) r);
      try assumption; try reflexivity; try exact type_ok_pitm;
      try (unfold struct_size in Hs; lia);
      try (rewrite Hrem, <- !app_assoc; reflexivity).
    intros b r1 Hb Hend Hpos1 Hrem1.
    apply (body_parser_of_reads
             (fun box end_ =>
                st_bind (header_of box "version") (fun version =>
                st_bind (read_integer_of_size end_ (if version =? 0 then 2 else 4) true)
                        (fun item_id => st_ret (pitm_body item_id, box))))
             b body_data rest); try assumption.
    change body_data with ([] ++ body_data). rewrite <- (app_nil_r body_data).
    reads_step.
    { apply reads_header_of. rewrite Hb, Hheader. unfold full_header.
      apply lookup_insert_eq. }
    fold id_size.
    reads_step; [apply reads_integer, write_integer_unsigned; assumption|].
    apply reads_ret.
Qed.

(** X16. A [pitm] box that is marked for rewriting, of version 0 with an
    item id below 2^16 or of version 1 with one below 2^32, and flags
    below 2^24, is written by [write_pitm_box] with an id of two or four
    bytes; wherever the box is in a file, [parse_box_sequence] reads it
    back, with the recipes of [meta], as one box of the same type, header
    and item id. *)
Theorem pitm_written_and_parsed (box : Box) (version flags item_id : Z) :
  box_type box = "pitm"%string -> needs_rewrite box = true ->
  header box = full_header version flags -> version = 0 \/ version = 1 ->
  0 <= flags < 2 ^ 24 ->
  body box !! "item_id"%string = Some (PyInt item_id) ->
  0 <= item_id < (if version =? 0 then 65536 else 4294967296) ->
  exists data,
    write_pitm_box box = Ok (data, [])
    /\ len data = (if version =? 0 then 14 else 16)
    /\ forall depth depth' r rest,
        0 <= fpos r -> remaining r = data ++ rest ->
        parse_box_sequence (S depth) (fpos r + len data) (MAP_META_BOX depth') None r
        = Ok ([parsed_leaf "pitm" (len data) (fpos r) (header box) (pitm_body item_id)],
              mkReader (file r) (fpos r + len data)).
Proof. exact (pitm_round_trip box version flags item_id). Qed.

Lemma pitm_written_and_parsed_witness :
  exists data,
    write_pitm_box (set_needs_rewrite true pitm_box) = Ok (data, []) /\ len data = 14
    /\ parse_box_sequence 1 (0 + len data) (MAP_META_BOX 0) None (mkReader data 0)
       = Ok ([parsed_leaf "pitm" (len data) 0 (full_header 0 0) (pitm_body 1)],
             mkReader data (0 + len data)).
Proof.
  destruct (pitm_written_and_parsed (set_needs_rewrite true pitm_box) 0 0 1)
    as (data & Hw & Hl & Hp); try reflexivity; try (split; [discriminate|reflexivity]).
  { left. reflexivity. }
  exists data. split; [exact Hw|]. split; [exact Hl|].
  apply (Hp 0%nat 0%nat (mkReader data 0) []).
  - discriminate.
  - unfold remaining. cbn [file fpos]. rewrite app_nil_r. reflexivity.
Defined.

Lemma f_at (n : Z) (data : list byte) (off : Z) :
  0 <= off -> 0 <= n -> off + n <= 8 * len data ->
  f n (reader_at data off) = Ok (bit_field data off n, reader_at data (off + n)).
Proof.
  intros Hoff Hn Hend.
  pose proof (Z.mod_pos_bound off 8 ltac:(lia)) as Hm.
  pose proof (Z.div_mod off 8 ltac:(lia)) as Hd.
  pose proof (Z.mod_pos_bound (off + n) 8 ltac:(lia)) as Hm'.
  pose proof (Z.div_mod (off + n) 8 ltac:(lia)) as Hd'.
  assert (Hwp : well_placed (reader_at data off)).
  { unfold well_placed, reader_at. cbn [bits_pos bit_pos].
    split; [apply Z.div_pos; lia|lia]. }
  assert (Hat : bit_offset (reader_at data off) = off).
  { unfold bit_offset, reader_at. cbn [bits_pos bit_pos]. lia. }
  destruct (f_loop_spec (Z.to_nat n) 0 (reader_at data off) Hwp)
    as (s & Hs & H1 & H2 & H3).
  { rewrite Hat. cbn [reader_at bits_data]. lia. }
  unfold f. rewrite Hs, Hat, Z2Nat.id by lia. cbn [bits_data reader_at].
  do 2 f_equal. apply well_placed_unique; try assumption.
  - unfold well_placed, reader_at. cbn [bits_pos bit_pos].
    split; [apply Z.div_pos; lia|lia].
  - rewrite H3, Hat, Z2Nat.id by lia.
    unfold bit_offset, reader_at. cbn [bits_pos bit_pos]. lia.
Qed.

(** A field of a number that is put together from the fields above it, the
    field itself and what is below. *)
Lemma field_of_sum (v k n hi x lo : Z) :
  v = (hi * 2 ^ n + x) * 2 ^ k + lo -> 0 <= k -> 0 <= n ->
  0 <= x < 2 ^ n -> 0 <= lo < 2 ^ k ->
  (v / 2 ^ k) mod 2 ^ n = x.
Proof.
  intros -> Hk Hn Hx Hlo.
  assert (0 < 2 ^ k) by (apply Z.pow_pos_nonneg; lia).
  assert (0 < 2 ^ n) by (apply Z.pow_pos_nonneg; lia).
  rewrite Z.div_add_l by lia. rewrite (Z.div_small lo) by lia. rewrite Z.add_0_r.
  rewrite Z.add_comm, Z.mod_add by lia. apply Z.mod_small. lia.
Qed.

Lemma field_at (key : string) (n : Z) (body : gmap string PyVal) (data : list byte)
    (off : Z) :
  0 <= off -> 0 <= n -> off + n <= 8 * len data ->
  st_bind (f n) (fun v => st_ret (<[key := PyInt v]> body)) (reader_at data off)
  = Ok (<[key := PyInt (bit_field data off n)]> body, reader_at data (off + n)).
Proof.
  intros Hoff Hn Hend. rewrite (st_bind_eq _ _ _ _ _ (f_at n data off Hoff Hn Hend)).
  reflexivity.
Qed.

Lemma read_av1c_fields_packed
    (marker version seq_profile seq_level_idx_0 seq_tier_0 high_bitdepth twelve_bit
     monochrome chroma_subsampling_x chroma_subsampling_y chroma_sample_position : Z) :
  av1c_ranges marker version seq_profile seq_level_idx_0 seq_tier_0 high_bitdepth
    twelve_bit monochrome chroma_subsampling_x chroma_subsampling_y
    chroma_sample_position ->
  exists self,
    read_av1c_fields
      (BitReader_init
         (av1c_bytes marker version seq_profile seq_level_idx_0 seq_tier_0 high_bitdepth
            twelve_bit monochrome chroma_subsampling_x chroma_subsampling_y
            chroma_sample_position))
    = Ok (av1c_body marker version seq_profile seq_level_idx_0 seq_tier_0 high_bitdepth
            twelve_bit monochrome chroma_subsampling_x chroma_subsampling_y
            chroma_sample_position, self).
Proof.
  intros (H1 & H2 & H3 & H4 & H5 & H6 & H7 & H8 & H9 & H10 & H11).
  set (data := av1c_bytes _ _ _ _ _ _ _ _ _ _ _).
  assert (Hlen : len data = 4) by reflexivity.
  assert (HV : be_value data
               = marker * 2147483648 + version * 16777216 + seq_profile * 2097152
                 + seq_level_idx_0 * 65536 + seq_tier_0 * 32768 + high_bitdepth * 16384
                 + twelve_bit * 8192 + monochrome * 4096 + chroma_subsampling_x * 2048
                 + chroma_subsampling_y * 1024 + chroma_sample_position * 256).
  { unfold data, av1c_bytes, be_value. cbn [fold_left]. rewrite !byte_to_of_Z.
    rewrite !Z.mod_small by lia. lia. }
  assert (Hfield : forall off n hi x,
             0 <= n -> off + n <= 32 -> 0 <= x < 2 ^ n ->
             0 <= be_value data - (hi * 2 ^ n + x) * 2 ^ (32 - off - n)
               < 2 ^ (32 - off - n) ->
             bit_field data off n = x).
  { intros off n hi x Hn Hoff Hx Hlo. unfold bit_field. rewrite Hlen.
    change (8 * 4) with 32.
    apply (field_of_sum _ _ _ hi x
             (be_value data - (hi * 2 ^ n + x) * 2 ^ (32 - off - n)));
      try assumption; lia. }
  clearbody data.
  unfold read_av1c_fields. change (BitReader_init data) with (reader_at data 0).
  cbv zeta.
  do 11 (erewrite st_bind_eq; [|apply field_at; [lia|lia|rewrite Hlen; lia]];
         match goal with
         | |- context [reader_at _ ?o] =>
             let o' := eval vm_compute in o in change o with o'
         end).
  do 2 (erewrite st_bind_eq; [|apply f_at; [lia|lia|rewrite Hlen; lia]];
        match goal with
        | |- context [reader_at _ ?o] =>
            let o' := eval vm_compute in o in change o with o'
        end).
  set (p2 := marker * 128 + version).
  set (p3 := p2 * 8 + seq_profile).
  set (p4 := p3 * 32 + seq_level_idx_0).
  set (p5 := p4 * 2 + seq_tier_0).
  set (p6 := p5 * 2 + high_bitdepth).
  set (p7 := p6 * 2 + twelve_bit).
  set (p8 := p7 * 2 + monochrome).
  set (p9 := p8 * 2 + chroma_subsampling_x).
  set (p10 := p9 * 2 + chroma_subsampling_y).
  set (p11 := p10 * 4 + chroma_sample_position).
  assert (F : bit_field data 0 1 = marker
              /\ bit_field data 1 7 = version
              /\ bit_field data 8 3 = seq_profile
              /\ bit_field data 11 5 = seq_level_idx_0
              /\ bit_field data 16 1 = seq_tier_0
              /\ bit_field data 17 1 = high_bitdepth
              /\ bit_field data 18 1 = twelve_bit
              /\ bit_field data 19 1 = monochrome
              /\ bit_field data 20 1 = chroma_subsampling_x
              /\ bit_field data 21 1 = chroma_subsampling_y
              /\ bit_field data 22 2 = chroma_sample_position
              /\ bit_field data 27 1 = 0).
  { repeat split;
      [ apply (Hfield 0 1 0) | apply (Hfield 1 7 marker) | apply (Hfield 8 3 p2)
      | apply (Hfield 11 5 p3) | apply (Hfield 16 1 p4) | apply (Hfield 17 1 p5)
      | apply (Hfield 18 1 p6) | apply (Hfield 19 1 p7) | apply (Hfield 20 1 p8)
      | apply (Hfield 21 1 p9) | apply (Hfield 22 2 p10) | apply (Hfield 27 1 (p11 * 8)) ];
      try lia;
      repeat match goal with
        | |- context [2 ^ ?e] =>
            let x := eval vm_compute in (2 ^ e) in change (2 ^ e) with x
        end;
      try lia; rewrite HV; subst p11 p10 p9 p8 p7 p6 p5 p4 p3 p2; lia. }
  destruct F as (F1 & F2 & F3 & F4 & F5 & F6 & F7 & F8 & F9 & F10 & F11 & F12).
  rewrite F1, F2, F3, F4, F5, F6, F7, F8, F9, F10, F11, F12.
  change (0 =? 1) with false. cbv iota.
  erewrite st_bind_eq; [|apply f_at; [lia|lia|rewrite Hlen; lia]].
  eexists. reflexivity.
Qed.

Lemma type_ok_av1C : type_ok "av1C".
Proof. split; reflexivity. Qed.

Lemma lor_shiftl_high (x value k : Z) :
  0 <= k -> 0 <= value < 2 ^ k -> Z.lor (Z.shiftl x k) value = x * 2 ^ k + value.
Proof. intros Hk Hv. rewrite Z.lor_comm, lor_shiftl_add by assumption. lia. Qed.

(** The third byte of an [av1C] box, as [write_av1c_box] puts it
    together. *)
Lemma av1c_third_byte (tier hb tb mono sx sy csp : Z) :
  0 <= tier < 2 -> 0 <= hb < 2 -> 0 <= tb < 2 -> 0 <= mono < 2 -> 0 <= sx < 2 ->
  0 <= sy < 2 -> 0 <= csp < 4 ->
  Z.lor (Z.lor (Z.lor (Z.lor (Z.shiftl tier 7) (Z.shiftl hb 6))
                      (Z.lor (Z.shiftl tb 5) (Z.shiftl mono 4)))
               (Z.lor (Z.shiftl sx 3) (Z.shiftl sy 2)))
        csp
  = tier * 128 + hb * 64 + tb * 32 + mono * 16 + sx * 8 + sy * 4 + csp.
Proof.
  intros H1 H2 H3 H4 H5 H6 H7.
  assert (E1 : tier = 0 \/ tier = 1) by lia. assert (E2 : hb = 0 \/ hb = 1) by lia.
  assert (E3 : tb = 0 \/ tb = 1) by lia. assert (E4 : mono = 0 \/ mono = 1) by lia.
  assert (E5 : sx = 0 \/ sx = 1) by lia. assert (E6 : sy = 0 \/ sy = 1) by lia.
  assert (E7 : csp = 0 \/ csp = 1 \/ csp = 2 \/ csp = 3) by lia.
  destruct E1 as [-> | ->], E2 as [-> | ->], E3 as [-> | ->], E4 as [-> | ->],
    E5 as [-> | ->], E6 as [-> | ->], E7 as [-> | [-> | [-> | ->]]]; reflexivity.
Qed.

Lemma parse_av1c_box_packed (b : Box) (r1 : FileReader) (rest : list byte)
    (marker version seq_profile seq_level_idx_0 seq_tier_0 high_bitdepth twelve_bit
     monochrome chroma_subsampling_x chroma_subsampling_y chroma_sample_position : Z) :
  av1c_ranges marker version seq_profile seq_level_idx_0 seq_tier_0 high_bitdepth
    twelve_bit monochrome chroma_subsampling_x chroma_subsampling_y
    chroma_sample_position ->
  box_end b = fpos r1 + 4 -> 0 <= fpos r1 ->
  remaining r1
  = av1c_bytes marker version seq_profile seq_level_idx_0 seq_tier_0 high_bitdepth
      twelve_bit monochrome chroma_subsampling_x chroma_subsampling_y
      chroma_sample_position ++ rest ->
  parse_av1c_box b (file r1) (fpos r1)
  = Ok (av1c_body marker version seq_profile seq_level_idx_0 seq_tier_0 high_bitdepth
          twelve_bit monochrome chroma_subsampling_x chroma_subsampling_y
          chroma_sample_position, b, fpos r1 + 4).
Proof.
  intros Hranges Hend Hpos Hrem.
  destruct (read_av1c_fields_packed _ _ _ _ _ _ _ _ _ _ _ Hranges) as [self Hfields].
  set (data := av1c_bytes _ _ _ _ _ _ _ _ _ _ _) in *.
  unfold parse_av1c_box, body_parser_of.
  replace (mkReader (file r1) (fpos r1)) with r1 by (destruct r1; reflexivity).
  rewrite (st_bind_eq _ _ _ _ _
             (reads_read_data data r1 rest (box_end b) Hpos
                ltac:(rewrite Hend; change (len data) with 4; lia) Hrem)).
  unfold on_bits. rewrite Hfields. cbn [res_bind].
  unfold st_bind at 1. unfold st_lift at 1.
  unfold st_bind at 1. unfold position at 1. cbn [fpos].
  change (len data) with 4.
  rewrite (proj2 (Z.ltb_ge _ _)) by lia.
  reflexivity.
Qed.

(** An [av1C] box, written and parsed again. *)
Lemma av1c_round_trip (box : Box)
    (marker version seq_profile seq_level_idx_0 seq_tier_0 high_bitdepth twelve_bit
     monochrome chroma_subsampling_x chroma_subsampling_y chroma_sample_position : Z) :
  box_type box = "av1C"%string -> header box = ∅ ->
  body box !! "marker"%string = Some (PyInt marker) ->
  body box !! "version"%string = Some (PyInt version) ->
  body box !! "seq_profile"%string = Some (PyInt seq_profile) ->
  body box !! "seq_level_idx_0"%string = Some (PyInt seq_level_idx_0) ->
  body box !! "seq_tier_0"%string = Some (PyInt seq_tier_0) ->
  body box !! "high_bitdepth"%string = Some (PyInt high_bitdepth) ->
  body box !! "twelve_bit"%string = Some (PyInt twelve_bit) ->
  body box !! "monochrome"%string = Some (PyInt monochrome) ->
  body box !! "chroma_subsampling_x"%string = Some (PyInt chroma_subsampling_x) ->
  body box !! "chroma_subsampling_y"%string = Some (PyInt chroma_subsampling_y) ->
  body box !! "chroma_sample_position"%string = Some (PyInt chroma_sample_position) ->
  body box !! "initial_presentation_delay_present"%string = Some (PyInt 0) ->
  av1c_ranges marker version seq_profile seq_level_idx_0 seq_tier_0 high_bitdepth
    twelve_bit monochrome chroma_subsampling_x chroma_subsampling_y
    chroma_sample_position ->
  exists data,
    write_av1c_box box = Ok (data, []) /\ len data = 12
    /\ forall depth r rest,
        0 <= fpos r -> remaining r = data ++ rest ->
        parse_box_sequence (S depth) (fpos r + 12) MAP_IPCO_BOX None r
        = Ok ([parsed_leaf "av1C" 12 (fpos r) ∅
                 (av1c_body marker version seq_profile seq_level_idx_0 seq_tier_0
                    high_bitdepth twelve_bit monochrome chroma_subsampling_x
                    chroma_subsampling_y chroma_sample_position)],
              mkReader (file r) (fpos r + 12)).
Proof.
  intros Hty Hheader B1 B2 B3 B4 B5 B6 B7 B8 B9 B10 B11 B12 Hranges.
  pose proof Hranges as (H1 & H2 & H3 & H4 & H5 & H6 & H7 & H8 & H9 & H10 & H11).
  set (body_data := av1c_bytes marker version seq_profile seq_level_idx_0 seq_tier_0
                      high_bitdepth twelve_bit monochrome chroma_subsampling_x
                      chroma_subsampling_y chroma_sample_position).
  assert (Hhb : header_bytes false (header box) []) by (split; [exact Hheader|reflexivity]).
  exists ((be_bytes 4 12 ++ encode "av1C" ++ []) ++ body_data).
  split; [|split].
  - unfold write_av1c_box, body_int, py_getitem.
    rewrite B1, B2, B3, B4, B5, B6, B7, B8, B9, B10, B11, B12.
    cbn [py_assert res_bind as_int Z.eqb].
    rewrite (lor_shiftl_high marker version 7) by (change (2 ^ 7) with 128; lia).
    rewrite (lor_shiftl_high seq_profile seq_level_idx_0 5)
      by (change (2 ^ 5) with 32; lia).
    rewrite av1c_third_byte by assumption.
    change (2 ^ 7) with 128. change (2 ^ 5) with 32. change (Z.shiftl 0 4) with 0.
    rewrite !(struct_pack_fits 1 true)
      by (unfold fits; change (2 ^ (8 * 1)) with 256; lia).
    cbn [res_bind]. unfold with_header.
    change (Z.to_nat 1) with 1%nat. cbn [be_bytes app].
    fold (av1c_bytes marker version seq_profile seq_level_idx_0 seq_tier_0
            high_bitdepth twelve_bit monochrome chroma_subsampling_x
            chroma_subsampling_y chroma_sample_position).
    fold body_data.
    rewrite (write_box_header_bytes false box []);
      [|rewrite Hty; reflexivity|exact Hhb|change (len body_data) with 4; lia].
    rewrite Hty. reflexivity.
  - reflexivity.
  - intros depth r rest Hpos Hrem.
    apply (leaf_box_parses depth MAP_IPCO_BOX "AV1 Decoder Configuration Record" false
             parse_av1c_box "av1C" ∅ [] body_data rest _ 12 r);
      try assumption; try reflexivity; try exact type_ok_av1C;
      try (split; reflexivity).
    intros b r1 Hb Hend Hpos1 Hrem1.
    exact (parse_av1c_box_packed b r1 rest _ _ _ _ _ _ _ _ _ _ _ Hranges Hend Hpos1 Hrem1).
Qed.

(** X17. An [av1C] box with no version and flags, no presentation delay
    and every field within the bits that the box has for it is written by
    [write_av1c_box] as 12 bytes; wherever these are in a file,
    [parse_box_sequence] reads them back, with the recipes of [ipco], as
    one box of the same type and fields. *)
Theorem av1c_written_and_parsed (box : Box)
    (marker version seq_profile seq_level_idx_0 seq_tier_0 high_bitdepth twelve_bit
     monochrome chroma_subsampling_x chroma_subsampling_y chroma_sample_position : Z) :
  box_type box = "av1C"%string -> header box = ∅ ->
  body box !! "marker"%string = Some (PyInt marker) ->
  body box !! "version"%string = Some (PyInt version) ->
  body box !! "seq_profile"%string = Some (PyInt seq_profile) ->
  body box !! "seq_level_idx_0"%string = Some (PyInt seq_level_idx_0) ->
  body box !! "seq_tier_0"%string = Some (PyInt seq_tier_0) ->
  body box !! "high_bitdepth"%string = Some (PyInt high_bitdepth) ->
  body box !! "twelve_bit"%string = Some (PyInt twelve_bit) ->
  body box !! "monochrome"%string = Some (PyInt monochrome) ->
  body box !! "chroma_subsampling_x"%string = Some (PyInt chroma_subsampling_x) ->
  body box !! "chroma_subsampling_y"%string = Some (PyInt chroma_subsampling_y) ->
  body box !! "chroma_sample_position"%string = Some (PyInt chroma_sample_position) ->
  body box !! "initial_presentation_delay_present"%string = Some (PyInt 0) ->
  av1c_ranges marker version seq_profile seq_level_idx_0 seq_tier_0 high_bitdepth
    twelve_bit monochrome chroma_subsampling_x chroma_subsampling_y
    chroma_sample_position ->
  exists data,
    write_av1c_box box = Ok (data, []) /\ len data = 12
    /\ forall depth r rest,
        0 <= fpos r -> remaining r = data ++ rest ->
        parse_box_sequence (S depth) (fpos r + 12) MAP_IPCO_BOX None r
        = Ok ([parsed_leaf "av1C" 12 (fpos r) ∅
                 (av1c_body marker version seq_profile seq_level_idx_0 seq_tier_0
                    high_bitdepth twelve_bit monochrome chroma_subsampling_x
                    chroma_subsampling_y chroma_sample_position)],
              mkReader (file r) (fpos r + 12)).
Proof. exact (av1c_round_trip box marker version seq_profile seq_level_idx_0 seq_tier_0 high_bitdepth twelve_bit monochrome chroma_subsampling_x chroma_subsampling_y chroma_sample_position). Qed.

Lemma av1c_written_and_parsed_witness :
  exists data,
    write_av1c_box av1c_box = Ok (data, []) /\ len data = 12
    /\ parse_box_sequence 1 (0 + 12) MAP_IPCO_BOX None (mkReader data 0)
       = Ok ([parsed_leaf "av1C" 12 0 ∅ (av1c_body 1 1 0 0 0 0 0 0 1 1 0)],
             mkReader data (0 + 12)).
Proof.
  destruct (av1c_written_and_parsed av1c_box 1 1 0 0 0 0 0 0 1 1 0)
    as (data & Hw & Hl & Hp); try reflexivity.
  { unfold av1c_ranges. repeat split; (discriminate || reflexivity). }
  exists data. split; [exact Hw|]. split; [exact Hl|].
  apply (Hp 0%nat (mkReader data 0) []).
  - discriminate.
  - unfold remaining. cbn [file fpos]. rewrite app_nil_r. reflexivity.
Defined.

(* ===================================================================== *)
(** * Properties that are generated, written and parsed again             *)
(* ===================================================================== *)

Lemma field_or_default (parsed : gmap string Z) (key : string) (b : Z) :
  fields_ok parsed -> 0 < b ->
  (forall w, field_test key w = (0 <=? w) && (w <? b)) ->
  0 <= default 0 (parsed !! key) < b.
Proof.
  intros Hp Hb Hkey. destruct (parsed !! key) as [v|] eqn:E; cbn [from_option id]; [|lia].
  specialize (Hp _ _ E). cbv beta in Hp. rewrite Hkey in Hp.
  apply andb_true_iff in Hp as [H0 H1]. apply Z.leb_le in H0. apply Z.ltb_lt in H1. lia.
Qed.

(** The [av1C] body that is generated from a sequence header has every
    field within the bits that the box has for it. *)
Lemma generated_av1c_fields (data : list byte) (body : gmap string PyVal) :
  generate_av1c_from_sequence_header data = Ok body ->
  exists seq_profile seq_level_idx_0 seq_tier_0 high_bitdepth twelve_bit monochrome
         chroma_subsampling_x chroma_subsampling_y chroma_sample_position,
    body = av1c_body 1 1 seq_profile seq_level_idx_0 seq_tier_0 high_bitdepth twelve_bit
             monochrome chroma_subsampling_x chroma_subsampling_y chroma_sample_position
    /\ av1c_ranges 1 1 seq_profile seq_level_idx_0 seq_tier_0 high_bitdepth twelve_bit
         monochrome chroma_subsampling_x chroma_subsampling_y chroma_sample_position.
Proof.
  unfold generate_av1c_from_sequence_header. intros H.
  destruct (get_sequence_header_obu data) as [[obu|]| |] eqn:E; try discriminate.
  cbn [res_bind] in H. pose proof (get_sequence_header_obu_fields _ _ E) as Hp.
  repeat match type of H with
         | res_bind (py_getitem ?m ?k) _ = _ =>
             let v := fresh "v" in let Hv := fresh "Hv" in
             destruct (py_getitem m k) as [v| |] eqn:Hv; [|discriminate..];
             cbn [res_bind] in H
         end.
  destruct (py_assert (v6 =? 0)); try discriminate. cbn [res_bind] in H.
  injection H as <-.
  exists v, v0, v1, v2, (default 0 (obu_body obu !! "twelve_bit"%string)), v3, v4, v5,
         (default 0 (obu_body obu !! "chroma_sample_position"%string)).
  split; [reflexivity|].
  pose proof (field_in_bound _ _ _ 8 Hp Hv ltac:(intros; reflexivity)).
  pose proof (field_in_bound _ _ _ 32 Hp Hv0 ltac:(intros; reflexivity)).
  pose proof (field_in_bound _ _ _ 2 Hp Hv1 ltac:(intros; reflexivity)).
  pose proof (field_in_bound _ _ _ 2 Hp Hv2 ltac:(intros; reflexivity)).
  pose proof (field_in_bound _ _ _ 2 Hp Hv3 ltac:(intros; reflexivity)).
  pose proof (field_in_bound _ _ _ 2 Hp Hv4 ltac:(intros; reflexivity)).
  pose proof (field_in_bound _ _ _ 2 Hp Hv5 ltac:(intros; reflexivity)).
  pose proof (field_or_default _ "twelve_bit" 2 Hp ltac:(lia) ltac:(intros; reflexivity)).
  pose proof (field_or_default _ "chroma_sample_position" 4 Hp ltac:(lia)
                ltac:(intros; reflexivity)).
  unfold av1c_ranges. repeat split; lia.
Qed.

(** X18. The [av1C] body that [generate_av1c_from_sequence_header] returns
    is one that [write_av1c_box] writes and that [parse_box_sequence] reads
    back as it was generated: a box that the tool regenerates from a
    sequence header is the same for the next run. *)
Theorem generated_av1c_written_and_parsed (data : list byte)
    (generated : gmap string PyVal) (box : Box) :
  generate_av1c_from_sequence_header data = Ok generated ->
  box_type box = "av1C"%string -> header box = ∅ -> body box = generated ->
  exists bytes,
    write_av1c_box box = Ok (bytes, [])
    /\ forall depth r rest,
        0 <= fpos r -> remaining r = bytes ++ rest ->
        parse_box_sequence (S depth) (fpos r + 12) MAP_IPCO_BOX None r
        = Ok ([parsed_leaf "av1C" 12 (fpos r) ∅ generated],
              mkReader (file r) (fpos r + 12)).
Proof.
  intros Hgen Hty Hheader Hbody.
  destruct (generated_av1c_fields _ _ Hgen)
    as (profile & level & tier & hb & tb & mono & sx & sy & csp & -> & Hranges).
  destruct (av1c_round_trip box 1 1 profile level tier hb tb mono sx sy csp)
    as (bytes & Hw & _ & Hp); try assumption; try (rewrite Hbody; reflexivity).
  exists bytes. split; [exact Hw|exact Hp].
Qed.

Lemma generated_av1c_written_and_parsed_witness :
  exists generated bytes,
    generate_av1c_from_sequence_header sample_stream = Ok generated
    /\ write_av1c_box (set_body generated (Box_init "av1C" 0 0)) = Ok (bytes, [])
    /\ parse_box_sequence 1 (0 + 12) MAP_IPCO_BOX None (mkReader bytes 0)
       = Ok ([parsed_leaf "av1C" 12 0 ∅ generated], mkReader bytes (0 + 12)).
Proof.
  assert (F : match generate_av1c_from_sequence_header sample_stream with
              | Ok _ => True
              | _ => False
              end) by (vm_compute; exact I).
  destruct (generate_av1c_from_sequence_header sample_stream) as [generated| |] eqn:E;
    try contradiction.
  destruct (generated_av1c_written_and_parsed sample_stream generated
              (set_body generated (Box_init "av1C" 0 0)) E eq_refl eq_refl eq_refl)
    as (bytes & Hw & Hp).
  exists generated, bytes. split; [reflexivity|]. split; [exact Hw|].
  apply (Hp 0%nat (mkReader bytes 0) []).
  - discriminate.
  - unfold remaining. cbn [file fpos]. rewrite app_nil_r. reflexivity.
Defined.

(** The colour body that is generated from a sequence header has values of
    one byte and a range flag of one bit. *)
Lemma generated_nclx_fields (data : list byte) (body : gmap string PyVal) :
  generate_nclx_from_sequence_header data = Ok body ->
  exists cp tc mc fr,
    body = nclx_body cp tc mc fr
    /\ 0 <= cp < 256 /\ 0 <= tc < 256 /\ 0 <= mc < 256 /\ 0 <= fr < 2.
Proof.
  unfold generate_nclx_from_sequence_header. intros H.
  destruct (get_sequence_header_obu data) as [[obu|]| |] eqn:E; try discriminate.
  cbn [res_bind] in H. pose proof (get_sequence_header_obu_fields _ _ E) as Hp.
  destruct (py_getitem (obu_body obu) "color_primaries") as [cp| |] eqn:Hcp;
    try discriminate.
  destruct (py_getitem (obu_body obu) "transfer_characteristics") as [tc| |] eqn:Htc;
    try discriminate.
  destruct (py_getitem (obu_body obu) "matrix_coefficients") as [mc| |] eqn:Hmc;
    try discriminate.
  destruct (py_getitem (obu_body obu) "color_range") as [fr| |] eqn:Hfr;
    try discriminate.
  cbn [res_bind] in H. injection H as <-.
  exists cp, tc, mc, fr. split; [reflexivity|].
  pose proof (field_in_bound _ _ _ 256 Hp Hcp ltac:(intros; reflexivity)).
  pose proof (field_in_bound _ _ _ 256 Hp Htc ltac:(intros; reflexivity)).
  pose proof (field_in_bound _ _ _ 256 Hp Hmc ltac:(intros; reflexivity)).
  pose proof (field_in_bound _ _ _ 2 Hp Hfr ltac:(intros; reflexivity)).
  auto.
Qed.

(** X19. The [colr] body that [generate_nclx_from_sequence_header] returns
    is one that [write_colr_box] writes and that [parse_box_sequence] reads
    back as it was generated. *)
Theorem generated_nclx_written_and_parsed (data : list byte)
    (generated : gmap string PyVal) (box : Box) :
  generate_nclx_from_sequence_header data = Ok generated ->
  box_type box = "colr"%string -> needs_rewrite box = true -> header box = ∅ ->
  body box = generated ->
  exists bytes,
    write_colr_box box = Ok (bytes, [])
    /\ forall depth r rest,
        0 <= fpos r -> remaining r = bytes ++ rest ->
        parse_box_sequence (S depth) (fpos r + 19) MAP_IPCO_BOX None r
        = Ok ([parsed_leaf "colr" 19 (fpos r) ∅ generated],
              mkReader (file r) (fpos r + 19)).
Proof.
  intros Hgen Hty Hneeds Hheader Hbody.
  destruct (generated_nclx_fields _ _ Hgen) as (cp & tc & mc & fr & -> & H1 & H2 & H3 & H4).
  destruct (colr_round_trip box cp tc mc fr)
    as (bytes & Hw & _ & Hp); try assumption; try (rewrite Hbody; reflexivity); try lia.
  exists bytes. split; [exact Hw|exact Hp].
Qed.

Lemma generated_nclx_written_and_parsed_witness :
  exists generated bytes,
    generate_nclx_from_sequence_header sample_stream = Ok generated
    /\ write_colr_box (set_needs_rewrite true (set_body generated (Box_init "colr" 0 0)))
       = Ok (bytes, [])
    /\ parse_box_sequence 1 (0 + 19) MAP_IPCO_BOX None (mkReader bytes 0)
       = Ok ([parsed_leaf "colr" 19 0 ∅ generated], mkReader bytes (0 + 19)).
Proof.
  assert (F : match generate_nclx_from_sequence_header sample_stream with
              | Ok _ => True
              | _ => False
              end) by (vm_compute; exact I).
  destruct (generate_nclx_from_sequence_header sample_stream) as [generated| |] eqn:E;
    try contradiction.
  destruct (generated_nclx_written_and_parsed sample_stream generated
              (set_needs_rewrite true (set_body generated (Box_init "colr" 0 0)))
              E eq_refl eq_refl eq_refl eq_refl)
    as (bytes & Hw & Hp).
  exists generated, bytes. split; [reflexivity|]. split; [exact Hw|].
  apply (Hp 0%nat (mkReader bytes 0) []).
  - discriminate.
  - unfold remaining. cbn [file fpos]. rewrite app_nil_r. reflexivity.
Defined.

(** X20. The [pixi] body that [generate_pixi_from_sequence_header] returns
    is one that [write_pixi_box] writes, with the version and flags 0 that
    the tool gives the box, and that [parse_box_sequence] reads back as it
    was generated. *)
Theorem generated_pixi_written_and_parsed (data : list byte)
    (generated : gmap string PyVal) (box : Box) :
  generate_pixi_from_sequence_header data = Ok generated ->
  box_type box = "pixi"%string -> needs_rewrite box = true ->
  header box = full_header 0 0 -> body box = generated ->
  exists bytes,
    write_pixi_box box = Ok (bytes, [])
    /\ forall depth r rest,
        0 <= fpos r -> remaining r = bytes ++ rest ->
        parse_box_sequence (S depth) (fpos r + len bytes) MAP_IPCO_BOX None r
        = Ok ([parsed_leaf "pixi" (len bytes) (fpos r) (full_header 0 0) generated],
              mkReader (file r) (fpos r + len bytes)).
Proof.
  intros Hgen Hty Hneeds Hheader Hbody.
  destruct (generated_pixi_fields _ _ Hgen) as (planes & depth & -> & Hplanes & Hdepth).
  destruct (pixi_round_trip box 0 0 (replicate planes depth))
    as (bytes & Hw & _ & Hp); try assumption; try (rewrite Hbody; reflexivity);
    try (split; [discriminate|reflexivity]).
  - unfold len. rewrite length_replicate. lia.
  - apply Forall_replicate. lia.
  - exists bytes. split; [exact Hw|]. rewrite <- Hheader. exact Hp.
Qed.

Lemma generated_pixi_written_and_parsed_witness :
  exists generated bytes,
    generate_pixi_from_sequence_header sample_stream = Ok generated
    /\ write_pixi_box
         (set_needs_rewrite true
            (set_body generated (set_header (full_header 0 0) (Box_init "pixi" 0 0))))
       = Ok (bytes, [])
    /\ parse_box_sequence 1 (0 + len bytes) MAP_IPCO_BOX None (mkReader bytes 0)
       = Ok ([parsed_leaf "pixi" (len bytes) 0 (full_header 0 0) generated],
             mkReader bytes (0 + len bytes)).
Proof.
  assert (F : match generate_pixi_from_sequence_header sample_stream with
              | Ok _ => True
              | _ => False
              end) by (vm_compute; exact I).
  destruct (generate_pixi_from_sequence_header sample_stream) as [generated| |] eqn:E;
    try contradiction.
  destruct (generated_pixi_written_and_parsed sample_stream generated
              (set_needs_rewrite true
                 (set_body generated (set_header (full_header 0 0) (Box_init "pixi" 0 0))))
              E eq_refl eq_refl eq_refl eq_refl)
    as (bytes & Hw & Hp).
  exists generated, bytes. split; [reflexivity|]. split; [exact Hw|].
  apply (Hp 0%nat (mkReader bytes 0) []).
  - discriminate.
  - unfold remaining. cbn [file fpos]. rewrite app_nil_r. reflexivity.
Defined.

(** X21. The [ispe] body that [generate_ispe_from_sequence_header] returns
    is one that [write_ispe_box] writes, with the version and flags 0 that
    the tool gives the box, and that [parse_box_sequence] reads back as it
    was generated. *)
Theorem generated_ispe_written_and_parsed (data : list byte)
    (generated : gmap string PyVal) (box : Box) :
  generate_ispe_from_sequence_header data = Ok generated ->
  box_type box = "ispe"%string -> needs_rewrite box = true ->
  header box = full_header 0 0 -> body box = generated ->
  exists bytes,
    write_ispe_box box = Ok (bytes, [])
    /\ forall depth r rest,
        0 <= fpos r -> remaining r = bytes ++ rest ->
        parse_box_sequence (S depth) (fpos r + 20) MAP_IPCO_BOX None r
        = Ok ([parsed_leaf "ispe" 20 (fpos r) (full_header 0 0) generated],
              mkReader (file r) (fpos r + 20)).
Proof.
  intros Hgen Hty Hneeds Hheader Hbody.
  destruct (generated_ispe_fields _ _ Hgen) as (width & height & -> & Hwidth & Hheight).
  destruct (ispe_round_trip box 0 0 width height)
    as (bytes & Hw & _ & Hp); try assumption; try (rewrite Hbody; reflexivity);
    try (split; [discriminate|reflexivity]).
  - change (2 ^ 32) with 4294967296. lia.
  - change (2 ^ 32) with 4294967296. lia.
  - exists bytes. split; [exact Hw|]. rewrite <- Hheader. exact Hp.
Qed.

Lemma generated_ispe_written_and_parsed_witness :
  exists generated bytes,
    generate_ispe_from_sequence_header sample_stream = Ok generated
    /\ write_ispe_box
         (set_needs_rewrite true
            (set_body generated (set_header (full_header 0 0) (Box_init "ispe" 0 0))))
       = Ok (bytes, [])
    /\ parse_box_sequence 1 (0 + 20) MAP_IPCO_BOX None (mkReader bytes 0)
       = Ok ([parsed_leaf "ispe" 20 0 (full_header 0 0) generated],
             mkReader bytes (0 + 20)).
Proof.
  assert (F : match generate_ispe_from_sequence_header sample_stream with
              | Ok _ => True
              | _ => False
              end) by (vm_compute; exact I).
  destruct (generate_ispe_from_sequence_header sample_stream) as [generated| |] eqn:E;
    try contradiction.
  destruct (generated_ispe_written_and_parsed sample_stream generated
              (set_needs_rewrite true
                 (set_body generated (set_header (full_header 0 0) (Box_init "ispe" 0 0))))
              E eq_refl eq_refl eq_refl eq_refl)
    as (bytes & Hw & Hp).
  exists generated, bytes. split; [reflexivity|]. split; [exact Hw|].
  apply (Hp 0%nat (mkReader bytes 0) []).
  - discriminate.
  - unfold remaining. cbn [file fpos]. rewrite app_nil_r. reflexivity.
Defined.

(* ===================================================================== *)
(** * The file as a whole                                                 *)
(* ===================================================================== *)

(** X22. A file that [ParsedFile] parses up to its last byte and that no
    fixer has touched is written out by [AVIFWriter.write] byte for byte,
    given the turns that copying it in blocks of 32768 bytes takes. *)
Theorem unchanged_file_is_reproduced (depth fuel : nat) (input : list byte)
    (parsed_file : ParsedFile) :
  ParsedFile_init depth input = Ok parsed_file ->
  fpos (reader parsed_file) = len input ->
  len input <= 32768 * Z.of_nat fuel ->
  write fuel parsed_file out_empty = Ok (mkOut input (len input)).
Proof.
  intros Hparse Hend Hfuel.
  exact (parse_then_write_roundtrip depth fuel input parsed_file Hparse Hend Hfuel).
Qed.

Lemma unchanged_file_is_reproduced_witness :
  write 1 explicit_size_parsed out_empty = Ok (mkOut explicit_size_file 32).
Proof.
  apply (unchanged_file_is_reproduced 0 1 explicit_size_file explicit_size_parsed).
  - vm_compute. reflexivity.
  - reflexivity.
  - vm_compute. discriminate.
Defined.

(** X23. The top-level boxes that [ParsedFile] finds lie end to end: the
    first one starts at 0, each one has a size above 0 and starts where
    the one before it ends, and the reader is left at the end of the last
    one.  None of them is marked for rewriting, and the reader still holds
    the file that was given. *)
Theorem top_level_boxes_tile (depth : nat) (input : list byte) (parsed_file : ParsedFile) :
  ParsedFile_init depth input = Ok parsed_file ->
  file (reader parsed_file) = input
  /\ tiles 0 (boxes parsed_file) (fpos (reader parsed_file))
  /\ boxes_have_changed (boxes parsed_file) = false.
Proof. intros Hparse. exact (ParsedFile_init_tiles depth input parsed_file Hparse). Qed.

Lemma top_level_boxes_tile_witness :
  tiles 0 (boxes explicit_size_parsed) (fpos (reader explicit_size_parsed)).
Proof.
  apply (top_level_boxes_tile 0 explicit_size_file explicit_size_parsed).
  vm_compute. reflexivity.
Defined.

(* ===================================================================== *)
(** * The placeholders of the chunk offsets                               *)
(* ===================================================================== *)

Lemma write_integer_of_size_bytes (value nbytes : Z) (data : list byte) :
  write_integer_of_size value nbytes true = Ok data ->
  data = be_bytes (Z.to_nat nbytes) value /\ len data = nbytes.
Proof.
  intros H. unfold write_integer_of_size in H.
  destruct (struct_size_cases nbytes) as [[Hfmt Hs]|[Hfmt _]]; rewrite Hfmt in H;
    [|discriminate].
  cbn [res_bind] in H. unfold struct_pack in H.
  destruct ((0 <=? value) && (value <? 2 ^ (8 * nbytes))); [|discriminate].
  injection H as <-. split; [reflexivity|].
  unfold len. rewrite length_be_bytes. unfold struct_size in Hs. lia.
Qed.

Lemma fold_left_raise {A B} (step : result A -> B -> result A) (l : list B) (e : PyError) :
  (forall b, step (Raise e) b = Raise e) -> fold_left step l (Raise e) = Raise e.
Proof. intros Hstep. induction l as [|b l IH]; [reflexivity|]. cbn. rewrite Hstep. exact IH. Qed.

Lemma fold_left_out_of_fuel {A B} (step : result A -> B -> result A) (l : list B) :
  (forall b, step OutOfFuel b = OutOfFuel) -> fold_left step l OutOfFuel = OutOfFuel.
Proof. intros Hstep. induction l as [|b l IH]; [reflexivity|]. cbn. rewrite Hstep. exact IH. Qed.

(** The loop of [write_stco_box]: every turn adds the four bytes of an
    entry, and a placeholder for the place where they are. *)
Lemma stco_loop (off : Z) (entries : list Z) (acc : list byte)
    (ph : list PlaceholderFileOffset) (body_data : list byte)
    (placeholders : list PlaceholderFileOffset) :
  fold_left (fun acc entry =>
               res_bind acc (fun '(body_data, placeholder_offsets) =>
               let placeholder := mkPlaceholder (off + len body_data) 4 entry [] in
               res_bind (write_integer_of_size entry 4 true) (fun b =>
               Ok (body_data ++ b, placeholder_offsets ++ [placeholder]))))
            entries (Ok (acc, ph))
  = Ok (body_data, placeholders) ->
  exists ds new,
    body_data = acc ++ ds /\ placeholders = ph ++ new /\ map ph_value new = entries
    /\ Forall (points_at_value (off + len acc) ds) new.
Proof.
  revert acc ph. induction entries as [|e l IH]; intros acc ph H.
  - injection H as <- <-. exists [], []. rewrite !app_nil_r. repeat split. constructor.
  - cbn [fold_left res_bind] in H.
    destruct (write_integer_of_size e 4 true) as [b| |] eqn:Hb.
    + cbn [res_bind] in H. apply IH in H as (ds & new & -> & -> & Hv & Hnew).
      apply write_integer_of_size_bytes in Hb as [Hb Hlen].
      change (Z.to_nat 4) with 4%nat in Hb.
      exists (b ++ ds), (mkPlaceholder (off + len acc) 4 e [] :: new).
      rewrite <- !app_assoc. cbn [app map ph_value]. rewrite Hv.
      repeat split. constructor.
      * unfold points_at_value. cbn [ph_size ph_dependents ph_file_pos ph_value].
        repeat split; try lia.
        rewrite Z.sub_diag. change (Z.to_nat 0) with 0%nat. rewrite drop_0.
        rewrite take_app_length' by (unfold len in Hlen; lia). exact Hb.
      * eapply Forall_impl; [exact Hnew|]. intros p (H1 & H2 & H3 & H4).
        assert (Hacc : len (acc ++ b) = len acc + 4)
          by (unfold len in *; rewrite length_app; lia).
        rewrite Hacc in H3, H4.
        unfold points_at_value. repeat split; try assumption; try lia.
        rewrite <- H4.
        replace (Z.to_nat (ph_file_pos p - (off + len acc)))
          with (length b + Z.to_nat (ph_file_pos p - (off + (len acc + 4))))%nat
          by (unfold len in Hlen; lia).
        rewrite drop_app_add'; reflexivity.
    + cbn [res_bind] in H. rewrite fold_left_raise in H by reflexivity. discriminate.
    + cbn [res_bind] in H. rewrite fold_left_out_of_fuel in H by reflexivity.
      discriminate.
Qed.

Lemma write_box_header_full_length (box : Box) (body_size : Z) (hd : list byte) :
  header box <> ∅ -> write_box_header box body_size = Ok hd -> len hd = 12.
Proof.
  intros Hne H. unfold write_box_header in H.
  destruct (Z.eqb_spec (len (encode (box_type box))) 4) as [Hty|]; [|discriminate].
  cbn [py_assert res_bind] in H.
  rewrite bool_decide_eq_false_2 in H by exact Hne. cbn [negb] in H.
  destruct (_ <=? 4294967295); [|discriminate]. cbn [py_assert res_bind] in H.
  destruct (struct_pack (4, true) _) as [d| |] eqn:Hd; try discriminate.
  cbn [res_bind] in H.
  destruct (py_getitem (header box) "version") as [version| |]; try discriminate.
  cbn [res_bind] in H.
  destruct (struct_pack (1, true) version) as [v| |] eqn:Hv; try discriminate.
  cbn [res_bind] in H.
  destruct (py_getitem (header box) "flags") as [flags| |]; try discriminate.
  cbn [res_bind] in H.
  destruct (struct_pack (4, true) flags) as [fl| |] eqn:Hf; try discriminate.
  injection H as <-.
  apply (struct_unpack_pack 4 true) in Hd as [_ Hd]; [|lia].
  apply (struct_unpack_pack 1 true) in Hv as [_ Hv]; [|lia].
  apply (struct_unpack_pack 4 true) in Hf as [_ Hf]; [|lia].
  unfold len in *. rewrite !length_app, length_drop. lia.
Qed.

(** X24. Every placeholder that [write_stco_box] returns stands for one
    entry of the box, in their order, and is of four bytes; its file
    position is, in the bytes that are written at [current_offset], the
    place of the four bytes that hold the entry: this is where
    [write_delta] patches the offset later. *)
Theorem stco_placeholders_point_at_entries (box : Box) (current_offset : Z)
    (entries : list Z) (data : list byte) (placeholders : list PlaceholderFileOffset) :
  header box <> ∅ ->
  body box !! "entries"%string = Some (PyIntList entries) ->
  write_stco_box box current_offset = Ok (data, placeholders) ->
  map ph_value placeholders = entries
  /\ Forall (points_at_value current_offset data) placeholders.
Proof.
  intros Hheader Hentries H. unfold write_stco_box, py_getitem in H.
  destruct (needs_rewrite box); [|discriminate]. cbn [py_assert res_bind] in H.
  rewrite Hentries in H. cbn [res_bind as_int_list] in H.
  destruct (write_integer_of_size (len entries) 4 true) as [count| |] eqn:Hcount;
    try discriminate.
  cbn [res_bind] in H.
  destruct (fold_left _ entries (Ok (count, []))) as [[body_data phs]| |] eqn:Hloop;
    try discriminate.
  cbn [res_bind] in H.
  destruct (write_box_header box (len body_data)) as [hd| |] eqn:Hhd; try discriminate.
  injection H as <- <-.
  apply write_integer_of_size_bytes in Hcount as [_ Hclen].
  apply (write_box_header_full_length _ _ _ Hheader) in Hhd.
  apply (stco_loop (current_offset + 12)) in Hloop as (ds & new & -> & -> & Hv & Hnew).
  cbn [app]. split; [exact Hv|].
  eapply Forall_impl; [exact Hnew|]. intros p (H1 & H2 & H3 & H4).
  rewrite Hclen in H3, H4.
  unfold points_at_value. repeat split; try assumption; try lia.
  rewrite <- H4.
  replace (Z.to_nat (ph_file_pos p - current_offset))
    with (length hd + (length count
                       + Z.to_nat (ph_file_pos p - (current_offset + 12 + 4))))%nat
    by (unfold len in *; lia).
  rewrite drop_app_add', drop_app_add'; reflexivity.
Qed.

Lemma stco_placeholders_point_at_entries_witness :
  exists data placeholders,
    write_stco_box stco_box 50 = Ok (data, placeholders)
    /\ map ph_value placeholders = [100; 200]
    /\ Forall (points_at_value 50 data) placeholders.
Proof.
  assert (F : match write_stco_box stco_box 50 with Ok _ => True | _ => False end)
    by (vm_compute; exact I).
  destruct (write_stco_box stco_box 50) as [[data placeholders]| |] eqn:E;
    try contradiction.
  exists data, placeholders. split; [reflexivity|].
  apply (stco_placeholders_point_at_entries stco_box 50 [100; 200] data placeholders).
  - intros H. apply (f_equal (lookup "version"%string)) in H. discriminate H.
  - reflexivity.
  - exact E.
Defined.

(* ===================================================================== *)
(** * The brands of the file                                              *)
(* ===================================================================== *)

Lemma py_remove_first {A} `{EqDecision A} (x : A) (l1 l2 : list A) :
  x ∉ l1 -> py_remove x (l1 ++ x :: l2) = Ok (l1 ++ l2).
Proof.
  induction l1 as [|y l1 IH]; intros Hnot; cbn [app py_remove].
  - rewrite decide_True by reflexivity. reflexivity.
  - apply not_elem_of_cons in Hnot as [Hne Hnot].
    rewrite decide_False by congruence. rewrite (IH Hnot). reflexivity.
Qed.

Lemma py_remove_missing {A} `{EqDecision A} (x : A) (l : list A) :
  x ∉ l -> py_remove x l = Raise ValueError.
Proof.
  induction l as [|y l IH]; intros Hnot; cbn [py_remove]; [reflexivity|].
  apply not_elem_of_cons in Hnot as [Hne Hnot].
  rewrite decide_False by congruence. rewrite (IH Hnot). reflexivity.
Qed.

Lemma py_remove_ok {A} `{EqDecision A} (x : A) (l l' : list A) :
  py_remove x l = Ok l' ->
  exists l1 l2, l = l1 ++ x :: l2 /\ (x ∉ l1) /\ l' = l1 ++ l2.
Proof.
  revert l'. induction l as [|y l IH]; intros l' H; cbn [py_remove] in H; [discriminate|].
  destruct (decide (y = x)) as [->|Hne].
  - injection H as <-. exists [], l. repeat split. apply not_elem_of_nil.
  - destruct (py_remove x l) as [r| |]; try discriminate. injection H as <-.
    destruct (IH r eq_refl) as (l1 & l2 & -> & Hnot & ->).
    exists (y :: l1), l2. repeat split. apply not_elem_of_cons. split; congruence.
Qed.

(** X25. [_fix_brand] for a brand that is not the major brand takes the
    first occurrence of the brand out of the compatible brands, and only
    that one: a brand that is listed twice is still listed.  It marks the
    box for rewriting and leaves the rest of the body as it is; it raises
    ValueError where the brand is not listed. *)
Theorem fix_brand_removes_first (brand major : string) (compatible : list (option string))
    (ftyp : Box) :
  body ftyp !! "major"%string = Some (PyStr major) ->
  body ftyp !! "compatible"%string = Some (PyStrList compatible) ->
  brand <> major ->
  (Some brand ∉ compatible -> fix_brand brand ftyp = Raise ValueError)
  /\ (forall l1 l2,
        compatible = l1 ++ Some brand :: l2 -> Some brand ∉ l1 ->
        fix_brand brand ftyp
        = Ok (set_needs_rewrite true
                (set_body (<["compatible"%string := PyStrList (l1 ++ l2)]> (body ftyp))
                          ftyp)))
  /\ (forall ftyp',
        fix_brand brand ftyp = Ok ftyp' ->
        exists compatible',
          body ftyp' !! "compatible"%string = Some (PyStrList compatible')
          /\ length compatible = S (length compatible')
          /\ (forall other, other <> Some brand ->
                other ∈ compatible' <-> other ∈ compatible)
          /\ needs_rewrite ftyp' = true
          /\ forall key, key <> "compatible"%string ->
               body ftyp' !! key = body ftyp !! key).
Proof.
  intros Hmajor Hcompatible Hne.
  assert (Hrun : fix_brand brand ftyp
                 = res_bind (py_remove (Some brand) compatible) (fun compatible' =>
                   Ok (set_needs_rewrite true
                         (set_body (<["compatible"%string := PyStrList compatible']>
                                      (body ftyp)) ftyp)))).
  { unfold fix_brand, py_getitem. rewrite Hmajor, Hcompatible. cbn [res_bind].
    rewrite bool_decide_eq_false_2 by congruence.
    destruct (py_remove (Some brand) compatible); reflexivity. }
  rewrite Hrun. split; [|split].
  - intros Hnot. rewrite (py_remove_missing _ _ Hnot). reflexivity.
  - intros l1 l2 -> Hnot. rewrite (py_remove_first _ _ _ Hnot). reflexivity.
  - intros ftyp' H.
    destruct (py_remove (Some brand) compatible) as [compatible'| |] eqn:E;
      try discriminate.
    injection H as <-. exists compatible'.
    apply py_remove_ok in E as (l1 & l2 & -> & Hnot & ->).
    cbn [set_needs_rewrite set_body body needs_rewrite].
    split; [apply lookup_insert_eq|]. split.
    { rewrite !length_app. cbn [length]. lia. }
    split.
    { intros other Hother. rewrite !elem_of_app, elem_of_cons. intuition congruence. }
    split; [reflexivity|].
    intros key Hkey. apply lookup_insert_ne. congruence.
Qed.

Lemma fix_brand_removes_first_witness :
  fix_brand "MA1B" ftyp_box
  = Ok (set_needs_rewrite true
          (set_body (<["compatible"%string := PyStrList [Some "avif"; Some "mif1"]%string]>
                       (body ftyp_box)) ftyp_box)).
Proof.
  apply (proj1 (proj2 (fix_brand_removes_first "MA1B" "avif"
                         [Some "avif"; Some "MA1B"; Some "mif1"]%string ftyp_box
                         eq_refl eq_refl ltac:(discriminate)))
           [Some "avif"%string] [Some "mif1"%string] eq_refl).
  intros H. apply list_elem_of_singleton in H. discriminate H.
Defined.

Lemma type_ok_ftyp : type_ok "ftyp".
Proof. split; reflexivity. Qed.

Lemma length_brands (brands : list string) :
  Forall type_ok brands -> len (concat (map encode brands)) = 4 * len brands.
Proof.
  intros H. induction H as [|b l [Hb _] _ IH]; [reflexivity|].
  cbn [map concat]. unfold len in *. rewrite length_app. cbn [length]. lia.
Qed.

(** The loop of [write_ftyp_box] over the compatible brands. *)
Lemma write_brands_loop (brands : list string) (acc : list byte) :
  fold_left (fun acc brand =>
               res_bind acc (fun done =>
               res_bind (py_encode (py_str brand)) (fun b => Ok (done ++ b))))
            (map Some brands) (Ok acc)
  = Ok (acc ++ concat (map encode brands)).
Proof.
  revert acc. induction brands as [|b l IH]; intros acc; cbn [map fold_left concat].
  - rewrite app_nil_r. reflexivity.
  - cbn [res_bind py_str py_encode]. rewrite IH, <- app_assoc. reflexivity.
Qed.

Lemma reads_brands (brands : list string) :
  Forall type_ok brands ->
  reads (fun end_ => read_brands end_ (length brands)) (concat (map encode brands))
        (map Some brands).
Proof.
  intros H. induction H as [|b l Hb _ IH]; [exact (reads_ret [])|].
  cbn [length read_brands map concat].
  reads_step; [apply reads_string; exact Hb|].
  rewrite <- (app_nil_r (concat (map encode l))).
  reads_step; [exact IH|]. apply reads_ret.
Qed.

Lemma forallb_is_Some (brands : list string) :
  forallb (fun b : option string => bool_decide (is_Some b)) (map Some brands) = true.
Proof.
  induction brands as [|b l IH]; [reflexivity|]. cbn [map forallb].
  rewrite bool_decide_eq_true_2 by (eexists; reflexivity). exact IH.
Qed.

Lemma parse_ftyp_box_written (b : Box) (r1 : FileReader) (rest : list byte)
    (major : string) (version : Z) (brands : list string) :
  type_ok major -> Forall type_ok brands -> 0 <= version < 4294967296 ->
  box_end b = fpos r1 + (8 + 4 * len brands) -> 0 <= fpos r1 ->
  remaining r1
  = (encode major ++ be_bytes 4 version ++ concat (map encode brands)) ++ rest ->
  parse_ftyp_box b (file r1) (fpos r1)
  = Ok (ftyp_body major version brands, b, fpos r1 + (8 + 4 * len brands)).
Proof.
  intros Hmajor Hbrands Hversion Hend Hpos Hrem.
  pose proof (length_brands brands Hbrands) as Hlen.
  pose proof (proj1 Hmajor) as Hmlen.
  assert (Hb : 0 <= len brands) by (unfold len; lia).
  unfold parse_ftyp_box, body_parser_of.
  replace (mkReader (file r1) (fpos r1)) with r1 by (destruct r1; reflexivity).
  rewrite <- !app_assoc in Hrem.
  rewrite (st_bind_eq _ _ _ _ _
             (reads_string major Hmajor r1 _ (box_end b) Hpos ltac:(lia) Hrem)).
  pose proof (remaining_advance r1 _ _ Hpos Hrem) as Hrem2.
  set (r2 := mkReader (file r1) (fpos r1 + len (encode major))) in *.
  assert (Hversion' : reads (fun end_ => read_integer_of_size end_ 4 true)
                        (be_bytes 4 version) version).
  { apply reads_integer, (write_integer_unsigned version 4);
      [unfold struct_size; lia|exact Hversion]. }
  rewrite (st_bind_eq _ _ _ _ _
             (Hversion' r2 _ (box_end b) ltac:(subst r2; cbn [fpos]; lia)
                ltac:(subst r2; cbn [fpos]; change (len (be_bytes 4 version)) with 4; lia)
                Hrem2)).
  pose proof (remaining_advance r2 _ _ ltac:(subst r2; cbn [fpos]; lia) Hrem2) as Hrem3.
  set (r3 := mkReader (file r2) (fpos r2 + len (be_bytes 4 version))) in *.
  assert (Hpos3 : fpos r3 = fpos r1 + 8).
  { subst r3 r2. cbn [fpos]. change (len (be_bytes 4 version)) with 4. lia. }
  unfold st_bind at 1. unfold position at 1.
  replace (Z.to_nat (Z.quot (box_end b - fpos r3) 4)) with (length brands).
  2:{ rewrite Hend, Hpos3.
      replace (fpos r1 + (8 + 4 * len brands) - (fpos r1 + 8)) with (len brands * 4) by lia.
      rewrite Z.quot_mul by lia. unfold len. lia. }
  rewrite (st_bind_eq _ _ _ _ _
             (reads_brands brands Hbrands r3 rest (box_end b) ltac:(lia) ltac:(lia)
                ltac:(rewrite Hrem3; reflexivity))).
  rewrite forallb_is_Some. unfold st_bind, st_ret. cbn [fpos file].
  rewrite Hlen, Hpos3. cbn [res_bind fpos]. f_equal. f_equal. lia.
Qed.

(** An [ftyp] box, written and parsed again. *)
Lemma ftyp_round_trip (box : Box) (major : string) (version : Z) (brands : list string) :
  box_type box = "ftyp"%string -> needs_rewrite box = true -> header box = ∅ ->
  body box !! "major"%string = Some (PyStr major) ->
  body box !! "version"%string = Some (PyInt version) ->
  body box !! "compatible"%string = Some (PyStrList (map Some brands)) ->
  type_ok major -> Forall type_ok brands -> 0 <= version < 2 ^ 32 ->
  16 + 4 * len brands < 2 ^ 32 ->
  exists data,
    write_ftyp_box box = Ok (data, []) /\ len data = 16 + 4 * len brands
    /\ forall depth depth' r rest,
        0 <= fpos r -> remaining r = data ++ rest ->
        parse_box_sequence (S depth) (fpos r + len data) (MAP_TOP_LEVEL depth') None r
        = Ok ([parsed_leaf "ftyp" (len data) (fpos r) ∅ (ftyp_body major version brands)],
              mkReader (file r) (fpos r + len data)).
Proof.
  intros Hty Hneeds Hheader Hmajor' Hversion' Hbrands' Hmajor Hbrands Hversion Hsize.
  change (2 ^ 32) with 4294967296 in *.
  pose proof (length_brands brands Hbrands) as Hblen.
  pose proof (proj1 Hmajor) as Hmlen.
  assert (Hb : 0 <= len brands) by (unfold len; lia).
  set (body_data := encode major ++ be_bytes 4 version ++ concat (map encode brands)).
  assert (Hhb : header_bytes false (header box) []) by (split; [exact Hheader|reflexivity]).
  assert (Hlen : len body_data = 8 + 4 * len brands).
  { unfold body_data, len in *. rewrite !length_app, length_be_bytes. lia. }
  assert (Hdlen : len ((be_bytes 4 (16 + 4 * len brands) ++ encode "ftyp" ++ [])
                       ++ body_data) = 16 + 4 * len brands).
  { unfold len in *. rewrite !length_app, length_be_bytes. simpl length. lia. }
  exists ((be_bytes 4 (16 + 4 * len brands) ++ encode "ftyp" ++ []) ++ body_data).
  split; [|split].
  - unfold write_ftyp_box, body_int, py_getitem.
    rewrite Hneeds, Hmajor', Hversion', Hbrands'.
    cbn [py_assert res_bind py_encode as_int].
    rewrite (write_integer_unsigned version 4) by (try (unfold struct_size; lia); assumption).
    cbn [res_bind]. rewrite (write_brands_loop brands []). cbn [res_bind app].
    unfold with_header. change (Z.to_nat 4) with 4%nat. fold body_data.
    rewrite (write_box_header_plain box (len body_data));
      [|rewrite Hty; reflexivity|exact Hheader|lia].
    rewrite Hty, Hlen. cbn [res_bind].
    replace (8 + (8 + 4 * len brands)) with (16 + 4 * len brands) by lia.
    rewrite app_nil_r. reflexivity.
  - exact Hdlen.
  - intros depth depth' r rest Hpos Hrem. rewrite Hdlen.
    apply (leaf_box_parses depth (MAP_TOP_LEVEL depth') "File Type Box" false
             parse_ftyp_box "ftyp" ∅ [] body_data rest _ (16 + 4 * len brands) r);
      try assumption; try reflexivity; try exact type_ok_ftyp;
      try (split; reflexivity); try (change (len []) with 0; lia);
      try (rewrite Hrem, <- !app_assoc; reflexivity).
    intros b r1 Hb1 Hend Hpos1 Hrem1. rewrite Hlen in *.
    exact (parse_ftyp_box_written b r1 rest major version brands Hmajor Hbrands Hversion
             Hend Hpos1 Hrem1).
Qed.

(** X26. An [ftyp] box that is marked for rewriting, with a major brand
    and compatible brands of four bytes each that decode to themselves and
    a version below 2^32, is written by [write_ftyp_box] as 16 bytes and
    four for each compatible brand; wherever these are in a file,
    [parse_box_sequence] reads them back, with the top-level recipes, as
    one box of the same type, major brand, version and compatible
    brands. *)
Theorem ftyp_written_and_parsed (box : Box) (major : string) (version : Z)
    (brands : list string) :
  box_type box = "ftyp"%string -> needs_rewrite box = true -> header box = ∅ ->
  body box !! "major"%string = Some (PyStr major) ->
  body box !! "version"%string = Some (PyInt version) ->
  body box !! "compatible"%string = Some (PyStrList (map Some brands)) ->
  type_ok major -> Forall type_ok brands -> 0 <= version < 2 ^ 32 ->
  16 + 4 * len brands < 2 ^ 32 ->
  exists data,
    write_ftyp_box box = Ok (data, []) /\ len data = 16 + 4 * len brands
    /\ forall depth depth' r rest,
        0 <= fpos r -> remaining r = data ++ rest ->
        parse_box_sequence (S depth) (fpos r + len data) (MAP_TOP_LEVEL depth') None r
        = Ok ([parsed_leaf "ftyp" (len data) (fpos r) ∅ (ftyp_body major version brands)],
              mkReader (file r) (fpos r + len data)).
Proof. exact (ftyp_round_trip box major version brands). Qed.

Lemma ftyp_written_and_parsed_witness :
  exists data,
    write_ftyp_box (set_needs_rewrite true ftyp_box) = Ok (data, []) /\ len data = 28
    /\ parse_box_sequence 1 (0 + len data) (MAP_TOP_LEVEL 0) None (mkReader data 0)
       = Ok ([parsed_leaf "ftyp" (len data) 0 ∅
                (ftyp_body "avif" 0 ["avif"; "MA1B"; "mif1"]%string)],
             mkReader data (0 + len data)).
Proof.
  assert (Hmajor : type_ok "avif") by (split; reflexivity).
  assert (Hbrands : Forall type_ok ["avif"; "MA1B"; "mif1"]%string)
    by (repeat constructor).
  assert (Hversion : 0 <= 0 < 2 ^ 32) by (split; [discriminate|reflexivity]).
  assert (Hsize : 16 + 4 * len ["avif"; "MA1B"; "mif1"]%string < 2 ^ 32) by reflexivity.
  destruct (ftyp_written_and_parsed (set_needs_rewrite true ftyp_box) "avif" 0
              ["avif"; "MA1B"; "mif1"]%string eq_refl eq_refl eq_refl eq_refl eq_refl
              eq_refl Hmajor Hbrands Hversion Hsize)
    as (data & Hw & Hl & Hp).
  exists data. split; [exact Hw|]. split; [exact Hl|].
  apply (Hp 0%nat 0%nat (mkReader data 0) []).
  - discriminate.
  - unfold remaining. cbn [file fpos]. rewrite app_nil_r. reflexivity.
Defined.

(** X27. The brand fixer, from end to end: where the compatible brands of
    an [ftyp] box list a brand that is not the major one, [_fix_brand]
    takes its first occurrence out, [write_ftyp_box] writes the box that
    results, and [parse_box_sequence] reads what was written back as the
    same major brand and version with the brands that are left. *)
Theorem fixed_brands_written_and_parsed (brand major : string) (version : Z)
    (brands1 brands2 : list string) (ftyp : Box) :
  box_type ftyp = "ftyp"%string -> header ftyp = ∅ ->
  body ftyp = ftyp_body major version (brands1 ++ brand :: brands2) ->
  brand ∉ brands1 -> brand <> major ->
  type_ok major -> Forall type_ok (brands1 ++ brands2) -> 0 <= version < 2 ^ 32 ->
  16 + 4 * len (brands1 ++ brands2) < 2 ^ 32 ->
  exists ftyp' data,
    fix_brand brand ftyp = Ok ftyp'
    /\ write_ftyp_box ftyp' = Ok (data, [])
    /\ forall depth depth' r rest,
        0 <= fpos r -> remaining r = data ++ rest ->
        parse_box_sequence (S depth) (fpos r + len data) (MAP_TOP_LEVEL depth') None r
        = Ok ([parsed_leaf "ftyp" (len data) (fpos r) ∅
                 (ftyp_body major version (brands1 ++ brands2))],
              mkReader (file r) (fpos r + len data)).
Proof.
  intros Hty Hheader Hbody Hnot Hne Hmajor Hbrands Hversion Hsize.
  set (ftyp' := set_needs_rewrite true
                  (set_body (<["compatible"%string :=
                                 PyStrList (map Some (brands1 ++ brands2))]> (body ftyp))
                            ftyp)).
  assert (Hfix : fix_brand brand ftyp = Ok ftyp').
  { unfold fix_brand, py_getitem. rewrite Hbody. unfold ftyp_body.
    rewrite lookup_insert_eq. cbn [res_bind].
    rewrite !lookup_insert_ne, lookup_singleton_eq by discriminate. cbn [res_bind].
    rewrite bool_decide_eq_false_2 by congruence.
    rewrite map_app. cbn [map].
    rewrite py_remove_first.
    - cbn [res_bind]. unfold ftyp'. rewrite Hbody, map_app. reflexivity.
    - intros Hin. apply list_elem_of_fmap in Hin as (b & Hb & Hin).
      injection Hb as ->. contradiction. }
  destruct (ftyp_round_trip ftyp' major version (brands1 ++ brands2))
    as (data & Hw & _ & Hp); try assumption; try reflexivity.
  - unfold ftyp'. cbn [set_needs_rewrite set_body body]. rewrite Hbody. reflexivity.
  - unfold ftyp'. cbn [set_needs_rewrite set_body body]. rewrite Hbody. reflexivity.
  - unfold ftyp'. cbn [set_needs_rewrite set_body body]. apply lookup_insert_eq.
  - exists ftyp', data. split; [exact Hfix|]. split; [exact Hw|exact Hp].
Qed.

Lemma fixed_brands_written_and_parsed_witness :
  exists ftyp' data,
    fix_brand "MA1B" ftyp_box = Ok ftyp'
    /\ write_ftyp_box ftyp' = Ok (data, [])
    /\ parse_box_sequence 1 (0 + len data) (MAP_TOP_LEVEL 0) None (mkReader data 0)
       = Ok ([parsed_leaf "ftyp" (len data) 0 ∅ (ftyp_body "avif" 0 ["avif"; "mif1"]%string)],
             mkReader data (0 + len data)).
Proof.
  assert (Hnot : "MA1B"%string ∉ ["avif"%string]).
  { intros H. apply list_elem_of_singleton in H. discriminate H. }
  assert (Hne : "MA1B"%string <> "avif"%string) by discriminate.
  assert (Hmajor : type_ok "avif") by (split; reflexivity).
  assert (Hbrands : Forall type_ok (["avif"%string] ++ ["mif1"%string])) by (repeat constructor).
  assert (Hversion : 0 <= 0 < 2 ^ 32) by (split; [discriminate|reflexivity]).
  assert (Hsize : 16 + 4 * len (["avif"%string] ++ ["mif1"%string]) < 2 ^ 32) by reflexivity.
  destruct (fixed_brands_written_and_parsed "MA1B" "avif" 0 ["avif"%string]
              ["mif1"%string] ftyp_box eq_refl eq_refl eq_refl Hnot Hne Hmajor Hbrands
              Hversion Hsize)
    as (ftyp' & data & Hfix & Hw & Hp).
  exists ftyp', data. split; [exact Hfix|]. split; [exact Hw|].
  apply (Hp 0%nat 0%nat (mkReader data 0) []).
  - discriminate.
  - unfold remaining. cbn [file fpos]. rewrite app_nil_r. reflexivity.
Defined.

(* ===================================================================== *)
(** * The properties of an item, once they are set                        *)
(* ===================================================================== *)

Lemma collect_properties_within (props : list Box) (l : list (Z * bool)) :
  indices_within (len props) l ->
  exists listed,
    collect_properties props l = Ok listed
    /\ length listed = length l
    /\ forall a, a ∈ l ->
         exists box, props !! Z.to_nat (a.1 - 1) = Some box /\ (box, a.2) ∈ listed.
Proof.
  intros H. induction H as [|[index essential] l Ha _ IH].
  - exists []. repeat split. intros a Ha. inversion Ha.
  - destruct IH as (listed & Hl & Hlen & Hin). cbn [fst] in Ha.
    destruct (lookup_lt_is_Some_2 props (Z.to_nat (index - 1))) as [box Hbox];
      [unfold len in Ha; lia|].
    exists ((box, essential) :: listed). cbn [collect_properties].
    rewrite (proj2 (Z.leb_le 1 index)) by lia.
    rewrite (proj2 (Z.leb_le index (len props + 1))) by lia.
    cbn [andb py_assert res_bind].
    rewrite (py_index_within props (index - 1) box) by (try lia; exact Hbox).
    cbn [res_bind]. rewrite Hl. cbn [res_bind]. split; [reflexivity|].
    split; [cbn [length]; lia|].
    intros a Hin'. apply elem_of_cons in Hin' as [->|Hin'].
    + exists box. split; [exact Hbox|]. apply elem_of_cons. left. reflexivity.
    + destruct (Hin a Hin') as (b & Hb & Hb'). exists b. split; [exact Hb|].
      apply elem_of_cons. right. exact Hb'.
Qed.

Lemma get_item_properties_listed (self : ParsedFile) (ipma_box ipco_box : Box)
    (props : list Box) (m : gmap Z (list (Z * bool))) (item_id : Z) :
  property_boxes self = Some (ipma_box, ipco_box, props) ->
  associations_of ipma_box = Ok m ->
  indices_within (len props) (default [] (m !! item_id)) ->
  exists listed,
    get_item_properties_for_item self item_id = Ok listed
    /\ length listed = length (default [] (m !! item_id))
    /\ forall a, a ∈ default [] (m !! item_id) ->
         exists box, props !! Z.to_nat (a.1 - 1) = Some box /\ (box, a.2) ∈ listed.
Proof.
  intros Hboxes Hm Hw. unfold get_item_properties_for_item. rewrite Hboxes, Hm.
  cbn [res_bind]. exact (collect_properties_within props _ Hw).
Qed.

(** What [add_property_association] leaves for the item: a list within
    the properties, with an association to the property, which is
    essential if this was asked for. *)
Lemma add_property_association_listed (self : ParsedFile) (ipma_box ipco_box : Box)
    (props : list Box) (m : gmap Z (list (Z * bool)))
    (item_id ipco_index : Z) (essential : bool) (position : option Z) :
  property_boxes self = Some (ipma_box, ipco_box, props) ->
  associations_of ipma_box = Ok m ->
  indices_within (len props) (default [] (m !! item_id)) ->
  0 <= ipco_index < len props ->
  exists self' ipma' (m' : gmap Z (list (Z * bool))) e,
    add_property_association self item_id ipco_index essential position = Ok self'
    /\ property_boxes self' = Some (ipma', ipco_box, props)
    /\ associations_of ipma' = Ok m'
    /\ indices_within (len props) (default [] (m' !! item_id))
    /\ (ipco_index + 1, e) ∈ default [] (m' !! item_id)
    /\ (essential = true -> e = true).
Proof.
  intros Hboxes Hm Hw Hi.
  rewrite (add_property_association_run self ipma_box ipco_box props m _ _ _ _
             Hboxes Hm Hw).
  cbv zeta. set (l := default [] (m !! item_id)) in *.
  destruct (first_association ipco_index l) as [[k a]|] eqn:Hfirst.
  - apply first_association_lt in Hfirst as (Hk & Ha & Hlt).
    destruct a as [index existing]. cbn [fst snd] in *. subst index.
    destruct (essential && negb existing) eqn:Hup.
    + eexists _, _, _, true. split; [reflexivity|].
      split; [exact (property_boxes_with_associations _ _ _ _ _ _ Hboxes)|].
      split; [apply associations_of_set|].
      rewrite lookup_insert_eq. cbn [from_option id].
      split; [|split; [|reflexivity]].
      * apply Forall_insert; [exact Hw|]. cbn [fst]. lia.
      * apply andb_true_iff in Hup as [-> _].
        apply list_elem_of_lookup. exists k. apply list_lookup_insert_eq. exact Hlt.
    + exists self, ipma_box, m, existing. split; [reflexivity|].
      split; [exact Hboxes|]. split; [exact Hm|]. split; [exact Hw|].
      split; [apply list_elem_of_lookup; exists k; exact Hk|].
      intros ->. destruct existing; [reflexivity|discriminate].
  - eexists _, _, _, essential. split; [reflexivity|].
    split; [exact (property_boxes_with_associations _ _ _ _ _ _ Hboxes)|].
    split; [apply associations_of_set|].
    rewrite lookup_insert_eq. cbn [from_option id].
    destruct (py_insert_split l (default (len l) position)) as (j & Hj & Hins).
    rewrite Hins. split; [|split; [|intros H; exact H]].
    + apply Forall_app. split; [apply Forall_take; exact Hw|].
      constructor; [cbn [fst]; lia|apply Forall_drop; exact Hw].
    + apply elem_of_app. right. apply elem_of_cons. left. reflexivity.
Qed.

(** X28. [add_property_for_item], on a file whose item has associations
    within the properties of [ipco], returns; after it
    [get_item_properties_for_item] returns a list for the item that holds
    a property of the type, header and body that were given, and holds it
    as essential if this was asked for. *)
Theorem add_property_for_item_listed (self : ParsedFile) (ipma_box ipco_box : Box)
    (props : list Box) (m : gmap Z (list (Z * bool))) (ty : string)
    (hd : gmap string Z) (bd : gmap string PyVal) (item_id : Z) (essential : bool)
    (position : option Z) :
  property_boxes self = Some (ipma_box, ipco_box, props) ->
  associations_of ipma_box = Ok m ->
  indices_within (len props) (default [] (m !! item_id)) ->
  exists self' listed box e,
    add_property_for_item self ty hd bd item_id essential position = Ok self'
    /\ get_item_properties_for_item self' item_id = Ok listed
    /\ (box, e) ∈ listed /\ same_property ty hd bd box
    /\ (essential = true -> e = true).
Proof.
  intros Hboxes Hm Hw.
  destruct (add_property_if_needed_effect self ipma_box ipco_box props ty hd bd Hboxes)
    as (self1 & ipco' & props' & i & box & Hadd & Hboxes1 & Hfirst & Hlen & _ & _).
  apply first_property_Some in Hfirst as [Hbox Hsame].
  pose proof (lookup_lt_Some _ _ _ Hbox) as Hi.
  assert (Hw1 : indices_within (len props') (default [] (m !! item_id))).
  { revert Hw. apply indices_within_mono. unfold len. lia. }
  destruct (add_property_association_listed self1 ipma_box ipco' props' m item_id
              (Z.of_nat i) essential position Hboxes1 Hm Hw1 ltac:(unfold len; lia))
    as (self' & ipma' & m' & e & Hassoc & Hboxes' & Hm' & Hw' & Hin & He).
  destruct (get_item_properties_listed self' ipma' ipco' props' m' item_id Hboxes' Hm' Hw')
    as (listed & Hlisted & _ & Hall).
  destruct (Hall _ Hin) as (box' & Hbox' & Hin').
  cbn [fst snd] in Hbox', Hin'.
  replace (Z.to_nat (Z.of_nat i + 1 - 1)) with i in Hbox' by lia.
  rewrite Hbox in Hbox'. injection Hbox' as <-.
  exists self', listed, box, e. unfold add_property_for_item. rewrite Hadd.
  auto.
Qed.

Lemma add_property_for_item_listed_witness :
  exists self' listed box e,
    add_property_for_item two_properties "pixi" (header pixi_box) (body pixi_box) 1 true None
    = Ok self'
    /\ get_item_properties_for_item self' 1 = Ok listed
    /\ (box, e) ∈ listed
    /\ same_property "pixi" (header pixi_box) (body pixi_box) box
    /\ (true = true -> e = true).
Proof.
  assert (Hrange : indices_within (len [ispe_box; pixi_box])
                     (default [] (({[ 1 := [(1, true)] ]} : gmap Z (list (Z * bool))) !! 1))).
  { unfold indices_within. rewrite lookup_singleton_eq. simpl.
    apply Forall_cons. split; [unfold len; simpl; lia|apply Forall_nil_2]. }
  exact (add_property_for_item_listed two_properties _ _ _ _
           "pixi" (header pixi_box) (body pixi_box) 1 true None eq_refl eq_refl Hrange).
Defined.

(* ===================================================================== *)
(** * The associations that are removed                                   *)
(* ===================================================================== *)

Lemma should_keep_within (props : list Box) (ty : BoxType) (hd : option BoxHeader)
    (bd : option BoxBody) (prop_index : Z) :
  1 <= prop_index <= len props ->
  exists keep,
    should_keep props ty hd bd prop_index = Ok keep
    /\ (keep = false <-> association_matches props ty hd bd (prop_index, true)).
Proof.
  intros Hi. unfold should_keep.
  destruct (lookup_lt_is_Some_2 props (Z.to_nat (prop_index - 1))) as [box Hbox];
    [unfold len in Hi; lia|].
  replace (Nat.ltb 0 (length props)) with true
    by (symmetry; apply Nat.ltb_lt; unfold len in Hi; lia).
  rewrite (proj2 (Z.leb_le 1 prop_index)) by lia.
  rewrite (proj2 (Z.leb_le prop_index (len props))) by lia.
  cbn [andb py_assert res_bind].
  rewrite (py_index_within props (prop_index - 1) box) by (try lia; exact Hbox).
  cbn [res_bind]. eexists. split; [reflexivity|].
  unfold association_matches, property_matches. cbn [fst]. split.
  - intros Hk. exists box. split; [exact Hbox|].
    destruct (String.eqb (box_type box) ty) eqn:Ety; cbn [negb] in Hk.
    + apply String.eqb_eq in Ety. split; [exact Ety|].
      destruct hd as [h|], bd as [b|]; cbn [orb] in Hk;
        repeat match type of Hk with
               | context [bool_decide ?P] => destruct (bool_decide_reflect P)
               end; cbn in Hk; try discriminate Hk;
        split; intros ? [= <-]; assumption.
    + destruct hd, bd; discriminate Hk.
  - intros (box' & Hbox' & Hty & Hh & Hb).
    rewrite Hbox in Hbox'. injection Hbox' as <-.
    rewrite (proj2 (String.eqb_eq _ _) Hty). cbn [negb].
    destruct hd as [h|], bd as [b|]; cbn [orb];
      rewrite ?(bool_decide_eq_true_2 _ (Hh _ eq_refl)),
              ?(bool_decide_eq_true_2 _ (Hb _ eq_refl)); reflexivity.
Qed.

Lemma association_matches_flag (props : list Box) (ty : BoxType) (hd : option BoxHeader)
    (bd : option BoxBody) (prop_index : Z) (e e' : bool) :
  association_matches props ty hd bd (prop_index, e)
  <-> association_matches props ty hd bd (prop_index, e').
Proof. unfold association_matches. reflexivity. Qed.

(** The filtering loop: it keeps the associations that do not match, in
    their order, and records the first one that matches. *)
Lemma filter_associations_spec (props : list Box) (ty : BoxType) (hd : option BoxHeader)
    (bd : option BoxBody) (l : list (Z * bool)) :
  indices_within (len props) l ->
  forall (position : Z) (filtered : list (Z * bool)) (first_removed : option Z * bool),
    filter_associations props ty hd bd l position filtered first_removed
    = Ok (filtered ++ filter (fun a => ~ association_matches props ty hd bd a) l,
          match first_removed.1 with
          | Some _ => first_removed
          | None =>
              match list_find (association_matches props ty hd bd) l with
              | Some (i, a) => (Some (position + Z.of_nat i), a.2)
              | None => first_removed
              end
          end).
Proof.
  intros H. induction H as [|[prop_index essential] l Ha _ IH];
    intros position filtered first_removed.
  - cbn. rewrite app_nil_r. destruct first_removed as [[p|] e]; reflexivity.
  - cbn [fst] in Ha. cbn [filter_associations].
    destruct (should_keep_within props ty hd bd prop_index Ha) as (keep & -> & Hkeep).
    cbn [res_bind]. rewrite filter_cons. cbn [list_find].
    rewrite (association_matches_flag _ _ _ _ _ true essential) in Hkeep.
    destruct keep.
    + assert (Hn : ~ association_matches props ty hd bd (prop_index, essential)).
      { intros Hm. apply Hkeep in Hm. discriminate Hm. }
      rewrite IH. rewrite (decide_True _ _ Hn), (decide_False _ _ Hn).
      rewrite <- app_assoc. cbn [app]. f_equal. f_equal.
      destruct first_removed as [[p|] e]; cbn [fst]; [reflexivity|].
      destruct (list_find (association_matches props ty hd bd) l) as [[i a]|];
        cbn [fmap option_fmap option_map prod_map fst snd id]; [|reflexivity].
      f_equal. f_equal. lia.
    + assert (Hy : association_matches props ty hd bd (prop_index, essential)).
      { apply Hkeep. reflexivity. }
      rewrite IH. rewrite (decide_True _ _ Hy).
      rewrite (decide_False (P := ~ _)) by (intros Hn; exact (Hn Hy)).
      f_equal. f_equal.
      destruct first_removed as [[p|] e]; cbn [fst snd]; [reflexivity|].
      f_equal. f_equal. lia.
Qed.

Lemma filter_unchanged_none {A} (P : A -> Prop) `{!forall x, Decision (P x)} (l : list A) :
  filter (fun a => ~ P a) l = l -> list_find P l = None.
Proof.
  intros Hl. apply list_find_None. apply Forall_forall. intros x Hx.
  rewrite <- Hl in Hx. apply list_elem_of_filter in Hx as [Hx _]. exact Hx.
Qed.

(** X29. [remove_property_associations], on a file whose item has
    associations within the properties of [ipco], returns; it leaves the
    item the associations to properties that do not match, in their order,
    returns the position and the essential flag of the first association
    that matched, or [(None, True)] when none did, and changes neither the
    properties nor the associations of another item. *)
Theorem remove_property_associations_spec (self : ParsedFile) (ipma_box ipco_box : Box)
    (props : list Box) (m : gmap Z (list (Z * bool))) (item_id : Z) (ty : BoxType)
    (hd : option BoxHeader) (bd : option BoxBody) :
  property_boxes self = Some (ipma_box, ipco_box, props) ->
  associations_of ipma_box = Ok m ->
  indices_within (len props) (default [] (m !! item_id)) ->
  exists self',
    remove_property_associations self item_id ty hd bd
    = Ok (self',
          match list_find (association_matches props ty hd bd) (default [] (m !! item_id)) with
          | Some (i, a) => (Some (Z.of_nat i), a.2)
          | None => (None, true)
          end)
    /\ associations_for self' item_id
       = Some (filter (fun a => ~ association_matches props ty hd bd a)
                      (default [] (m !! item_id)))
    /\ properties_of self' = properties_of self
    /\ forall other, other <> item_id ->
         associations_for self' other = associations_for self other.
Proof.
  intros Hboxes Hm Hw. unfold remove_property_associations. rewrite Hboxes, Hm.
  cbn [res_bind]. rewrite (filter_associations_spec _ _ _ _ _ Hw). cbn [res_bind fst app].
  set (l := default [] (m !! item_id)) in *.
  set (l' := filter (fun a => ~ association_matches props ty hd bd a) l).
  destruct (bool_decide_reflect (l = l')) as [Heq|Hne]; cbn [negb].
  - exists self. rewrite (filter_unchanged_none _ l (eq_sym Heq)).
    split; [reflexivity|].
    split; [rewrite <- Heq; exact (associations_for_self _ _ _ _ _ item_id Hboxes Hm)|].
    split; reflexivity.
  - eexists. split.
    { destruct (list_find (association_matches props ty hd bd) l) as [[i a]|]; reflexivity. }
    split; [rewrite associations_for_set, lookup_insert_eq; reflexivity|].
    split; [reflexivity|].
    intros other Hother. rewrite associations_for_set, lookup_insert_ne by congruence.
    symmetry. exact (associations_for_self _ _ _ _ _ other Hboxes Hm).
Qed.

Lemma remove_property_associations_spec_witness :
  exists self',
    remove_property_associations two_properties 1 "ispe" None None
    = Ok (self',
          match list_find (association_matches [ispe_box; pixi_box] "ispe" None None)
                  (default [] (({[ 1 := [(1, true)] ]} : gmap Z (list (Z * bool))) !! 1)) with
          | Some (i, a) => (Some (Z.of_nat i), a.2)
          | None => (None, true)
          end)
    /\ associations_for self' 1
       = Some (filter (fun a => ~ association_matches [ispe_box; pixi_box] "ispe" None None a)
                      (default [] (({[ 1 := [(1, true)] ]} : gmap Z (list (Z * bool))) !! 1)))
    /\ properties_of self' = properties_of two_properties
    /\ forall other, other <> 1 ->
         associations_for self' other = associations_for two_properties other.
Proof.
  assert (Hrange : indices_within (len [ispe_box; pixi_box])
                     (default [] (({[ 1 := [(1, true)] ]} : gmap Z (list (Z * bool))) !! 1))).
  { unfold indices_within. rewrite lookup_singleton_eq. simpl.
    apply Forall_cons. split; [unfold len; simpl; lia|apply Forall_nil_2]. }
  exact (remove_property_associations_spec two_properties _ _ _ _ 1 "ispe" None None
           eq_refl eq_refl Hrange).
Defined.

(* ===================================================================== *)
(** * The boxes that hold offsets                                         *)
(* ===================================================================== *)

Lemma find_box_spec (ty : BoxType) (l : list Box) :
  forall (n i : nat) (b : Box),
    find_box ty l n = Some (i, b) ->
    exists k, i = (n + k)%nat /\ l !! k = Some b /\ box_type b = ty.
Proof.
  induction l as [|c l IH]; intros n i b H; [discriminate H|].
  cbn [find_box] in H. destruct (String.eqb (box_type c) ty) eqn:E.
  - injection H as <- <-. exists 0%nat. apply String.eqb_eq in E.
    split; [lia|]. split; [reflexivity|exact E].
  - destruct (IH _ _ _ H) as (k & -> & Hk & Hty). exists (S k).
    split; [lia|]. split; [exact Hk|exact Hty].
Qed.

(** With a hierarchy that is not empty the lookup returns. *)
Lemma box_path_from_hierarchy_returns (top : list Box) (box_hierarchy : list string) :
  box_hierarchy <> [] ->
  forall prefix box_array,
    exists found, box_path_from_hierarchy top box_hierarchy prefix box_array = Ok found.
Proof.
  induction box_hierarchy as [|h rest IH]; intros Hne prefix box_array; [congruence|].
  cbn [box_path_from_hierarchy].
  destruct (match box_array with None => ([], top) | Some a => (prefix, a) end)
    as [prefix' arr].
  destruct (find_box h arr 0) as [[i box]|]; [|eexists; reflexivity].
  destruct rest as [|h' rest]; [eexists; reflexivity|].
  apply IH. congruence.
Qed.

Lemma box_at_snoc (prefix : list nat) (i : nat) (b : Box) :
  forall (l a : list Box),
    children_at prefix l = Some a -> a !! i = Some b ->
    box_at (prefix ++ [i]) l = Some b.
Proof.
  induction prefix as [|j p IH]; intros l a Ha Hb.
  - cbn in Ha. injection Ha as ->. cbn. rewrite Hb. reflexivity.
  - cbn [children_at box_at] in Ha. cbn [app box_at].
    destruct (l !! j) as [c|]; [|discriminate Ha].
    destruct p as [|j' p].
    + cbn [app]. rewrite Ha. cbn. rewrite Hb. reflexivity.
    + cbn [app]. destruct (sub_boxes c) as [cs|]; [|discriminate Ha].
      apply (IH cs a); [|exact Hb]. exact Ha.
Qed.

(** The path that the lookup returns leads to the box that it returns,
    which is of the type named last. *)
Lemma box_path_from_hierarchy_sound (top : list Box) (box_hierarchy : list string) :
  forall prefix box_array path box,
    match box_array with
    | None => True
    | Some a => children_at prefix top = Some a
    end ->
    box_path_from_hierarchy top box_hierarchy prefix box_array = Ok (Some (path, box)) ->
    box_at path top = Some box /\ last box_hierarchy = Some (box_type box).
Proof.
  induction box_hierarchy as [|h rest IH]; intros prefix box_array path box Hinv H.
  - cbn [box_path_from_hierarchy] in H.
    destruct box_array as [[|? ?]|]; try discriminate H. destruct top; discriminate H.
  - assert (Hinv' : exists prefix' arr,
               match box_array with None => ([], top) | Some a => (prefix, a) end
               = (prefix', arr) /\ children_at prefix' top = Some arr).
    { destruct box_array as [a|]; [exists prefix, a|exists [], top]; auto. }
    destruct Hinv' as (prefix' & arr & Hpair & Harr).
    cbn [box_path_from_hierarchy] in H. rewrite Hpair in H.
    destruct (find_box h arr 0) as [[i b]|] eqn:Hfind; [|discriminate H].
    apply find_box_spec in Hfind as (k & -> & Hk & Hty). cbn [Nat.add] in H.
    pose proof (box_at_snoc prefix' k b top arr Harr Hk) as Hat.
    destruct rest as [|h' rest].
    + injection H as <- <-. split; [exact Hat|]. cbn. rewrite Hty. reflexivity.
    + destruct (IH (prefix' ++ [k]) (sub_boxes b) path box) as [H1 H2]; [|exact H|].
      * destruct (sub_boxes b) as [cs|] eqn:Hcs; [|exact I].
        unfold children_at. rewrite Hat.
        destruct (prefix' ++ [k]) eqn:E; [destruct prefix'; discriminate E|exact Hcs].
      * split; [exact H1|exact H2].
Qed.

(** [mark_for_rewrite] on the box at the end of a path marks the box and
    every box above it, and keeps their types. *)
Lemma mark_path_marks (path : list nat) :
  forall (l : list Box) (b : Box) (p q : list nat),
    box_at path l = Some b -> path = p ++ q -> p <> [] ->
    exists b0, box_at p l = Some b0 /\ marked_at (box_type b0) p (mark_path path l).
Proof.
  induction path as [|i rest IH]; intros l b p q Hb Hpq Hp; [discriminate Hb|].
  destruct p as [|i' p']; [congruence|]. cbn [app] in Hpq. injection Hpq as <- ->.
  cbn [box_at mark_path] in Hb |- *.
  destruct (l !! i) as [c|] eqn:Hc; [|discriminate Hb].
  pose proof (lookup_lt_Some _ _ _ Hc) as Hlt.
  unfold marked_at. cbn [box_at]. rewrite list_lookup_insert_eq by exact Hlt.
  destruct p' as [|j p'].
  - exists c. split; [reflexivity|]. eexists. split; [reflexivity|]. split; reflexivity.
  - cbn [app] in Hb. cbn [set_needs_rewrite set_sub_boxes sub_boxes].
    destruct (sub_boxes c) as [cs|]; [|discriminate Hb].
    cbn [fmap option_fmap option_map].
    exact (IH cs b (j :: p') q Hb eq_refl ltac:(congruence)).
Qed.

(** A box that is marked stays marked when another one is. *)
Lemma mark_path_keeps (ty : BoxType) (p : list nat) :
  forall (q : list nat) (l : list Box),
    marked_at ty p l -> marked_at ty p (mark_path q l).
Proof.
  induction p as [|j p' IH]; intros q l (b & Hb & Hty & Hn); [discriminate Hb|].
  destruct q as [|i rest]; [exists b; auto|].
  cbn [mark_path]. destruct (l !! i) as [c|] eqn:Hc; [|exists b; auto].
  pose proof (lookup_lt_Some _ _ _ Hc) as Hlt.
  unfold marked_at. cbn [box_at] in Hb |- *.
  destruct (decide (i = j)) as [->|Hne].
  - rewrite list_lookup_insert_eq by exact Hlt. rewrite Hc in Hb.
    destruct p' as [|j' p'].
    + injection Hb as <-. eexists. split; [reflexivity|]. split; [exact Hty|reflexivity].
    + cbn [set_needs_rewrite set_sub_boxes sub_boxes].
      destruct (sub_boxes c) as [cs|]; [|discriminate Hb].
      cbn [fmap option_fmap option_map].
      apply (IH rest cs). exists b. auto.
  - rewrite list_lookup_insert_ne by exact Hne. exists b. auto.
Qed.

Lemma mark_found_keeps (ty : BoxType) (p : list nat) (found : option (list nat * Box))
    (l : list Box) :
  marked_at ty p l -> marked_at ty p (mark_found found l).
Proof.
  destruct found as [[q b]|]; [apply mark_path_keeps|exact (fun H => H)].
Qed.

(** The loop over the children of [moov] returns, and keeps the marks. *)
Lemma mark_stco_boxes_keeps (moov_path : list nat) (children : list Box) :
  forall (j : nat) (top : list Box),
    exists top',
      mark_stco_boxes moov_path children j top = Ok top'
      /\ forall ty p, marked_at ty p top -> marked_at ty p top'.
Proof.
  induction children as [|box rest IH]; intros j top.
  - exists top. split; [reflexivity|auto].
  - cbn [mark_stco_boxes]. destruct (negb (String.eqb (box_type box) "trak")); [apply IH|].
    destruct (box_path_from_hierarchy_returns top ["mdia"; "minf"; "stbl"; "stco"]%string
                ltac:(discriminate) (moov_path ++ [j]) (sub_boxes box)) as [stco ->].
    cbn [res_bind].
    destruct (IH (S j) (mark_found stco top)) as (top' & -> & Hkeep).
    exists top'. split; [reflexivity|].
    intros ty p H. apply Hkeep, mark_found_keeps, H.
Qed.

(** X30. [mark_offset_boxes_for_rewrite] returns; when the file has an
    [iloc] box in [meta], the box that [get_box_from_hierarchy] finds, then
    afterwards the box at the same place is of type [iloc] and needs
    rewriting, and so does every box above it. *)
Theorem mark_offset_boxes_marks_iloc (top : list Box) (path : list nat) (box : Box) :
  box_path_from_hierarchy top ["meta"; "iloc"]%string [] None = Ok (Some (path, box)) ->
  exists top',
    mark_offset_boxes_for_rewrite top = Ok top'
    /\ get_box_from_hierarchy top ["meta"; "iloc"]%string None = Ok (Some box)
    /\ box_at path top = Some box
    /\ marked_at "iloc" path top'
    /\ forall p q, path = p ++ q -> p <> [] ->
         exists b, box_at p top = Some b /\ marked_at (box_type b) p top'.
Proof.
  intros Hiloc.
  destruct (box_path_from_hierarchy_sound top _ [] None path box I Hiloc) as [Hat Hlast].
  cbn in Hlast. injection Hlast as Hty.
  assert (Hmarks : forall p q, path = p ++ q -> p <> [] ->
             exists b, box_at p top = Some b /\ marked_at (box_type b) p (mark_path path top)).
  { intros p q. exact (mark_path_marks path top box p q Hat). }
  assert (Hpath : path <> []) by (intros ->; discriminate Hat).
  assert (Hkeep : exists top',
             mark_offset_boxes_for_rewrite top = Ok top'
             /\ forall ty p, marked_at ty p (mark_path path top) -> marked_at ty p top').
  { unfold mark_offset_boxes_for_rewrite. rewrite Hiloc. cbn [res_bind mark_found].
    destruct (box_path_from_hierarchy_returns (mark_path path top) ["moov"%string]
                ltac:(discriminate) [] None) as [moov ->].
    cbn [res_bind]. destruct moov as [[moov_path moov_box]|]; [|eexists; eauto].
    destruct (sub_boxes moov_box) as [children|]; [|eexists; eauto].
    apply mark_stco_boxes_keeps. }
  destruct Hkeep as (top' & Hrun & Hkeep). exists top'.
  split; [exact Hrun|].
  split; [unfold get_box_from_hierarchy; rewrite Hiloc; reflexivity|].
  split; [exact Hat|]. split.
  - destruct (Hmarks path [] (eq_sym (app_nil_r path)) Hpath) as (b & Hb & Hm).
    rewrite Hat in Hb. injection Hb as <-. rewrite Hty. apply Hkeep, Hm.
  - intros p q Hpq Hp. destruct (Hmarks p q Hpq Hp) as (b & Hb & Hm).
    exists b. split; [exact Hb|apply Hkeep, Hm].
Qed.

Lemma mark_offset_boxes_marks_iloc_witness :
  exists top',
    mark_offset_boxes_for_rewrite offsets_tree = Ok top'
    /\ get_box_from_hierarchy offsets_tree ["meta"; "iloc"]%string None
       = Ok (Some (Box_init "iloc" 16 24))
    /\ box_at [0; 1]%nat offsets_tree = Some (Box_init "iloc" 16 24)
    /\ marked_at "iloc" [0; 1]%nat top'
    /\ forall p q, [0; 1]%nat = p ++ q -> p <> [] ->
         exists b, box_at p offsets_tree = Some b /\ marked_at (box_type b) p top'.
Proof.
  exact (mark_offset_boxes_marks_iloc offsets_tree [0; 1]%nat (Box_init "iloc" 16 24) eq_refl).
Defined.

(* ===================================================================== *)
(** * The offsets that [write] moves                                      *)
(* ===================================================================== *)

(** ** The placeholders of the box writers *)




















(** ** What the first loop of [write] collects *)




(** ** Where the top-level boxes lie *)










(** ** The patching loop *)


Lemma written_at_pos (out : OutFile) (p : Z) (new : list byte) :
  out_pos (written_at out p new) = out_pos out.
Proof. reflexivity. Qed.





(** ** [write] *)


